(** * Hotel-offer aggregation: circuit breaker, retrying supplier call and
      fan-out/fan-in coordinator

    A shallow embedding of
    - [app/services/circuit_breaker.py]   (class [CircuitBreaker]),
    - [app/services/universal_provider.py] ([UniversalProvider.search_single],
      [UniversalProvider.search_all]),
    - [app/services/providers/goglobal.py] and [rate_hawk.py] ([normalize]),
    followed by the properties stated about them.

    Conventions.  A finite Python float is the rational [Q] it stands
    for (clock readings and delays are finite); a float that may be [inf],
    [-inf] or [nan] is a [pyfloat].  Python ints are [Z] (loop counters are
    [nat]).  A value of unknown shape (a supplier response, an offer, a
    constructor argument) is a [pyval].  A function that can raise
    returns [Res]; code that awaits runs in the monad [M] over the
    [World] of one asyncio task. *)

From Stdlib Require Import String Ascii List ZArith QArith Bool Lia Lqa DecimalString.
Import ListNotations.
Local Open Scope string_scope.

(* ================================================================== *)
(** * Part I.  Definitions                                              *)
(* ================================================================== *)

(** ** Python values *)

(** A float: a finite one, or [float('inf')], [float('-inf')],
    [float('nan')]. *)
Inductive pyfloat : Type :=
| Finite (q : Q)
| PosInf
| NegInf
| NaN.

(** [PyDecimal x] is the [decimal.Decimal] of the value [x]. *)
#[warnings="-register-all"]
Inductive pyval : Type :=
| PyNone
| PyBool (b : bool)
| PyInt (z : Z)
| PyFloat (x : pyfloat)
| PyStr (s : string)
| PyList (l : list pyval)
| PyDict (d : list (string * pyval))
| PyDecimal (x : pyfloat).

(** [bool(x)] of a float: every float but zero is true. *)
Definition float_truthy (x : pyfloat) : bool :=
  match x with
  | Finite q => negb (Qeq_bool q 0)
  | _ => true
  end.

(** [bool(v)]: the truth value Python gives to [v]. *)
Definition truthy (v : pyval) : bool :=
  match v with
  | PyNone => false
  | PyBool b => b
  | PyInt z => negb (z =? 0)%Z
  | PyFloat x => float_truthy x
  | PyStr s => negb (s =? "")
  | PyList l => match l with [] => false | _ :: _ => true end
  | PyDict d => match d with [] => false | _ :: _ => true end
  | PyDecimal x => float_truthy x
  end.

(** [x <= y] on floats: false as soon as one of them is [nan]. *)
Definition float_leb (x y : pyfloat) : bool :=
  match x, y with
  | NaN, _ | _, NaN => false
  | NegInf, _ => true
  | _, PosInf => true
  | Finite a, Finite b => Qle_bool a b
  | _, _ => false
  end.

(** [x < y] on floats. *)
Definition float_ltb (x y : pyfloat) : bool :=
  match x, y with
  | NaN, _ | _, NaN => false
  | _, _ => negb (float_leb y x)
  end.

(** [x == y] on floats. *)
Definition float_eqb (x y : pyfloat) : bool :=
  match x, y with
  | Finite a, Finite b => Qeq_bool a b
  | PosInf, PosInf | NegInf, NegInf => true
  | _, _ => false
  end.

(** ** Exceptions *)

(** The classes derived from [Exception] that the code distinguishes; any
    other one is [OtherException]. *)
Inductive exn_class :=
| ValueError | TypeError | AttributeError | KeyError | IndexError
| TimeoutError | CircuitBreakerOpenError | OtherException.

(** An instance of [Exception]. *)
Inductive exn := Exn (cls : exn_class) (msg : string).

Definition class_of (e : exn) : exn_class := let (c, _) := e in c.
Definition str_of_exn (e : exn) : string := let (_, m) := e in m.

(** What can propagate through a task: an [Exception], or
    [asyncio.CancelledError], which derives from [BaseException] only, so
    that [except Exception] lets it through. *)
Inductive BaseException :=
| Exception (e : exn)
| CancelledError.

(** Synchronous code returns or raises an [Exception]. *)
Inductive Res (A : Type) : Type :=
| Ok (a : A)
| Raise (e : exn).
Arguments Ok {A} a.
Arguments Raise {A} e.

(** Code of a task returns, raises an [Exception], or is cancelled. *)
Inductive Completion (A : Type) : Type :=
| Return (a : A)
| Throw (b : BaseException).
Arguments Return {A} a.
Arguments Throw {A} b.

Definition res_bind {A B} (r : Res A) (k : A -> Res B) : Res B :=
  match r with Ok a => k a | Raise e => Raise e end.

(** ** Insertion-ordered dictionaries ([dict]) *)

Definition pydict (V : Type) := list (string * V).

Fixpoint dict_get {V} (d : pydict V) (k : string) : option V :=
  match d with
  | [] => None
  | (k', v) :: d' => if k' =? k then Some v else dict_get d' k
  end.

Definition dict_mem {V} (k : string) (d : pydict V) : bool :=
  match dict_get d k with Some _ => true | None => false end.

(** [d[k] = v]: an existing key keeps its position, a new key goes last. *)
Fixpoint dict_set {V} (d : pydict V) (k : string) (v : V) : pydict V :=
  match d with
  | [] => [(k, v)]
  | (k', v') :: d' =>
      if k' =? k then (k', v) :: d' else (k', v') :: dict_set d' k v
  end.

Definition dict_keys {V} (d : pydict V) : list string := map fst d.
Definition dict_values {V} (d : pydict V) : list V := map snd d.

(** [p in l] for a list of strings. *)
Definition str_in (p : string) (l : list string) : bool :=
  existsb (String.eqb p) l.

(** ** Small pieces of the Python runtime *)

(** [int(x)] of a finite float: truncation towards zero. *)
Definition py_int (q : Q) : Z := Z.quot (Qnum q) (Zpos (Qden q)).

(** [int(x)] of a float: [inf] and [nan] have no integer part. *)
Definition float_int (x : pyfloat) : Res Z :=
  match x with
  | Finite q => Ok (py_int q)
  | NaN => Raise (Exn ValueError "cannot convert float NaN to integer")
  | PosInf | NegInf =>
      Raise (Exn OtherException "cannot convert float infinity to integer")
  end.

(** [str(n)] of an int. *)
Definition str_of_Z (z : Z) : string := NilZero.string_of_int (Z.to_int z).
Definition str_of_nat (n : nat) : string := str_of_Z (Z.of_nat n).

(** An instance of [int]: an int proper, or a [bool]. *)
Inductive pyint : Type :=
| IsInt (z : Z)
| IsBool (b : bool).

(** The number an instance of [int] counts for. *)
Definition int_value (i : pyint) : Z :=
  match i with
  | IsInt z => z
  | IsBool true => 1
  | IsBool false => 0
  end.
Coercion int_value : pyint >-> Z.

(** [str(i)], as an f-string prints it. *)
Definition str_of_int (i : pyint) : string :=
  match i with
  | IsInt z => str_of_Z z
  | IsBool true => "True"
  | IsBool false => "False"
  end.

(** [c.isspace()] on code points below 256. *)
Definition py_isspace (c : ascii) : bool :=
  let n := nat_of_ascii c in
  ((9 <=? n) && (n <=? 13) || (28 <=? n) && (n <=? 32)
   || (n =? 133) || (n =? 160))%nat.

Fixpoint lstrip (s : string) : string :=
  match s with
  | EmptyString => EmptyString
  | String c s' => if py_isspace c then lstrip s' else s
  end.

Fixpoint string_rev_onto (s acc : string) : string :=
  match s with
  | EmptyString => acc
  | String c s' => string_rev_onto s' (String c acc)
  end.

Definition string_rev (s : string) : string := string_rev_onto s EmptyString.

(** [s.strip()] *)
Definition strip (s : string) : string :=
  string_rev (lstrip (string_rev (lstrip s))).

(* ------------------------------------------------------------------ *)
(** ** circuit_breaker.py: the state of a breaker                       *)
(* ------------------------------------------------------------------ *)

Inductive CircuitState := CLOSED | OPEN | HALF_OPEN.

Definition CircuitState_eqb (a b : CircuitState) : bool :=
  match a, b with
  | CLOSED, CLOSED | OPEN, OPEN | HALF_OPEN, HALF_OPEN => true
  | _, _ => false
  end.

(** [CircuitState.value] *)
Definition value (s : CircuitState) : string :=
  match s with
  | CLOSED => "closed"
  | OPEN => "open"
  | HALF_OPEN => "half_open"
  end.

(** The attributes of a [CircuitBreaker] instance.  [failure_threshold]
    is the int it was given; [timeout] and [reset_timeout] are the numbers
    they were given, an int counting for the float of its value. *)
Record CircuitBreaker := mkCircuitBreaker {
  failure_threshold : pyint;
  timeout : pyfloat;
  reset_timeout : pyfloat;
  name : string;
  _failure_count : Z;
  _last_failure_time : option Q;
  _state : CircuitState
}.

(* ------------------------------------------------------------------ *)
(** ** The world of one asyncio task                                    *)
(* ------------------------------------------------------------------ *)

(** The search criteria: the keys of the [criteria] dict that the
    orchestrator reads.  [None] is a missing key or a [None] value, but
    for [search_timeout], where it is a missing key: [main.py] does not
    set that key. *)
Record Criteria := mkCriteria {
  c_hotel_names : option (list string);
  c_providers : option (list string);
  c_search_timeout : option Q;
  c_meal_types : option (list string);
  c_room_category : option string
}.

(** What a task leaves behind that can be observed from outside: requests
    put on the wire, sleeps, and the retry warnings it logs. *)
Inductive Event :=
| NetCall (provider_name : string)
| Sleep (delay : Q)
| WarnTimeoutRetry (provider_name : string) (delay : Q) (attempt max_retries : nat)
| WarnErrorRetry (provider_name : string) (e : exn) (delay : Q) (attempt max_retries : nat).

(** What happens while the task is suspended at an [await]: how long it
    stays suspended beyond the minimum, what the awaited network call
    produces, and what the other users of the shared breaker did to it in
    the meantime. *)
Record Step := mkStep {
  st_elapsed : Q;
  st_result : Res pyval;
  st_others : CircuitBreaker -> CircuitBreaker
}.

(** [w_now] is the clock ([time.time()]); [w_deadline] is the instant at
    which the enclosing [asyncio.wait_for] cancels the task, if it is run
    under one, and [w_cancelled] tells whether it did; [w_cb] is
    [self._circuit_breakers.get(provider_name)], the breaker object shared
    by every call to this supplier. *)
Record World := mkWorld {
  w_now : Q;
  w_deadline : option Q;
  w_cancelled : bool;
  w_cb : option CircuitBreaker;
  w_script : nat -> Step;
  w_pos : nat;
  w_log : list Event
}.

(** State passing with exceptions: the state a computation leaves behind
    is kept when it raises, as an [except] clause sees it. *)
Definition ST (S A : Type) : Type := S -> Completion A * S.

Definition ret {S A} (a : A) : ST S A := fun w => (Return a, w).

Definition bind {S A B} (m : ST S A) (k : A -> ST S B) : ST S B :=
  fun w => match m w with
           | (Return a, w') => k a w'
           | (Throw b, w') => (Throw b, w')
           end.

Definition throw {S A} (b : BaseException) : ST S A := fun w => (Throw b, w).

(** [raise e] *)
Definition raise {S A} (e : exn) : ST S A := throw (Exception e).

(** A synchronous call made from a task. *)
Definition lift {S A} (r : Res A) : ST S A :=
  fun w => (match r with Ok a => Return a | Raise e => Throw (Exception e) end, w).

(** [try: body] followed by its [except] clauses, [handler]. *)
Definition try_except {S A} (body : ST S A) (handler : BaseException -> ST S A)
  : ST S A :=
  fun w => match body w with
           | (Return a, w') => (Return a, w')
           | (Throw b, w') => handler b w'
           end.

Declare Scope M_scope.
Delimit Scope M_scope with M.
Notation "x <- m ;; k" := (bind m (fun x => k))
  (at level 61, m at next level, right associativity) : M_scope.
Notation "m ;; k" := (bind m (fun _ => k))
  (at level 61, right associativity) : M_scope.
Local Open Scope M_scope.

(** Code run by one asyncio task. *)
Definition M (A : Type) : Type := ST World A.

(** [time.time()] *)
Definition time_time : M Q := fun w => (Return (w_now w), w).

Definition emit (e : Event) : M unit :=
  fun w => (Return tt, mkWorld (w_now w) (w_deadline w) (w_cancelled w) (w_cb w)
                               (w_script w) (w_pos w) (w_log w ++ [e])).

(** The task suspends for at least [min_wait].  It is resumed with the
    next step of the script when that comes before the deadline; otherwise
    it is resumed at the deadline with [CancelledError] thrown into it. *)
Definition suspend (min_wait : Q) : M (Res pyval) :=
  fun w =>
    let s := w_script w (w_pos w) in
    let t' := w_now w + min_wait + st_elapsed s in
    let resumed (t : Q) (cancelled : bool) :=
      mkWorld t (w_deadline w) cancelled (option_map (st_others s) (w_cb w))
              (w_script w) (S (w_pos w)) (w_log w) in
    match w_deadline w with
    | None => (Return (st_result s), resumed t' (w_cancelled w))
    | Some d =>
        if Qle_bool d t' then (Throw CancelledError, resumed d true)
        else (Return (st_result s), resumed t' (w_cancelled w))
    end.

(** [await asyncio.sleep(delay)] *)
Definition asyncio_sleep (delay : Q) : M unit :=
  emit (Sleep delay) ;; _ <- suspend delay ;; ret tt.

(** [await adapter.search(criteria)]: one request to the supplier. *)
Definition adapter_search (provider_name : string) : M pyval :=
  emit (NetCall provider_name) ;; r <- suspend 0 ;; lift r.

(** The breaker this task works on; a method call on [None] raises. *)
Definition the_breaker : M CircuitBreaker :=
  fun w => match w_cb w with
           | Some b => (Return b, w)
           | None => raise (Exn AttributeError "'NoneType' object has no attribute") w
           end.

(** Run a method that mutates the breaker in place and reads the clock. *)
Definition on_breaker (method : Q -> ST CircuitBreaker unit) : M unit :=
  fun w =>
    match w_cb w with
    | Some self =>
        let (result, self') := method (w_now w) self in
        (result, mkWorld (w_now w) (w_deadline w) (w_cancelled w) (Some self')
                         (w_script w) (w_pos w) (w_log w))
    | None => (Return tt, w)
    end.

(** A log line.  Its f-string is evaluated whatever the level of the
    logger, and what that raises is raised by the method. *)
Definition logged {S} (message : Res string) : ST S unit :=
  lift (res_bind message (fun _ => Ok tt)).

(* ------------------------------------------------------------------ *)
(** ** circuit_breaker.py: the methods                                  *)
(* ------------------------------------------------------------------ *)

Module CircuitBreaker.

Definition isinstance_int (v : pyval) : bool :=
  match v with PyInt _ | PyBool _ => true | _ => false end.

Definition isinstance_int_float (v : pyval) : bool :=
  match v with PyInt _ | PyBool _ | PyFloat _ => true | _ => false end.

(** An argument that is an instance of [int]. *)
Definition as_int (v : pyval) : pyint :=
  match v with
  | PyBool b => IsBool b
  | PyInt z => IsInt z
  | _ => IsInt 0
  end.

Definition int_of (v : pyval) : Z := int_value (as_int v).

(** An argument that is an int or a float, as a float. *)
Definition number_of (v : pyval) : pyfloat :=
  match v with
  | PyFloat x => x
  | _ => Finite (inject_Z (int_of v))
  end.


(** [CircuitBreaker(failure_threshold, timeout, reset_timeout, name)] *)
Definition __init__ (failure_threshold timeout reset_timeout name : pyval)
  : Res CircuitBreaker :=
  if negb (isinstance_int failure_threshold)
     || (int_of failure_threshold <=? 0)%Z then
    Raise (Exn ValueError "failure_threshold must be a positive integer")
  else if negb (isinstance_int_float timeout)
          || float_leb (number_of timeout) (Finite 0) then
    Raise (Exn ValueError "timeout must be a positive number")
  else if negb (isinstance_int_float reset_timeout)
          || float_leb (number_of reset_timeout) (Finite 0) then
    Raise (Exn ValueError "reset_timeout must be a positive number")
  else
    match name with
    | PyStr s =>
        if negb (truthy (PyStr (strip s))) then
          Raise (Exn ValueError "name must be a non-empty string")
        else
          Ok (mkCircuitBreaker (as_int failure_threshold) (number_of timeout)
                (number_of reset_timeout) (strip s) 0 None CLOSED)
    | _ => Raise (Exn ValueError "name must be a non-empty string")
    end.

Definition set_state (s : CircuitState) (self : CircuitBreaker) : CircuitBreaker :=
  mkCircuitBreaker (failure_threshold self) (timeout self) (reset_timeout self)
    (name self) (_failure_count self) (_last_failure_time self) s.

(** [self._last_failure_time and (now - self._last_failure_time) >= self.reset_timeout] *)
Definition window_elapsed (now : Q) (self : CircuitBreaker) : bool :=
  match _last_failure_time self with
  | None => false
  | Some t => truthy (PyFloat (Finite t))
              && float_leb (reset_timeout self) (Finite (now - t))
  end.

(** The line [_update_state] logs. *)
Definition half_open_message (self : CircuitBreaker) : Res string :=
  res_bind (float_int (reset_timeout self)) (fun seconds =>
  Ok ("Circuit breaker " ++ name self
      ++ " transitioning to HALF_OPEN: Testing if service has recovered after "
      ++ str_of_Z seconds ++ "s timeout")).

Definition _update_state (now : Q) : ST CircuitBreaker unit :=
  fun self =>
    match _state self with
    | OPEN =>
        if window_elapsed now self
        then logged (half_open_message self) (set_state HALF_OPEN self)
        else (Return tt, self)
    | _ => (Return tt, self)
    end.

(** The [state] property: the lazy check, then the state. *)
Definition state (now : Q) : ST CircuitBreaker CircuitState :=
  bind (_update_state now) (fun _ self => (Return (_state self), self)).

Definition _on_success (self : CircuitBreaker) : CircuitBreaker :=
  let self1 :=
    mkCircuitBreaker (failure_threshold self) (timeout self) (reset_timeout self)
      (name self) 0 (_last_failure_time self) (_state self) in
  match _state self1 with
  | HALF_OPEN => set_state CLOSED self1
  | _ => self1
  end.

(** The line [_on_failure] logs when it opens the breaker. *)
Definition activated_message (self : CircuitBreaker) : Res string :=
  res_bind (float_int (reset_timeout self)) (fun seconds =>
  Ok ("Circuit breaker " ++ name self ++ " ACTIVATED: Service disabled after "
      ++ str_of_Z (_failure_count self) ++ "/" ++ str_of_int (failure_threshold self)
      ++ " consecutive failures. Protection timeout: " ++ str_of_Z seconds ++ "s")).

Definition _on_failure (now : Q) : ST CircuitBreaker unit :=
  fun self =>
    let self1 :=
      mkCircuitBreaker (failure_threshold self) (timeout self) (reset_timeout self)
        (name self) (_failure_count self + 1) (Some now) (_state self) in
    if (failure_threshold self1 <=? _failure_count self1)%Z
    then logged (activated_message self1) (set_state OPEN self1)
    else (Return tt, self1).

Definition reset (self : CircuitBreaker) : CircuitBreaker :=
  mkCircuitBreaker (failure_threshold self) (timeout self) (reset_timeout self)
    (name self) 0 None CLOSED.

(** The message of the error [call] raises when the breaker is open. *)
Definition open_message (self : CircuitBreaker) : Res string :=
  res_bind (float_int (reset_timeout self)) (fun seconds =>
  Ok ("Service protection activated: The " ++ name self
      ++ " booking service experienced " ++ str_of_int (failure_threshold self)
      ++ " consecutive failures and has been temporarily disabled to prevent further issues. Service will automatically retry in "
      ++ str_of_Z seconds ++ " seconds.")).

(** A method that returns, leaving the attributes [f] gives. *)
Definition returning (f : CircuitBreaker -> CircuitBreaker) : ST CircuitBreaker unit :=
  fun self => (Return tt, f self).

(** [await self.call(func)] *)
Definition call {A} (func : M A) : M A :=
  on_breaker _update_state ;;
  self <- the_breaker ;;
  if CircuitState_eqb (_state self) OPEN then
    message <- lift (open_message self) ;;
    raise (Exn CircuitBreakerOpenError message)
  else
    try_except
      (result <- func ;;
       on_breaker (fun _ => returning _on_success) ;;
       ret result)
      (fun b =>
         match b with
         | Exception e => on_breaker _on_failure ;; raise e
         | CancelledError => throw b
         end).

(** Reading [circuit_breaker.state] from a task. *)
Definition read_state : M CircuitState :=
  on_breaker _update_state ;; self <- the_breaker ;; ret (_state self).

End CircuitBreaker.

(* ------------------------------------------------------------------ *)
(** ** universal_provider.py: adapters, configuration, results          *)
(* ------------------------------------------------------------------ *)

(** The synchronous part of the [ProviderAdapter] contract; the
    asynchronous [search] is [adapter_search]. *)
Record ProviderAdapter := mkProviderAdapter {
  prepare_meal_type_criteria : Criteria -> Res Criteria;
  normalize : pyval -> Criteria -> Res (list pyval)
}.

(** [app.services.meal_mapping.meal_mapping_service], an external
    collaborator: only the three entry points [search_single] uses. *)
Record MealMappingService := mkMealMappingService {
  should_filter_at_response_level : string -> string -> Res bool;
  filter_offers_by_any_meal_type : string -> list pyval -> list string -> Res (list pyval);
  normalize_offers_meal_plans : list pyval -> string -> Res (list pyval)
}.

(** [UniversalProvider]: the loaded adapters, keyed by supplier name.  The
    breakers ([self._circuit_breakers]) are mutable and shared: they live
    in the [World]. *)
Record UniversalProvider := mkUniversalProvider {
  adapters : pydict ProviderAdapter
}.

(** The retry settings of [app.config.Config]. *)
Record Config := mkConfig {
  MAX_RETRIES : nat;
  RETRY_BASE_DELAY : Q
}.

(** The values in [config.py]. *)
Definition config : Config := mkConfig 3 1.

Definition CIRCUIT_BREAKER_FAILURE_THRESHOLD : pyval := PyInt 3.
Definition CIRCUIT_BREAKER_TIMEOUT : pyval := PyFloat (Finite 30).
Definition CIRCUIT_BREAKER_RESET_TIMEOUT : pyval := PyFloat (Finite 60).

(** The dict a supplier unit returns; an absent key is [None]. *)
Record ProviderResult := mkProviderResult {
  status : string;
  provider : option string;
  error : option string;
  offers : list pyval;
  offer_count : option nat;
  processing_time_ms : option Z;
  attempts : option nat;
  circuit_breaker_state : option string
}.

(** [int((time.time() - start_time) * 1000)] *)
Definition elapsed_ms (now start_time : Q) : Z := py_int ((now - start_time) * 1000).

(** [v.get(k, default)] on a value that should be a dict. *)
Definition py_get (v : pyval) (k : string) (default : pyval) : Res pyval :=
  match v with
  | PyDict d => Ok (match dict_get d k with Some x => x | None => default end)
  | _ => Raise (Exn AttributeError "object has no attribute 'get'")
  end.

Definition py_strip (v : pyval) : Res string :=
  match v with
  | PyStr s => Ok (strip s)
  | _ => Raise (Exn AttributeError "object has no attribute 'strip'")
  end.

(** [c.lower()] on code points below 256: the letters [A] to [Z], and
    the capital letters of Latin-1 (192 to 222, but the sign 215). *)
Definition ascii_lower (c : ascii) : ascii :=
  let n := nat_of_ascii c in
  if ((65 <=? n) && (n <=? 90)
      || (192 <=? n) && (n <=? 222) && negb (n =? 215))%nat
  then ascii_of_nat (n + 32) else c.

Fixpoint lower (s : string) : string :=
  match s with
  | EmptyString => EmptyString
  | String c s' => String (ascii_lower c) (lower s')
  end.

(** The [room_category] filter of [search_single]. *)
Fixpoint filter_room_category (room_category : string) (normalized_offers : list pyval)
  : Res (list pyval) :=
  match normalized_offers with
  | [] => Ok []
  | offer :: rest =>
      res_bind (py_get offer "room_category" (PyStr "")) (fun v =>
      res_bind (py_strip v) (fun offer_category =>
      res_bind (filter_room_category room_category rest) (fun filtered =>
      Ok (if lower offer_category =? lower room_category
          then offer :: filtered else filtered))))
  end.

(** [any(should_filter_at_response_level(provider_name, m) for m in meal_types if m)] *)
Fixpoint needs_response_filtering (svc : MealMappingService) (provider_name : string)
         (meal_types : list string) : Res bool :=
  match meal_types with
  | [] => Ok false
  | meal_type :: rest =>
      if truthy (PyStr meal_type) then
        res_bind (should_filter_at_response_level svc provider_name meal_type)
                 (fun b => if b then Ok true
                           else needs_response_filtering svc provider_name rest)
      else needs_response_filtering svc provider_name rest
  end.

(** [base_delay * (2 ** attempt)] *)
Definition retry_delay (base_delay : Q) (attempt : nat) : Q :=
  base_delay * inject_Z (2 ^ Z.of_nat attempt).

Definition msg_not_available (provider_name : string) : string :=
  "The " ++ provider_name ++ " booking service is currently not available. Please try using other providers or contact support.".

Definition msg_protection_active (provider_name : string) : string :=
  "Service protection active: The " ++ provider_name ++ " booking service has been temporarily disabled after experiencing repeated connection failures. This is a safety measure to prevent further issues. The service will automatically retry in a few minutes.".

Definition msg_protection_triggered (provider_name : string) : string :=
  "Connection protection triggered: The " ++ provider_name ++ " booking service has been automatically disabled due to repeated connection issues (circuit breaker activated). We're monitoring the situation and will restore service automatically. Please try again in a few minutes or contact support if issues persist.".

Definition msg_response_timeout (provider_name : string) (max_retries : nat) : string :=
  "Response timeout occurred: The " ++ provider_name ++ " service did not respond within the expected time limit after " ++ str_of_nat max_retries ++ " attempts. This may indicate high server load or network issues. Please try again later or contact support if the problem persists.".

Definition msg_service_error (provider_name : string) (max_retries : nat) : string :=
  "Service error encountered: We experienced technical difficulties while connecting to the " ++ provider_name ++ " booking service after " ++ str_of_nat max_retries ++ " retry attempts. This could be due to temporary server issues or network problems. Please try again later or contact support for assistance.".

(* ------------------------------------------------------------------ *)
(** ** universal_provider.py: [search_single]                           *)
(* ------------------------------------------------------------------ *)

Section SearchSingle.

Variable cfg : Config.
Variable meal_type_service : MealMappingService.
Variable self : UniversalProvider.

(** [circuit_breaker.state.value if circuit_breaker else "disabled"] *)
Definition breaker_state_value (circuit_breaker : option CircuitBreaker) : M string :=
  match circuit_breaker with
  | Some _ => st <- CircuitBreaker.read_state ;; ret (value st)
  | None => ret "disabled"
  end.

(** The [try] block of one attempt. *)
Definition attempt_body (adapter : ProviderAdapter) (provider_name : string)
           (criteria : Criteria) (circuit_breaker : option CircuitBreaker)
           (start_time : Q) (attempt : nat) : M ProviderResult :=
  provider_criteria <- lift (prepare_meal_type_criteria adapter criteria) ;;
  raw_response <-
    match circuit_breaker with
    | Some _ => CircuitBreaker.call (adapter_search provider_name)
    | None => adapter_search provider_name
    end ;;
  normalized_offers <- lift (normalize adapter raw_response criteria) ;;
  normalized_offers <-
    match c_meal_types criteria with
    | Some (m :: ms) =>
        needs <- lift (needs_response_filtering meal_type_service provider_name (m :: ms)) ;;
        if needs
        then lift (filter_offers_by_any_meal_type meal_type_service provider_name
                     normalized_offers (m :: ms))
        else ret normalized_offers
    | _ => ret normalized_offers
    end ;;
  normalized_offers <-
    match c_room_category criteria with
    | Some room_category =>
        if truthy (PyStr room_category)
        then lift (filter_room_category room_category normalized_offers)
        else ret normalized_offers
    | None => ret normalized_offers
    end ;;
  normalized_offers <-
    lift (normalize_offers_meal_plans meal_type_service normalized_offers provider_name) ;;
  now <- time_time ;;
  cb_state <- breaker_state_value circuit_breaker ;;
  ret (mkProviderResult "success" (Some provider_name) None normalized_offers
         (Some (length normalized_offers)) (Some (elapsed_ms now start_time))
         (Some (attempt + 1)%nat) (Some cb_state)).

Definition error_result (provider_name msg : string) (start_time : Q)
           (circuit_breaker : option CircuitBreaker) : M (option ProviderResult) :=
  now <- time_time ;;
  cb_state <- breaker_state_value circuit_breaker ;;
  ret (Some (mkProviderResult "error" (Some provider_name) (Some msg) []
               None (Some (elapsed_ms now start_time)) None (Some cb_state))).

(** [for attempt in range(max_retries): ...], entered at [attempt] with
    [remaining] iterations to go.  Falling off the end of the loop
    returns [None]. *)
Fixpoint attempts_from (remaining : nat) (adapter : ProviderAdapter)
         (provider_name : string) (criteria : Criteria)
         (circuit_breaker : option CircuitBreaker) (start_time : Q)
         (attempt : nat) : M (option ProviderResult) :=
  match remaining with
  | O => ret None
  | S remaining' =>
      let max_retries := MAX_RETRIES cfg in
      let base_delay := RETRY_BASE_DELAY cfg in
      try_except
        (r <- attempt_body adapter provider_name criteria circuit_breaker
                start_time attempt ;;
         ret (Some r))
        (fun b =>
           match b with
           | CancelledError => throw b
           | Exception e =>
           match class_of e with
           | CircuitBreakerOpenError =>
               now <- time_time ;;
               ret (Some (mkProviderResult "error" (Some provider_name)
                            (Some (msg_protection_triggered provider_name)) []
                            None (Some (elapsed_ms now start_time)) None (Some "open")))
           | TimeoutError =>
               if (attempt <? max_retries - 1)%nat then
                 let delay := retry_delay base_delay attempt in
                 emit (WarnTimeoutRetry provider_name delay (attempt + 1) max_retries) ;;
                 asyncio_sleep delay ;;
                 attempts_from remaining' adapter provider_name criteria
                   circuit_breaker start_time (S attempt)
               else
                 error_result provider_name
                   (msg_response_timeout provider_name max_retries)
                   start_time circuit_breaker
           | _ =>
               if (attempt <? max_retries - 1)%nat then
                 let delay := retry_delay base_delay attempt in
                 emit (WarnErrorRetry provider_name e delay (attempt + 1) max_retries) ;;
                 asyncio_sleep delay ;;
                 attempts_from remaining' adapter provider_name criteria
                   circuit_breaker start_time (S attempt)
               else
                 error_result provider_name
                   (msg_service_error provider_name max_retries)
                   start_time circuit_breaker
           end
           end)
  end.

Definition search_single (provider_name : string) (criteria : Criteria)
  : M (option ProviderResult) :=
  match dict_get (adapters self) provider_name with
  | None =>
      ret (Some (mkProviderResult "error" None
                   (Some (msg_not_available provider_name)) []
                   None None None None))
  | Some adapter =>
      circuit_breaker <- (fun w : World => (Return (w_cb w), w)) ;;
      start_time <- time_time ;;
      is_open <-
        match circuit_breaker with
        | Some _ => st <- CircuitBreaker.read_state ;; ret (CircuitState_eqb st OPEN)
        | None => ret false
        end ;;
      if is_open then
        error_result provider_name (msg_protection_active provider_name)
          start_time circuit_breaker
      else
        attempts_from (MAX_RETRIES cfg) adapter provider_name criteria
          circuit_breaker start_time 0
  end.

End SearchSingle.

(* ------------------------------------------------------------------ *)
(** ** universal_provider.py: [search_all]                              *)
(* ------------------------------------------------------------------ *)

(** Where a supplier task stands when the wait on the fan-out ends: it
    returned (a result dict, or [None]), it raised, or it is still
    awaiting its supplier. *)
Inductive TaskFate :=
| Finished (r : option ProviderResult)
| Failed (e : exn)
| InFlight.

(** What [search_all] cannot decide for itself.  Tasks are numbered in the
    order [asyncio.create_task] is called.  [fe_cancel_seen i] tells whether
    the cancellation of task [i] has completed by the time the time-out
    handler looks at it ([task.done()]). *)
Record FanEnv := mkFanEnv {
  fe_start : Q;
  fe_now : Q;
  fe_fate : nat -> TaskFate;
  fe_cancel_seen : nat -> bool
}.

Record Summary := mkSummary {
  total_offers : nat;
  successful_providers : nat;
  error_providers : option nat;
  timeout_providers : option nat;
  summary_processing_time_ms : Z;
  hotel_count : nat;
  hotels_searched : option (list string);
  search_timeout_used : option Q
}.

(** The dict [search_all] returns.  A value of [providers] that is not a
    result dict is [None]. *)
Record AggregatedResult := mkAggregatedResult {
  providers : pydict (option ProviderResult);
  summary : Summary
}.

(** The local variables of [search_all] that the handlers share, and the
    tasks it has cancelled. *)
Record FanIn := mkFanIn {
  provider_results : pydict (option ProviderResult);
  all_offers : list pyval;
  completed_providers : list string;
  timed_out_providers : list string;
  cancelled : list nat
}.

(** What a call to [search_all] does: what it returns or raises, the tasks
    it created (task [i] runs [search_single] for the [i]-th name) and the
    tasks it cancelled. *)
Record SearchAllRun := mkSearchAllRun {
  returned : Completion AggregatedResult;
  created : list string;
  cancelled_tasks : list nat
}.

(** Lines 333-353: the suppliers to search. *)
Definition providers_to_search (self : UniversalProvider) (criteria : Criteria)
  : list string :=
  let selected_providers :=
    match c_providers criteria with Some l => l | None => [] end in
  match selected_providers with
  | _ :: _ =>
      let available_providers := dict_keys (adapters self) in
      let valid_providers :=
        filter (fun p => str_in p available_providers) selected_providers in
      match valid_providers with
      | [] => available_providers
      | _ :: _ => valid_providers
      end
  | [] => dict_keys (adapters self)
  end.

(** Lines 358-364: [provider_tasks[provider_name] = task] for each name in
    turn; [next] is the number of the task being created. *)
Fixpoint create_tasks (names : list string) (next : nat) (provider_tasks : pydict nat)
  : pydict nat :=
  match names with
  | [] => provider_tasks
  | provider_name :: rest =>
      create_tasks rest (S next) (dict_set provider_tasks provider_name next)
  end.

(** [asyncio.gather] of the tasks, with [return_exceptions=True], at the
    deadline: the list of results if every task is done, nothing otherwise. *)
Fixpoint gather (fates : list TaskFate) : option (list (Res (option ProviderResult))) :=
  match fates with
  | [] => Some []
  | f :: rest =>
      match f, gather rest with
      | Finished r, Some l => Some (Ok r :: l)
      | Failed e, Some l => Some (Raise e :: l)
      | _, _ => None
      end
  end.

(** [result["status"]] and [result["offers"]] *)
Definition subscript {A} (result : option ProviderResult) (key : ProviderResult -> A)
  : Res A :=
  match result with
  | Some r => Ok (key r)
  | None => Raise (Exn TypeError "object is not subscriptable")
  end.

(** [sum(1 for result in values if result["status"] == s)] *)
Fixpoint count_status (s : string) (values : list (option ProviderResult)) : Res nat :=
  match values with
  | [] => Ok 0%nat
  | result :: rest =>
      res_bind (subscript result status) (fun st =>
      res_bind (count_status s rest) (fun n =>
      Ok (if st =? s then S n else n)))
  end.

Section SearchAll.

(** [str(x)] of a float, as an f-string prints it. *)
Variable repr_float : Q -> string.
Variable self : UniversalProvider.

Definition set_result (provider_name : string) (result : option ProviderResult)
  : ST FanIn unit :=
  fun s => (Return tt, mkFanIn (dict_set (provider_results s) provider_name result)
                           (all_offers s) (completed_providers s)
                           (timed_out_providers s) (cancelled s)).

Definition extend_offers (l : list pyval) : ST FanIn unit :=
  fun s => (Return tt, mkFanIn (provider_results s) (all_offers s ++ l)
                           (completed_providers s) (timed_out_providers s)
                           (cancelled s)).

Definition append_completed (provider_name : string) : ST FanIn unit :=
  fun s => (Return tt, mkFanIn (provider_results s) (all_offers s)
                           (completed_providers s ++ [provider_name])
                           (timed_out_providers s) (cancelled s)).

Definition append_timed_out (provider_name : string) : ST FanIn unit :=
  fun s => (Return tt, mkFanIn (provider_results s) (all_offers s)
                           (completed_providers s)
                           (timed_out_providers s ++ [provider_name]) (cancelled s)).

(** [task.cancel()] on a task that is not done. *)
Definition cancel_task (task : nat) : ST FanIn unit :=
  fun s => (Return tt, mkFanIn (provider_results s) (all_offers s)
                           (completed_providers s) (timed_out_providers s)
                           (if existsb (Nat.eqb task) (cancelled s)
                            then cancelled s else cancelled s ++ [task])).

(** [provider_results[provider_name] = result], then
    [if result["status"] == "success": all_offers.extend(result["offers"])] *)
Definition keep_result (provider_name : string) (result : option ProviderResult)
  : ST FanIn unit :=
  set_result provider_name result ;;
  st <- lift (subscript result status) ;;
  if st =? "success"
  then (l <- lift (subscript result offers) ;; extend_offers l)
  else ret tt.

(** Lines 381-395: [for i, result in enumerate(completed_tasks)]. *)
Fixpoint process_completed (env : FanEnv) (names : list string) (i : nat)
         (completed_tasks : list (Res (option ProviderResult))) : ST FanIn unit :=
  match completed_tasks with
  | [] => ret tt
  | result :: rest =>
      provider_name <-
        lift (match nth_error names i with
              | Some n => Ok n
              | None => Raise (Exn IndexError "list index out of range")
              end) ;;
      match result with
      | Raise e =>
          set_result provider_name
            (Some (mkProviderResult "error" None (Some (str_of_exn e)) []
                     None (Some (elapsed_ms (fe_now env) (fe_start env))) None None))
      | Ok r => keep_result provider_name r
      end ;;
      process_completed env names (S i) rest
  end.

(** Lines 375-378: the wait.  When a tracked task is still in flight at
    the deadline, [wait_for] cancels the gathering, which cancels every
    task of it that is not done, and raises [TimeoutError]. *)
Definition wait_for_gather (env : FanEnv) (tasks : list nat)
  : ST FanIn (list (Res (option ProviderResult))) :=
  match gather (map (fe_fate env) tasks) with
  | Some completed_tasks => ret completed_tasks
  | None =>
      fold_right
        (fun task k =>
           match fe_fate env task with
           | InFlight => cancel_task task ;; k
           | _ => k
           end)
        (raise (Exn TimeoutError "")) tasks
  end.

(** Lines 404-439: the time-out handler's loop over
    [provider_tasks.items()]. *)
Fixpoint collect_partial (env : FanEnv) (search_timeout : Q)
         (items : pydict nat) : ST FanIn unit :=
  match items with
  | [] => ret tt
  | (provider_name, task) :: rest =>
      let task_done :=
        match fe_fate env task with
        | InFlight => fe_cancel_seen env task
        | _ => true
        end in
      (if task_done then
         let task_result : ST FanIn (option ProviderResult) :=
           match fe_fate env task with
           | Finished r => ret r
           | Failed e => raise e
           | InFlight => throw CancelledError
           end in
         try_except
           (result <- task_result ;;
            keep_result provider_name result ;;
            append_completed provider_name)
           (fun b =>
              match b with
              | CancelledError =>
                  set_result provider_name
                    (Some (mkProviderResult "timeout" None
                             (Some "Provider search was cancelled during timeout handling")
                             [] None None None None)) ;;
                  append_timed_out provider_name
              | Exception e =>
                  set_result provider_name
                    (Some (mkProviderResult "error" None (Some (str_of_exn e)) []
                             None None None None)) ;;
                  append_completed provider_name
              end)
       else
         cancel_task task ;;
         set_result provider_name
           (Some (mkProviderResult "timeout" None
                    (Some ("Provider search timed out after "
                           ++ repr_float search_timeout ++ "s"))
                    [] None (Some (py_int (search_timeout * 1000))) None None)) ;;
         append_timed_out provider_name) ;;
      collect_partial env search_timeout rest
  end.

(** Lines 450-456: the handler of any other exception. *)
Fixpoint fill_unexpected (e : exn) (names : list string) : ST FanIn unit :=
  match names with
  | [] => ret tt
  | provider_name :: rest =>
      (fun s =>
         if dict_mem provider_name (provider_results s) then (Return tt, s)
         else set_result provider_name
                (Some (mkProviderResult "error" None
                         (Some ("Unexpected error: " ++ str_of_exn e)) []
                         None None None None)) s) ;;
      fill_unexpected e rest
  end.

(** Lines 458-486: the summary and the returned dict. *)
Definition summarize (env : FanEnv) (hotel_names : list string) (search_timeout : Q)
  : ST FanIn AggregatedResult :=
  fun s =>
    let values := dict_values (provider_results s) in
    lift
      (res_bind (count_status "success" values) (fun successful_providers_count =>
       res_bind (count_status "error" values) (fun error_providers_count =>
       res_bind (count_status "timeout" values) (fun timeout_providers_count =>
       Ok (mkAggregatedResult (provider_results s)
             (mkSummary (length (all_offers s)) successful_providers_count
                (Some error_providers_count) (Some timeout_providers_count)
                (elapsed_ms (fe_now env) (fe_start env))
                (length hotel_names) (Some hotel_names) (Some search_timeout))))))) s.

Definition search_all (criteria : Criteria) (env : FanEnv) : SearchAllRun :=
  let hotel_names := match c_hotel_names criteria with Some l => l | None => [] end in
  match hotel_names with
  | [] =>
      mkSearchAllRun
        (Return (mkAggregatedResult []
               (mkSummary 0 0 None None (elapsed_ms (fe_now env) (fe_start env))
                  0 None None)))
        [] []
  | _ :: _ =>
      let names := providers_to_search self criteria in
      let provider_tasks := create_tasks names 0 [] in
      let search_timeout :=
        match c_search_timeout criteria with Some t => t | None => 10 end in
      let '(result, s) :=
        (try_except
           (completed_tasks <- wait_for_gather env (dict_values provider_tasks) ;;
            process_completed env names 0 completed_tasks)
           (fun b =>
              match b with
              | CancelledError => throw b
              | Exception e =>
                  match class_of e with
                  | TimeoutError => collect_partial env search_timeout provider_tasks
                  | _ => fill_unexpected e names
                  end
              end) ;;
         summarize env hotel_names search_timeout)
          (mkFanIn [] [] [] [] []) in
      mkSearchAllRun result names (cancelled s)
  end.

End SearchAll.

(* ------------------------------------------------------------------ *)
(** ** [search_all] over the supplier units it starts                   *)
(* ------------------------------------------------------------------ *)

Definition Qmax (a b : Q) : Q := if Qle_bool a b then b else a.

Section Units.

Variable cfg : Config.
Variable meal_type_service : MealMappingService.
Variable repr_float : Q -> string.
Variable self : UniversalProvider.

(** Task [i] runs [search_single] for the [i]-th name in a world of its
    own: it starts when [search_all] first awaits, at [start_time], and
    the wait cancels it at [start_time + search_timeout]. *)
Definition unit_run (criteria : Criteria) (start_time : Q) (worlds : nat -> World)
           (i : nat) : Completion (option ProviderResult) * World :=
  let search_timeout :=
    match c_search_timeout criteria with Some t => t | None => 10 end in
  let w := worlds i in
  search_single cfg meal_type_service self
    (nth i (providers_to_search self criteria) "") criteria
    (mkWorld start_time (Some (start_time + search_timeout)) false
             (w_cb w) (w_script w) (w_pos w) (w_log w)).

Definition unit_fate (run : Completion (option ProviderResult) * World) : TaskFate :=
  match fst run with
  | Return r => Finished r
  | Throw (Exception e) => Failed e
  | Throw CancelledError => InFlight
  end.

(** The clock when the wait ends: the deadline if a tracked task is cut
    off, the moment the last tracked task finishes otherwise. *)
Definition wait_end (criteria : Criteria) (start_time : Q) (worlds : nat -> World) : Q :=
  let search_timeout :=
    match c_search_timeout criteria with Some t => t | None => 10 end in
  let tasks :=
    dict_values (create_tasks (providers_to_search self criteria) 0 []) in
  fold_right
    (fun task t =>
       let run := unit_run criteria start_time worlds task in
       match unit_fate run with
       | InFlight => start_time + search_timeout
       | _ => Qmax (w_now (snd run)) t
       end)
    start_time tasks.

Definition search_all_units (criteria : Criteria) (start_time : Q)
           (worlds : nat -> World) (cancel_seen : nat -> bool) : SearchAllRun :=
  search_all repr_float self criteria
    (mkFanEnv start_time (wait_end criteria start_time worlds)
       (fun i => unit_fate (unit_run criteria start_time worlds i))
       cancel_seen).

End Units.

(* ------------------------------------------------------------------ *)
(** ** More of the Python runtime, for the adapters                     *)
(* ------------------------------------------------------------------ *)

Declare Scope res_scope.
Delimit Scope res_scope with res.
Notation "x <~ r ;; k" := (res_bind r (fun x => k))
  (at level 61, r at next level, right associativity) : res_scope.

(** [for x in v]: the items Python iterates over. *)
Fixpoint chars (s : string) : list pyval :=
  match s with
  | EmptyString => []
  | String c s' => PyStr (String c EmptyString) :: chars s'
  end.

Definition py_iter (v : pyval) : Res (list pyval) :=
  match v with
  | PyList l => Ok l
  | PyDict d => Ok (map PyStr (dict_keys d))
  | PyStr s => Ok (chars s)
  | _ => Raise (Exn TypeError "object is not iterable")
  end.

(** [len(v)] *)
Definition py_len (v : pyval) : Res nat :=
  match v with
  | PyList l => Ok (length l)
  | PyDict d => Ok (length d)
  | PyStr s => Ok (String.length s)
  | _ => Raise (Exn TypeError "object has no len()")
  end.

(** [v[0]] *)
Definition py_index0 (v : pyval) : Res pyval :=
  match v with
  | PyList (x :: _) => Ok x
  | PyList [] => Raise (Exn IndexError "list index out of range")
  | PyStr (String c _) => Ok (PyStr (String c EmptyString))
  | PyStr EmptyString => Raise (Exn IndexError "string index out of range")
  | PyDict _ => Raise (Exn KeyError "0")
  | _ => Raise (Exn TypeError "object is not subscriptable")
  end.

(** [v.items()], [v.keys()] *)
Definition py_items (v : pyval) : Res (pydict pyval) :=
  match v with
  | PyDict d => Ok d
  | _ => Raise (Exn AttributeError "object has no attribute 'items'")
  end.

(** The numeric value of a number, as [==], [>] and [float()] see it. *)
Definition py_number (v : pyval) : option pyfloat :=
  match v with
  | PyInt z => Some (Finite (inject_Z z))
  | PyBool b => Some (Finite (if b then 1 else 0))
  | PyFloat x => Some x
  | PyDecimal x => Some x
  | _ => None
  end.

(** [v == n] for an int [n] *)
Definition py_eq_int (v : pyval) (n : Z) : bool :=
  match py_number v with
  | Some x => float_eqb x (Finite (inject_Z n))
  | None => false
  end.

(** [v > 0]; a [Decimal] that is not a number refuses to be ordered. *)
Definition py_gt0 (v : pyval) : Res bool :=
  match v with
  | PyDecimal NaN => Raise (Exn OtherException "[<class 'decimal.InvalidOperation'>]")
  | _ =>
      match py_number v with
      | Some x => Ok (float_ltb (Finite 0) x)
      | None => Raise (Exn TypeError "'>' not supported between instances")
      end
  end.

(** [v == s] for a string literal [s] *)
Definition py_eq_str (v : pyval) (s : string) : bool :=
  match v with PyStr s' => s' =? s | _ => false end.

Fixpoint starts_with (p s : string) : bool :=
  match p, s with
  | EmptyString, _ => true
  | String a p', String b s' => Ascii.eqb a b && starts_with p' s'
  | String _ _, EmptyString => false
  end.

(** [s.replace(old, new)] for a non-empty [old]; [skip] characters of a
    match are still to be dropped. *)
Fixpoint replace_from (old new : string) (skip : nat) (s : string) : string :=
  match s with
  | EmptyString => EmptyString
  | String c s' =>
      match skip with
      | S k => replace_from old new k s'
      | O =>
          if starts_with old s
          then new ++ replace_from old new (String.length old - 1) s'
          else String c (replace_from old new 0 s')
      end
  end.

Definition py_replace (v : pyval) (old new : string) : Res string :=
  match v with
  | PyStr s => Ok (replace_from old new 0 s)
  | _ => Raise (Exn AttributeError "object has no attribute 'replace'")
  end.

(** [list(dict.fromkeys(l))]: the first occurrence of each string. *)
Fixpoint dedup (seen l : list string) : list string :=
  match l with
  | [] => []
  | x :: rest =>
      if str_in x seen then dedup seen rest else x :: dedup (x :: seen) rest
  end.

Section Adapters.

(** [repr] of a float, a [Decimal], a list or a dict, and the parsing of
    a float literal: the parts of [str()] and [float()] left to the
    interpreter. *)
Variable py_repr : pyval -> string.
Variable parse_float : string -> option pyfloat.

(** [str(v)] *)
Definition py_str (v : pyval) : string :=
  match v with
  | PyNone => "None"
  | PyBool true => "True"
  | PyBool false => "False"
  | PyInt z => str_of_Z z
  | PyStr s => s
  | _ => py_repr v
  end.

(** [float(v)].  An integer beyond the range of a double raises
    [OverflowError]. *)
Definition py_float (v : pyval) : Res pyfloat :=
  match v with
  | PyStr s =>
      match parse_float s with
      | Some x => Ok x
      | None => Raise (Exn ValueError "could not convert string to float")
      end
  | PyInt z =>
      if (Z.abs z <? 2 ^ 1024 - 2 ^ 970)%Z then Ok (Finite (inject_Z z))
      else Raise (Exn OtherException "int too large to convert to float")
  | _ =>
      match py_number v with
      | Some x => Ok x
      | None => Raise (Exn TypeError "float() argument must be a string or a real number")
      end
  end.

End Adapters.

(** [Config.ALLOWED_FIELDS] *)
Definition ALLOWED_FIELDS : list string :=
  ["provider"; "supplier_hotel_id"; "hotel_id"; "hotel_name";
   "supplier_room_code"; "room_name"; "room_category"; "room_mapping_id";
   "meal_plan"; "total_price"; "currency"; "room_features"; "amenities";
   "free_cancellation_until"].

(** [d[k] = v] when [k] is an allowed field. *)
Definition set_if_allowed (allowed_fields : list string) (k : string) (v : pyval)
           (d : pydict pyval) : pydict pyval :=
  if str_in k allowed_fields then dict_set d k v else d.

(* ------------------------------------------------------------------ *)
(** ** providers/goglobal.py: [normalize]                               *)
(* ------------------------------------------------------------------ *)

Module GoGlobal.
Section GoGlobal.

Local Open Scope res_scope.

Variable py_repr : pyval -> string.
(** [Config.get_allowed_fields()] *)
Variable allowed_fields : list string.

(** The [try] block of [_process_hotel_offers], for one offer. *)
Definition standardize_offer (hotel_id : string) (hotel_name : pyval) (offer : pyval)
  : Res pyval :=
  let standardized_offer : pydict pyval := [] in
  standardized_offer <~
    (if str_in "room_name" allowed_fields then
       room_names <~ py_get offer "Rooms" (PyList []) ;;
       room_name <~ (if truthy room_names then py_index0 room_names
                     else py_get offer "RoomName" (PyStr "Sztuczna nazwa pokoju")) ;;
       Ok (dict_set standardized_offer "room_name" room_name)
     else Ok standardized_offer) ;;
  standardized_offer <~
    (if str_in "room_features" allowed_fields then
       special <~ py_get offer "Special" (PyStr "") ;;
       features <~ (if truthy special
                    then s <~ py_strip special ;; Ok [PyStr s]
                    else Ok []) ;;
       Ok (dict_set standardized_offer "room_features" (PyList features))
     else Ok standardized_offer) ;;
  let standardized_offer :=
    set_if_allowed allowed_fields "supplier_hotel_id" (PyStr hotel_id)
      standardized_offer in
  let standardized_offer :=
    set_if_allowed allowed_fields "hotel_name" hotel_name standardized_offer in
  standardized_offer <~
    (if str_in "supplier_room_code" allowed_fields then
       v <~ py_get offer "HotelSearchCode" PyNone ;;
       Ok (dict_set standardized_offer "supplier_room_code" v)
     else Ok standardized_offer) ;;
  let standardized_offer :=
    set_if_allowed allowed_fields "room_category" PyNone standardized_offer in
  let standardized_offer :=
    set_if_allowed allowed_fields "room_mapping_id" PyNone standardized_offer in
  standardized_offer <~
    (if str_in "meal_plan" allowed_fields then
       v <~ py_get offer "RoomBasis" (PyStr "room_only") ;;
       Ok (dict_set standardized_offer "meal_plan" v)
     else Ok standardized_offer) ;;
  standardized_offer <~
    (if str_in "total_price" allowed_fields then
       v <~ py_get offer "TotalPrice" (PyStr "0") ;;
       Ok (dict_set standardized_offer "total_price" (PyStr (py_str py_repr v)))
     else Ok standardized_offer) ;;
  standardized_offer <~
    (if str_in "currency" allowed_fields then
       v <~ py_get offer "Currency" (PyStr "EUR") ;;
       Ok (dict_set standardized_offer "currency" v)
     else Ok standardized_offer) ;;
  let standardized_offer :=
    set_if_allowed allowed_fields "amenities" (PyList []) standardized_offer in
  standardized_offer <~
    (if str_in "free_cancellation_until" allowed_fields then
       v <~ py_get offer "CancellationDeadline" PyNone ;;
       Ok (dict_set standardized_offer "free_cancellation_until" v)
     else Ok standardized_offer) ;;
  Ok (PyDict (dict_set standardized_offer "provider" (PyStr "goglobal"))).

(** [for offer in ...: try: ... offers.append(...) except Exception: continue] *)
Fixpoint standardize_offers (hotel_id : string) (hotel_name : pyval)
         (hotel_offers : list pyval) : list pyval :=
  match hotel_offers with
  | [] => []
  | offer :: rest =>
      match standardize_offer hotel_id hotel_name offer with
      | Ok standardized_offer =>
          standardized_offer :: standardize_offers hotel_id hotel_name rest
      | Raise _ => standardize_offers hotel_id hotel_name rest
      end
  end.

(** [criteria] is the copy made by [normalize]: a dict that has the key
    [hotel_name_to_id_map]. *)
Definition _process_hotel_offers (hotel : pyval) (criteria : pydict pyval)
  : Res (list pyval) :=
  code <~ py_get hotel "HotelCode" (PyStr "") ;;
  let hotel_id := py_str py_repr code in
  hotel_name <~
    (if truthy (PyDict criteria) && dict_mem "hotel_name_to_id_map" criteria then
       hotel_name_to_id_map <~
         py_items (match dict_get criteria "hotel_name_to_id_map" with
                   | Some m => m
                   | None => PyNone
                   end) ;;
       Ok (match dict_get hotel_name_to_id_map hotel_id with
           | Some hname => hname
           | None => PyStr ""
           end)
     else Ok (PyStr "")) ;;
  hotel_name <~
    (if negb (truthy hotel_name) then
       if truthy (PyDict criteria) then
         py_get hotel "HotelName"
           (match dict_get criteria "hotel_name" with
            | Some v => v
            | None => PyStr ""
            end)
       else Ok (PyStr "")
     else Ok hotel_name) ;;
  offers_value <~ py_get hotel "Offers" (PyList []) ;;
  hotel_offers <~ py_iter offers_value ;;
  Ok (standardize_offers hotel_id hotel_name hotel_offers).

(** The loop of [normalize] over the hotels. *)
Fixpoint process_hotels (hotels : list pyval) (criteria : pyval)
         (hotel_name_to_id_map : pyval) : Res (list pyval) :=
  match hotels with
  | [] => Ok []
  | hotel :: rest =>
      criteria_with_mapping <~
        (if truthy criteria then
           match criteria with
           | PyDict d => Ok d
           | _ => Raise (Exn AttributeError "object has no attribute 'copy'")
           end
         else Ok []) ;;
      let criteria_with_mapping :=
        dict_set criteria_with_mapping "hotel_name_to_id_map" hotel_name_to_id_map in
      hotel_offers <~ _process_hotel_offers hotel criteria_with_mapping ;;
      more <~ process_hotels rest criteria hotel_name_to_id_map ;;
      Ok (hotel_offers ++ more)%list
  end.

Definition normalize (raw criteria : pyval) : Res (list pyval) :=
  match raw with
  | PyDict raw_dict =>
      if negb (py_eq_str (match dict_get raw_dict "status" with
                          | Some v => v
                          | None => PyNone
                          end) "success")
      then Ok []
      else
        let data := match dict_get raw_dict "data" with
                    | Some v => v
                    | None => PyNone
                    end in
        if negb (truthy data) then Ok []
        else
          match data with
          | PyDict data_dict =>
              let hotels := match dict_get data_dict "Hotels" with
                            | Some v => v
                            | None => PyList []
                            end in
              if negb (truthy hotels) then Ok []
              else
                let hotel_name_to_id_map :=
                  match dict_get data_dict "hotel_name_to_id_map" with
                  | Some v => v
                  | None => PyDict []
                  end in
                hotel_list <~ py_iter hotels ;;
                process_hotels hotel_list criteria hotel_name_to_id_map
          | _ => Ok []
          end
  | _ => Ok []
  end.

End GoGlobal.
End GoGlobal.

(* ------------------------------------------------------------------ *)
(** ** providers/rate_hawk.py: [normalize]                              *)
(* ------------------------------------------------------------------ *)

(** [set(Offer.__fields__.keys())], from [models/response.py]. *)
Definition Offer_fields : list string :=
  ["provider"; "supplier_hotel_id"; "hotel_id"; "hotel_name";
   "supplier_room_code"; "room_name"; "room_category"; "room_mapping_id";
   "total_price"; "currency"; "meal_plan"; "free_cancellation_until";
   "room_features"; "amenities"].

Module RateHawk.
Section RateHawk.

Variable py_repr : pyval -> string.
Variable parse_float : string -> option pyfloat.
(** [self.provider_name] *)
Variable provider_name : string.

(** The locals of [normalize] that its loops update. *)
Record Locals := mkLocals {
  offers : list pyval;
  skipped_rates : nat
}.

Definition get_or (d : pydict pyval) (k : string) (default : pyval) : pyval :=
  match dict_get d k with Some v => v | None => default end.

Local Open Scope res_scope.

(** The room features read from [serp_filters]. *)
Fixpoint serp_features (filters : list pyval) : Res (list string) :=
  match filters with
  | [] => Ok []
  | feature :: rest =>
      f <~ (if py_eq_str feature "has_bathroom" then Ok "bathroom"
            else if py_eq_str feature "has_internet" then Ok "internet"
            else if py_eq_str feature "has_wifi" || py_eq_str feature "wifi"
                 then Ok "wifi"
            else s <~ py_replace feature "has_" "" ;;
                 Ok (replace_from "_" " " 0 s)) ;;
      fs <~ serp_features rest ;;
      Ok (f :: fs)
  end.

(** The room features read from [rg_ext]. *)
Definition rg_ext_features (rg_ext : pyval) : Res (list string) :=
  if truthy rg_ext then
    bathroom <~ py_get rg_ext "bathroom" (PyInt 0) ;;
    let bath := if py_eq_int bathroom 2 then ["private bathroom"]
                else if py_eq_int bathroom 1 then ["shared bathroom"] else [] in
    view_code <~ py_get rg_ext "view" (PyInt 0) ;;
    has_view <~ py_gt0 view_code ;;
    balcony <~ py_get rg_ext "balcony" (PyInt 0) ;;
    has_balcony <~ py_gt0 balcony ;;
    club <~ py_get rg_ext "club" (PyInt 0) ;;
    has_club <~ py_gt0 club ;;
    family <~ py_get rg_ext "family" (PyInt 0) ;;
    has_family <~ py_gt0 family ;;
    Ok (bath ++ (if has_view then ["room with view"] else [])
             ++ (if has_balcony then ["balcony"] else [])
             ++ (if has_club then ["club access"] else [])
             ++ (if has_family then ["family friendly"] else []))%list
  else Ok [].

(** The amenities appended to the room features. *)
Fixpoint amenity_features (amenities : list pyval) (room_features : list string)
  : Res (list string) :=
  match amenities with
  | [] => Ok room_features
  | amenity :: rest =>
      s <~ py_replace amenity "-" " " ;;
      let clean_amenity := replace_from "_" " " 0 s in
      amenity_features rest
        (if str_in clean_amenity room_features then room_features
         else (room_features ++ [clean_amenity])%list)
  end.

(** [not v or len(v) == 0] *)
Definition missing_or_empty (v : pyval) : Res bool :=
  if negb (truthy v) then Ok true
  else n <~ py_len v ;; Ok (n =? 0)%nat.

(** The offer built from a rate that has passed the checks.  Its price
    is [Decimal(str(total_amount))], the [Decimal] of the float's value. *)
Definition make_offer (hotel_id hotel_hid hotel_name : pyval) (rate : pydict pyval)
           (payment_types : pyval) : Res pyval :=
  first_payment <~ py_index0 payment_types ;;
  amount <~ py_get first_payment "amount" (PyInt 0) ;;
  total_amount <~ py_float parse_float amount ;;
  currency <~ py_get first_payment "currency_code" (PyStr "EUR") ;;
  let room_name := get_or rate "room_name" (PyStr "") in
  cancellation_penalties <~ py_get first_payment "cancellation_penalties" PyNone ;;
  free_cancellation_until <~
    (if truthy cancellation_penalties
     then py_get cancellation_penalties "free_cancellation_before" PyNone
     else Ok PyNone) ;;
  filters <~ py_iter (get_or rate "serp_filters" (PyList [])) ;;
  room_features <~ serp_features filters ;;
  more <~ rg_ext_features (get_or rate "rg_ext" (PyDict [])) ;;
  amenities <~ py_iter (get_or rate "amenities_data" (PyList [])) ;;
  room_features <~ amenity_features amenities (room_features ++ more)%list ;;
  let room_features := dedup [] room_features in
  let offer : pydict pyval := [] in
  let offer := set_if_allowed Offer_fields "supplier_hotel_id" hotel_id offer in
  let offer :=
    set_if_allowed Offer_fields "hotel_id"
      (PyStr (if truthy hotel_hid then py_str py_repr hotel_hid
              else py_str py_repr hotel_id)) offer in
  let offer := set_if_allowed Offer_fields "hotel_name" hotel_name offer in
  let offer :=
    set_if_allowed Offer_fields "supplier_room_code"
      (get_or rate "match_hash" (PyStr "")) offer in
  let offer := set_if_allowed Offer_fields "room_name" room_name offer in
  let offer := set_if_allowed Offer_fields "room_category" PyNone offer in
  let offer := set_if_allowed Offer_fields "room_mapping_id" PyNone offer in
  let offer := set_if_allowed Offer_fields "meal_plan" (get_or rate "meal" PyNone) offer in
  let offer := set_if_allowed Offer_fields "total_price" (PyDecimal total_amount) offer in
  let offer := set_if_allowed Offer_fields "currency" currency offer in
  let offer :=
    match room_features with
    | [] => offer
    | _ :: _ =>
        set_if_allowed Offer_fields "room_features"
          (PyList (map PyStr room_features)) offer
    end in
  let offer :=
    set_if_allowed Offer_fields "amenities"
      (match get_or rate "amenities_data" PyNone with
       | PyList l => PyList l
       | _ => PyList []
       end) offer in
  let offer :=
    set_if_allowed Offer_fields "free_cancellation_until" free_cancellation_until offer in
  Ok (PyDict (dict_set offer "provider" (PyStr provider_name))).

(** The inner [try] block, for one rate that is a dict: an offer, or
    nothing when a check rejects the rate. *)
Definition build_offer (hotel_id hotel_hid hotel_name : pyval) (rate : pydict pyval)
  : Res (option pyval) :=
  let keys := dict_keys rate in
  if negb (truthy (PyDict rate)) || (length rate =? 0)%nat then Ok None
  else if (length keys <=? 1)%nat && dict_mem "legal_info" rate then Ok None
  else if (length keys <=? 2)%nat
          && forallb (fun key => str_in key ["legal_info"; "id"; "rate_id"]) keys
  then Ok None
  else if (length (filter (fun field => truthy (get_or rate field PyNone))
                     ["match_hash"; "room_name"; "payment_options"; "daily_prices"])
           =? 0)%nat
  then Ok None
  else if negb (truthy (get_or rate "match_hash" PyNone)) then Ok None
  else if negb (truthy (get_or rate "room_name" PyNone)) then Ok None
  else
    let payment_options := get_or rate "payment_options" (PyDict []) in
    payment_types <~ py_get payment_options "payment_types" (PyList []) ;;
    if negb (truthy payment_options) then Ok None
    else
      no_payment_types <~ missing_or_empty payment_types ;;
      if no_payment_types then Ok None
      else
        no_daily_prices <~ missing_or_empty (get_or rate "daily_prices" (PyList [])) ;;
        if no_daily_prices then Ok None
        else
          offer <~ make_offer hotel_id hotel_hid hotel_name rate payment_types ;;
          Ok (Some offer).

Local Open Scope M_scope.

Definition append_offer (offer : pyval) : ST Locals unit :=
  fun s => (Return tt, mkLocals (offers s ++ [offer]) (skipped_rates s)).

Definition skip_rate : ST Locals unit :=
  fun s => (Return tt, mkLocals (offers s) (S (skipped_rates s))).

(** [for rate_index, rate in enumerate(rates)].  The debug line ahead of
    the inner [try] calls [rate.keys()]. *)
Fixpoint process_rates (hotel_id hotel_hid hotel_name : pyval) (rates : list pyval)
  : ST Locals unit :=
  match rates with
  | [] => ret tt
  | rate :: rest =>
      rate_dict <- lift (py_items rate) ;;
      match build_offer hotel_id hotel_hid hotel_name rate_dict with
      | Ok (Some offer) => append_offer offer
      | Ok None => skip_rate
      | Raise _ => skip_rate
      end ;;
      process_rates hotel_id hotel_hid hotel_name rest
  end.

(** The first name mapped from [hotel_id] or [hotel_hid]. *)
Fixpoint mapped_name (items : pydict pyval) (hotel_id hotel_hid : pyval) : pyval :=
  match items with
  | [] => PyNone
  | (mapped_id, original_name) :: rest =>
      if (mapped_id =? py_str py_repr hotel_id) || (mapped_id =? py_str py_repr hotel_hid)
      then original_name
      else mapped_name rest hotel_id hotel_hid
  end.

(** [for hotel in hotels] *)
Fixpoint process_hotels (raw : pyval) (hotels : list pyval) : ST Locals unit :=
  match hotels with
  | [] => ret tt
  | hotel :: rest =>
      hotel_id <- lift (py_get hotel "id" PyNone) ;;
      hotel_hid <- lift (py_get hotel "hid" hotel_id) ;;
      hotel_id_to_name_map <- lift (py_get raw "hotel_id_to_name_map" (PyDict [])) ;;
      items <- lift (py_items hotel_id_to_name_map) ;;
      let hotel_name := mapped_name items hotel_id hotel_hid in
      let hotel_name :=
        if negb (truthy hotel_name)
        then PyStr (if truthy hotel_hid then py_str py_repr hotel_hid
                    else py_str py_repr hotel_id)
        else hotel_name in
      (if negb (truthy hotel_id) then ret tt
       else
         rates <- lift (py_get hotel "rates" (PyList [])) ;;
         lift (py_len rates) ;;
         rate_list <- lift (py_iter rates) ;;
         process_rates hotel_id hotel_hid hotel_name rate_list) ;;
      process_hotels raw rest
  end.

(** The outer [try] block. *)
Definition normalize_body (raw : pyval) : ST Locals unit :=
  if negb (truthy raw) then ret tt
  else
    data <- lift (py_get raw "data" PyNone) ;;
    if negb (truthy data) then ret tt
    else
      hotels <- lift (py_get data "hotels" (PyList [])) ;;
      match hotels with
      | PyList hotel_list => process_hotels raw hotel_list
      | _ => ret tt
      end.

(** [normalize]: whatever the [try] block raises is logged, and the
    offers built so far are returned. *)
Definition normalize (raw criteria : pyval) : list pyval :=
  offers (snd (try_except (normalize_body raw) (fun _ => ret tt)
                 (mkLocals [] 0))).

(** The [skipped_rates] counter when [normalize] returns. *)
Definition skipped (raw : pyval) : nat :=
  skipped_rates (snd (try_except (normalize_body raw) (fun _ => ret tt)
                        (mkLocals [] 0))).

End RateHawk.
End RateHawk.

(* ------------------------------------------------------------------ *)
(** ** Notions used to state the properties                             *)
(* ------------------------------------------------------------------ *)

(** A value Python compares as a number. *)
Definition is_number (v : pyval) : Prop :=
  CircuitBreaker.isinstance_int_float v = true.


Definition positive_number (v : pyval) : Prop :=
  is_number v /\ float_ltb (Finite 0) (CircuitBreaker.number_of v) = true.

Definition nonpositive_number (v : pyval) : Prop :=
  is_number v /\ float_leb (CircuitBreaker.number_of v) (Finite 0) = true.



(** [record_failures [t1; ...; tn] b]: [n] failed calls in a row, at the
    instants [t1], ..., [tn]. *)
Definition record_failures (times : list Q) (b : CircuitBreaker) : CircuitBreaker :=
  fold_left (fun b t => snd (CircuitBreaker._on_failure t b)) times b.

(** A breaker whose [reset_timeout] is a finite number of seconds. *)
Definition finite_reset (b : CircuitBreaker) : Prop :=
  exists seconds, reset_timeout b = Finite seconds.

(** A call through the breaker whose outcome is ignored by the caller. *)
Definition guarded_call (provider_name : string) : M unit :=
  try_except (_ <- CircuitBreaker.call (adapter_search provider_name) ;; ret tt)
             (fun b => match b with
                       | Exception _ => ret tt
                       | CancelledError => throw b
                       end).

(** A call, a pause, then a trial call: the state read before the trial,
    and the state and the counter left by it. *)
Definition call_pause_trial (provider_name : string) (pause : Q)
  : M (CircuitState * CircuitState * Z) :=
  guarded_call provider_name ;;
  asyncio_sleep pause ;;
  before <- CircuitBreaker.read_state ;;
  guarded_call provider_name ;;
  self <- the_breaker ;;
  ret (before, _state self, _failure_count self).

(** [evolves w w' evs]: a task took the world from [w] to [w'], logging
    [evs]; its deadline is the same and its breaker is still there. *)
Definition evolves (w w' : World) (evs : list Event) : Prop :=
  w_deadline w' = w_deadline w
  /\ (w_cb w' = None <-> w_cb w = None)
  /\ w_log w' = (w_log w ++ evs)%list.

(** The breaker of the task can always be read: its [reset_timeout] is
    not [-inf], a value [__init__] refuses, and the other users of the
    breaker, who act on it through its methods, leave [reset_timeout] as it
    is. *)
Definition readable (w : World) : Prop :=
  (forall b, w_cb w = Some b -> reset_timeout b <> NegInf)
  /\ (forall n b, reset_timeout (st_others (w_script w n) b) = reset_timeout b).

(** The breaker of the task has [-inf] for its [reset_timeout]. *)
Definition unreadable (w : World) : Prop :=
  exists b, w_cb w = Some b /\ reset_timeout b = NegInf.

(** Code that leaves the breaker readable. *)
Definition keeps_readable {A} (m : M A) : Prop :=
  forall w, readable w -> readable (snd (m w)).

(** A task is cancelled only when it runs under a deadline, and the world
    records it; otherwise the cancellation flag is left alone. *)
Definition cancel_ok {A} (res : Completion A) (w w' : World) : Prop :=
  match res with
  | Throw CancelledError => w_cancelled w' = true /\ w_deadline w <> None
  | _ => w_cancelled w' = w_cancelled w
  end.

(** The delays slept, in order. *)
Fixpoint sleeps (log : list Event) : list Q :=
  match log with
  | [] => []
  | Sleep d :: rest => d :: sleeps rest
  | _ :: rest => sleeps rest
  end.

(** The number of requests sent to the supplier. *)
Fixpoint net_calls (log : list Event) : nat :=
  match log with
  | [] => 0
  | NetCall _ :: rest => S (net_calls rest)
  | _ :: rest => net_calls rest
  end.

(** An exception that [search_single] retries: neither the breaker's
    rejection nor (it has its own clause) a time-out. *)
Definition generic_failure (e : exn) : Prop :=
  class_of e <> CircuitBreakerOpenError /\ class_of e <> TimeoutError.

(** The warning logged by the [except] clause that decides to retry after
    attempt number [attempt] (counted from 0), with the delay it announces. *)
Definition retry_warning (provider_name : string) (delay : Q) (attempt max_retries : nat)
           (ev : Event) : Prop :=
  ev = WarnTimeoutRetry provider_name delay (attempt + 1) max_retries
  \/ exists e, generic_failure e
               /\ ev = WarnErrorRetry provider_name e delay (attempt + 1) max_retries.

(** The shape of what [search_single] logs from attempt [attempt] on: each
    attempt sends at most one request; a sleep comes right after the
    warning of a retry, with the delay [base_delay * 2 ** attempt], and only
    while [attempt < max_retries - 1]; the next attempt follows. *)
Inductive retry_trace (provider_name : string) (base_delay : Q) (max_retries : nat)
  : nat -> list Event -> Prop :=
| trace_rejected attempt :
    retry_trace provider_name base_delay max_retries attempt []
| trace_sent attempt :
    retry_trace provider_name base_delay max_retries attempt [NetCall provider_name]
| trace_retry attempt sent warning rest :
    sent = [] \/ sent = [NetCall provider_name] ->
    (attempt < max_retries - 1)%nat ->
    retry_warning provider_name (retry_delay base_delay attempt) attempt max_retries
                  warning ->
    retry_trace provider_name base_delay max_retries (S attempt) rest ->
    retry_trace provider_name base_delay max_retries attempt
      (sent ++ [warning; Sleep (retry_delay base_delay attempt)] ++ rest)%list.

(** Every sleep in the log comes right after the warning of a retry
    decided on a time-out or a generic failure. *)
Fixpoint sleeps_follow_warnings (previous : option Event) (log : list Event) : Prop :=
  match log with
  | [] => True
  | ev :: rest =>
      match ev with
      | Sleep d =>
          match previous with
          | Some (WarnTimeoutRetry _ d' _ _) => d' = d
          | Some (WarnErrorRetry _ e d' _ _) => d' = d /\ generic_failure e
          | _ => False
          end
      | _ => True
      end
      /\ sleeps_follow_warnings (Some ev) rest
  end.

(** Code that neither awaits nor logs: it leaves the log, the deadline
    and the cancellation flag alone, and is not cancelled. *)
Definition quiet {A} (m : M A) : Prop :=
  forall w, exists res w',
    m w = (res, w') /\ evolves w w' [] /\ w_cancelled w' = w_cancelled w
    /\ w_pos w' = w_pos w /\ w_now w' = w_now w
    /\ res <> Throw CancelledError.

(** Every value the code returns satisfies [P]. *)
Definition returns_only {A} (P : A -> Prop) (m : M A) : Prop :=
  forall w a w', m w = (Return a, w') -> P a.

(** Code that sends at most one request to the supplier, logs nothing
    else, and is cancelled only at the deadline. *)
Definition sends_at_most_one {A} (provider_name : string) (m : M A) : Prop :=
  forall w, exists res w' sent,
    m w = (res, w') /\ evolves w w' sent
    /\ (sent = [] \/ sent = [NetCall provider_name])
    /\ cancel_ok res w w'.

(** [d.update(kvs)], one assignment after the other. *)
Definition dict_update_all {V} (d : pydict V) (kvs : list (string * V)) : pydict V :=
  fold_left (fun d kv => dict_set d (fst kv) (snd kv)) kvs d.

(** The entry the time-out handler records for a tracked task. *)
Definition timeout_entry (repr_float : Q -> string) (env : FanEnv) (search_timeout : Q)
           (task : nat) : ProviderResult :=
  match fe_fate env task with
  | Finished (Some r) => r
  | Finished None =>
      mkProviderResult "error" None (Some "object is not subscriptable") []
        None None None None
  | Failed e =>
      mkProviderResult "error" None (Some (str_of_exn e)) [] None None None None
  | InFlight =>
      if fe_cancel_seen env task then
        mkProviderResult "timeout" None
          (Some "Provider search was cancelled during timeout handling")
          [] None None None None
      else
        mkProviderResult "timeout" None
          (Some ("Provider search timed out after " ++ repr_float search_timeout ++ "s"))
          [] None (Some (py_int (search_timeout * 1000))) None None
  end.

(** The entry recorded for a gathered result when the wait ends in time. *)
Definition normal_entry (env : FanEnv) (result : Res (option ProviderResult))
  : option ProviderResult :=
  match result with
  | Ok r => r
  | Raise e =>
      Some (mkProviderResult "error" None (Some (str_of_exn e)) []
              None (Some (elapsed_ms (fe_now env) (fe_start env))) None None)
  end.

(** The tasks [search_all] keeps track of: the values of [provider_tasks]. *)
Definition tracked_tasks (self : UniversalProvider) (criteria : Criteria) : list nat :=
  dict_values (create_tasks (providers_to_search self criteria) 0 []).

Definition in_flight (env : FanEnv) (task : nat) : Prop := fe_fate env task = InFlight.

(* ------------------------------------------------------------------ *)
(** ** A small deployment, for the examples                             *)
(* ------------------------------------------------------------------ *)

(** A meal mapping service that leaves the offers as they are. *)
Definition sample_service : MealMappingService :=
  mkMealMappingService (fun _ _ => Ok false) (fun _ l _ => Ok l) (fun l _ => Ok l).

(** An adapter whose raw response is the list of its offers. *)
Definition sample_adapter : ProviderAdapter :=
  mkProviderAdapter (fun c => Ok c)
    (fun raw _ => match raw with PyList l => Ok l | _ => Ok [] end).

(** The three suppliers of [config.py]. *)
Definition sample_provider : UniversalProvider :=
  mkUniversalProvider
    [("rate_hawk", sample_adapter); ("goglobal", sample_adapter); ("tbo", sample_adapter)].

Definition sample_repr_float (q : Q) : string :=
  str_of_Z (py_int q) ++ ".0".

(** A breaker as [_load_adapters] builds it. *)
Definition sample_breaker : CircuitBreaker :=
  mkCircuitBreaker (IsInt 3) (Finite 30) (Finite 60) "cb_supplier" 0 None CLOSED.

(** The supplier answers with [n] offers after [elapsed] seconds. *)
Definition answers (elapsed : Q) (n : nat) : Step :=
  mkStep elapsed (Ok (PyList (repeat (PyDict []) n))) (fun b => b).

(** The supplier's request fails after [elapsed] seconds. *)
Definition fails (elapsed : Q) : Step :=
  mkStep elapsed (Raise (Exn OtherException "connection reset")) (fun b => b).

(** A sleep that lasts exactly as long as asked. *)
Definition wakes_on_time : Step := mkStep 0 (Ok PyNone) (fun b => b).

Definition world_of (script : nat -> Step) : World :=
  mkWorld 0 None false (Some sample_breaker) script 0 [].

(** A supplier that answers in one second with four offers. *)
Definition world_prompt : World := world_of (fun _ => answers 1 4).

(** A supplier that fails twice, half a second each time, then answers
    with two offers. *)
Definition world_flaky : World :=
  world_of (fun n => match n with
                     | 0%nat | 2%nat => fails (1 # 2)
                     | 1%nat | 3%nat => wakes_on_time
                     | _ => answers (1 # 2) 2
                     end).

(** A supplier that does not answer. *)
Definition world_silent : World := world_of (fun _ => answers 100000 1).

(** The rate entries of a Rate Hawk response: the items of the [rates]
    lists of the hotels of [data.hotels]. *)
Definition rates_of (hotel : pyval) : list pyval :=
  match hotel with
  | PyDict d => match dict_get d "rates" with
                | Some (PyList l) => l
                | _ => []
                end
  | _ => []
  end.

Definition hotels_of (raw : pyval) : list pyval :=
  match raw with
  | PyDict r => match dict_get r "data" with
                | Some (PyDict data) => match dict_get data "hotels" with
                                        | Some (PyList hotels) => hotels
                                        | _ => []
                                        end
                | _ => []
                end
  | _ => []
  end.

Definition rate_entries (raw : pyval) : nat :=
  list_sum (map (fun hotel => length (rates_of hotel)) (hotels_of raw)).

(** What the Rate Hawk loops have accounted for: offers built plus rates
    skipped. *)
Definition accounted (s : RateHawk.Locals) : nat :=
  (length (RateHawk.offers s) + RateHawk.skipped_rates s)%nat.

(** A step of [normalize] that accounts for at most [n] more rates. *)
Definition adds_at_most {A} (n : nat) (m : ST RateHawk.Locals A) : Prop :=
  forall s, (accounted (snd (m s)) <= accounted s + n)%nat.

(* ================================================================== *)
(** * Part I, continued.  The rest of the service                        *)
(* ================================================================== *)

(* ------------------------------------------------------------------ *)
(** ** circuit_breaker.py: the life of a breaker object                 *)
(* ------------------------------------------------------------------ *)

(** What the callers of a breaker do to it, one method at a time: read
    the [state] property, record a success, record a failure, [reset]. *)
Inductive BreakerOp :=
| ReadState (now : Q)
| RecordSuccess
| RecordFailure (now : Q)
| ManualReset.

Definition apply_op (b : CircuitBreaker) (op : BreakerOp) : CircuitBreaker :=
  match op with
  | ReadState now => snd (CircuitBreaker.state now b)
  | RecordSuccess => CircuitBreaker._on_success b
  | RecordFailure now => snd (CircuitBreaker._on_failure now b)
  | ManualReset => CircuitBreaker.reset b
  end.

Definition apply_ops (ops : list BreakerOp) (b : CircuitBreaker) : CircuitBreaker :=
  fold_left apply_op ops b.

(* ------------------------------------------------------------------ *)
(** ** universal_provider.py: loading the adapters, the breaker registry *)
(* ------------------------------------------------------------------ *)

(** [d[k]] *)
Definition py_getitem (v : pyval) (k : string) : Res pyval :=
  match v with
  | PyDict d => match dict_get d k with
                | Some x => Ok x
                | None => Raise (Exn KeyError k)
                end
  | _ => Raise (Exn TypeError "object is not subscriptable")
  end.

(** [self.adapters], [self._circuit_breakers], and the locals
    [failed_providers] and [provider_config] of [_load_adapters];
    [provider_config] is unbound until its first assignment. *)
Record LoadState := mkLoadState {
  ls_adapters : pydict ProviderAdapter;
  ls_circuit_breakers : pydict CircuitBreaker;
  ls_failed_providers : list (string * string);
  ls_provider_config : option pyval
}.

Section LoadAdapters.

(** [Config.PROVIDERS] *)
Variable PROVIDERS : pydict pyval.
(** [Config._ensure_data_directory()], which creates a directory *)
Variable _ensure_data_directory : Res unit.
(** [getattr(importlib.import_module(module_path), class_name)]: the
    adapter class, to be called with the supplier name. *)
Variable import_class : pyval -> pyval -> Res (string -> Res ProviderAdapter).

(** [Config.get_all_provider_names] *)
Definition get_all_provider_names : list string := dict_keys PROVIDERS.

(** [Config.get_provider_config] *)
Definition get_provider_config (provider_name : string) : Res pyval :=
  res_bind _ensure_data_directory (fun _ =>
  Ok (match dict_get PROVIDERS provider_name with
      | Some provider_config => provider_config
      | None => PyNone
      end)).

(** The body of the loop of [_load_adapters] for one supplier. *)
Definition load_provider (provider_name : string) : ST LoadState unit :=
  try_except
    (provider_config <- lift (get_provider_config provider_name) ;;
     (fun s => (Return tt, mkLoadState (ls_adapters s) (ls_circuit_breakers s)
                             (ls_failed_providers s) (Some provider_config))) ;;
     active <- lift (py_get provider_config "active" (PyBool true)) ;;
     if negb (truthy active) then ret tt
     else
       module_path <- lift (py_getitem provider_config "module") ;;
       class_name <- lift (py_getitem provider_config "class") ;;
       adapter_class <- lift (import_class module_path class_name) ;;
       adapter <- lift (adapter_class provider_name) ;;
       (fun s => (Return tt, mkLoadState (dict_set (ls_adapters s) provider_name adapter)
                               (ls_circuit_breakers s) (ls_failed_providers s)
                               (ls_provider_config s))) ;;
       circuit_breaker <-
         lift (CircuitBreaker.__init__ CIRCUIT_BREAKER_FAILURE_THRESHOLD
                 CIRCUIT_BREAKER_TIMEOUT CIRCUIT_BREAKER_RESET_TIMEOUT
                 (PyStr ("cb_" ++ provider_name))) ;;
       (fun s => (Return tt, mkLoadState (ls_adapters s)
                               (dict_set (ls_circuit_breakers s) provider_name
                                  circuit_breaker)
                               (ls_failed_providers s) (ls_provider_config s))))
    (fun b =>
       match b with
       | CancelledError => throw b
       | Exception e =>
           (fun s => (Return tt, mkLoadState (ls_adapters s) (ls_circuit_breakers s)
                                   (ls_failed_providers s ++ [(provider_name, str_of_exn e)])
                                   (ls_provider_config s))) ;;
           (* [logger.error(f"Provider config: {provider_config}")] *)
           (fun s => match ls_provider_config s with
                     | Some _ => (Return tt, s)
                     | None =>
                         raise (Exn OtherException
                                  "cannot access local variable 'provider_config' where it is not associated with a value") s
                     end)
       end).

Fixpoint load_providers (names : list string) : ST LoadState unit :=
  match names with
  | [] => ret tt
  | provider_name :: rest => load_provider provider_name ;; load_providers rest
  end.

(** [UniversalProvider._load_adapters] *)
Definition _load_adapters : ST LoadState unit :=
  load_providers get_all_provider_names ;;
  (fun s => match ls_adapters s with
            | [] => raise (Exn OtherException
                             "No providers could be loaded! Check your configuration.") s
            | _ :: _ => (Return tt, s)
            end).

(** [UniversalProvider()]: empty dicts, then [_load_adapters]. *)
Definition UniversalProvider__init__ : Completion unit * LoadState :=
  _load_adapters (mkLoadState [] [] [] None).

End LoadAdapters.

(** [UniversalProvider.get_circuit_breaker] *)
Definition get_circuit_breaker (_circuit_breakers : pydict CircuitBreaker)
           (provider_name : string) : option CircuitBreaker :=
  dict_get _circuit_breakers provider_name.

(** [UniversalProvider.reset_circuit_breaker]: the breaker object is
    reset in place. *)
Definition reset_circuit_breaker (_circuit_breakers : pydict CircuitBreaker)
           (provider_name : string) : pydict CircuitBreaker :=
  match dict_get _circuit_breakers provider_name with
  | Some cb => dict_set _circuit_breakers provider_name (CircuitBreaker.reset cb)
  | None => _circuit_breakers
  end.

(** [UniversalProvider.get_available_providers] *)
Definition get_available_providers (self : UniversalProvider) : list string :=
  dict_keys (adapters self).

(** *** Notions used to state the properties of the loading *)

(** The string has a character that [strip] keeps. *)
Fixpoint has_nonspace (s : string) : bool :=
  match s with
  | EmptyString => false
  | String c s' => negb (py_isspace c) || has_nonspace s'
  end.

(** The breaker [_load_adapters] builds for a supplier. *)
Definition breaker_of (provider_name : string) : CircuitBreaker :=
  mkCircuitBreaker (IsInt 3) (Finite 30) (Finite 60) (strip ("cb_" ++ provider_name))
    0 None CLOSED.

(** What the configuration gives for a supplier: an adapter, nothing
    when the supplier is switched off, or the exception of the step that
    fails (a missing key, the import, the constructor of the adapter). *)
Definition configured_adapter (PROVIDERS : pydict pyval)
           (import_class : pyval -> pyval -> Res (string -> Res ProviderAdapter))
           (provider_name : string) : Res (option ProviderAdapter) :=
  let provider_config :=
    match dict_get PROVIDERS provider_name with Some c => c | None => PyNone end in
  res_bind (py_get provider_config "active" (PyBool true)) (fun active =>
  if negb (truthy active) then Ok None
  else
    res_bind (py_getitem provider_config "module") (fun module_path =>
    res_bind (py_getitem provider_config "class") (fun class_name =>
    res_bind (import_class module_path class_name) (fun adapter_class =>
    res_bind (adapter_class provider_name) (fun adapter =>
    Ok (Some adapter)))))).

Definition loads (PROVIDERS : pydict pyval)
           (import_class : pyval -> pyval -> Res (string -> Res ProviderAdapter))
           (provider_name : string) : bool :=
  match configured_adapter PROVIDERS import_class provider_name with
  | Ok (Some _) => true
  | _ => false
  end.

Definition fails_to_load (PROVIDERS : pydict pyval)
           (import_class : pyval -> pyval -> Res (string -> Res ProviderAdapter))
           (provider_name : string) : bool :=
  match configured_adapter PROVIDERS import_class provider_name with
  | Raise _ => true
  | _ => false
  end.

(** Every adapter in the state has its breaker, as built. *)
Definition paired (s : LoadState) : Prop :=
  dict_keys (ls_circuit_breakers s) = dict_keys (ls_adapters s)
  /\ forall p cb, dict_get (ls_circuit_breakers s) p = Some cb -> cb = breaker_of p.

(** A configuration for the examples: one supplier that loads, one that
    is switched off, one whose entry has no [class]. *)
Definition sample_PROVIDERS : pydict pyval :=
  [("rate_hawk", PyDict [("module", PyStr "app.services.providers.rate_hawk");
                         ("class", PyStr "RateHawkProvider");
                         ("active", PyBool true)]);
   ("goglobal", PyDict [("module", PyStr "app.services.providers.goglobal");
                        ("class", PyStr "GoGlobalProvider");
                        ("active", PyBool false)]);
   ("tbo", PyDict [("module", PyStr "app.services.providers.tbo")])].

Definition sample_import_class (module_path class_name : pyval)
  : Res (string -> Res ProviderAdapter) :=
  Ok (fun _ => Ok sample_adapter).

(* ------------------------------------------------------------------ *)
(** ** config.py: the fields of a response                              *)
(* ------------------------------------------------------------------ *)

(** [s.split(sep)] for a separator of one character. *)
Fixpoint split_on (sep : ascii) (s : string) : list string :=
  match s with
  | EmptyString => [EmptyString]
  | String c s' =>
      if Ascii.eqb c sep then EmptyString :: split_on sep s'
      else match split_on sep s' with
           | x :: xs => String c x :: xs
           | [] => [String c EmptyString]
           end
  end.

(** [sep.join(l)] *)
Fixpoint join_with (sep : string) (l : list string) : string :=
  match l with
  | [] => EmptyString
  | [x] => x
  | x :: rest => x ++ sep ++ join_with sep rest
  end.

Module ConfigFields.
Section ConfigFields.

Local Open Scope res_scope.

(** [os.getenv("ALLOWED_FIELDS")] *)
Variable env_fields : option string.

(** [Config.get_allowed_fields] *)
Definition get_allowed_fields : list string :=
  match env_fields with
  | Some env_fields =>
      if truthy (PyStr env_fields) then map strip (split_on "," env_fields)
      else ALLOWED_FIELDS
  | None => ALLOWED_FIELDS
  end.

(** [Config.is_field_allowed] *)
Definition is_field_allowed (field_name : string) : bool :=
  str_in field_name get_allowed_fields.

(** [{k: v for k, v in offer.items() if k in allowed_fields}] *)
Definition allowed_items (offer : pydict pyval) : pydict pyval :=
  filter (fun kv => str_in (fst kv) get_allowed_fields) offer.

(** [[{...} for offer in l if isinstance(offer, dict)]] *)
Fixpoint filter_offers (l : list pyval) : list pyval :=
  match l with
  | [] => []
  | PyDict offer :: rest => PyDict (allowed_items offer) :: filter_offers rest
  | _ :: rest => filter_offers rest
  end.

(** [[{...} if isinstance(item, dict) else item for item in data]] *)
Definition filter_item (item : pyval) : pyval :=
  match item with
  | PyDict d => PyDict (allowed_items d)
  | _ => item
  end.

(** The body of the loop over [results_by_provider]: the offers of one
    supplier's result, filtered in place. *)
Definition filter_provider_result (provider_result : pyval) : pyval :=
  match provider_result with
  | PyDict pr =>
      match dict_get pr "data" with
      | Some (PyList l) => PyDict (dict_set pr "data" (PyList (filter_offers l)))
      | _ => provider_result
      end
  | _ => provider_result
  end.

(** [Config.filter_response_data]: the value returned.  In the legacy
    branch the dicts of the suppliers are the argument's own, changed in
    place. *)
Definition filter_response_data (data : pyval) : Res pyval :=
  if negb (truthy data) then Ok data
  else
    match data with
    | PyDict d =>
        if dict_mem "data" d then
          Ok (PyDict (match dict_get d "data" with
                      | Some (PyList l) => dict_set d "data" (PyList (filter_offers l))
                      | _ => d
                      end))
        else if dict_mem "results_by_provider" d then
          items <~ py_items (match dict_get d "results_by_provider" with
                             | Some v => v
                             | None => PyNone
                             end) ;;
          Ok (PyDict (dict_set d "results_by_provider"
                        (PyDict (map (fun kv => (fst kv, filter_provider_result (snd kv)))
                                     items))))
        else Ok (PyDict (allowed_items d))
    | PyList l => Ok (PyList (map filter_item l))
    | _ => Ok data
    end.

End ConfigFields.
End ConfigFields.

(** The string has no comma. *)
Fixpoint comma_free (s : string) : bool :=
  match s with
  | EmptyString => true
  | String c s' => negb (Ascii.eqb c ",") && comma_free s'
  end.

(* ------------------------------------------------------------------ *)
(** ** meal_mapping.py: the meal mapping service                        *)
(* ------------------------------------------------------------------ *)

Module MealMapping.

Inductive FilteringStrategy := REQUEST_LEVEL | RESPONSE_LEVEL | NOT_SUPPORTED.

Definition FilteringStrategy_eqb (a b : FilteringStrategy) : bool :=
  match a, b with
  | REQUEST_LEVEL, REQUEST_LEVEL | RESPONSE_LEVEL, RESPONSE_LEVEL
  | NOT_SUPPORTED, NOT_SUPPORTED => true
  | _, _ => false
  end.

(** An entry of [provider_capabilities]. *)
Record Capability := mkCapability {
  strategy : FilteringStrategy;
  supported_meal_types : list string;
  native_mapping : option (pydict string);
  response_field_mapping : option (pydict string);
  reverse_mapping : option (pydict (list string))
}.

Section MealMapping.

Local Open Scope res_scope.

(** [Config.PROVIDERS] and [Config._ensure_data_directory()] *)
Variable PROVIDERS : pydict pyval.
Variable _ensure_data_directory : Res unit.
(** [self._mappings]: for each meal code, the value of each supplier. *)
Variable _mappings : pydict (pydict string).

(** [Config.get_meal_filtering_config] *)
Definition get_meal_filtering_config (provider_name : string) : Res pyval :=
  provider_config <~ get_provider_config PROVIDERS _ensure_data_directory provider_name ;;
  if truthy provider_config then py_get provider_config "meal_filtering" PyNone
  else Ok PyNone.

(** [get_provider_value] *)
Definition get_provider_value (meal_code provider : string) : option string :=
  match dict_get _mappings meal_code with
  | Some mapping => dict_get mapping provider
  | None => None
  end.

(** [mapping.get(provider) == provider_value] *)
Definition value_is (found : option string) (provider_value : pyval) : bool :=
  match found, provider_value with
  | Some s, PyStr s' => s =? s'
  | None, PyNone => true
  | _, _ => false
  end.

Fixpoint first_code (mappings : pydict (pydict string)) (provider_value : pyval)
         (provider : string) : option string :=
  match mappings with
  | [] => None
  | (code, mapping) :: rest =>
      if value_is (dict_get mapping provider) provider_value then Some code
      else first_code rest provider_value provider
  end.

(** [get_standard_code] *)
Definition get_standard_code (provider_value : pyval) (provider : string)
  : option string :=
  first_code _mappings provider_value provider.

(** [get_supported_meal_types] *)
Definition get_supported_meal_types (provider : string) : list string :=
  if provider =? "all" then dict_keys _mappings
  else
    dict_keys (filter (fun cm => match dict_get (snd cm) provider with
                                 | Some v => truthy (PyStr v)
                                 | None => false
                                 end) _mappings).

(** [validate_meal_type] *)
Definition validate_meal_type (meal_code : string) : bool :=
  dict_mem meal_code _mappings.

(** The body of the loop of [normalize_offers_meal_plans]. *)
Definition normalize_offer_meal_plan (offer : pyval) (provider : string) : Res pyval :=
  match offer with
  | PyDict d =>
      let current_meal_plan :=
        match dict_get d "meal_plan" with Some v => v | None => PyNone end in
      if truthy current_meal_plan then
        match get_standard_code current_meal_plan provider with
        | Some standard_code =>
            if truthy (PyStr standard_code)
            then Ok (PyDict (dict_set d "meal_plan" (PyStr standard_code)))
            else Ok offer
        | None => Ok offer
        end
      else Ok offer
  | PyList _ => Raise (Exn AttributeError "'list' object has no attribute 'get'")
  | _ => Raise (Exn AttributeError "object has no attribute 'copy'")
  end.

Fixpoint normalize_each (offers : list pyval) (provider : string) : Res (list pyval) :=
  match offers with
  | [] => Ok []
  | offer :: rest =>
      normalized_offer <~ normalize_offer_meal_plan offer provider ;;
      more <~ normalize_each rest provider ;;
      Ok (normalized_offer :: more)
  end.

(** [normalize_offers_meal_plans] *)
Definition normalize_offers_meal_plans (offers : list pyval) (provider : string)
  : Res (list pyval) :=
  normalize_each offers provider.

(** *** [_initialize_provider_capabilities] *)

(** The first loop: an entry for each supplier that has a meal filtering
    configuration. *)
Fixpoint configured_capabilities (names : list string) (capabilities : pydict Capability)
  : Res (pydict Capability) :=
  match names with
  | [] => Ok capabilities
  | provider_name :: rest =>
      meal_config <~ get_meal_filtering_config provider_name ;;
      if negb (truthy meal_config) then configured_capabilities rest capabilities
      else
        strategy_str <~ py_get meal_config "strategy" (PyStr "not_supported") ;;
        let strategy :=
          if py_eq_str strategy_str "request_level" then REQUEST_LEVEL
          else if py_eq_str strategy_str "response_level" then RESPONSE_LEVEL
          else NOT_SUPPORTED in
        configured_capabilities rest
          (dict_set capabilities provider_name
             (mkCapability strategy []
                (match strategy with REQUEST_LEVEL => Some [] | _ => None end)
                (match strategy with RESPONSE_LEVEL => Some [] | _ => None end)
                (match strategy with RESPONSE_LEVEL => Some [] | _ => None end)))
  end.

(** The body of the inner loop, for a supplier that has a value for the
    meal code. *)
Definition add_mapping (meal_code provider_value : string) (c : Capability)
  : Res Capability :=
  let supported := (supported_meal_types c ++ [meal_code])%list in
  match strategy c with
  | REQUEST_LEVEL =>
      match native_mapping c with
      | Some m =>
          Ok (mkCapability (strategy c) supported
                (Some (dict_set m meal_code provider_value))
                (response_field_mapping c) (reverse_mapping c))
      | None =>
          Raise (Exn TypeError "'NoneType' object does not support item assignment")
      end
  | _ =>
      match response_field_mapping c with
      | None =>
          Raise (Exn TypeError "'NoneType' object does not support item assignment")
      | Some rfm =>
          let rfm := dict_set rfm provider_value meal_code in
          match reverse_mapping c with
          | None => Raise (Exn TypeError "argument of type 'NoneType' is not iterable")
          | Some rm =>
              let rm := if dict_mem meal_code rm then rm else dict_set rm meal_code [] in
              let values := match dict_get rm meal_code with Some l => l | None => [] end in
              Ok (mkCapability (strategy c) supported (native_mapping c) (Some rfm)
                    (Some (dict_set rm meal_code (values ++ [provider_value])%list)))
          end
      end
  end.

(** [for provider_name in capabilities.keys()] *)
Fixpoint add_for_providers (meal_code : string) (mapping : pydict string)
         (names : list string) (capabilities : pydict Capability)
  : Res (pydict Capability) :=
  match names with
  | [] => Ok capabilities
  | provider_name :: rest =>
      match dict_get mapping provider_name with
      | Some provider_value =>
          if truthy (PyStr provider_value) then
            match dict_get capabilities provider_name with
            | Some c =>
                c' <~ add_mapping meal_code provider_value c ;;
                add_for_providers meal_code mapping rest
                  (dict_set capabilities provider_name c')
            | None => Raise (Exn KeyError provider_name)
            end
          else add_for_providers meal_code mapping rest capabilities
      | None => add_for_providers meal_code mapping rest capabilities
      end
  end.

(** [for meal_code, mapping in self._mappings.items()] *)
Fixpoint add_mappings (mappings : pydict (pydict string))
         (capabilities : pydict Capability) : Res (pydict Capability) :=
  match mappings with
  | [] => Ok capabilities
  | (meal_code, mapping) :: rest =>
      capabilities <~
        add_for_providers meal_code mapping (dict_keys capabilities) capabilities ;;
      add_mappings rest capabilities
  end.

(** [_initialize_provider_capabilities]: the value given to
    [self.provider_capabilities]. *)
Definition _initialize_provider_capabilities : Res (pydict Capability) :=
  capabilities <~ configured_capabilities (get_all_provider_names PROVIDERS) [] ;;
  add_mappings _mappings capabilities.

(** *** The filtering methods *)

(** [self.provider_capabilities] *)
Variable provider_capabilities : pydict Capability.

(** [get_provider_strategy] *)
Definition get_provider_strategy (provider_name : string) : FilteringStrategy :=
  match dict_get provider_capabilities provider_name with
  | Some c => strategy c
  | None => NOT_SUPPORTED
  end.

(** [is_meal_type_supported] *)
Definition is_meal_type_supported (provider_name meal_type : string) : bool :=
  match dict_get provider_capabilities provider_name with
  | Some c => str_in meal_type (supported_meal_types c)
  | None => false
  end.

(** [get_native_meal_code]; for a supplier filtered at response level
    [native_mapping] is [None]. *)
Definition get_native_meal_code (provider_name meal_type : string)
  : Res (option string) :=
  match dict_get provider_capabilities provider_name with
  | Some c =>
      match native_mapping c with
      | Some mapping => Ok (dict_get mapping meal_type)
      | None => Raise (Exn AttributeError "'NoneType' object has no attribute 'get'")
      end
  | None => Ok None
  end.

(** [get_response_filter_values]; for a supplier filtered at request
    level [reverse_mapping] is [None]. *)
Definition get_response_filter_values (provider_name meal_type : string)
  : Res (list string) :=
  match dict_get provider_capabilities provider_name with
  | Some c =>
      match reverse_mapping c with
      | Some reverse => Ok (match dict_get reverse meal_type with
                            | Some l => l
                            | None => []
                            end)
      | None => Raise (Exn AttributeError "'NoneType' object has no attribute 'get'")
      end
  | None => Ok []
  end.

(** [should_filter_at_request_level] *)
Definition should_filter_at_request_level (provider_name meal_type : string) : bool :=
  FilteringStrategy_eqb (get_provider_strategy provider_name) REQUEST_LEVEL
  && is_meal_type_supported provider_name meal_type.

(** [should_filter_at_response_level] *)
Definition should_filter_at_response_level (provider_name meal_type : string) : bool :=
  FilteringStrategy_eqb (get_provider_strategy provider_name) RESPONSE_LEVEL
  && is_meal_type_supported provider_name meal_type.

(** [offer.get(key)] for a key that is any hashable value: the keys of an
    offer are strings. *)
Definition get_by (offer key : pyval) : Res pyval :=
  match key with
  | PyStr k => py_get offer k PyNone
  | PyList _ | PyDict _ =>
      match offer with
      | PyDict _ => Raise (Exn TypeError "unhashable type")
      | _ => Raise (Exn AttributeError "object has no attribute 'get'")
      end
  | _ => res_bind (py_get offer "" PyNone) (fun _ => Ok PyNone)
  end.

(** [_extract_meal_from_offer] *)
Definition _extract_meal_from_offer (provider_name : string) (offer : pyval)
  : Res pyval :=
  meal_config <~ get_meal_filtering_config provider_name ;;
  response_field <~ (if truthy meal_config then py_get meal_config "response_field" PyNone
                     else Ok PyNone) ;;
  if truthy meal_config && truthy response_field then get_by offer response_field
  else
    meal_plan <~ py_get offer "meal_plan" PyNone ;;
    if truthy meal_plan then Ok meal_plan
    else
      meal_type <~ py_get offer "meal_type" PyNone ;;
      if truthy meal_type then Ok meal_type
      else py_get offer "meal" PyNone.

(** [value.lower().strip()] *)
Definition lower_strip (s : string) : string := strip (lower s).

(** The values collected in [all_filter_values]. *)
Fixpoint collect_filter_values (provider_name : string) (valid_meal_types : list string)
  : Res (list string) :=
  match valid_meal_types with
  | [] => Ok []
  | meal_type :: rest =>
      values <~ (if should_filter_at_response_level provider_name meal_type
                 then get_response_filter_values provider_name meal_type
                 else Ok []) ;;
      more <~ collect_filter_values provider_name rest ;;
      Ok (map lower_strip values ++ more)%list
  end.

(** The last loop of [filter_offers_by_any_meal_type]. *)
Fixpoint matching (provider_name : string) (all_filter_values : list string)
         (offers : list pyval) : Res (list pyval) :=
  match offers with
  | [] => Ok []
  | offer :: rest =>
      offer_meal <~ _extract_meal_from_offer provider_name offer ;;
      keep <~ (if truthy offer_meal then
                 match offer_meal with
                 | PyStr s => Ok (str_in (lower_strip s) all_filter_values)
                 | _ => Raise (Exn AttributeError "object has no attribute 'lower'")
                 end
               else Ok false) ;;
      more <~ matching provider_name all_filter_values rest ;;
      Ok (if keep then offer :: more else more)
  end.

(** [[mt.strip() for mt in meal_types if mt and mt.strip()]] *)
Definition valid_meal_types (meal_types : list string) : list string :=
  map strip (filter (fun mt => truthy (PyStr mt) && truthy (PyStr (strip mt)))
                    meal_types).

(** [filter_offers_by_any_meal_type] *)
Definition filter_offers_by_any_meal_type (provider_name : string)
           (offers : list pyval) (meal_types : list string) : Res (list pyval) :=
  match meal_types, offers with
  | [], _ | _, [] => Ok offers
  | _ :: _, _ :: _ =>
      let valid := valid_meal_types meal_types in
      match valid with
      | [] => Ok offers
      | _ :: _ =>
          if negb (existsb (should_filter_at_response_level provider_name) valid)
          then Ok offers
          else
            all_filter_values <~ collect_filter_values provider_name valid ;;
            match all_filter_values with
            | [] => Ok []
            | _ :: _ => matching provider_name all_filter_values offers
            end
      end
  end.

(** The service as [search_single] uses it. *)
Definition service : MealMappingService :=
  mkMealMappingService
    (fun provider_name meal_type =>
       Ok (should_filter_at_response_level provider_name meal_type))
    filter_offers_by_any_meal_type
    normalize_offers_meal_plans.

End MealMapping.
End MealMapping.

(** *** Notions and sample data for the meal mapping service *)

(** The meal of the offer, in lower case and stripped, is one of
    [values]. *)
Definition offer_meal_in (PROVIDERS : pydict pyval) (_ensure_data_directory : Res unit)
           (provider_name : string) (values : list string) (offer : pyval) : bool :=
  match MealMapping._extract_meal_from_offer PROVIDERS _ensure_data_directory
          provider_name offer with
  | Ok (PyStr s) => truthy (PyStr s) && str_in (MealMapping.lower_strip s) values
  | _ => false
  end.

(** The meal filtering settings of [config.py]. *)
Definition meal_filtering_of (strategy : string) (response_field : pyval) : pyval :=
  PyDict [("meal_filtering",
           PyDict [("strategy", PyStr strategy); ("response_field", response_field)])].

Definition config_PROVIDERS : pydict pyval :=
  [("rate_hawk", meal_filtering_of "response_level" (PyStr "meal_plan"));
   ("goglobal", meal_filtering_of "request_level" PyNone);
   ("tbo", meal_filtering_of "response_level" (PyStr "meal_plan"))].

(** Two rows of the table of meal mappings. *)
Definition sample_mappings : pydict (pydict string) :=
  [("BB", [("rate_hawk", "breakfast"); ("goglobal", "BB"); ("tbo", "Bed_And_Breakfast")]);
   ("RO", [("rate_hawk", "nomeal"); ("goglobal", "RO"); ("tbo", "Room_Only")])].

Definition sample_capabilities : pydict MealMapping.Capability :=
  match MealMapping._initialize_provider_capabilities config_PROVIDERS (Ok tt)
          sample_mappings with
  | Ok capabilities => capabilities
  | Raise _ => []
  end.

Definition is_dict (v : pyval) : bool :=
  match v with PyDict _ => true | _ => false end.

(** *** Notions used to state what the initialization builds *)

(** The entry the first loop gives to a supplier of strategy [s]. *)
Definition empty_capability (s : MealMapping.FilteringStrategy) : MealMapping.Capability :=
  MealMapping.mkCapability s []
    (match s with MealMapping.REQUEST_LEVEL => Some [] | _ => None end)
    (match s with MealMapping.RESPONSE_LEVEL => Some [] | _ => None end)
    (match s with MealMapping.RESPONSE_LEVEL => Some [] | _ => None end).

(** What one row of the table does to the entry of one supplier. *)
Definition add_row (provider_name meal_code : string) (mapping : pydict string)
           (c : MealMapping.Capability) : Res MealMapping.Capability :=
  match dict_get mapping provider_name with
  | Some provider_value =>
      if truthy (PyStr provider_value)
      then MealMapping.add_mapping meal_code provider_value c
      else Ok c
  | None => Ok c
  end.

(** What the rows of the table, in order, do to the entry of one
    supplier. *)
Fixpoint add_rows (provider_name : string) (rows : pydict (pydict string))
         (c : MealMapping.Capability) : Res MealMapping.Capability :=
  match rows with
  | [] => Ok c
  | (meal_code, mapping) :: rest =>
      res_bind (add_row provider_name meal_code mapping c)
               (add_rows provider_name rest)
  end.

(** The value the table has for a supplier and a meal code, when it is
    not empty. *)
Definition value_for (rows : pydict (pydict string)) (provider_name meal_code : string)
  : option string :=
  match MealMapping.get_provider_value rows meal_code provider_name with
  | Some v => if truthy (PyStr v) then Some v else None
  | None => None
  end.

(** The supplier has a value in the row. *)
Definition has_value (provider_name : string) (row : string * pydict string) : bool :=
  match dict_get (snd row) provider_name with
  | Some v => truthy (PyStr v)
  | None => false
  end.

(** The entry of a supplier of strategy [s] holds what the rows [done]
    say, and nothing else. *)
Definition built_from (provider_name : string) (s : MealMapping.FilteringStrategy)
           (done : pydict (pydict string)) (c : MealMapping.Capability) : Prop :=
  MealMapping.strategy c = s
  /\ MealMapping.supported_meal_types c = dict_keys (filter (has_value provider_name) done)
  /\ (s = MealMapping.REQUEST_LEVEL ->
      exists m, MealMapping.native_mapping c = Some m
                /\ forall code, dict_get m code = value_for done provider_name code)
  /\ (s = MealMapping.RESPONSE_LEVEL ->
      exists rm, MealMapping.reverse_mapping c = Some rm
                 /\ MealMapping.response_field_mapping c <> None
                 /\ forall code, dict_get rm code
                                 = option_map (fun v => [v])
                                              (value_for done provider_name code))
  /\ (s = MealMapping.NOT_SUPPORTED ->
      MealMapping.response_field_mapping c = None
      /\ MealMapping.supported_meal_types c = []).

(* ------------------------------------------------------------------ *)
(** ** Notions for a search with a room category                        *)
(* ------------------------------------------------------------------ *)

(** A world in which a supplier answers every request, with offers that
    carry no room category yet: the task runs under no deadline, the
    breaker is closed and no other task touches it, and every answer of
    the supplier normalizes to a list of offers one of which has [None]
    under [room_category]. *)
Definition calm (adapter : ProviderAdapter) (criteria : Criteria) (w : World) : Prop :=
  w_deadline w = None
  /\ (exists b, w_cb w = Some b /\ _state b = CLOSED)
  /\ (forall n b, st_others (w_script w n) b = b)
  /\ (forall n, exists raw offers d,
         st_result (w_script w n) = Ok raw
         /\ normalize adapter raw criteria = Ok offers
         /\ In (PyDict d) offers
         /\ dict_get d "room_category" = Some PyNone).

(** An adapter that answers with offers as the three adapters build
    them: [room_category] is [None]. *)
Definition uncategorized_adapter : ProviderAdapter :=
  mkProviderAdapter (fun c => Ok c)
    (fun raw _ => Ok [PyDict [("room_name", PyStr "Double"); ("room_category", PyNone)]]).

(* ------------------------------------------------------------------ *)
(** ** Notions for the offers the adapters build                        *)
(* ------------------------------------------------------------------ *)

(** An offer as an adapter leaves it: a dict that names its supplier and
    has no room category and no room mapping yet. *)
Definition built_offer (provider_name : string) (o : pyval) : Prop :=
  exists d, o = PyDict d
            /\ dict_get d "provider" = Some (PyStr provider_name)
            /\ dict_get d "room_category" = Some PyNone
            /\ dict_get d "room_mapping_id" = Some PyNone.

(** The hotel of a GoGlobal response is a dict whose [Offers], when
    present, can be iterated over. *)
Definition offers_listed (hotel : pyval) : bool :=
  match hotel with
  | PyDict d =>
      match dict_get d "Offers" with
      | None => true
      | Some v => match py_iter v with Ok _ => true | Raise _ => false end
      end
  | _ => false
  end.

(** The number of entries under [Offers]. *)
Definition offer_entries (hotel : pyval) : nat :=
  match hotel with
  | PyDict d =>
      match dict_get d "Offers" with
      | Some v => match py_iter v with Ok l => length l | Raise _ => 0 end
      | None => 0
      end
  | _ => 0
  end.

(** An offer as the Rate Hawk adapter builds it: besides what
    [built_offer] says, the code of the rate and the name of the room are
    there and are not empty, and the price is a [Decimal]. *)
Definition priced_offer (provider_name : string) (o : pyval) : Prop :=
  built_offer provider_name o
  /\ exists d code room_name q,
       o = PyDict d
       /\ dict_get d "supplier_room_code" = Some code /\ truthy code = true
       /\ dict_get d "room_name" = Some room_name /\ truthy room_name = true
       /\ dict_get d "total_price" = Some (PyDecimal q).

(** A step of Rate Hawk's [normalize] that only adds offers that satisfy
    [P]. *)
Definition keeps_offers {A} (P : pyval -> Prop) (m : ST RateHawk.Locals A) : Prop :=
  forall s, Forall P (RateHawk.offers s) -> Forall P (RateHawk.offers (snd (m s))).

(** A Rate Hawk response with a valid rate and a rate that has no
    [match_hash]. *)
Definition sample_rate_hawk_response : pyval :=
  let payment := PyDict [("amount", PyStr "99.50"); ("currency_code", PyStr "EUR")] in
  let valid := PyDict [("match_hash", PyStr "m-1"); ("room_name", PyStr "Double");
                       ("payment_options", PyDict [("payment_types", PyList [payment])]);
                       ("daily_prices", PyList [PyStr "99.50"])] in
  let malformed := PyDict [("room_name", PyStr "Double");
                           ("daily_prices", PyList [PyStr "99.50"]);
                           ("meal", PyStr "nomeal")] in
  PyDict [("data", PyDict [("hotels",
             PyList [PyDict [("id", PyStr "h1");
                             ("rates", PyList [valid; malformed])]])])].

Definition sample_parse_float (s : string) : option pyfloat :=
  if s =? "99.50" then Some (Finite (199 # 2)) else None.

(* ------------------------------------------------------------------ *)
(** ** providers/tbo.py: [normalize]                                    *)
(* ------------------------------------------------------------------ *)

Module TBO.
Section TBO.

Local Open Scope res_scope.

Variable py_repr : pyval -> string.
Variable parse_float : string -> option pyfloat.
(** [Config.get_allowed_fields()] *)
Variable allowed_fields : list string.
(** [hotel_mapping_service.get_ref_hotel_name_by_provider_id], which asks
    the database. *)
Variable get_ref_hotel_name_by_provider_id : string -> string -> Res pyval.
(** [datetime.strptime(s, "%d-%m-%Y %H:%M:%S").isoformat()], when [s] has
    that format. *)
Variable isoformat : string -> option string.

(** [_get_ref_hotel_name_from_tbo_id]: the whole body is in a [try]. *)
Definition _get_ref_hotel_name_from_tbo_id (tbo_hotel_id : string) : pyval :=
  if negb (truthy (PyStr tbo_hotel_id)) then PyNone
  else
    match get_ref_hotel_name_by_provider_id (strip tbo_hotel_id) "tbo" with
    | Ok ref_hotel_name => if truthy ref_hotel_name then ref_hotel_name else PyNone
    | Raise _ => PyNone
    end.

(** The loop of [_extract_free_cancellation_date] over the policies: the
    first one that charges nothing. *)
Fixpoint free_cancellation_policy (cancel_policies : list pyval) : Res pyval :=
  match cancel_policies with
  | [] => Ok PyNone
  | policy :: rest =>
      charge <~ py_get policy "CancellationCharge" (PyFloat (Finite 100)) ;;
      if py_eq_int charge 0 then Ok policy else free_cancellation_policy rest
  end.

(** [_extract_free_cancellation_date]: the whole body is in a [try]. *)
Definition _extract_free_cancellation_date (room_data : pyval) : pyval :=
  let body : Res pyval :=
    cancel_policies <~ py_get room_data "CancelPolicies" (PyList []) ;;
    if negb (truthy cancel_policies) then Ok PyNone
    else
      policies <~ py_iter cancel_policies ;;
      policy <~ free_cancellation_policy policies ;;
      if negb (truthy policy) then Ok PyNone
      else
        from_date_str <~ py_get policy "FromDate" PyNone ;;
        if negb (truthy from_date_str) then Ok PyNone
        else
          match from_date_str with
          | PyStr s =>
              match isoformat s with
              | Some iso => Ok (PyStr (iso ++ "Z"))
              | None => Raise (Exn ValueError "time data does not match format")
              end
          | _ => Raise (Exn TypeError "strptime() argument 1 must be str")
          end in
  match body with
  | Ok v => v
  | Raise _ => PyNone
  end.

(** The inner [try] block: the offer built from one room. *)
Definition room_offer (hotel_code : string) (hotel_name : pyval) (hotel_data room_data : pyval)
  : Res pyval :=
  room_names <~ py_get room_data "Name" (PyList [PyStr "Standard Room"]) ;;
  room_type <~ (if truthy room_names then py_index0 room_names
                else Ok (PyStr "Standard Room")) ;;
  meal_type_raw <~ py_get room_data "MealType" (PyStr "Room_Only") ;;
  booking_code <~ py_get room_data "BookingCode" (PyStr "") ;;
  fare <~ py_get room_data "TotalFare" (PyInt 0) ;;
  total_price <~ py_float parse_float fare ;;
  currency <~ py_get hotel_data "Currency" (PyStr "USD") ;;
  let offer : pydict pyval := [] in
  let offer := set_if_allowed allowed_fields "supplier_hotel_id" (PyStr hotel_code) offer in
  let offer := set_if_allowed allowed_fields "hotel_name" hotel_name offer in
  let offer := set_if_allowed allowed_fields "supplier_room_code" booking_code offer in
  let offer := set_if_allowed allowed_fields "room_name" room_type offer in
  let offer := set_if_allowed allowed_fields "room_category" PyNone offer in
  let offer := set_if_allowed allowed_fields "room_mapping_id" PyNone offer in
  let offer := set_if_allowed allowed_fields "meal_plan" meal_type_raw offer in
  let offer := set_if_allowed allowed_fields "total_price" (PyFloat total_price) offer in
  let offer := set_if_allowed allowed_fields "currency" currency offer in
  let offer := set_if_allowed allowed_fields "room_features" (PyList []) offer in
  let offer := set_if_allowed allowed_fields "amenities" (PyList []) offer in
  let offer :=
    if str_in "free_cancellation_until" allowed_fields
    then dict_set offer "free_cancellation_until" (_extract_free_cancellation_date room_data)
    else offer in
  let offer := dict_set offer "provider" (PyStr "tbo") in
  Ok (PyDict (dict_set offer "offer_id" booking_code)).

(** [for room_data in room_results: try: ... except Exception: continue] *)
Fixpoint room_offers (hotel_code : string) (hotel_name : pyval) (hotel_data : pyval)
         (room_results : list pyval) : list pyval :=
  match room_results with
  | [] => []
  | room_data :: rest =>
      match room_offer hotel_code hotel_name hotel_data room_data with
      | Ok offer => offer :: room_offers hotel_code hotel_name hotel_data rest
      | Raise _ => room_offers hotel_code hotel_name hotel_data rest
      end
  end.

(** The middle [try] block: the offers of one hotel.  What it raises
    before the loop over the rooms leaves the hotel without offers. *)
Definition hotel_offers (raw_response hotel_data : pyval) : list pyval :=
  let body : Res (list pyval) :=
    code <~ py_get hotel_data "HotelCode" (PyStr "") ;;
    let hotel_code := py_str py_repr code in
    hotel_name <~ py_get hotel_data "HotelName" (PyStr "") ;;
    if negb (truthy (PyStr hotel_code)) then Ok []
    else
      hotel_id_to_name_map <~ py_get raw_response "hotel_id_to_name_map" (PyDict []) ;;
      original_hotel_name <~ py_get hotel_id_to_name_map hotel_code PyNone ;;
      named <~
        (if truthy original_hotel_name then Ok (Some original_hotel_name)
         else
           let ref_hotel_name := _get_ref_hotel_name_from_tbo_id hotel_code in
           if negb (truthy ref_hotel_name) then Ok None
           else Ok (Some (if negb (truthy hotel_name) then ref_hotel_name
                          else hotel_name))) ;;
      match named with
      | None => Ok []
      | Some hotel_name =>
          rooms <~ py_get hotel_data "Rooms" (PyList []) ;;
          room_results <~ py_iter rooms ;;
          Ok (room_offers hotel_code hotel_name hotel_data room_results)
      end in
  match body with
  | Ok offers => offers
  | Raise _ => []
  end.

(** [normalize]: the outer [try] block returns the empty list for what
    it raises. *)
Definition normalize (raw_response criteria : pyval) : list pyval :=
  let body : Res (list pyval) :=
    success <~ py_get raw_response "success" (PyBool false) ;;
    if negb (truthy success) then Ok []
    else
      tbo_data <~ py_get raw_response "data" (PyDict []) ;;
      hotel_results <~ py_get tbo_data "HotelResult" (PyList []) ;;
      if negb (truthy hotel_results) then Ok []
      else
        hotels <~ py_iter hotel_results ;;
        Ok (flat_map (hotel_offers raw_response) hotels) in
  match body with
  | Ok offers => offers
  | Raise _ => []
  end.

(** [prepare_meal_type_criteria]: the criteria, as they are. *)
Definition prepare_meal_type_criteria (criteria : pydict pyval) : pydict pyval :=
  criteria.

End TBO.
End TBO.

(** The hotels of a TBO response, and the rooms listed for a hotel. *)
Definition tbo_hotels (raw_response : pyval) : list pyval :=
  match py_get raw_response "data" (PyDict []) with
  | Ok tbo_data =>
      match py_get tbo_data "HotelResult" (PyList []) with
      | Ok hotel_results =>
          match py_iter hotel_results with Ok l => l | Raise _ => [] end
      | Raise _ => []
      end
  | Raise _ => []
  end.

Definition room_entries (hotel_data : pyval) : nat :=
  match py_get hotel_data "Rooms" (PyList []) with
  | Ok rooms => match py_iter rooms with Ok l => length l | Raise _ => 0 end
  | Raise _ => 0
  end.

(** An offer as the TBO adapter builds it: besides what [built_offer]
    says, its [offer_id] is its room code and its price is a float. *)
Definition booked_offer (o : pyval) : Prop :=
  built_offer "tbo" o
  /\ exists d code q,
       o = PyDict d
       /\ dict_get d "offer_id" = Some code
       /\ dict_get d "supplier_room_code" = Some code
       /\ dict_get d "total_price" = Some (PyFloat q).

(** [policy] is the first of the cancellation policies of a room that
    charges nothing: the policies before it have a charge that is not
    zero. *)
Definition first_free_policy (room_data policy : pyval) : Prop :=
  exists cancel_policies before after,
    py_get room_data "CancelPolicies" (PyList []) = Ok cancel_policies
    /\ py_iter cancel_policies = Ok (before ++ policy :: after)%list
    /\ (forall p, In p before ->
                  exists c, py_get p "CancellationCharge" (PyFloat (Finite 100)) = Ok c
                            /\ py_eq_int c 0 = false)
    /\ (exists c, py_get policy "CancellationCharge" (PyFloat (Finite 100)) = Ok c
                  /\ py_eq_int c 0 = true).

(* ------------------------------------------------------------------ *)
(** ** The adapters: [prepare_meal_type_criteria]                       *)
(* ------------------------------------------------------------------ *)

(** [criteria.get("meal_types") or ([criteria.get("meal_type")] if
    criteria.get("meal_type") else [])] *)
Definition requested_meal_types (criteria : pydict pyval) : pyval :=
  let get k := match dict_get criteria k with Some v => v | None => PyNone end in
  if truthy (get "meal_types") then get "meal_types"
  else if truthy (get "meal_type") then PyList [get "meal_type"]
  else PyList [].

Module RateHawkRequest.

(** [RateHawkProvider.prepare_meal_type_criteria]: the dict returned is
    the argument itself, with one more key when meal types are asked
    for. *)
Definition prepare_meal_type_criteria (criteria : pydict pyval) : pydict pyval :=
  let meal_types := requested_meal_types criteria in
  if truthy meal_types then dict_set criteria "rate_hawk_meal_types" meal_types
  else criteria.

End RateHawkRequest.

Module GoGlobalRequest.
Section GoGlobalRequest.

(** [meal_mapping_service.provider_capabilities] *)
Variable provider_capabilities : pydict MealMapping.Capability.

(** [GoGlobalProvider.prepare_meal_type_criteria]: the dict returned is
    the argument itself, or a copy with [meal_type] set. *)
Definition prepare_meal_type_criteria (criteria : pydict pyval)
  : Res (pydict pyval) :=
  let meal_types := requested_meal_types criteria in
  if negb (truthy meal_types) then Ok criteria
  else
    res_bind (py_index0 meal_types) (fun meal_type =>
    match meal_type with
    | PyStr m =>
        if MealMapping.should_filter_at_request_level provider_capabilities "goglobal" m
        then
          res_bind (MealMapping.get_native_meal_code provider_capabilities "goglobal" m)
            (fun native_code =>
               match native_code with
               | Some code =>
                   if truthy (PyStr code)
                   then Ok (dict_set criteria "meal_type" (PyStr code))
                   else Ok criteria
               | None => Ok criteria
               end)
        else Ok criteria
    | _ => Ok criteria
    end).

End GoGlobalRequest.
End GoGlobalRequest.

(* ================================================================== *)
(** * Part II.  Properties                                              *)
(* ================================================================== *)

Local Open Scope Q_scope.

(** ** Arithmetic on the clock *)

Lemma Qle_bool_false (a b : Q) : Qle_bool a b = false <-> b < a.
Proof.
  split; intro H.
  - apply Qnot_le_lt. intro Hle. apply Qle_bool_iff in Hle. congruence.
  - destruct (Qle_bool a b) eqn:E; [|reflexivity].
    apply Qle_bool_iff in E. exfalso. apply (Qlt_not_le _ _ H E).
Qed.

Lemma Qeq_bool_false (a b : Q) : Qeq_bool a b = false <-> ~ a == b.
Proof.
  split; intro H.
  - intro E. apply Qeq_bool_iff in E. congruence.
  - destruct (Qeq_bool a b) eqn:E; [|reflexivity].
    apply Qeq_bool_iff in E. contradiction.
Qed.

(** ** The circuit breaker *)

Lemma float_int_finite (x : pyfloat) (seconds : Z) :
  float_int x = Ok seconds -> exists r, x = Finite r.
Proof. destruct x; try discriminate. eauto. Qed.

Lemma logged_spec {S} (message : Res string) (s : S) :
  logged message s
  = (match message with Ok _ => Return tt | Raise e => Throw (Exception e) end, s).
Proof. unfold logged, lift. destruct message; reflexivity. Qed.

Lemma window_elapsed_true (now t r : Q) (b : CircuitBreaker) :
  _last_failure_time b = Some t -> ~ t == 0 -> reset_timeout b = Finite r ->
  (CircuitBreaker.window_elapsed now b = true <-> r <= now - t).
Proof.
  intros Ht Hnz Hr. unfold CircuitBreaker.window_elapsed. rewrite Ht, Hr. simpl.
  apply Qeq_bool_false in Hnz. rewrite Hnz. simpl.
  apply Qle_bool_iff.
Qed.

Lemma window_elapsed_false (now t r : Q) (b : CircuitBreaker) :
  _last_failure_time b = Some t -> reset_timeout b = Finite r -> now - t < r ->
  CircuitBreaker.window_elapsed now b = false.
Proof.
  intros Ht Hr Hlt. unfold CircuitBreaker.window_elapsed. rewrite Ht, Hr. simpl.
  apply Qle_bool_false in Hlt. rewrite Hlt. apply andb_false_r.
Qed.

(** The window of a breaker whose [reset_timeout] is [inf] or [nan]
    never elapses. *)
Lemma window_never_elapses (now : Q) (b : CircuitBreaker) :
  reset_timeout b = PosInf \/ reset_timeout b = NaN ->
  CircuitBreaker.window_elapsed now b = false.
Proof.
  intros H. unfold CircuitBreaker.window_elapsed.
  destruct (_last_failure_time b); [|reflexivity].
  destruct H as [-> | ->]; apply andb_false_r.
Qed.

(** An elapsed window tells that [reset_timeout] is finite or [-inf]. *)
Lemma window_elapsed_reset (now : Q) (b : CircuitBreaker) :
  CircuitBreaker.window_elapsed now b = true ->
  reset_timeout b = NegInf \/ exists r, reset_timeout b = Finite r.
Proof.
  unfold CircuitBreaker.window_elapsed.
  destruct (_last_failure_time b); [|discriminate].
  destruct (reset_timeout b); simpl; rewrite ?andb_false_r; try discriminate; eauto.
Qed.

(** What [_update_state] leaves, and what it raises. *)
Lemma update_state_snd (now : Q) (b : CircuitBreaker) :
  snd (CircuitBreaker._update_state now b)
  = match _state b with
    | OPEN => if CircuitBreaker.window_elapsed now b
              then CircuitBreaker.set_state HALF_OPEN b else b
    | _ => b
    end.
Proof.
  unfold CircuitBreaker._update_state.
  destruct (_state b); try reflexivity.
  destruct (CircuitBreaker.window_elapsed now b); [|reflexivity].
  rewrite logged_spec. reflexivity.
Qed.

Lemma update_state_fst (now : Q) (b : CircuitBreaker) :
  fst (CircuitBreaker._update_state now b)
  = match _state b with
    | OPEN => if CircuitBreaker.window_elapsed now b
              then match float_int (reset_timeout b) with
                   | Ok _ => Return tt
                   | Raise e => Throw (Exception e)
                   end
              else Return tt
    | _ => Return tt
    end.
Proof.
  unfold CircuitBreaker._update_state.
  destruct (_state b); try reflexivity.
  destruct (CircuitBreaker.window_elapsed now b); [|reflexivity].
  rewrite logged_spec. unfold CircuitBreaker.half_open_message. simpl.
  destruct (float_int (reset_timeout b)); reflexivity.
Qed.

(** [_update_state] raises only on a breaker whose [reset_timeout] is
    [-inf], and leaves the parameters alone. *)
Lemma update_state_returns (now : Q) (b : CircuitBreaker) :
  reset_timeout b <> NegInf ->
  fst (CircuitBreaker._update_state now b) = Return tt.
Proof.
  intro Hr. rewrite update_state_fst.
  destruct (_state b); try reflexivity.
  destruct (CircuitBreaker.window_elapsed now b) eqn:E; [|reflexivity].
  destruct (window_elapsed_reset now b E) as [H | [r H]]; [contradiction|].
  rewrite H. reflexivity.
Qed.

Lemma update_state_throws (now : Q) (b : CircuitBreaker) (x : BaseException) :
  fst (CircuitBreaker._update_state now b) = Throw x -> reset_timeout b = NegInf.
Proof.
  intro H. destruct (reset_timeout b) eqn:Hr; try reflexivity;
    rewrite update_state_returns in H; try discriminate; congruence.
Qed.

Lemma update_state_parameters (now : Q) (b : CircuitBreaker) :
  let b' := snd (CircuitBreaker._update_state now b) in
  failure_threshold b' = failure_threshold b /\ timeout b' = timeout b
  /\ reset_timeout b' = reset_timeout b /\ name b' = name b
  /\ _failure_count b' = _failure_count b
  /\ _last_failure_time b' = _last_failure_time b.
Proof.
  cbv zeta. rewrite update_state_snd.
  destruct (_state b); auto 10.
  destruct (CircuitBreaker.window_elapsed now b); simpl; auto 10.
Qed.

Lemma state_fst (now : Q) (b : CircuitBreaker) :
  fst (CircuitBreaker.state now b)
  = match fst (CircuitBreaker._update_state now b) with
    | Return _ => Return (_state (snd (CircuitBreaker._update_state now b)))
    | Throw x => Throw x
    end.
Proof.
  unfold CircuitBreaker.state, bind.
  destruct (CircuitBreaker._update_state now b) as [[[]|x] b']; reflexivity.
Qed.

Lemma state_snd (now : Q) (b : CircuitBreaker) :
  snd (CircuitBreaker.state now b) = snd (CircuitBreaker._update_state now b).
Proof.
  unfold CircuitBreaker.state, bind.
  destruct (CircuitBreaker._update_state now b) as [[[]|x] b']; reflexivity.
Qed.

(** What [_on_failure] leaves, and what it raises. *)
Lemma on_failure_snd (now : Q) (b : CircuitBreaker) :
  snd (CircuitBreaker._on_failure now b)
  = let b1 := mkCircuitBreaker (failure_threshold b) (timeout b) (reset_timeout b)
                (name b) (_failure_count b + 1) (Some now) (_state b) in
    if (failure_threshold b <=? _failure_count b + 1)%Z
    then CircuitBreaker.set_state OPEN b1 else b1.
Proof.
  unfold CircuitBreaker._on_failure. simpl.
  destruct (failure_threshold b <=? _failure_count b + 1)%Z; [|reflexivity].
  rewrite logged_spec. reflexivity.
Qed.

Lemma on_failure_fst (now : Q) (b : CircuitBreaker) :
  fst (CircuitBreaker._on_failure now b)
  = if (failure_threshold b <=? _failure_count b + 1)%Z
    then match float_int (reset_timeout b) with
         | Ok _ => Return tt
         | Raise e => Throw (Exception e)
         end
    else Return tt.
Proof.
  unfold CircuitBreaker._on_failure. simpl.
  destruct (failure_threshold b <=? _failure_count b + 1)%Z; [|reflexivity].
  rewrite logged_spec. unfold CircuitBreaker.activated_message. simpl.
  destruct (float_int (reset_timeout b)); reflexivity.
Qed.

Lemma on_failure_count (now : Q) (b : CircuitBreaker) :
  _failure_count (snd (CircuitBreaker._on_failure now b)) = (_failure_count b + 1)%Z
  /\ _last_failure_time (snd (CircuitBreaker._on_failure now b)) = Some now
  /\ failure_threshold (snd (CircuitBreaker._on_failure now b)) = failure_threshold b
  /\ reset_timeout (snd (CircuitBreaker._on_failure now b)) = reset_timeout b.
Proof.
  rewrite on_failure_snd. simpl.
  destruct (failure_threshold b <=? _failure_count b + 1)%Z; simpl; auto.
Qed.

Lemma on_failure_state (now : Q) (b : CircuitBreaker) :
  _state (snd (CircuitBreaker._on_failure now b)) =
  if (failure_threshold b <=? _failure_count b + 1)%Z then OPEN else _state b.
Proof.
  rewrite on_failure_snd. simpl.
  destruct (failure_threshold b <=? _failure_count b + 1)%Z; reflexivity.
Qed.

(** With a finite [reset_timeout], [_on_failure] returns. *)
Lemma on_failure_returns (now : Q) (b : CircuitBreaker) :
  finite_reset b -> fst (CircuitBreaker._on_failure now b) = Return tt.
Proof.
  intros [r Hr]. rewrite on_failure_fst, Hr.
  destruct (failure_threshold b <=? _failure_count b + 1)%Z; reflexivity.
Qed.

Lemma on_success_count (b : CircuitBreaker) :
  _failure_count (CircuitBreaker._on_success b) = 0%Z.
Proof.
  unfold CircuitBreaker._on_success. simpl. destruct (_state b); reflexivity.
Qed.

Lemma on_success_state (b : CircuitBreaker) :
  _state (CircuitBreaker._on_success b) =
  match _state b with HALF_OPEN => CLOSED | s => s end.
Proof.
  unfold CircuitBreaker._on_success. simpl. destruct (_state b); reflexivity.
Qed.

Lemma on_success_reset_timeout (b : CircuitBreaker) :
  reset_timeout (CircuitBreaker._on_success b) = reset_timeout b.
Proof.
  unfold CircuitBreaker._on_success. simpl. destruct (_state b); reflexivity.
Qed.

(** A method run on the breaker of a task. *)
Lemma on_breaker_some (method : Q -> ST CircuitBreaker unit) (w : World)
      (b : CircuitBreaker) :
  w_cb w = Some b ->
  on_breaker method w
  = (fst (method (w_now w) b),
     mkWorld (w_now w) (w_deadline w) (w_cancelled w) (Some (snd (method (w_now w) b)))
             (w_script w) (w_pos w) (w_log w)).
Proof.
  intro Hcb. unfold on_breaker. rewrite Hcb.
  destruct (method (w_now w) b). reflexivity.
Qed.

(** A breaker that is open and whose window has not elapsed does not run
    the wrapped function, and leaves the world as it was: the call raises
    [CircuitBreakerOpenError] when [int(reset_timeout)] can be printed,
    and what [int] raises otherwise. *)
Lemma call_when_open (A : Type) (func : M A) (w : World) (b : CircuitBreaker) :
  w_cb w = Some b -> _state b = OPEN ->
  CircuitBreaker.window_elapsed (w_now w) b = false ->
  CircuitBreaker.call func w =
  (Throw (Exception match CircuitBreaker.open_message b with
                    | Ok message => Exn CircuitBreakerOpenError message
                    | Raise e => e
                    end), w).
Proof.
  intros Hcb Hst Hw.
  assert (Hsnd : snd (CircuitBreaker._update_state (w_now w) b) = b).
  { rewrite update_state_snd, Hst, Hw. reflexivity. }
  assert (Hfst : fst (CircuitBreaker._update_state (w_now w) b) = Return tt).
  { rewrite update_state_fst, Hst, Hw. reflexivity. }
  unfold CircuitBreaker.call, bind.
  rewrite (on_breaker_some _ w b Hcb), Hfst, Hsnd.
  unfold the_breaker. cbn [w_cb]. rewrite Hst. cbn [CircuitState_eqb].
  unfold lift, raise, throw.
  assert (Hw' : mkWorld (w_now w) (w_deadline w) (w_cancelled w) (Some b)
                        (w_script w) (w_pos w) (w_log w) = w).
  { destruct w; simpl in *. subst. reflexivity. }
  rewrite Hw'. destruct (CircuitBreaker.open_message b); reflexivity.
Qed.

Lemma open_message_finite (b : CircuitBreaker) :
  finite_reset b -> exists message, CircuitBreaker.open_message b = Ok message.
Proof.
  intros [r Hr]. unfold CircuitBreaker.open_message. rewrite Hr. simpl. eauto.
Qed.

Lemma call_rejected_when_open (A : Type) (func : M A) (w : World)
      (b : CircuitBreaker) (t r : Q) :
  w_cb w = Some b -> _state b = OPEN ->
  _last_failure_time b = Some t -> reset_timeout b = Finite r -> w_now w - t < r ->
  exists message,
    CircuitBreaker.open_message b = Ok message
    /\ CircuitBreaker.call func w =
       (Throw (Exception (Exn CircuitBreakerOpenError message)), w).
Proof.
  intros Hcb Hst Ht Hr Hlt.
  destruct (open_message_finite b (ex_intro _ r Hr)) as [message Hm].
  exists message. split; [exact Hm|].
  rewrite (call_when_open A func w b Hcb Hst (window_elapsed_false _ _ _ _ Ht Hr Hlt)).
  rewrite Hm. reflexivity.
Qed.

Lemma record_failures_app (l1 l2 : list Q) (b : CircuitBreaker) :
  record_failures (l1 ++ l2) b = record_failures l2 (record_failures l1 b).
Proof. unfold record_failures. apply fold_left_app. Qed.

(** After [n] failures in a row a closed breaker with a zero counter has
    counted [n], and it is open exactly when [n] has reached the threshold. *)
Lemma record_failures_fresh (times : list Q) (b : CircuitBreaker) :
  _state b = CLOSED -> _failure_count b = 0%Z ->
  let b' := record_failures times b in
  _failure_count b' = Z.of_nat (length times)
  /\ failure_threshold b' = failure_threshold b
  /\ _state b' = if (Z.of_nat (length times) <? failure_threshold b)%Z
                 then CLOSED
                 else match times with [] => CLOSED | _ => OPEN end.
Proof.
  intros Hst Hc. cbn zeta. induction times as [|t times IH] using rev_ind.
  - simpl. rewrite Hc, Hst. destruct (0 <? failure_threshold b)%Z; auto.
  - rewrite record_failures_app. destruct IH as (IHc & IHt & IHs).
    change (record_failures [t] (record_failures times b))
      with (snd (CircuitBreaker._on_failure t (record_failures times b))).
    destruct (on_failure_count t (record_failures times b)) as (H1 & _ & H3 & _).
    rewrite H1, H3, IHc, IHt, on_failure_state, IHc, IHt.
    rewrite length_app. simpl length.
    replace (Z.of_nat (length times + 1)) with (Z.of_nat (length times) + 1)%Z by lia.
    repeat split.
    destruct (failure_threshold b <=? Z.of_nat (length times) + 1)%Z eqn:E1;
      destruct (Z.of_nat (length times) + 1 <? failure_threshold b)%Z eqn:E2;
      try (apply Z.leb_le in E1); try (apply Z.leb_gt in E1);
      try (apply Z.ltb_lt in E2); try (apply Z.ltb_ge in E2); try lia.
    + destruct (times ++ [t])%list eqn:E; [destruct times; discriminate|reflexivity].
    + rewrite IHs.
      destruct (Z.of_nat (length times) <? failure_threshold b)%Z eqn:E3;
        [reflexivity|apply Z.ltb_ge in E3; lia].
Qed.

(** Where the code does what C3 says: the breakers whose [reset_timeout]
    is finite.  When a failure recorded on a closed breaker brings the
    counter of consecutive failures to [failure_threshold], the breaker is
    open; the attempt that follows before [reset_timeout] has elapsed is
    rejected with [CircuitBreakerOpenError] and the wrapped call is not run
    (the world, and so the log of requests sent, is untouched); with a
    positive [reset_timeout] this covers the attempt made at the very
    instant of the failure.  A success recorded on a closed breaker sets
    the counter to zero and leaves it closed.  Counted from a fresh
    breaker: it stays closed below [failure_threshold] failures in a row
    and is open from the [failure_threshold]-th on. *)
Lemma threshold_opens_and_rejects (b : CircuitBreaker) (now seconds : Q) :
  _state b = CLOSED ->
  (failure_threshold b <= _failure_count b + 1)%Z ->
  reset_timeout b = Finite seconds ->
  let b' := snd (CircuitBreaker._on_failure now b) in
  fst (CircuitBreaker._on_failure now b) = Return tt
  /\ _state b' = OPEN
  /\ (exists message,
         CircuitBreaker.open_message b' = Ok message
         /\ (forall (A : Type) (func : M A) (w : World),
                w_cb w = Some b' -> w_now w - now < seconds ->
                CircuitBreaker.call func w =
                (Throw (Exception (Exn CircuitBreakerOpenError message)), w))
         /\ (forall (A : Type) (func : M A) (w : World),
                w_cb w = Some b' -> w_now w = now -> 0 < seconds ->
                CircuitBreaker.call func w =
                (Throw (Exception (Exn CircuitBreakerOpenError message)), w)))
  /\ (forall c : CircuitBreaker,
         _state c = CLOSED ->
         _failure_count (CircuitBreaker._on_success c) = 0%Z
         /\ _state (CircuitBreaker._on_success c) = CLOSED)
  /\ (forall (c : CircuitBreaker) (times : list Q),
         _state c = CLOSED -> _failure_count c = 0%Z ->
         (0 < failure_threshold c)%Z ->
         _state (record_failures times c) =
         if (Z.of_nat (length times) <? failure_threshold c)%Z then CLOSED else OPEN).
Proof.
  intros Hst Hth Hfin b'.
  assert (Hopen : _state b' = OPEN).
  { unfold b'. rewrite on_failure_state.
    apply Z.leb_le in Hth. rewrite Hth. reflexivity. }
  destruct (on_failure_count now b) as (_ & Hlast & _ & Hreset).
  fold b' in Hlast, Hreset. rewrite Hfin in Hreset.
  split; [apply on_failure_returns; exists seconds; exact Hfin|].
  split; [exact Hopen|].
  split.
  { destruct (open_message_finite b' (ex_intro _ seconds Hreset)) as [message Hm].
    exists message. split; [exact Hm|]. split.
    - intros A func w Hcb Hlt.
      destruct (call_rejected_when_open A func w b' now seconds Hcb Hopen Hlast Hreset Hlt)
        as (m' & Hm' & Hcall).
      rewrite Hcall. congruence.
    - intros A func w Hcb Hnow Hpos.
      destruct (call_rejected_when_open A func w b' now seconds Hcb Hopen Hlast Hreset)
        as (m' & Hm' & Hcall); [rewrite Hnow; lra|].
      rewrite Hcall. congruence. }
  split.
  { intros c Hc. rewrite on_success_count, on_success_state, Hc. auto. }
  intros c times Hc H0 Hpos.
  destruct (record_failures_fresh times c Hc H0) as (_ & _ & Hs).
  rewrite Hs.
  destruct (Z.of_nat (length times) <? failure_threshold c)%Z eqn:E; [reflexivity|].
  destruct times; [|reflexivity].
  simpl in E. apply Z.ltb_ge in E. lia.
Qed.

(** The instance for a breaker with the thresholds of [config.py] that
    has counted two failures. *)
Lemma threshold_opens_and_rejects_config :
  let b := mkCircuitBreaker (IsInt 3) (Finite 30) (Finite 60) "cb_tbo" 2 (Some 100)
             CLOSED in
  _state b = CLOSED
  /\ (failure_threshold b <= _failure_count b + 1)%Z
  /\ reset_timeout b = Finite 60
  /\ _state (snd (CircuitBreaker._on_failure 101 b)) = OPEN.
Proof.
  intro b.
  assert (H1 : _state b = CLOSED) by reflexivity.
  assert (H2 : (failure_threshold b <= _failure_count b + 1)%Z) by (vm_compute; discriminate).
  assert (H3 : reset_timeout b = Finite 60) by reflexivity.
  split; [exact H1|]. split; [exact H2|]. split; [exact H3|].
  exact (proj1 (proj2 (threshold_opens_and_rejects b 101 60 H1 H2 H3))).
Defined.

(** C3 at the input that breaks it.  A breaker constructed with the
    values of [config.py] but a [reset_timeout] of [float('inf')], which
    [__init__] accepts as a positive number.  The third failure in a row
    opens it, and [_on_failure] itself raises [OverflowError], from the
    [int(self.reset_timeout)] of its log line.  The attempt that follows,
    at whatever instant, does not run the wrapped call and leaves the
    world untouched, but what [call] raises is again that [OverflowError],
    from the message it was building, and not [CircuitBreakerOpenError]. *)
Theorem C3_unbounded_reset_timeout_raises_OverflowError :
  let b0 := mkCircuitBreaker (IsInt 3) (Finite 30) PosInf "cb_tbo" 0 None CLOSED in
  let overflow := Exn OtherException "cannot convert float infinity to integer" in
  let b := record_failures [1001; 1002; 1003] b0 in
  CircuitBreaker.__init__ (PyInt 3) (PyFloat (Finite 30)) (PyFloat PosInf)
    (PyStr "cb_tbo") = Ok b0
  /\ _state (record_failures [1001; 1002] b0) = CLOSED
  /\ CircuitBreaker._on_failure 1003 (record_failures [1001; 1002] b0)
     = (Throw (Exception overflow), b)
  /\ _state b = OPEN
  /\ _failure_count b = 3%Z
  /\ (forall (A : Type) (func : M A) (w : World),
         w_cb w = Some b ->
         CircuitBreaker.call func w = (Throw (Exception overflow), w))
  /\ class_of overflow <> CircuitBreakerOpenError.
Proof.
  intros b0 overflow b.
  split; [reflexivity|]. split; [reflexivity|]. split; [reflexivity|].
  split; [reflexivity|]. split; [reflexivity|]. split; [|discriminate].
  intros A func w Hcb.
  rewrite (call_when_open A func w b Hcb eq_refl).
  - reflexivity.
  - apply window_never_elapses. left. reflexivity.
Qed.

(** C4 at the input that breaks it: a failed trial call does not send a
    half-open breaker back to open.  A call is admitted while the breaker
    of [config.py] is closed; while it awaits its supplier, three other
    calls that had been admitted before fail and open the breaker; the
    call then succeeds, and [_on_success] sets the counter to zero and
    leaves the breaker open.  Sixty-one seconds later the breaker is read
    as half-open and the trial call fails: [_on_failure], which compares
    the counter with the threshold and has no case for the half-open
    state, leaves the breaker half-open with a counter of one. *)
Theorem C4_failed_trial_stays_half_open :
  let b0 := mkCircuitBreaker (IsInt 3) (Finite 30) (Finite 60) "cb_tbo" 0 None CLOSED in
  let others := record_failures [1001; 1002; 1003] in
  let script (n : nat) :=
    match n with
    | 0%nat => mkStep 4 (Ok (PyDict [])) others
    | 1%nat => mkStep 0 (Ok PyNone) (fun b => b)
    | _ => mkStep 1 (Raise (Exn TimeoutError "")) (fun b => b)
    end in
  let w := mkWorld 1000 None false (Some b0) script 0 [] in
  CircuitBreaker.__init__ CIRCUIT_BREAKER_FAILURE_THRESHOLD CIRCUIT_BREAKER_TIMEOUT
    CIRCUIT_BREAKER_RESET_TIMEOUT (PyStr "cb_tbo") = Ok b0
  /\ _state (others b0) = OPEN
  /\ fst (call_pause_trial "tbo" 61 w) = Return (HALF_OPEN, HALF_OPEN, 1%Z).
Proof. vm_compute. repeat split. Qed.

(** X21.  The half-open cycle where the code has it.  An open breaker whose
    last failure, at a non-zero clock reading [t], is [reset_timeout] or
    more in the past is read as half-open (the check is made by the read
    itself, there is no timer).  A success recorded in that state closes
    the breaker with a counter of exactly zero.  A failure recorded in
    that state at [now'] sends the breaker back to open when the counter,
    with this failure, is at least [failure_threshold]; the breaker then
    stays open for reads less than [reset_timeout] after [now'] and is
    half-open again for reads [reset_timeout] or more after [now'].  The
    [reset_timeout] is a finite number of seconds. *)
Lemma half_open_cycle (b : CircuitBreaker) (t now seconds : Q) :
  _state b = OPEN ->
  _last_failure_time b = Some t ->
  ~ t == 0 ->
  reset_timeout b = Finite seconds ->
  seconds <= now - t ->
  let h := snd (CircuitBreaker.state now b) in
  fst (CircuitBreaker.state now b) = Return HALF_OPEN
  /\ _state h = HALF_OPEN
  /\ _state (CircuitBreaker._on_success h) = CLOSED
  /\ _failure_count (CircuitBreaker._on_success h) = 0%Z
  /\ (forall now' : Q,
         (failure_threshold b <= _failure_count b + 1)%Z ->
         let o := snd (CircuitBreaker._on_failure now' h) in
         fst (CircuitBreaker._on_failure now' h) = Return tt
         /\ _state o = OPEN
         /\ _last_failure_time o = Some now'
         /\ (forall later : Q,
                later - now' < seconds ->
                fst (CircuitBreaker.state later o) = Return OPEN)
         /\ (forall later : Q,
                ~ now' == 0 -> seconds <= later - now' ->
                fst (CircuitBreaker.state later o) = Return HALF_OPEN)).
Proof.
  intros Hst Ht Hnz Hfin Hel h.
  assert (Hh : h = CircuitBreaker.set_state HALF_OPEN b).
  { unfold h. rewrite state_snd, update_state_snd, Hst.
    apply (window_elapsed_true now t seconds b Ht Hnz Hfin) in Hel.
    rewrite Hel. reflexivity. }
  assert (Hret : forall (later : Q) (c : CircuitBreaker),
             reset_timeout c = Finite seconds ->
             fst (CircuitBreaker.state later c)
             = Return (_state (snd (CircuitBreaker._update_state later c)))).
  { intros later c Hc. rewrite state_fst, update_state_returns; [reflexivity|].
    rewrite Hc. discriminate. }
  rewrite (Hret now b Hfin).
  assert (Hsnd : snd (CircuitBreaker._update_state now b) = h).
  { unfold h. symmetry. apply state_snd. }
  rewrite Hsnd, Hh.
  split; [reflexivity|]. split; [reflexivity|].
  split; [rewrite on_success_state; reflexivity|].
  split; [apply on_success_count|].
  intros now' Hth o.
  destruct (on_failure_count now' (CircuitBreaker.set_state HALF_OPEN b))
    as (_ & Hlast & _ & Hreset).
  fold o in Hlast, Hreset. simpl in Hreset. rewrite Hfin in Hreset.
  assert (Hopen : _state o = OPEN).
  { unfold o. rewrite on_failure_state. simpl.
    apply Z.leb_le in Hth. rewrite Hth. reflexivity. }
  split; [apply on_failure_returns; exists seconds; exact Hfin|].
  split; [exact Hopen|]. split; [exact Hlast|]. split.
  - intros later Hlt. rewrite (Hret later o Hreset), update_state_snd, Hopen.
    rewrite (window_elapsed_false later now' seconds o Hlast Hreset Hlt), Hopen.
    reflexivity.
  - intros later Hnz' Hge. rewrite (Hret later o Hreset), update_state_snd, Hopen.
    assert (E : CircuitBreaker.window_elapsed later o = true).
    { apply (window_elapsed_true later now' seconds o Hlast Hnz' Hreset). exact Hge. }
    rewrite E. reflexivity.
Qed.

(** The cycle for a breaker of [config.py] opened by three failures,
    read sixty seconds after the last one. *)
Lemma half_open_cycle_config :
  let b := mkCircuitBreaker (IsInt 3) (Finite 30) (Finite 60) "cb_tbo" 3 (Some 1003)
             OPEN in
  _state b = OPEN
  /\ _last_failure_time b = Some 1003
  /\ ~ 1003 == 0
  /\ reset_timeout b = Finite 60
  /\ 60 <= 1063 - 1003
  /\ fst (CircuitBreaker.state 1063 b) = Return HALF_OPEN.
Proof.
  intro b.
  assert (H1 : _state b = OPEN) by reflexivity.
  assert (H2 : _last_failure_time b = Some 1003) by reflexivity.
  assert (H3 : ~ 1003 == 0) by (intro E; vm_compute in E; discriminate).
  assert (H4 : reset_timeout b = Finite 60) by reflexivity.
  assert (H5 : 60 <= 1063 - 1003) by (vm_compute; discriminate).
  repeat (split; [assumption|]).
  exact (proj1 (half_open_cycle b 1003 1063 60 H1 H2 H3 H4 H5)).
Defined.

(** ** Construction of a breaker *)

(** What [__init__] checks, one test after the other. *)
Lemma init_ok_iff (ft t r nm : pyval) (b : CircuitBreaker) :
  CircuitBreaker.__init__ ft t r nm = Ok b <->
  CircuitBreaker.isinstance_int ft = true
  /\ (CircuitBreaker.int_of ft <=? 0)%Z = false
  /\ CircuitBreaker.isinstance_int_float t = true
  /\ float_leb (CircuitBreaker.number_of t) (Finite 0) = false
  /\ CircuitBreaker.isinstance_int_float r = true
  /\ float_leb (CircuitBreaker.number_of r) (Finite 0) = false
  /\ exists s, nm = PyStr s /\ truthy (PyStr (strip s)) = true
               /\ b = mkCircuitBreaker (CircuitBreaker.as_int ft)
                        (CircuitBreaker.number_of t) (CircuitBreaker.number_of r)
                        (strip s) 0 None CLOSED.
Proof.
  unfold CircuitBreaker.__init__.
  destruct (CircuitBreaker.isinstance_int ft) eqn:E1;
  destruct (CircuitBreaker.int_of ft <=? 0)%Z eqn:E2;
  destruct (CircuitBreaker.isinstance_int_float t) eqn:E3;
  destruct (float_leb (CircuitBreaker.number_of t) (Finite 0)) eqn:E4;
  destruct (CircuitBreaker.isinstance_int_float r) eqn:E5;
  destruct (float_leb (CircuitBreaker.number_of r) (Finite 0)) eqn:E6;
  cbn [negb orb];
  try (split; [discriminate | intros (? & ? & ? & ? & ? & ? & ?); discriminate]).
  destruct nm as [ | | | | s | | | ];
    try (split; [discriminate
                | intros (_ & _ & _ & _ & _ & _ & s' & Hs & _); discriminate]).
  destruct (truthy (PyStr (strip s))) eqn:E7; cbn [negb].
  - split.
    + intro H. injection H as <-. repeat (split; [reflexivity|]).
      exists s. auto.
    + intros (_ & _ & _ & _ & _ & _ & s' & Hs & _ & ->).
      injection Hs as <-. reflexivity.
  - split; [discriminate|].
    intros (_ & _ & _ & _ & _ & _ & s' & Hs & Ht & _).
    injection Hs as <-. congruence.
Qed.





(** A time-out of [float('nan')] is accepted, though it is not a positive
    number: the test [timeout <= 0] does not hold for it.  So is [True]
    for the threshold, which is kept as it is. *)
Example nan_timeout_accepted :
  ~ positive_number (PyFloat NaN)
  /\ ~ nonpositive_number (PyFloat NaN)
  /\ CircuitBreaker.__init__ (PyBool true) (PyFloat NaN) (PyFloat NaN) (PyStr "cb_tbo")
     = Ok (mkCircuitBreaker (IsBool true) NaN NaN "cb_tbo" 0 None CLOSED).
Proof.
  unfold positive_number, nonpositive_number.
  split; [intros [_ H]; discriminate|]. split; [intros [_ H]; discriminate|].
  reflexivity.
Qed.



(** ** The world of a task: what the primitives change *)

Lemma evolves_refl (w : World) : evolves w w [].
Proof. unfold evolves. rewrite app_nil_r. repeat split; auto. Qed.

Lemma evolves_trans (w w1 w2 : World) (l1 l2 : list Event) :
  evolves w w1 l1 -> evolves w1 w2 l2 -> evolves w w2 (l1 ++ l2).
Proof.
  unfold evolves. intros (Hd1 & Hc1 & Hl1) (Hd2 & Hc2 & Hl2).
  repeat split.
  - congruence.
  - intro H. apply Hc1, Hc2, H.
  - intro H. apply Hc2, Hc1, H.
  - rewrite Hl2, Hl1. symmetry. apply app_assoc.
Qed.

Lemma cancel_ok_trans {A B} (a : A) (res : Completion B) (w w1 w2 : World) :
  w_deadline w1 = w_deadline w ->
  cancel_ok (Return a) w w1 -> cancel_ok res w1 w2 -> cancel_ok res w w2.
Proof.
  unfold cancel_ok. intros Hd H1 H2.
  destruct res as [b|[e|]]; intuition congruence.
Qed.

Lemma option_map_None {A B} (f : A -> B) (o : option A) :
  option_map f o = None <-> o = None.
Proof. destruct o; simpl; split; congruence. Qed.

Lemma on_breaker_spec (method : Q -> ST CircuitBreaker unit) (w : World) :
  exists res w',
    on_breaker method w = (res, w')
    /\ evolves w w' [] /\ w_cancelled w' = w_cancelled w
    /\ w_now w' = w_now w /\ w_pos w' = w_pos w
    /\ w_script w' = w_script w
    /\ w_cb w' = option_map (fun b => snd (method (w_now w) b)) (w_cb w)
    /\ res = match w_cb w with
             | Some b => fst (method (w_now w) b)
             | None => Return tt
             end.
Proof.
  unfold on_breaker, evolves. destruct (w_cb w) as [b|] eqn:Hcb; cbn [option_map].
  - destruct (method (w_now w) b) as [res b']. do 2 eexists.
    split; [reflexivity|]. simpl.
    rewrite app_nil_r. repeat split; auto; intro; discriminate.
  - do 2 eexists. split; [reflexivity|].
    rewrite app_nil_r. repeat split; auto.
Qed.

(** The three methods that a task runs on its breaker are not cancelled. *)
Lemma update_state_not_cancelled (now : Q) (b : CircuitBreaker) :
  fst (CircuitBreaker._update_state now b) <> Throw CancelledError.
Proof.
  rewrite update_state_fst.
  destruct (_state b); try discriminate.
  destruct (CircuitBreaker.window_elapsed now b); [|discriminate].
  destruct (float_int (reset_timeout b)); discriminate.
Qed.

Lemma on_failure_not_cancelled (now : Q) (b : CircuitBreaker) :
  fst (CircuitBreaker._on_failure now b) <> Throw CancelledError.
Proof.
  rewrite on_failure_fst.
  destruct (failure_threshold b <=? _failure_count b + 1)%Z; [|discriminate].
  destruct (float_int (reset_timeout b)); discriminate.
Qed.

Lemma emit_spec (ev : Event) (w : World) :
  exists w', emit ev w = (Return tt, w')
             /\ evolves w w' [ev] /\ w_cancelled w' = w_cancelled w.
Proof.
  eexists. split; [reflexivity|]. unfold evolves. simpl. repeat split; auto.
Qed.

Lemma suspend_spec (min_wait : Q) (w : World) :
  exists res w', suspend min_wait w = (res, w')
                 /\ evolves w w' [] /\ cancel_ok res w w'
                 /\ match res with Throw (Exception _) => False | _ => True end.
Proof.
  unfold suspend.
  destruct (w_deadline w) as [d|] eqn:Hd.
  - destruct (Qle_bool d _); do 2 eexists; (split; [reflexivity|]);
      unfold evolves, cancel_ok; simpl; rewrite app_nil_r;
      repeat split; auto; try apply option_map_None; congruence.
  - do 2 eexists. split; [reflexivity|].
    unfold evolves, cancel_ok; simpl; rewrite app_nil_r.
    repeat split; auto; apply option_map_None.
Qed.

Lemma asyncio_sleep_spec (delay : Q) (w : World) :
  exists res w', asyncio_sleep delay w = (res, w')
                 /\ evolves w w' [Sleep delay] /\ cancel_ok res w w'
                 /\ match res with Throw (Exception _) => False | _ => True end.
Proof.
  unfold asyncio_sleep, bind.
  destruct (emit_spec (Sleep delay) w) as (w1 & -> & Hev1 & Hc1).
  destruct (suspend_spec delay w1) as (res & w2 & -> & Hev2 & Hc2 & Hres).
  destruct res as [a|[e|]]; [|contradiction|]; do 2 eexists;
    (split; [reflexivity|]); (split; [apply (evolves_trans _ _ _ [Sleep delay] [] Hev1 Hev2)|]).
  - split; [|exact I]. apply (cancel_ok_trans tt (Return tt) w w1 w2); auto.
    apply Hev1.
  - split; [|exact I].
    apply (cancel_ok_trans tt (@Throw unit CancelledError) w w1 w2); auto.
    apply Hev1.
Qed.

Lemma adapter_search_spec (provider_name : string) (w : World) :
  exists res w', adapter_search provider_name w = (res, w')
                 /\ evolves w w' [NetCall provider_name] /\ cancel_ok res w w'.
Proof.
  unfold adapter_search, bind.
  destruct (emit_spec (NetCall provider_name) w) as (w1 & -> & Hev1 & Hc1).
  destruct (suspend_spec 0 w1) as (res & w2 & -> & Hev2 & Hc2 & Hres).
  pose proof (evolves_trans _ _ _ [NetCall provider_name] [] Hev1 Hev2) as Hev.
  destruct res as [r|[e|]]; [|contradiction|].
  - unfold lift. destruct r as [raw|e]; do 2 eexists;
      (split; [reflexivity|]); (split; [exact Hev|]).
    + apply (cancel_ok_trans tt (Return raw) w w1 w2); auto. apply Hev1.
    + unfold cancel_ok in *. congruence.
  - do 2 eexists. split; [reflexivity|]. split; [exact Hev|].
    apply (cancel_ok_trans tt (@Throw pyval CancelledError) w w1 w2); auto.
    apply Hev1.
Qed.

(** ** Code that does not await *)

Lemma quiet_ret {A} (a : A) : quiet (ret a : M A).
Proof.
  intro w. do 2 eexists. split; [reflexivity|].
  split; [apply evolves_refl|]. repeat split; auto. discriminate.
Qed.

Lemma quiet_lift {A} (r : Res A) : quiet (lift r : M A).
Proof.
  intro w. do 2 eexists. split; [reflexivity|].
  split; [apply evolves_refl|]. repeat split; auto. destruct r; discriminate.
Qed.

Lemma quiet_raise {A} (e : exn) : quiet (raise e : M A).
Proof.
  intro w. do 2 eexists. split; [reflexivity|].
  split; [apply evolves_refl|]. repeat split; auto. discriminate.
Qed.

Lemma quiet_time_time : quiet time_time.
Proof.
  intro w. do 2 eexists. split; [reflexivity|].
  split; [apply evolves_refl|]. repeat split; auto. discriminate.
Qed.

Lemma quiet_on_breaker (method : Q -> ST CircuitBreaker unit) :
  (forall now b, fst (method now b) <> Throw CancelledError) ->
  quiet (on_breaker method).
Proof.
  intros Hm w.
  destruct (on_breaker_spec method w) as (res & w' & -> & Hev & Hc & Hn & Hp & _ & _ & Hres).
  do 2 eexists. split; [reflexivity|]. repeat split; auto; try apply Hev.
  rewrite Hres. destruct (w_cb w); [apply Hm|discriminate].
Qed.

Lemma quiet_the_breaker : quiet the_breaker.
Proof.
  intro w. unfold the_breaker. destruct (w_cb w); do 2 eexists;
    (split; [reflexivity|]); (split; [apply evolves_refl|]);
    repeat split; auto; discriminate.
Qed.

Lemma quiet_bind {A B} (m : M A) (k : A -> M B) :
  quiet m -> (forall a, quiet (k a)) -> quiet (bind m k).
Proof.
  intros Hm Hk w. unfold bind.
  destruct (Hm w) as (res & w1 & -> & Hev1 & Hc1 & Hp1 & Hn1 & Hres1).
  destruct res as [a|b].
  - destruct (Hk a w1) as (res2 & w2 & -> & Hev2 & Hc2 & Hp2 & Hn2 & Hres2).
    do 2 eexists. split; [reflexivity|].
    split; [apply (evolves_trans _ _ _ [] [] Hev1 Hev2)|].
    repeat split; congruence.
  - do 2 eexists. split; [reflexivity|]. split; [exact Hev1|].
    repeat split; auto. congruence.
Qed.

Lemma quiet_read_state : quiet CircuitBreaker.read_state.
Proof.
  unfold CircuitBreaker.read_state.
  apply quiet_bind; [apply quiet_on_breaker, update_state_not_cancelled|]. intros _.
  apply quiet_bind; [apply quiet_the_breaker|]. intro. apply quiet_ret.
Qed.

Lemma quiet_breaker_state_value (circuit_breaker : option CircuitBreaker) :
  quiet (breaker_state_value circuit_breaker).
Proof.
  destruct circuit_breaker; simpl; [|apply quiet_ret].
  apply quiet_bind; [apply quiet_read_state|]. intro. apply quiet_ret.
Qed.

Lemma returns_only_ret {A} (P : A -> Prop) (a : A) :
  P a -> returns_only P (ret a : M A).
Proof. intros H w a' w' E. injection E as <- _. exact H. Qed.

Lemma returns_only_bind {A B} (P : B -> Prop) (m : M A) (k : A -> M B) :
  (forall a, returns_only P (k a)) -> returns_only P (bind m k).
Proof.
  intros Hk w b w' E. unfold bind in E.
  destruct (m w) as [[a|x] w1]; [|discriminate].
  exact (Hk a w1 b w' E).
Qed.

(** ** One attempt of [search_single] *)

(** A call through the breaker for a supplier request sends at most one
    request, and is cancelled only at the deadline. *)
Lemma call_search_spec (provider_name : string) (w : World) :
  exists res w' sent,
    CircuitBreaker.call (adapter_search provider_name) w = (res, w')
    /\ evolves w w' sent
    /\ (sent = [] \/ sent = [NetCall provider_name])
    /\ cancel_ok res w w'.
Proof.
  unfold CircuitBreaker.call, bind.
  destruct (on_breaker_spec CircuitBreaker._update_state w)
    as (res1 & w1 & -> & Hev1 & Hc1 & _ & _ & _ & _ & Hres1).
  assert (Hnc1 : res1 <> Throw CancelledError).
  { rewrite Hres1. destruct (w_cb w); [apply update_state_not_cancelled|discriminate]. }
  destruct res1 as [[]|x].
  2: { exists (Throw x), w1, []. split; [reflexivity|]. split; [exact Hev1|].
       split; [left; reflexivity|].
       unfold cancel_ok. destruct x as [e|]; [exact Hc1|congruence]. }
  unfold the_breaker. destruct (w_cb w1) as [b|] eqn:Hb.
  2: { exists (Throw (Exception (Exn AttributeError "'NoneType' object has no attribute"))), w1, [].
       repeat split; auto; apply Hev1. }
  destruct (CircuitState_eqb (_state b) OPEN).
  { unfold lift, raise, throw.
    destruct (CircuitBreaker.open_message b); do 2 eexists; exists [];
      (split; [reflexivity|]); repeat split; auto; apply Hev1. }
  unfold try_except, bind.
  destruct (adapter_search_spec provider_name w1) as (res & w2 & -> & Hev2 & Hc2).
  pose proof (evolves_trans _ _ _ [] _ Hev1 Hev2) as Hev12. simpl in Hev12.
  assert (Hd1 : w_deadline w1 = w_deadline w) by apply Hev1.
  destruct res as [raw|[e|]].
  - destruct (on_breaker_spec (fun _ => CircuitBreaker.returning CircuitBreaker._on_success) w2)
      as (res3 & w3 & -> & Hev3 & Hc3 & _ & _ & _ & _ & Hres3).
    assert (Hr3 : res3 = Return tt) by (rewrite Hres3; destruct (w_cb w2); reflexivity).
    clear Hres3. subst res3.
    do 2 eexists. exists [NetCall provider_name]. split; [reflexivity|].
    pose proof (evolves_trans _ _ _ _ [] Hev12 Hev3) as Hev. simpl in Hev.
    repeat split; auto; try apply Hev.
    unfold cancel_ok in *. congruence.
  - destruct (on_breaker_spec CircuitBreaker._on_failure w2)
      as (res3 & w3 & -> & Hev3 & Hc3 & _ & _ & _ & _ & Hres3).
    assert (Hnc3 : res3 <> Throw CancelledError).
    { rewrite Hres3. destruct (w_cb w2); [apply on_failure_not_cancelled|discriminate]. }
    pose proof (evolves_trans _ _ _ _ [] Hev12 Hev3) as Hev. simpl in Hev.
    destruct res3 as [[]|[e3|]]; [| |congruence];
      do 2 eexists; exists [NetCall provider_name]; (split; [reflexivity|]);
      repeat split; auto; try apply Hev; unfold cancel_ok in *; congruence.
  - do 2 eexists. exists [NetCall provider_name]. split; [reflexivity|].
    repeat split; auto; try apply Hev12.
    + unfold cancel_ok in *. destruct Hc2. congruence.
    + unfold cancel_ok in *. destruct Hc2. congruence.
Qed.

Lemma quiet_sends_none {A} (provider_name : string) (m : M A) :
  quiet m -> sends_at_most_one provider_name m.
Proof.
  intros Hm w. destruct (Hm w) as (res & w' & E & Hev & Hc & _ & _ & Hres).
  exists res, w', []. repeat split; auto; try apply Hev.
  unfold cancel_ok. destruct res as [a|[e|]]; congruence.
Qed.

Lemma sends_then_quiet {A B} (provider_name : string) (m : M A) (k : A -> M B) :
  sends_at_most_one provider_name m -> (forall a, quiet (k a)) ->
  sends_at_most_one provider_name (bind m k).
Proof.
  intros Hm Hk w. unfold bind.
  destruct (Hm w) as (res & w1 & sent & -> & Hev1 & Hsent & Hc1).
  destruct res as [a|b].
  - destruct (Hk a w1) as (res2 & w2 & -> & Hev2 & Hc2 & _ & _ & Hres2).
    exists res2, w2, sent. split; [reflexivity|].
    pose proof (evolves_trans _ _ _ _ [] Hev1 Hev2) as Hev.
    rewrite app_nil_r in Hev. repeat split; auto; try apply Hev.
    unfold cancel_ok in *. destruct res2 as [r|[e|]]; congruence.
  - exists (Throw b), w1, sent. repeat split; auto; apply Hev1.
Qed.

Lemma quiet_then_sends {A B} (provider_name : string) (m : M A) (k : A -> M B) :
  quiet m -> (forall a, sends_at_most_one provider_name (k a)) ->
  sends_at_most_one provider_name (bind m k).
Proof.
  intros Hm Hk w. unfold bind.
  destruct (Hm w) as (res & w1 & -> & Hev1 & Hc1 & _ & _ & Hres1).
  destruct res as [a|b].
  - destruct (Hk a w1) as (res2 & w2 & sent & -> & Hev2 & Hsent & Hc2).
    exists res2, w2, sent. split; [reflexivity|].
    pose proof (evolves_trans _ _ _ [] _ Hev1 Hev2) as Hev. simpl in Hev.
    repeat split; auto; try apply Hev.
    apply (cancel_ok_trans tt res2 w w1 w2); auto. apply Hev1.
  - exists (Throw b), w1, []. repeat split; auto; try apply Hev1.
    unfold cancel_ok. destruct b; congruence.
Qed.

Ltac quiet_steps :=
  repeat first
    [ apply quiet_ret | apply quiet_lift | apply quiet_raise
    | apply quiet_time_time | apply quiet_breaker_state_value
    | apply quiet_read_state | apply quiet_the_breaker
    | (apply quiet_bind; [|intro])
    | match goal with
      | |- quiet (match ?x with _ => _ end) => destruct x
      end ].

Section AttemptFacts.

Variable cfg : Config.
Variable meal_type_service : MealMappingService.
Variable self : UniversalProvider.

Lemma attempt_body_sends (adapter : ProviderAdapter) (provider_name : string)
      (criteria : Criteria) (circuit_breaker : option CircuitBreaker)
      (start_time : Q) (attempt : nat) :
  sends_at_most_one provider_name
    (attempt_body meal_type_service adapter provider_name criteria
       circuit_breaker start_time attempt).
Proof.
  unfold attempt_body.
  apply quiet_then_sends; [apply quiet_lift|]. intros _.
  apply sends_then_quiet.
  - destruct circuit_breaker.
    + intro w. apply call_search_spec.
    + intro w. destruct (adapter_search_spec provider_name w)
        as (res & w' & E & Hev & Hc).
      exists res, w', [NetCall provider_name]. auto.
  - intro raw. quiet_steps.
Qed.

Lemma attempt_body_success (adapter : ProviderAdapter) (provider_name : string)
      (criteria : Criteria) (circuit_breaker : option CircuitBreaker)
      (start_time : Q) (attempt : nat) :
  returns_only (fun r => status r = "success"
                         /\ attempts r = Some (attempt + 1)%nat)
    (attempt_body meal_type_service adapter provider_name criteria
       circuit_breaker start_time attempt).
Proof.
  unfold attempt_body.
  repeat (apply returns_only_bind; intro).
  apply returns_only_ret. split; reflexivity.
Qed.

End AttemptFacts.

(** ** The retry loop *)

Lemma sleeps_app (l1 l2 : list Event) : sleeps (l1 ++ l2) = (sleeps l1 ++ sleeps l2)%list.
Proof.
  induction l1 as [|ev l1 IH]; [reflexivity|].
  destruct ev; simpl; rewrite IH; reflexivity.
Qed.

Lemma net_calls_app (l1 l2 : list Event) :
  net_calls (l1 ++ l2) = (net_calls l1 + net_calls l2)%nat.
Proof.
  induction l1 as [|ev l1 IH]; [reflexivity|].
  destruct ev; simpl; rewrite IH; reflexivity.
Qed.

Section RetryLoop.

Variable cfg : Config.
Variable meal_type_service : MealMappingService.
Variable self : UniversalProvider.

(** A read of the state raises only on a breaker whose [reset_timeout]
    is [-inf], and leaves it so. *)
Lemma read_state_spec (w : World) :
  w_cb w <> None ->
  exists res w',
    CircuitBreaker.read_state w = (res, w')
    /\ evolves w w' [] /\ w_cancelled w' = w_cancelled w
    /\ match res with
       | Return _ => True
       | Throw (Exception _) => unreadable w'
       | Throw CancelledError => False
       end.
Proof.
  intro Hcb. unfold CircuitBreaker.read_state, bind.
  destruct (on_breaker_spec CircuitBreaker._update_state w)
    as (res1 & w1 & -> & Hev & Hc & _ & _ & _ & Hcb1 & Hres1).
  destruct (w_cb w) as [b|] eqn:Hb; [|congruence]. cbn [option_map] in Hcb1.
  destruct res1 as [[]|[e|]].
  - unfold the_breaker. rewrite Hcb1. do 2 eexists. split; [reflexivity|]. auto.
  - do 2 eexists. split; [reflexivity|]. repeat split; auto; try apply Hev.
    eexists. split; [exact Hcb1|].
    destruct (update_state_parameters (w_now w) b) as (_ & _ & -> & _).
    apply (update_state_throws (w_now w) b (Exception e)). congruence.
  - exfalso. apply (update_state_not_cancelled (w_now w) b). congruence.
Qed.

Lemma error_result_spec (provider_name msg : string) (start_time : Q)
      (circuit_breaker : option CircuitBreaker) (w : World) :
  (circuit_breaker <> None -> w_cb w <> None) ->
  exists res w',
    error_result provider_name msg start_time circuit_breaker w = (res, w')
    /\ evolves w w' [] /\ w_cancelled w' = w_cancelled w
    /\ match res with
       | Return (Some r) => status r = "error"
       | Return None => False
       | Throw (Exception _) => unreadable w'
       | Throw CancelledError => False
       end.
Proof.
  intro Hcb. unfold error_result, bind, time_time.
  destruct circuit_breaker as [c|]; cbn [breaker_state_value].
  - unfold bind.
    destruct (read_state_spec w (Hcb ltac:(discriminate)))
      as (res & w' & -> & Hev & Hc & Hres).
    destruct res as [st|[e|]]; [| |contradiction];
      do 2 eexists; (split; [reflexivity|]); auto.
  - do 2 eexists. split; [reflexivity|].
    split; [apply evolves_refl|]. auto.
Qed.

(** What the loop does from attempt [attempt] on, with [remaining]
    iterations to go. *)
Lemma attempts_from_spec (adapter : ProviderAdapter) (provider_name : string)
      (criteria : Criteria) (circuit_breaker : option CircuitBreaker)
      (start_time : Q) (remaining : nat) :
  forall (attempt : nat) (w : World),
    (attempt + remaining = MAX_RETRIES cfg)%nat ->
    (circuit_breaker <> None -> w_cb w <> None) ->
    exists res w' evs,
      attempts_from cfg meal_type_service remaining adapter provider_name criteria
        circuit_breaker start_time attempt w = (res, w')
      /\ evolves w w' evs
      /\ retry_trace provider_name (RETRY_BASE_DELAY cfg) (MAX_RETRIES cfg) attempt evs
      /\ (net_calls evs <= remaining)%nat
      /\ (length (sleeps evs) <= remaining - 1)%nat
      /\ cancel_ok res w w'
      /\ match res with
         | Return None => remaining = 0%nat
         | Return (Some r) => status r = "success" \/ status r = "error"
         | Throw (Exception _) => unreadable w'
         | Throw CancelledError => True
         end.
Proof.
  induction remaining as [|remaining' IH]; intros attempt w Hsum Hcb.
  { exists (Return None), w, []. split; [reflexivity|].
    split; [apply evolves_refl|]. split; [constructor|].
    simpl. repeat split; auto. }
  cbn [attempts_from]. unfold try_except, bind at 1.
  destruct (attempt_body_sends meal_type_service adapter provider_name criteria
              circuit_breaker start_time attempt w)
    as (res0 & w1 & sent & Ebody & Hev1 & Hsent & Hc1).
  rewrite Ebody.
  assert (Htrace_sent : retry_trace provider_name (RETRY_BASE_DELAY cfg)
                          (MAX_RETRIES cfg) attempt sent).
  { destruct Hsent as [-> | ->]; constructor. }
  assert (Hnet_sent : (net_calls sent <= 1)%nat).
  { destruct Hsent as [-> | ->]; simpl; lia. }
  assert (Hsl_sent : sleeps sent = []).
  { destruct Hsent as [-> | ->]; reflexivity. }
  assert (Hcb1 : circuit_breaker <> None -> w_cb w1 <> None).
  { intros H E. apply Hev1 in E. exact (Hcb H E). }
  (* what every branch that stops here has in common *)
  assert (Hstop : forall (res : Completion (option ProviderResult)) (w' : World),
             evolves w1 w' [] -> w_cancelled w' = w_cancelled w1 ->
             w_cancelled w1 = w_cancelled w ->
             res <> Throw CancelledError ->
             evolves w w' sent
             /\ retry_trace provider_name (RETRY_BASE_DELAY cfg) (MAX_RETRIES cfg)
                  attempt sent
             /\ (net_calls sent <= S remaining')%nat
             /\ (length (sleeps sent) <= S remaining' - 1)%nat
             /\ cancel_ok res w w').
  { intros res w' Hev Hc Hc' Hres.
    pose proof (evolves_trans _ _ _ _ [] Hev1 Hev) as Hev'.
    rewrite app_nil_r in Hev'.
    repeat split; auto; try apply Hev'; try lia.
    - rewrite Hsl_sent. simpl. lia.
    - unfold cancel_ok. destruct res as [r|[e|]]; congruence. }
  destruct res0 as [r|[e|]].
  - (* the attempt succeeded *)
    cbn. exists (Return (Some r)), w1, sent. split; [reflexivity|].
    destruct (Hstop (Return (Some r)) w1 (evolves_refl w1) eq_refl Hc1)
      as (H1 & H2 & H3 & H4 & H5); [discriminate|].
    repeat (split; [assumption|]).
    left. eapply attempt_body_success. exact Ebody.
  - (* the attempt raised *)
    assert (Hc1' : w_cancelled w1 = w_cancelled w) by exact Hc1.
    (* the branch that retries *)
    assert (Hretry : forall warning : Event,
               (attempt <? MAX_RETRIES cfg - 1)%nat = true ->
               retry_warning provider_name
                 (retry_delay (RETRY_BASE_DELAY cfg) attempt) attempt
                 (MAX_RETRIES cfg) warning ->
               exists res w' evs,
                 (emit warning ;;
                  asyncio_sleep (retry_delay (RETRY_BASE_DELAY cfg) attempt) ;;
                  attempts_from cfg meal_type_service remaining' adapter provider_name
                    criteria circuit_breaker start_time (S attempt)) w1 = (res, w')
                 /\ evolves w w' evs
                 /\ retry_trace provider_name (RETRY_BASE_DELAY cfg) (MAX_RETRIES cfg)
                      attempt evs
                 /\ (net_calls evs <= S remaining')%nat
                 /\ (length (sleeps evs) <= S remaining' - 1)%nat
                 /\ cancel_ok res w w'
                 /\ match res with
                    | Return None => S remaining' = 0%nat
                    | Return (Some r) => status r = "success" \/ status r = "error"
                    | Throw (Exception _) => unreadable w'
                    | Throw CancelledError => True
                    end).
    { intros warning Hlt Hwarn. apply Nat.ltb_lt in Hlt.
      set (delay := retry_delay (RETRY_BASE_DELAY cfg) attempt) in *.
      assert (Hnet_w : forall l, net_calls (warning :: Sleep delay :: l) = net_calls l).
      { intro l. destruct Hwarn as [-> | (e' & _ & ->)]; reflexivity. }
      assert (Hsl_w : forall l, sleeps (warning :: Sleep delay :: l) = delay :: sleeps l).
      { intro l. destruct Hwarn as [-> | (e' & _ & ->)]; reflexivity. }
      unfold bind at 1.
      destruct (emit_spec warning w1) as (w2 & -> & Hev2 & Hc2).
      unfold bind at 1.
      destruct (asyncio_sleep_spec delay w2) as (res3 & w3 & -> & Hev3 & Hc3 & Hres3).
      pose proof (evolves_trans _ _ _ _ _ Hev2 Hev3) as Hev23. simpl in Hev23.
      pose proof (evolves_trans _ _ _ _ _ Hev1 Hev23) as Hev13.
      assert (Hd2 : w_deadline w2 = w_deadline w)
        by (destruct Hev1, Hev2; congruence).
      destruct res3 as [[]|[e3|]]; [|contradiction|].
      - (* the sleep is over: next attempt *)
        assert (Hcb3 : circuit_breaker <> None -> w_cb w3 <> None).
        { intros H E. apply Hev23 in E. exact (Hcb1 H E). }
        destruct (IH (S attempt) w3 ltac:(lia) Hcb3)
          as (res & w' & rest & -> & Hev4 & Htr & Hnet & Hsl & Hc4 & Hres).
        exists res, w', (sent ++ [warning; Sleep delay] ++ rest)%list.
        split; [reflexivity|].
        pose proof (evolves_trans _ _ _ _ _ Hev13 Hev4) as Hev.
        rewrite <- app_assoc in Hev.
        split; [exact Hev|].
        split; [apply trace_retry; auto; lia|].
        split.
        { rewrite net_calls_app. cbn [app]. rewrite Hnet_w. lia. }
        split.
        { rewrite sleeps_app, Hsl_sent. cbn [app]. rewrite Hsl_w. simpl. lia. }
        split.
        { apply (cancel_ok_trans tt res w w3 w'); [apply Hev13| |exact Hc4].
          unfold cancel_ok in *. congruence. }
        destruct res as [[r|]|[e4|]]; auto. lia.
      - (* cancelled while sleeping *)
        exists (Throw CancelledError), w3, (sent ++ [warning; Sleep delay] ++ [])%list.
        split; [reflexivity|].
        split; [exact Hev13|].
        split; [apply trace_retry; auto; constructor|].
        split.
        { rewrite net_calls_app. cbn [app]. rewrite Hnet_w. simpl. lia. }
        split.
        { rewrite sleeps_app, Hsl_sent. cbn [app]. rewrite Hsl_w. simpl. lia. }
        split; [|exact I].
        unfold cancel_ok in *. destruct Hc3 as [Hc3 Hd3]. split; congruence. }
    (* the branch that gives up *)
    assert (Hgive_up : forall msg : string,
               exists res w' evs,
                 error_result provider_name msg start_time circuit_breaker w1 = (res, w')
                 /\ evolves w w' evs
                 /\ retry_trace provider_name (RETRY_BASE_DELAY cfg) (MAX_RETRIES cfg)
                      attempt evs
                 /\ (net_calls evs <= S remaining')%nat
                 /\ (length (sleeps evs) <= S remaining' - 1)%nat
                 /\ cancel_ok res w w'
                 /\ match res with
                    | Return None => S remaining' = 0%nat
                    | Return (Some r) => status r = "success" \/ status r = "error"
                    | Throw (Exception _) => unreadable w'
                    | Throw CancelledError => True
                    end).
    { intro msg.
      destruct (error_result_spec provider_name msg start_time circuit_breaker w1 Hcb1)
        as (res & w' & -> & Hev & Hc & Hst).
      exists res, w', sent. split; [reflexivity|].
      destruct (Hstop res w' Hev Hc Hc1') as (H1 & H2 & H3 & H4 & H5).
      { intros ->. exact Hst. }
      repeat (split; [assumption|]).
      destruct res as [[r|]|[e0|]]; auto; contradiction. }
    destruct (class_of e) eqn:Hcls;
      try (destruct (attempt <? MAX_RETRIES cfg - 1)%nat eqn:Hlt; cbv iota;
           [ lazymatch goal with
             | |- context [emit ?ev] => apply (Hretry ev); [reflexivity|]
             end;
             first [ left; reflexivity
                   | right; exists e; split; [split; congruence | reflexivity] ]
           | apply Hgive_up ]).
    (* the breaker rejected the call *)
    unfold bind, time_time, ret.
    eexists _, w1, sent. split; [reflexivity|].
    destruct (Hstop (Return (Some (mkProviderResult "error" (Some provider_name)
                (Some (msg_protection_triggered provider_name)) [] None
                (Some (elapsed_ms (w_now w1) start_time)) None (Some "open"))))
                w1 (evolves_refl w1) eq_refl Hc1')
      as (H1 & H2 & H3 & H4 & H5); [discriminate|].
    repeat (split; [assumption|]). right. reflexivity.
  - (* cancelled during the attempt *)
    cbn. exists (Throw CancelledError), w1, sent. split; [reflexivity|].
    repeat split; auto; try apply Hev1; try lia.
    + rewrite Hsl_sent. simpl. lia.
    + apply Hc1.
    + apply Hc1.
Qed.

End RetryLoop.

(** ** [search_single] as a whole *)

Section SearchSingleFacts.

Variable cfg : Config.
Variable meal_type_service : MealMappingService.
Variable self : UniversalProvider.

Lemma search_single_spec (provider_name : string) (criteria : Criteria) (w : World) :
  exists res w' evs,
    search_single cfg meal_type_service self provider_name criteria w = (res, w')
    /\ evolves w w' evs
    /\ retry_trace provider_name (RETRY_BASE_DELAY cfg) (MAX_RETRIES cfg) 0 evs
    /\ (net_calls evs <= MAX_RETRIES cfg)%nat
    /\ (length (sleeps evs) <= MAX_RETRIES cfg - 1)%nat
    /\ cancel_ok res w w'
    /\ match res with
       | Return None => MAX_RETRIES cfg = 0%nat
       | Return (Some r) => status r = "success" \/ status r = "error"
       | Throw (Exception _) => unreadable w'
       | Throw CancelledError => True
       end.
Proof.
  unfold search_single.
  destruct (dict_get (adapters self) provider_name) as [adapter|].
  2: { do 2 eexists. exists []. split; [reflexivity|].
       split; [apply evolves_refl|]. split; [constructor|].
       simpl. repeat split; auto; lia. }
  unfold bind at 1. cbv beta iota. unfold bind at 1, time_time. cbv beta iota.
  destruct (w_cb w) as [b|] eqn:Hcb.
  - unfold bind at 1. unfold bind at 1.
    destruct (read_state_spec w ltac:(congruence))
      as (res1 & w1 & -> & Hev1 & Hc1 & Hres1).
    destruct res1 as [st|[e|]]; [| |contradiction].
    2: { do 2 eexists. exists []. split; [reflexivity|].
         split; [exact Hev1|]. split; [constructor|]. simpl.
         repeat split; auto; try lia. }
    unfold ret at 1. cbv beta iota.
    assert (Hcbw1 : Some b <> None -> w_cb w1 <> None).
    { intros _ E. apply Hev1 in E. congruence. }
    destruct (CircuitState_eqb _ OPEN).
    + destruct (error_result_spec provider_name (msg_protection_active provider_name)
                  (w_now w) (Some b) w1 Hcbw1) as (res & w' & -> & Hev & Hc & Hst).
      exists res, w', []. split; [reflexivity|].
      split; [apply (evolves_trans _ _ _ [] [] Hev1 Hev)|].
      split; [constructor|]. simpl.
      split; [lia|]. split; [lia|].
      split.
      { unfold cancel_ok. destruct res as [r|[e|]]; [congruence|congruence|contradiction]. }
      destruct res as [[r|]|[e|]]; auto; contradiction.
    + destruct (attempts_from_spec cfg meal_type_service adapter provider_name
                  criteria (Some b) (w_now w) (MAX_RETRIES cfg) 0%nat w1 eq_refl Hcbw1)
        as (res & w' & evs & -> & Hev & Htr & Hnet & Hsl & Hc & Hres).
      exists res, w', evs. split; [reflexivity|].
      split; [apply (evolves_trans _ _ _ [] evs Hev1 Hev)|].
      repeat (split; [assumption|]).
      split; [|exact Hres].
      apply (cancel_ok_trans tt res w w1 w'); auto. apply Hev1.
  - unfold bind at 1, ret at 1. cbv beta iota.
    destruct (attempts_from_spec cfg meal_type_service adapter provider_name
                criteria None (w_now w) (MAX_RETRIES cfg) 0%nat w eq_refl)
      as (res & w' & evs & -> & Hev & Htr & Hnet & Hsl & Hc & Hres);
      [congruence|].
    exists res, w', evs. auto 10.
Qed.

(** A rejection by the breaker, at whatever attempt, ends the loop at
    once: no request is sent, nothing is slept, no attempt follows. *)
Lemma rejection_returns_at_once (adapter : ProviderAdapter) (provider_name : string)
      (criteria provider_criteria : Criteria) (c b : CircuitBreaker)
      (start_time : Q) (remaining attempt : nat) (w : World) :
  prepare_meal_type_criteria adapter criteria = Ok provider_criteria ->
  w_cb w = Some b ->
  finite_reset b ->
  _state (snd (CircuitBreaker._update_state (w_now w) b)) = OPEN ->
  exists r w',
    attempts_from cfg meal_type_service (S remaining) adapter provider_name criteria
      (Some c) start_time attempt w = (Return (Some r), w')
    /\ status r = "error"
    /\ error r = Some (msg_protection_triggered provider_name)
    /\ circuit_breaker_state r = Some "open"
    /\ w_log w' = w_log w /\ w_pos w' = w_pos w /\ w_now w' = w_now w.
Proof.
  intros Hprep Hcb [seconds Hfin] Hopen.
  assert (Hret : fst (CircuitBreaker._update_state (w_now w) b) = Return tt).
  { apply update_state_returns. rewrite Hfin. discriminate. }
  assert (Hmsg : exists message,
             CircuitBreaker.open_message (snd (CircuitBreaker._update_state (w_now w) b))
             = Ok message).
  { apply open_message_finite. exists seconds.
    destruct (update_state_parameters (w_now w) b) as (_ & _ & -> & _). exact Hfin. }
  destruct Hmsg as [message Hmsg].
  cbn [attempts_from]. unfold try_except, bind at 1, bind at 1, attempt_body.
  unfold bind at 1, lift at 1. rewrite Hprep.
  unfold bind at 1, CircuitBreaker.call, bind at 1.
  rewrite (on_breaker_some _ w b Hcb), Hret.
  unfold bind at 1, the_breaker at 1. cbn [w_cb].
  rewrite Hopen. cbn [CircuitState_eqb].
  unfold bind at 1, lift at 1. rewrite Hmsg.
  unfold raise, throw. cbn [class_of].
  unfold bind, time_time, ret. cbn.
  do 2 eexists. split; [reflexivity|]. repeat split.
Qed.

End SearchSingleFacts.

(** ** The breaker stays readable *)

(** A breaker that [__init__] has built can be read. *)
Lemma built_breaker_readable (ft t r nm : pyval) (b : CircuitBreaker) :
  CircuitBreaker.__init__ ft t r nm = Ok b -> reset_timeout b <> NegInf.
Proof.
  intro H. apply init_ok_iff in H.
  destruct H as (_ & _ & _ & _ & _ & H6 & s & _ & _ & ->). simpl.
  intro E. rewrite E in H6. discriminate.
Qed.

Lemma readable_of (w w' : World) :
  w_script w' = w_script w ->
  (forall b', w_cb w' = Some b' ->
              exists b, w_cb w = Some b /\ reset_timeout b' = reset_timeout b) ->
  readable w -> readable w'.
Proof.
  intros Hs Hcb [H1 H2]. split.
  - intros b' Hb'. destruct (Hcb b' Hb') as (b & Hb & ->). exact (H1 b Hb).
  - rewrite Hs. exact H2.
Qed.

Lemma keeps_readable_same {A} (m : M A) :
  (forall w, snd (m w) = w) -> keeps_readable m.
Proof. intros H w Hw. rewrite H. exact Hw. Qed.

Lemma keeps_readable_ret {A} (a : A) : keeps_readable (ret a : M A).
Proof. apply keeps_readable_same. reflexivity. Qed.

Lemma keeps_readable_lift {A} (r : Res A) : keeps_readable (lift r : M A).
Proof. apply keeps_readable_same. reflexivity. Qed.

Lemma keeps_readable_throw {A} (b : BaseException) : keeps_readable (throw b : M A).
Proof. apply keeps_readable_same. reflexivity. Qed.

Lemma keeps_readable_raise {A} (e : exn) : keeps_readable (raise e : M A).
Proof. apply keeps_readable_same. reflexivity. Qed.

Lemma keeps_readable_time_time : keeps_readable time_time.
Proof. apply keeps_readable_same. reflexivity. Qed.

Lemma keeps_readable_the_breaker : keeps_readable the_breaker.
Proof.
  apply keeps_readable_same. intro w. unfold the_breaker.
  destruct (w_cb w); reflexivity.
Qed.

Lemma keeps_readable_bind {A B} (m : M A) (k : A -> M B) :
  keeps_readable m -> (forall a, keeps_readable (k a)) -> keeps_readable (bind m k).
Proof.
  intros Hm Hk w Hw. unfold bind. specialize (Hm w Hw).
  destruct (m w) as [[a|x] w1]; [apply Hk|]; exact Hm.
Qed.

Lemma keeps_readable_try {A} (body : M A) (handler : BaseException -> M A) :
  keeps_readable body -> (forall x, keeps_readable (handler x)) ->
  keeps_readable (try_except body handler).
Proof.
  intros Hb Hh w Hw. unfold try_except. specialize (Hb w Hw).
  destruct (body w) as [[a|x] w1]; [|apply Hh]; exact Hb.
Qed.

Lemma keeps_readable_emit (ev : Event) : keeps_readable (emit ev).
Proof. intros w Hw. apply (readable_of w); [reflexivity| |exact Hw]. simpl. eauto. Qed.

Lemma keeps_readable_suspend (min_wait : Q) : keeps_readable (suspend min_wait).
Proof.
  intros w Hw. unfold suspend.
  assert (H : forall t c,
             readable (mkWorld t (w_deadline w) c
                         (option_map (st_others (w_script w (w_pos w))) (w_cb w))
                         (w_script w) (S (w_pos w)) (w_log w))).
  { intros t c. apply (readable_of w); [reflexivity| |exact Hw]. simpl.
    intros b' Hb'. destruct (w_cb w) as [b|]; [|discriminate].
    injection Hb' as <-. exists b. split; [reflexivity|]. apply Hw. }
  destruct (w_deadline w) as [d|]; [destruct (Qle_bool d _)|]; apply H.
Qed.

Lemma keeps_readable_on_breaker (method : Q -> ST CircuitBreaker unit) :
  (forall now b, reset_timeout (snd (method now b)) = reset_timeout b) ->
  keeps_readable (on_breaker method).
Proof.
  intros Hm w Hw.
  destruct (on_breaker_spec method w) as (res & w' & E & _ & _ & _ & _ & Hs & Hcb & _).
  rewrite E. apply (readable_of w); [exact Hs| |exact Hw]. simpl.
  intros b' Hb'. rewrite Hcb in Hb'. destruct (w_cb w) as [b|]; [|discriminate].
  injection Hb' as <-. exists b. split; [reflexivity|]. apply Hm.
Qed.

Lemma update_state_reset_timeout (now : Q) (b : CircuitBreaker) :
  reset_timeout (snd (CircuitBreaker._update_state now b)) = reset_timeout b.
Proof. apply update_state_parameters. Qed.

Lemma on_failure_reset_timeout (now : Q) (b : CircuitBreaker) :
  reset_timeout (snd (CircuitBreaker._on_failure now b)) = reset_timeout b.
Proof. apply on_failure_count. Qed.

Ltac readable_steps :=
  repeat first
    [ apply keeps_readable_ret | apply keeps_readable_lift
    | apply keeps_readable_raise | apply keeps_readable_throw
    | apply keeps_readable_time_time | apply keeps_readable_the_breaker
    | apply keeps_readable_emit | apply keeps_readable_suspend
    | apply keeps_readable_on_breaker, update_state_reset_timeout
    | apply keeps_readable_on_breaker, on_failure_reset_timeout
    | (apply keeps_readable_on_breaker; intros; apply on_success_reset_timeout)
    | (apply keeps_readable_bind; [|intro])
    | (apply keeps_readable_try; [|intro])
    | match goal with
      | |- keeps_readable (match ?x with _ => _ end) => destruct x
      | |- keeps_readable (if ?x then _ else _) => destruct x
      end ].

Section ReadableFacts.

Variable cfg : Config.
Variable meal_type_service : MealMappingService.
Variable self : UniversalProvider.

Lemma keeps_readable_asyncio_sleep (delay : Q) : keeps_readable (asyncio_sleep delay).
Proof. unfold asyncio_sleep. readable_steps. Qed.

Lemma keeps_readable_adapter_search (provider_name : string) :
  keeps_readable (adapter_search provider_name).
Proof. unfold adapter_search. readable_steps. Qed.

Lemma keeps_readable_call {A} (func : M A) :
  keeps_readable func -> keeps_readable (CircuitBreaker.call func).
Proof. intro Hf. unfold CircuitBreaker.call. readable_steps. exact Hf. Qed.

Lemma keeps_readable_read_state : keeps_readable CircuitBreaker.read_state.
Proof. unfold CircuitBreaker.read_state. readable_steps. Qed.

Lemma keeps_readable_breaker_state_value (circuit_breaker : option CircuitBreaker) :
  keeps_readable (breaker_state_value circuit_breaker).
Proof.
  unfold breaker_state_value. destruct circuit_breaker; [|apply keeps_readable_ret].
  apply keeps_readable_bind; [apply keeps_readable_read_state|]. intro.
  apply keeps_readable_ret.
Qed.

Lemma keeps_readable_error_result (provider_name msg : string) (start_time : Q)
      (circuit_breaker : option CircuitBreaker) :
  keeps_readable (error_result provider_name msg start_time circuit_breaker).
Proof.
  unfold error_result.
  apply keeps_readable_bind; [apply keeps_readable_time_time|]. intro.
  apply keeps_readable_bind; [apply keeps_readable_breaker_state_value|]. intro.
  apply keeps_readable_ret.
Qed.

Lemma keeps_readable_attempt_body (adapter : ProviderAdapter) (provider_name : string)
      (criteria : Criteria) (circuit_breaker : option CircuitBreaker)
      (start_time : Q) (attempt : nat) :
  keeps_readable (attempt_body meal_type_service adapter provider_name criteria
                    circuit_breaker start_time attempt).
Proof.
  unfold attempt_body.
  apply keeps_readable_bind; [apply keeps_readable_lift|]. intro.
  apply keeps_readable_bind.
  { destruct circuit_breaker;
      [apply keeps_readable_call|]; apply keeps_readable_adapter_search. }
  intro.
  apply keeps_readable_bind; [apply keeps_readable_lift|]. intro.
  apply keeps_readable_bind; [readable_steps|]. intro.
  apply keeps_readable_bind; [readable_steps|]. intro.
  apply keeps_readable_bind; [apply keeps_readable_lift|]. intro.
  apply keeps_readable_bind; [apply keeps_readable_time_time|]. intro.
  apply keeps_readable_bind; [apply keeps_readable_breaker_state_value|]. intro.
  apply keeps_readable_ret.
Qed.

Lemma keeps_readable_attempts_from (adapter : ProviderAdapter) (provider_name : string)
      (criteria : Criteria) (circuit_breaker : option CircuitBreaker)
      (start_time : Q) (remaining : nat) :
  forall attempt,
    keeps_readable (attempts_from cfg meal_type_service remaining adapter provider_name
                      criteria circuit_breaker start_time attempt).
Proof.
  induction remaining as [|remaining' IH]; intro attempt; cbn [attempts_from].
  - apply keeps_readable_ret.
  - apply keeps_readable_try.
    + apply keeps_readable_bind; [apply keeps_readable_attempt_body|]. intro.
      apply keeps_readable_ret.
    + intros [e|]; [|apply keeps_readable_throw].
      destruct (class_of e);
        try (destruct (attempt <? MAX_RETRIES cfg - 1)%nat;
             [ apply keeps_readable_bind; [apply keeps_readable_emit|]; intro;
               apply keeps_readable_bind; [apply keeps_readable_asyncio_sleep|]; intro;
               apply IH
             | apply keeps_readable_error_result ]).
      apply keeps_readable_bind; [apply keeps_readable_time_time|]. intro.
      apply keeps_readable_ret.
Qed.

Lemma keeps_readable_search_single (provider_name : string) (criteria : Criteria) :
  keeps_readable (search_single cfg meal_type_service self provider_name criteria).
Proof.
  unfold search_single.
  destruct (dict_get (adapters self) provider_name) as [adapter|];
    [|apply keeps_readable_ret].
  apply keeps_readable_bind; [apply keeps_readable_same; reflexivity|].
  intro circuit_breaker.
  apply keeps_readable_bind; [apply keeps_readable_time_time|]. intro.
  apply keeps_readable_bind.
  { destruct circuit_breaker; [|apply keeps_readable_ret].
    apply keeps_readable_bind; [apply keeps_readable_read_state|]. intro.
    apply keeps_readable_ret. }
  intros [|]; [apply keeps_readable_error_result|apply keeps_readable_attempts_from].
Qed.

(** A readable breaker is not unreadable. *)
Lemma readable_not_unreadable (w : World) : readable w -> ~ unreadable w.
Proof. intros [H _] (b & Hb & Hr). exact (H b Hb Hr). Qed.

(** With a breaker that can be read, [search_single] raises nothing: it
    returns, or is cancelled at the deadline. *)
Lemma search_single_returns (provider_name : string) (criteria : Criteria) (w : World) :
  readable w ->
  exists res w' evs,
    search_single cfg meal_type_service self provider_name criteria w = (res, w')
    /\ evolves w w' evs
    /\ cancel_ok res w w'
    /\ match res with
       | Return None => MAX_RETRIES cfg = 0%nat
       | Return (Some r) => status r = "success" \/ status r = "error"
       | Throw (Exception _) => False
       | Throw CancelledError => True
       end.
Proof.
  intro Hw.
  destruct (search_single_spec cfg meal_type_service self provider_name criteria w)
    as (res & w' & evs & E & Hev & _ & _ & _ & Hc & Hres).
  exists res, w', evs. repeat (split; [assumption|]).
  destruct res as [[r|]|[e|]]; auto.
  apply (readable_not_unreadable w'); [|exact Hres].
  pose proof (keeps_readable_search_single provider_name criteria w Hw) as H.
  rewrite E in H. exact H.
Qed.

End ReadableFacts.

(** ** What a retry trace tells *)

Lemma retry_trace_sleeps (p : string) (base : Q) (max a : nat) (evs : list Event) :
  retry_trace p base max a evs ->
  sleeps evs = map (retry_delay base) (seq a (length (sleeps evs))).
Proof.
  induction 1 as [a | a | a sent warning rest Hsent Hlt Hwarn Htr IH]; try reflexivity.
  assert (Hs : sleeps sent = []) by (destruct Hsent as [-> | ->]; reflexivity).
  assert (Hw : sleeps ([warning; Sleep (retry_delay base a)] ++ rest)
               = retry_delay base a :: sleeps rest).
  { destruct Hwarn as [-> | (e & _ & ->)]; reflexivity. }
  rewrite sleeps_app, Hs, Hw. simpl. f_equal. exact IH.
Qed.

Lemma retry_trace_follows (p : string) (base : Q) (max a : nat) (evs : list Event) :
  retry_trace p base max a evs ->
  forall previous, sleeps_follow_warnings previous evs.
Proof.
  induction 1 as [a | a | a sent warning rest Hsent Hlt Hwarn Htr IH]; intro previous.
  - exact I.
  - simpl. auto.
  - assert (Hw : forall prev, sleeps_follow_warnings prev
                                ([warning; Sleep (retry_delay base a)] ++ rest)).
    { intro prev. destruct Hwarn as [-> | (e & He & ->)]; simpl; auto. }
    destruct Hsent as [-> | ->]; [apply Hw|].
    change (True /\ sleeps_follow_warnings (Some (NetCall p))
                     ([warning; Sleep (retry_delay base a)] ++ rest)).
    split; [exact I|]. apply Hw.
Qed.

Lemma nth_retry_delays (base : Q) (n k : nat) :
  (k < n)%nat -> nth k (map (retry_delay base) (seq 0 n)) 0 = retry_delay base k.
Proof.
  intro Hk.
  rewrite (nth_indep _ 0 (retry_delay base 0)) by (rewrite length_map, length_seq; exact Hk).
  rewrite map_nth. f_equal. rewrite seq_nth; auto.
Qed.

Lemma retry_delay_increasing (base : Q) (k : nat) :
  0 < base -> retry_delay base k < retry_delay base (S k).
Proof.
  intro Hpos. unfold retry_delay.
  rewrite !(Qmult_comm base).
  apply Qmult_lt_compat_r; [exact Hpos|].
  rewrite <- Zlt_Qlt.
  rewrite Nat2Z.inj_succ, Z.pow_succ_r by lia.
  assert (0 < 2 ^ Z.of_nat k)%Z by (apply Z.pow_pos_nonneg; lia).
  lia.
Qed.

(** ** Dictionaries *)

Lemma dict_get_set {V} (d : pydict V) (k k' : string) (v : V) :
  dict_get (dict_set d k v) k' = if k =? k' then Some v else dict_get d k'.
Proof.
  induction d as [|[k0 v0] d IH]; simpl.
  - reflexivity.
  - destruct (String.eqb_spec k0 k) as [->|Hne]; simpl.
    + destruct (k =? k'); reflexivity.
    + rewrite IH. destruct (String.eqb_spec k0 k') as [->|Hne'].
      * destruct (String.eqb_spec k k'); [congruence|reflexivity].
      * reflexivity.
Qed.

Lemma dict_get_None_keys {V} (d : pydict V) (k : string) :
  dict_get d k = None <-> ~ In k (dict_keys d).
Proof.
  induction d as [|[k0 v0] d IH]; simpl.
  - tauto.
  - destruct (String.eqb_spec k0 k) as [->|Hne].
    + split; [discriminate|]. intro H. exfalso. apply H. auto.
    + rewrite IH. tauto.
Qed.

Lemma dict_set_new {V} (d : pydict V) (k : string) (v : V) :
  dict_get d k = None -> dict_set d k v = (d ++ [(k, v)])%list.
Proof.
  induction d as [|[k0 v0] d IH]; simpl; [reflexivity|].
  destruct (k0 =? k); [discriminate|]. intro H. rewrite IH; auto.
Qed.

Lemma dict_set_twice {V} (d : pydict V) (k : string) (v v' : V) :
  dict_set (dict_set d k v) k v' = dict_set d k v'.
Proof.
  induction d as [|[k0 v0] d IH]; simpl.
  - rewrite String.eqb_refl. reflexivity.
  - destruct (k0 =? k) eqn:E; simpl; rewrite E; [reflexivity|]. rewrite IH. reflexivity.
Qed.

Lemma dict_keys_set {V} (d : pydict V) (k : string) (v : V) :
  dict_keys (dict_set d k v) =
  if dict_mem k d then dict_keys d else (dict_keys d ++ [k])%list.
Proof.
  unfold dict_mem. induction d as [|[k0 v0] d IH]; simpl; [reflexivity|].
  destruct (String.eqb_spec k0 k) as [->|Hne]; simpl; [reflexivity|].
  rewrite IH. destruct (dict_get d k); reflexivity.
Qed.

Lemma dict_keys_set_NoDup {V} (d : pydict V) (k : string) (v : V) :
  NoDup (dict_keys d) -> NoDup (dict_keys (dict_set d k v)).
Proof.
  intro H. rewrite dict_keys_set. unfold dict_mem.
  destruct (dict_get d k) eqn:E; [exact H|].
  apply dict_get_None_keys in E.
  apply NoDup_app; [exact H | repeat constructor; auto |].
  intros x Hx [<-|[]]. contradiction.
Qed.

Lemma dict_update_all_NoDup {V} (kvs : list (string * V)) (d : pydict V) :
  NoDup (dict_keys d) -> NoDup (dict_keys (dict_update_all d kvs)).
Proof.
  revert d. induction kvs as [|[k v] kvs IH]; intros d H; simpl; [exact H|].
  apply IH. apply dict_keys_set_NoDup. exact H.
Qed.

Lemma dict_update_all_fresh {V} (kvs : list (string * V)) (d : pydict V) :
  NoDup (map fst kvs) ->
  (forall k, In k (map fst kvs) -> ~ In k (dict_keys d)) ->
  dict_update_all d kvs = (d ++ kvs)%list.
Proof.
  revert d. induction kvs as [|[k v] kvs IH]; intros d Hnd Hfresh; simpl.
  - rewrite app_nil_r. reflexivity.
  - inversion Hnd as [|? ? Hnotin Hnd']; subst.
    rewrite dict_set_new by (apply dict_get_None_keys, Hfresh; simpl; auto).
    rewrite IH; [rewrite <- app_assoc; reflexivity | exact Hnd' |].
    intros k' Hin. unfold dict_keys. rewrite map_app, in_app_iff. simpl.
    intros [H|[H|[]]].
    + apply (Hfresh k'); simpl; auto.
    + subst. contradiction.
Qed.

Lemma dict_update_all_values {V} (P : V -> Prop) (kvs : list (string * V)) (d : pydict V) :
  (forall v, In v (dict_values d) -> P v) ->
  (forall v, In v (map snd kvs) -> P v) ->
  forall v, In v (dict_values (dict_update_all d kvs)) -> P v.
Proof.
  revert d. induction kvs as [|[k v0] kvs IH]; intros d Hd Hk; simpl; [exact Hd|].
  apply IH; [|intros; apply Hk; simpl; auto].
  intros v Hin. clear IH.
  assert (Hv0 : P v0) by (apply Hk; simpl; auto).
  induction d as [|[k1 v1] d IHd]; simpl in Hin.
  - destruct Hin as [<-|[]]. exact Hv0.
  - destruct (k1 =? k); simpl in Hin.
    + destruct Hin as [<-|Hin]; [exact Hv0|]. apply Hd. simpl. auto.
    + destruct Hin as [<-|Hin]; [apply Hd; simpl; auto|].
      apply IHd; [|exact Hin]. intros. apply Hd. simpl. auto.
Qed.

Lemma create_tasks_update (names : list string) :
  forall (next : nat) (d : pydict nat),
    create_tasks names next d =
    dict_update_all d (combine names (seq next (length names))).
Proof.
  induction names as [|n names IH]; intros next d; simpl; [reflexivity|].
  rewrite IH. reflexivity.
Qed.

Lemma combine_fst {A B} (l : list A) (l' : list B) :
  length l = length l' -> map fst (combine l l') = l.
Proof.
  revert l'. induction l as [|a l IH]; intros [|b l'] H; simpl in *; try congruence.
  f_equal. apply IH. congruence.
Qed.

Lemma combine_snd {A B} (l : list A) (l' : list B) :
  length l = length l' -> map snd (combine l l') = l'.
Proof.
  revert l'. induction l as [|a l IH]; intros [|b l'] H; simpl in *; try congruence.
  f_equal. apply IH. congruence.
Qed.

(** With no name repeated, task [i] is tracked under the [i]-th name. *)
Lemma create_tasks_NoDup (names : list string) :
  NoDup names ->
  create_tasks names 0 [] = combine names (seq 0 (length names)).
Proof.
  intro H. rewrite create_tasks_update.
  rewrite dict_update_all_fresh; [reflexivity| |intros k _ []].
  rewrite combine_fst by (rewrite length_seq; reflexivity). exact H.
Qed.

Lemma create_tasks_keys_NoDup (names : list string) :
  NoDup (dict_keys (create_tasks names 0 [])).
Proof. rewrite create_tasks_update. apply dict_update_all_NoDup. constructor. Qed.

(** ** The fan-in of [search_all] *)

Lemma count_status_total (s : string) (values : list (option ProviderResult)) :
  (forall v, In v values -> v <> None) -> exists n, count_status s values = Ok n.
Proof.
  induction values as [|v values IH]; intro H; simpl; [eauto|].
  destruct v as [r|]; [|exfalso; apply (H None); simpl; auto].
  destruct IH as [n ->]; [intros; apply H; simpl; auto|].
  simpl. eauto.
Qed.

Lemma gather_length (fates : list TaskFate) (completed : list (Res (option ProviderResult))) :
  gather fates = Some completed -> length completed = length fates.
Proof.
  revert completed. induction fates as [|f fates IH]; intros completed H; simpl in H.
  - injection H as <-. reflexivity.
  - destruct f; destruct (gather fates) as [l|]; try discriminate;
      injection H as <-; simpl; f_equal; apply IH; reflexivity.
Qed.

Lemma gather_None (fates : list TaskFate) :
  gather fates = None <-> In InFlight fates.
Proof.
  induction fates as [|f fates IH]; simpl.
  - split; [discriminate|tauto].
  - destruct f; destruct (gather fates) as [l|];
      split; intro H; auto; try discriminate;
      try (right; apply IH; reflexivity);
      try (destruct H as [H|H]; [discriminate|apply IH in H; discriminate]).
Qed.

Lemma gather_Some_entries (fates : list TaskFate)
      (completed : list (Res (option ProviderResult))) :
  gather fates = Some completed ->
  forall c, In c completed ->
            exists f, In f fates
                      /\ match f with
                         | Finished r => c = Ok r
                         | Failed e => c = Raise e
                         | InFlight => False
                         end.
Proof.
  revert completed. induction fates as [|f fates IH]; intros completed H c Hc; simpl in H.
  - injection H as <-. destruct Hc.
  - destruct f; destruct (gather fates) as [l|] eqn:E; try discriminate;
      injection H as <-; destruct Hc as [<-|Hc];
      try (eexists; split; [left; reflexivity|reflexivity]);
      destruct (IH l eq_refl c Hc) as (f & Hf & Hm); exists f; split; auto; right; auto.
Qed.

Lemma dict_update_all_length {V} (kvs : list (string * V)) (d : pydict V) :
  (length (dict_update_all d kvs) <= length d + length kvs)%nat.
Proof.
  revert d. induction kvs as [|[k v] kvs IH]; intro d; simpl; [lia|].
  specialize (IH (dict_set d k v)).
  assert (length (dict_set d k v) <= S (length d))%nat.
  { clear. induction d as [|[k0 v0] d IHd]; simpl; [lia|].
    destruct (k0 =? k); simpl; lia. }
  lia.
Qed.

Section FanInFacts.

Variable repr_float : Q -> string.
Variable self : UniversalProvider.
Variable env : FanEnv.

Lemma in_cancel_task (task t : nat) (s : FanIn) :
  exists s', cancel_task task s = (Return tt, s')
             /\ provider_results s' = provider_results s
             /\ (In t (cancelled s') <-> In t (cancelled s) \/ t = task).
Proof.
  eexists. split; [reflexivity|]. split; [reflexivity|]. simpl.
  destruct (existsb (Nat.eqb task) (cancelled s)) eqn:E.
  - apply existsb_exists in E. destruct E as (x & Hx & Hxt).
    apply Nat.eqb_eq in Hxt. subst x. split; [auto|]. intros [H| ->]; auto.
  - rewrite in_app_iff. simpl. intuition.
Qed.

Lemma wait_for_gather_completed (tasks : list nat)
      (completed : list (Res (option ProviderResult))) (s : FanIn) :
  gather (map (fe_fate env) tasks) = Some completed ->
  wait_for_gather env tasks s = (Return completed, s).
Proof. intro H. unfold wait_for_gather. rewrite H. reflexivity. Qed.

Lemma wait_for_gather_timeout (tasks : list nat) (s : FanIn) :
  gather (map (fe_fate env) tasks) = None ->
  exists s', wait_for_gather env tasks s
             = (Throw (Exception (Exn TimeoutError "")), s')
             /\ provider_results s' = provider_results s
             /\ (forall t, In t (cancelled s') <->
                           In t (cancelled s) \/ (In t tasks /\ in_flight env t)).
Proof.
  intro H. unfold wait_for_gather. rewrite H. clear H. revert s.
  induction tasks as [|task tasks IH]; intro s; simpl.
  - exists s. split; [reflexivity|]. split; [reflexivity|]. intro t. tauto.
  - destruct (fe_fate env task) eqn:Ef.
    + destruct (IH s) as (s' & E & Hp & Hc). exists s'. split; [exact E|].
      split; [exact Hp|]. intro t. rewrite Hc. unfold in_flight.
      split; [tauto|]. intros [H|[[<-|H] H']]; auto; congruence.
    + destruct (IH s) as (s' & E & Hp & Hc). exists s'. split; [exact E|].
      split; [exact Hp|]. intro t. rewrite Hc. unfold in_flight.
      split; [tauto|]. intros [H|[[<-|H] H']]; auto; congruence.
    + unfold bind at 1.
      destruct (in_cancel_task task 0%nat s) as (s1 & E1 & Hp1 & _).
      rewrite E1.
      destruct (IH s1) as (s' & E & Hp & Hc). exists s'. split; [exact E|].
      split; [congruence|]. intro t. rewrite Hc.
      destruct (in_cancel_task task t s) as (s1' & E1' & _ & Hc1).
      assert (s1' = s1) by congruence. subst s1'. rewrite Hc1.
      unfold in_flight. split.
      * intros [[H| ->]|[H H']]; auto.
      * intros [H|[[<-|H] H']]; auto.
Qed.

Lemma keep_result_Some (provider_name : string) (r : ProviderResult) (s : FanIn) :
  exists s', keep_result provider_name (Some r) s = (Return tt, s')
             /\ provider_results s' = dict_set (provider_results s) provider_name (Some r)
             /\ cancelled s' = cancelled s.
Proof.
  unfold keep_result, bind, set_result, lift, subscript, extend_offers, ret. simpl.
  destruct (status r =? "success"); eexists; split; try reflexivity; auto.
Qed.

Lemma keep_result_None (provider_name : string) (s : FanIn) :
  exists s', keep_result provider_name None s
             = (Throw (Exception (Exn TypeError "object is not subscriptable")), s')
             /\ provider_results s' = dict_set (provider_results s) provider_name None
             /\ cancelled s' = cancelled s.
Proof. eexists. split; [reflexivity|]. auto. Qed.

(** The time-out handler records one entry per tracked task, and
    cancels again the tasks it finds still running. *)
Lemma collect_partial_spec (search_timeout : Q) (items : pydict nat) :
  forall s : FanIn,
  exists s',
    collect_partial repr_float env search_timeout items s = (Return tt, s')
    /\ provider_results s' =
       dict_update_all (provider_results s)
         (map (fun kt => (fst kt, Some (timeout_entry repr_float env search_timeout (snd kt))))
              items)
    /\ (forall t, In t (cancelled s') <->
                  In t (cancelled s)
                  \/ (In t (dict_values items) /\ in_flight env t
                      /\ fe_cancel_seen env t = false)).
Proof.
  induction items as [|[provider_name task] items IH]; intro s.
  - exists s. split; [reflexivity|]. split; [reflexivity|]. simpl. tauto.
  - cbn [collect_partial]. unfold bind at 1.
    assert (Hitem : exists s1,
               (if match fe_fate env task with
                   | InFlight => fe_cancel_seen env task
                   | _ => true
                   end
                then
                  try_except
                    (result <- match fe_fate env task with
                               | Finished r => ret r
                               | Failed e => raise e
                               | InFlight => throw CancelledError
                               end ;;
                     keep_result provider_name result ;;
                     append_completed provider_name)
                    (fun b =>
                       match b with
                       | CancelledError =>
                           set_result provider_name
                             (Some (mkProviderResult "timeout" None
                                      (Some "Provider search was cancelled during timeout handling")
                                      [] None None None None)) ;;
                           append_timed_out provider_name
                       | Exception e =>
                           set_result provider_name
                             (Some (mkProviderResult "error" None (Some (str_of_exn e)) []
                                      None None None None)) ;;
                           append_completed provider_name
                       end)
                else
                  cancel_task task ;;
                  set_result provider_name
                    (Some (mkProviderResult "timeout" None
                             (Some ("Provider search timed out after "
                                    ++ repr_float search_timeout ++ "s"))
                             [] None (Some (py_int (search_timeout * 1000))) None None)) ;;
                  append_timed_out provider_name) s = (Return tt, s1)
               /\ provider_results s1 =
                  dict_set (provider_results s) provider_name
                    (Some (timeout_entry repr_float env search_timeout task))
               /\ (forall t, In t (cancelled s1) <->
                             In t (cancelled s)
                             \/ (t = task /\ in_flight env t
                                 /\ fe_cancel_seen env t = false))).
    { unfold timeout_entry, in_flight.
      destruct (fe_fate env task) as [[r|]|e|] eqn:Ef.
      - unfold try_except, bind at 1, ret at 1. unfold bind at 1.
        destruct (keep_result_Some provider_name r s) as (s1 & -> & Hp & Hc).
        eexists. split; [reflexivity|]. simpl. split; [exact Hp|].
        intro t. rewrite Hc. split; [tauto|]. intros [H|(-> & H & _)]; auto; congruence.
      - unfold try_except, bind at 1, ret at 1. unfold bind at 1.
        destruct (keep_result_None provider_name s) as (s1 & -> & Hp & Hc).
        eexists. split; [reflexivity|]. simpl. rewrite Hp, dict_set_twice.
        split; [reflexivity|].
        intro t. rewrite Hc. split; [tauto|]. intros [H|(-> & H & _)]; auto; congruence.
      - eexists. split; [reflexivity|]. simpl. split; [reflexivity|].
        intro t. split; [tauto|]. intros [H|(-> & H & _)]; auto; congruence.
      - destruct (fe_cancel_seen env task) eqn:Eseen.
        + eexists. split; [reflexivity|]. simpl. split; [reflexivity|].
          intro t. split; [tauto|]. intros [H|(-> & _ & H)]; auto; congruence.
        + unfold bind at 1.
          destruct (in_cancel_task task 0%nat s) as (s1 & E1 & Hp1 & _). rewrite E1.
          eexists. split; [reflexivity|]. simpl. rewrite Hp1. split; [reflexivity|].
          intro t. destruct (in_cancel_task task t s) as (s1' & E1' & _ & Hc1).
          assert (s1' = s1) by congruence. subst s1'. rewrite Hc1.
          split; [intros [H| ->]; auto|]. intros [H|(-> & _)]; auto. }
    destruct Hitem as (s1 & -> & Hp1 & Hc1).
    destruct (IH s1) as (s' & -> & Hp & Hc).
    exists s'. split; [reflexivity|]. split.
    + rewrite Hp, Hp1. reflexivity.
    + intro t. rewrite Hc, Hc1. simpl. split.
      * intros [[H|(-> & H)]|(H & H')]; auto.
      * intros [H|([<-|H] & H')]; auto.
Qed.

End FanInFacts.

Lemma skipn_nth_error {A} (l : list A) (i : nat) (a : A) :
  nth_error l i = Some a -> skipn i l = a :: skipn (S i) l.
Proof.
  revert i. induction l as [|x l IH]; intros [|i] H; simpl in *; try discriminate.
  - injection H as ->. reflexivity.
  - apply IH. exact H.
Qed.

Section FanInPaths.

Variable repr_float : Q -> string.
Variable self : UniversalProvider.
Variable env : FanEnv.

(** The loop over the gathered results records the [i]-th result under
    the [i]-th name of [providers_to_search]. *)
Lemma process_completed_spec (names : list string)
      (completed_tasks : list (Res (option ProviderResult))) :
  forall (i : nat) (s : FanIn),
    (i + length completed_tasks <= length names)%nat ->
    (forall c, In c completed_tasks -> c <> Ok None) ->
    exists s',
      process_completed env names i completed_tasks s = (Return tt, s')
      /\ provider_results s' =
         dict_update_all (provider_results s)
           (combine (skipn i names) (map (normal_entry env) completed_tasks))
      /\ cancelled s' = cancelled s.
Proof.
  induction completed_tasks as [|c completed IH]; intros i s Hlen Hnone.
  - exists s. split; [reflexivity|]. split; [|reflexivity].
    destruct (skipn i names); reflexivity.
  - simpl in Hlen. cbn [process_completed]. unfold bind at 1, lift at 1.
    destruct (nth_error names i) as [provider_name|] eqn:En.
    2: { apply nth_error_None in En. lia. }
    rewrite (skipn_nth_error _ _ _ En). cbn [map combine].
    unfold bind at 1.
    assert (Hstep : exists s1,
               match c with
               | Ok r => keep_result provider_name r
               | Raise e =>
                   set_result provider_name
                     (Some (mkProviderResult "error" None (Some (str_of_exn e)) []
                              None (Some (elapsed_ms (fe_now env) (fe_start env)))
                              None None))
               end s = (Return tt, s1)
               /\ provider_results s1 =
                  dict_set (provider_results s) provider_name (normal_entry env c)
               /\ cancelled s1 = cancelled s).
    { destruct c as [[r|]|e].
      - apply keep_result_Some.
      - exfalso. apply (Hnone (Ok None)); simpl; auto.
      - eexists. split; [reflexivity|]. auto. }
    destruct Hstep as (s1 & -> & Hp1 & Hc1).
    destruct (IH (S i) s1) as (s' & -> & Hp & Hc);
      [lia | intros; apply Hnone; simpl; auto |].
    exists s'. split; [reflexivity|]. split; [|congruence].
    rewrite Hp, Hp1. reflexivity.
Qed.

Lemma summarize_total (hotel_names : list string) (search_timeout : Q) (s : FanIn) :
  (forall v, In v (dict_values (provider_results s)) -> v <> None) ->
  exists agg,
    summarize env hotel_names search_timeout s = (Return agg, s)
    /\ providers agg = provider_results s
    /\ hotel_count (summary agg) = length hotel_names
    /\ total_offers (summary agg) = length (all_offers s).
Proof.
  intro H. unfold summarize, lift.
  destruct (count_status_total "success" _ H) as [n1 ->].
  destruct (count_status_total "error" _ H) as [n2 ->].
  destruct (count_status_total "timeout" _ H) as [n3 ->].
  simpl. eexists. split; [reflexivity|]. auto.
Qed.

(** When the deadline passes with a tracked task in flight: the call
    returns, with one entry per tracked task, and has cancelled exactly
    the tracked tasks that were in flight. *)
Lemma search_all_timeout_path (criteria : Criteria) (h : string) (hs : list string) :
  c_hotel_names criteria = Some (h :: hs) ->
  gather (map (fe_fate env) (tracked_tasks self criteria)) = None ->
  let run := search_all repr_float self criteria env in
  let search_timeout :=
    match c_search_timeout criteria with Some t => t | None => 10 end in
  created run = providers_to_search self criteria
  /\ (forall t, In t (cancelled_tasks run) <->
                In t (tracked_tasks self criteria) /\ in_flight env t)
  /\ exists agg,
       returned run = Return agg
       /\ providers agg =
          map (fun kt => (fst kt,
                          Some (timeout_entry repr_float env search_timeout (snd kt))))
              (create_tasks (providers_to_search self criteria) 0 []).
Proof.
  intros Hh Hg run search_timeout. unfold run, search_all. rewrite Hh.
  set (names := providers_to_search self criteria).
  set (pt := create_tasks names 0 []).
  fold search_timeout.
  unfold bind, try_except.
  destruct (wait_for_gather_timeout env (dict_values pt) (mkFanIn [] [] [] [] []) Hg)
    as (s1 & E1 & Hp1 & Hc1).
  rewrite E1. cbn [class_of]. cbv beta iota.
  destruct (collect_partial_spec repr_float env search_timeout pt s1)
    as (s2 & E2 & Hp2 & Hc2).
  rewrite E2.
  rewrite Hp1 in Hp2. simpl in Hp2.
  rewrite dict_update_all_fresh in Hp2.
  2: { rewrite map_map. simpl. apply create_tasks_keys_NoDup. }
  2: { intros k _ []. }
  simpl in Hp2.
  destruct (summarize_total (h :: hs) search_timeout s2) as (agg & E3 & Hagg & _).
  { rewrite Hp2. unfold dict_values. rewrite map_map. simpl.
    intros v Hv. apply in_map_iff in Hv. destruct Hv as (x & <- & _). discriminate. }
  rewrite E3.
  simpl. split; [reflexivity|]. split.
  - intro t. rewrite Hc2, Hc1. simpl. unfold tracked_tasks. fold names pt. tauto.
  - exists agg. split; [reflexivity|]. congruence.
Qed.

(** When every tracked task is done at the deadline and has returned a
    dict or raised: the call returns, the [i]-th gathered result is
    recorded under the [i]-th name, and nothing is cancelled. *)
Lemma search_all_normal_path (criteria : Criteria) (h : string) (hs : list string)
      (completed : list (Res (option ProviderResult))) :
  c_hotel_names criteria = Some (h :: hs) ->
  gather (map (fe_fate env) (tracked_tasks self criteria)) = Some completed ->
  (forall c, In c completed -> c <> Ok None) ->
  let run := search_all repr_float self criteria env in
  created run = providers_to_search self criteria
  /\ cancelled_tasks run = []
  /\ exists agg,
       returned run = Return agg
       /\ providers agg =
          dict_update_all []
            (combine (providers_to_search self criteria)
                     (map (normal_entry env) completed)).
Proof.
  intros Hh Hg Hnone run. unfold run, search_all. rewrite Hh.
  set (names := providers_to_search self criteria).
  set (pt := create_tasks names 0 []).
  unfold bind, try_except.
  rewrite (wait_for_gather_completed env (dict_values pt) completed _ Hg).
  assert (Hlen : (0 + length completed <= length names)%nat).
  { rewrite (gather_length _ _ Hg), length_map. unfold tracked_tasks, dict_values.
    rewrite length_map. fold names.
    rewrite create_tasks_update.
    pose proof (dict_update_all_length (combine names (seq 0 (length names)))
                  (@nil (string * nat))) as Hl.
    rewrite length_combine, length_seq in Hl. simpl in Hl. lia. }
  destruct (process_completed_spec names completed 0 (mkFanIn [] [] [] [] []) Hlen Hnone)
    as (s1 & E1 & Hp1 & Hc1).
  rewrite E1.
  simpl in Hp1, Hc1.
  destruct (summarize_total (h :: hs)
              (match c_search_timeout criteria with Some t => t | None => 10 end) s1)
    as (agg & E2 & Hagg & _).
  { rewrite Hp1. apply dict_update_all_values; [intros v []|].
    intros v Hv.
    assert (Hv' : In v (map (normal_entry env) completed)).
    { clear - Hv. revert Hv. generalize (map (normal_entry env) completed).
      induction names as [|n names' IH]; intros [|x l] Hv; simpl in *; try tauto.
      destruct Hv as [<-|Hv]; auto. }
    apply in_map_iff in Hv'. destruct Hv' as (c & <- & Hc).
    destruct c as [[r|]|e]; simpl; try discriminate.
    exfalso. apply (Hnone (Ok None)); auto. }
  rewrite E2.
  simpl. split; [reflexivity|]. split; [exact Hc1|].
  exists agg. split; [reflexivity|]. congruence.
Qed.

End FanInPaths.

(** ** Which suppliers are searched *)

Lemma search_all_created (repr_float : Q -> string) (self : UniversalProvider)
      (criteria : Criteria) (env : FanEnv) (h : string) (hs : list string) :
  c_hotel_names criteria = Some (h :: hs) ->
  created (search_all repr_float self criteria env) = providers_to_search self criteria.
Proof.
  intro Hh. unfold search_all. rewrite Hh.
  match goal with |- created (let '(_, _) := ?x in _) = _ => destruct x end.
  reflexivity.
Qed.

(** C6.  The suppliers to search are: the names given that are loaded, in
    the order given, when there is at least one; every loaded supplier
    when no list is given, when it is empty, and when it names no loaded
    supplier.  With hotel names in the criteria, [search_all] starts one
    unit for each of these names, in this order. *)
Theorem C6_supplier_subset (repr_float : Q -> string) (self : UniversalProvider)
        (criteria : Criteria) :
  let available := dict_keys (adapters self) in
  let given := match c_providers criteria with Some l => l | None => [] end in
  let valid := filter (fun p => str_in p available) given in
  (valid = [] -> providers_to_search self criteria = available)
  /\ (valid <> [] -> providers_to_search self criteria = valid)
  /\ (forall p, In p valid <-> In p given /\ In p available)
  /\ (given = [] -> valid = [])
  /\ ((forall p, In p given -> ~ In p available) -> valid = [])
  /\ (forall (env : FanEnv) (h : string) (hs : list string),
         c_hotel_names criteria = Some (h :: hs) ->
         created (search_all repr_float self criteria env)
         = providers_to_search self criteria).
Proof.
  intros available given valid.
  assert (Hin : forall p, str_in p available = true <-> In p available).
  { intro p. unfold str_in. rewrite existsb_exists. split.
    - intros (x & Hx & E). apply String.eqb_eq in E. subst. exact Hx.
    - intro H. exists p. split; [exact H|apply String.eqb_refl]. }
  assert (Hvalid : forall p, In p valid <-> In p given /\ In p available).
  { intro p. unfold valid. rewrite filter_In, Hin. tauto. }
  unfold providers_to_search. fold given available. fold valid.
  split.
  { intro Hv. rewrite Hv. destruct given; reflexivity. }
  split.
  { intro Hv. destruct given as [|g gs] eqn:Eg; [exfalso; apply Hv; reflexivity|].
    destruct valid; [exfalso; apply Hv; reflexivity|reflexivity]. }
  split; [exact Hvalid|].
  split.
  { intro Hg. unfold valid. rewrite Hg. reflexivity. }
  split.
  { intro Hnone. destruct valid as [|v vs] eqn:Ev; [reflexivity|].
    exfalso. assert (Hv : In v (v :: vs)) by (simpl; auto).
    apply Hvalid in Hv. destruct Hv as [Hg Ha]. exact (Hnone v Hg Ha). }
  intros env h hs Hh. apply search_all_created with (h := h) (hs := hs). exact Hh.
Qed.

(** An instance of C6: of the names asked for, one is not loaded. *)
Lemma C6_supplier_subset_witness :
  let criteria := mkCriteria (Some ["Banyan Tree Krabi"]) (Some ["tbo"; "expedia"; "rate_hawk"])
                    None None None in
  filter (fun p => str_in p (dict_keys (adapters sample_provider)))
         ["tbo"; "expedia"; "rate_hawk"] <> []
  /\ providers_to_search sample_provider criteria = ["tbo"; "rate_hawk"].
Proof.
  intro criteria.
  assert (H : filter (fun p => str_in p (dict_keys (adapters sample_provider)))
                ["tbo"; "expedia"; "rate_hawk"] <> []) by (vm_compute; discriminate).
  split; [exact H|].
  exact (proj1 (proj2 (C6_supplier_subset sample_repr_float sample_provider criteria)) H).
Defined.

(** C9.  Without hotel names (no list, or an empty one), [search_all]
    returns at once an empty [providers] map and zero totals; it creates
    no task and cancels none, whatever suppliers the criteria select. *)
Theorem C9_no_hotel_names (repr_float : Q -> string) (self : UniversalProvider)
        (criteria : Criteria) (env : FanEnv) :
  c_hotel_names criteria = None \/ c_hotel_names criteria = Some [] ->
  let run := search_all repr_float self criteria env in
  created run = []
  /\ cancelled_tasks run = []
  /\ exists agg,
       returned run = Return agg
       /\ providers agg = []
       /\ total_offers (summary agg) = 0%nat
       /\ successful_providers (summary agg) = 0%nat
       /\ hotel_count (summary agg) = 0%nat
       /\ summary_processing_time_ms (summary agg)
          = elapsed_ms (fe_now env) (fe_start env).
Proof.
  intros [H|H] run; unfold run, search_all; rewrite H; simpl;
    repeat split; eexists; repeat split.
Qed.

(** An instance of C9: suppliers are selected, hotel names are not. *)
Lemma C9_no_hotel_names_witness :
  let criteria := mkCriteria (Some []) (Some ["rate_hawk"; "tbo"]) None None None in
  let env := mkFanEnv 0 0 (fun _ => InFlight) (fun _ => true) in
  (c_hotel_names criteria = None \/ c_hotel_names criteria = Some [])
  /\ created (search_all sample_repr_float sample_provider criteria env) = [].
Proof.
  intros criteria env.
  assert (H : c_hotel_names criteria = None \/ c_hotel_names criteria = Some [])
    by (right; reflexivity).
  split; [exact H|].
  exact (proj1 (C9_no_hotel_names sample_repr_float sample_provider criteria env H)).
Defined.

(** ** One entry per supplier *)

Lemma dict_get_In_values {V} (d : pydict V) (k : string) (v : V) :
  dict_get d k = Some v -> In v (dict_values d).
Proof.
  induction d as [|[k0 v0] d IH]; simpl; [discriminate|].
  destruct (k0 =? k); [intro H; injection H as ->; auto|auto].
Qed.

Lemma dict_get_map {V W} (f : V -> W) (d : pydict V) (k : string) :
  dict_get (map (fun kv => (fst kv, f (snd kv))) d) k = option_map f (dict_get d k).
Proof.
  induction d as [|[k0 v0] d IH]; simpl; [reflexivity|].
  destruct (k0 =? k); [reflexivity|exact IH].
Qed.

Lemma dict_get_In_keys {V} (d : pydict V) (k : string) :
  In k (dict_keys d) -> exists v, dict_get d k = Some v.
Proof.
  intro H. destruct (dict_get d k) eqn:E; [eauto|].
  apply dict_get_None_keys in E. contradiction.
Qed.

Lemma gathered_dicts (env : FanEnv) (tasks : list nat)
      (completed : list (Res (option ProviderResult))) :
  (forall i, fe_fate env i <> Finished None) ->
  gather (map (fe_fate env) tasks) = Some completed ->
  forall c, In c completed -> c <> Ok None.
Proof.
  intros Hnone Hg c Hc ->.
  destruct (gather_Some_entries _ _ Hg _ Hc) as (f & Hf & Hm).
  apply in_map_iff in Hf. destruct Hf as (i & <- & _).
  destruct (fe_fate env i) eqn:E; try discriminate; try contradiction.
  injection Hm as <-. exact (Hnone i E).
Qed.

(** C1, as stated, fails.  The criteria select a loaded supplier and name
    no hotel: the supplier is the one to search, and the [providers] map
    returned has no entry for it. *)
Lemma C1_selected_supplier_without_entry :
  let criteria := mkCriteria (Some []) (Some ["rate_hawk"]) None None None in
  let env := mkFanEnv 0 0 (fun _ => Finished None) (fun _ => true) in
  providers_to_search sample_provider criteria = ["rate_hawk"]
  /\ exists agg,
       returned (search_all sample_repr_float sample_provider criteria env) = Return agg
       /\ dict_get (providers agg) "rate_hawk" = None.
Proof. split; [reflexivity|]. eexists. split; reflexivity. Qed.

(** C1, amended.  When the criteria name at least one hotel and no
    supplier is repeated in the list to search, [search_all] returns, and
    the keys of the [providers] map are exactly the suppliers to search,
    each once and in that order, whatever became of each unit: returned a
    result, raised, or still in flight at the deadline. *)
Theorem C1_one_entry_per_supplier (repr_float : Q -> string) (self : UniversalProvider)
        (criteria : Criteria) (env : FanEnv) (h : string) (hs : list string) :
  c_hotel_names criteria = Some (h :: hs) ->
  NoDup (providers_to_search self criteria) ->
  (forall i, fe_fate env i <> Finished None) ->
  exists agg,
    returned (search_all repr_float self criteria env) = Return agg
    /\ dict_keys (providers agg) = providers_to_search self criteria
    /\ NoDup (dict_keys (providers agg))
    /\ (forall provider_name,
           In provider_name (providers_to_search self criteria) ->
           exists r, dict_get (providers agg) provider_name = Some (Some r)).
Proof.
  intros Hh Hnd Hnone.
  set (names := providers_to_search self criteria) in *.
  assert (Hpt : create_tasks names 0 [] = combine names (seq 0 (length names)))
    by (apply create_tasks_NoDup; exact Hnd).
  assert (Hkeys : forall agg : AggregatedResult,
             dict_keys (providers agg) = names ->
             (forall v, In v (dict_values (providers agg)) -> v <> None) ->
             dict_keys (providers agg) = names
             /\ NoDup (dict_keys (providers agg))
             /\ (forall provider_name,
                    In provider_name names ->
                    exists r, dict_get (providers agg) provider_name = Some (Some r))).
  { intros agg Hk Hv. split; [exact Hk|]. split; [rewrite Hk; exact Hnd|].
    intros p Hp. rewrite <- Hk in Hp.
    destruct (dict_get_In_keys _ _ Hp) as [[r|] E]; [eauto|].
    exfalso. exact (Hv None (dict_get_In_values _ _ _ E) eq_refl). }
  destruct (gather (map (fe_fate env) (tracked_tasks self criteria))) as [completed|] eqn:Hg.
  - destruct (search_all_normal_path repr_float self env criteria h hs completed Hh Hg
                (gathered_dicts env _ _ Hnone Hg))
      as (_ & _ & agg & Hret & Hprov).
    exists agg. split; [exact Hret|]. fold names in Hprov.
    assert (Hlen : length completed = length names).
    { rewrite (gather_length _ _ Hg), length_map. unfold tracked_tasks. fold names.
      rewrite Hpt. unfold dict_values.
      rewrite combine_snd by (rewrite length_seq; reflexivity).
      apply length_seq. }
    rewrite dict_update_all_fresh in Hprov.
    2: { rewrite combine_fst by (rewrite length_map; congruence). exact Hnd. }
    2: { intros k _ []. }
    simpl in Hprov. apply Hkeys.
    + rewrite Hprov. apply combine_fst. rewrite length_map. congruence.
    + rewrite Hprov. unfold dict_values.
      rewrite combine_snd by (rewrite length_map; congruence).
      intros v Hv. apply in_map_iff in Hv. destruct Hv as (c & <- & Hc).
      pose proof (gathered_dicts env _ _ Hnone Hg c Hc) as Hc'.
      destruct c as [[r|]|e]; simpl; congruence.
  - destruct (search_all_timeout_path repr_float self env criteria h hs Hh Hg)
      as (_ & _ & agg & Hret & Hprov).
    exists agg. split; [exact Hret|]. fold names in Hprov. apply Hkeys.
    + rewrite Hprov. unfold dict_keys. rewrite map_map. simpl.
      rewrite Hpt. apply combine_fst. rewrite length_seq. reflexivity.
    + rewrite Hprov. unfold dict_values. rewrite map_map. simpl.
      intros v Hv. apply in_map_iff in Hv. destruct Hv as (x & <- & _). discriminate.
Qed.

(** An instance of C1, amended: three suppliers; the first has returned,
    the second has raised, the third is in flight at the deadline. *)
Lemma C1_one_entry_per_supplier_witness :
  let criteria := mkCriteria (Some ["Banyan Tree Krabi"]) None None None None in
  let env :=
    mkFanEnv 0 10
      (fun i => match i with
                | 0%nat => Finished (Some (mkProviderResult "success" (Some "rate_hawk")
                                             None [] (Some 0%nat) (Some 12%Z) (Some 1%nat)
                                             (Some "closed")))
                | 1%nat => Failed (Exn OtherException "unexpected")
                | _ => InFlight
                end)
      (fun _ => true) in
  c_hotel_names criteria = Some ["Banyan Tree Krabi"]
  /\ NoDup (providers_to_search sample_provider criteria)
  /\ (forall i, fe_fate env i <> Finished None)
  /\ exists agg,
       returned (search_all sample_repr_float sample_provider criteria env) = Return agg
       /\ dict_keys (providers agg) = ["rate_hawk"; "goglobal"; "tbo"].
Proof.
  intros criteria env.
  assert (H1 : c_hotel_names criteria = Some ["Banyan Tree Krabi"]) by reflexivity.
  assert (H2 : NoDup (providers_to_search sample_provider criteria)).
  { vm_compute. repeat constructor; simpl; intuition discriminate. }
  assert (H3 : forall i, fe_fate env i <> Finished None).
  { intros [|[|i]]; discriminate. }
  repeat (split; [assumption|]).
  destruct (C1_one_entry_per_supplier sample_repr_float sample_provider criteria env
              "Banyan Tree Krabi" [] H1 H2 H3) as (agg & Hret & Hkeys & _).
  exists agg. split; [exact Hret|exact Hkeys].
Defined.

(** ** The deadline *)

(** X22.  What the deadline does to the units [search_all] keeps track of: a
    unit that has returned a result keeps it, a unit in flight is cancelled
    and recorded as [timeout], and the call returns. *)
Lemma deadline_keeps_and_cancels_tracked (repr_float : Q -> string)
      (self : UniversalProvider) (criteria : Criteria) (env : FanEnv)
      (h : string) (hs : list string) :
  c_hotel_names criteria = Some (h :: hs) ->
  (exists task, In task (tracked_tasks self criteria) /\ in_flight env task) ->
  let run := search_all repr_float self criteria env in
  exists agg,
    returned run = Return agg
    /\ forall provider_name task,
         dict_get (create_tasks (providers_to_search self criteria) 0 []) provider_name
         = Some task ->
         exists r,
           dict_get (providers agg) provider_name = Some (Some r)
           /\ (forall r', fe_fate env task = Finished (Some r') -> r = r')
           /\ (forall e, fe_fate env task = Failed e ->
                         status r = "error" /\ error r = Some (str_of_exn e))
           /\ (in_flight env task ->
               status r = "timeout" /\ offers r = [] /\ In task (cancelled_tasks run)).
Proof.
  intros Hh (task0 & Hin0 & Hfl0) run.
  assert (Hg : gather (map (fe_fate env) (tracked_tasks self criteria)) = None).
  { apply gather_None. apply in_map_iff. exists task0. split; assumption. }
  destruct (search_all_timeout_path repr_float self env criteria h hs Hh Hg)
    as (_ & Hcancel & agg & Hret & Hprov).
  exists agg. split; [exact Hret|].
  intros provider_name task Hget.
  rewrite Hprov.
  rewrite (dict_get_map (fun t => Some (timeout_entry repr_float env _ t))), Hget.
  simpl. eexists. split; [reflexivity|].
  unfold timeout_entry, in_flight.
  split; [intros r' ->; reflexivity|].
  split; [intros e ->; split; reflexivity|].
  intro Hfl. rewrite Hfl.
  split; [destruct (fe_cancel_seen env task); reflexivity|].
  split; [destruct (fe_cancel_seen env task); reflexivity|].
  apply Hcancel. split; [|exact Hfl].
  unfold tracked_tasks. eapply dict_get_In_values. exact Hget.
Qed.

(** C2 at the input that breaks it.  The request names the supplier
    [tbo] twice, so two units are started for it, and [provider_tasks]
    keeps track of the second one only.  First run: the first unit has
    returned four offers and the second one is in flight when the deadline
    passes; the call records [timeout] for [tbo] and no offer: the outcome
    of the unit that had finished is lost.  Second run: both units are in
    flight when the deadline passes; only the second one is cancelled. *)
Theorem C2_untracked_unit_lost_or_left_running :
  let criteria :=
    mkCriteria (Some ["Banyan Tree Krabi"]) (Some ["tbo"; "tbo"]) (Some 5) None None in
  let run worlds :=
    search_all_units config sample_service sample_repr_float sample_provider
      criteria 100 worlds (fun _ => true) in
  let fate worlds i :=
    unit_fate (unit_run config sample_service sample_provider criteria 100 worlds i) in
  let first_done i := match i with 0%nat => world_prompt | _ => world_silent end in
  let both_silent (i : nat) := world_silent in
  created (run first_done) = ["tbo"; "tbo"]
  /\ (exists r, fate first_done 0%nat = Finished (Some r)
                /\ status r = "success" /\ length (offers r) = 4%nat)
  /\ fate first_done 1%nat = InFlight
  /\ (exists agg, returned (run first_done) = Return agg
                  /\ map (fun kv => (fst kv, option_map status (snd kv))) (providers agg)
                     = [("tbo", Some "timeout")]
                  /\ total_offers (summary agg) = 0%nat)
  /\ fate both_silent 0%nat = InFlight
  /\ fate both_silent 1%nat = InFlight
  /\ cancelled_tasks (run both_silent) = [1%nat].
Proof.
  vm_compute.
  split; [reflexivity|].
  split; [eexists; repeat split|].
  split; [reflexivity|].
  split; [eexists; repeat split|].
  repeat split.
Qed.

(** The scenario of the specification: three suppliers and a deadline of
    five seconds; the first answers after one second with four offers, the
    second fails twice and then answers with two offers, the third does not
    answer. *)
Example scenario_partial_results :
  let criteria := mkCriteria (Some ["Banyan Tree Krabi"]) None (Some 5) None None in
  let worlds i :=
    match i with 0%nat => world_prompt | 1%nat => world_flaky | _ => world_silent end in
  let run :=
    search_all_units config sample_service sample_repr_float sample_provider
      criteria 100 worlds (fun _ => true) in
  exists agg,
    returned run = Return agg
    /\ map (fun kv => (fst kv, option_map status (snd kv),
                       option_map (fun r => length (offers r)) (snd kv)))
           (providers agg)
       = [("rate_hawk", Some "success", Some 4%nat);
          ("goglobal", Some "success", Some 2%nat);
          ("tbo", Some "timeout", Some 0%nat)]
    /\ total_offers (summary agg) = 6%nat
    /\ cancelled_tasks run = [2%nat].
Proof. vm_compute. eexists. repeat split. Qed.

(** ** Retries *)

(** C5.  What a call to [search_single] logs from its start shows: at
    most [max_retries - 1] retries (each one a sleep followed by a new
    attempt), so never more than [max_retries], and at most [max_retries]
    requests; the delay slept before retry [k] is [base_delay * 2^(k-1)];
    with a positive [base_delay] each delay is greater than the one before;
    and every sleep comes right after the warning of the [except] clause of
    a time-out or of a generic failure, never after a rejection by the
    breaker.  A rejection by the breaker (its [reset_timeout] a finite
    number of seconds, as [config.py] has it), at whatever attempt, makes
    the call return at once with an error: no request, no sleep, no
    further attempt. *)
Theorem C5_retry_policy (cfg : Config) (meal_type_service : MealMappingService)
        (self : UniversalProvider) (provider_name : string) (criteria : Criteria)
        (w : World) :
  let max_retries := MAX_RETRIES cfg in
  let base_delay := RETRY_BASE_DELAY cfg in
  let run := search_single cfg meal_type_service self provider_name criteria w in
  (exists evs,
      w_log (snd run) = (w_log w ++ evs)%list
      /\ (length (sleeps evs) <= max_retries - 1)%nat
      /\ (length (sleeps evs) <= max_retries)%nat
      /\ (net_calls evs <= max_retries)%nat
      /\ (forall k, (1 <= k <= length (sleeps evs))%nat ->
                    nth (k - 1) (sleeps evs) 0
                    = base_delay * inject_Z (2 ^ Z.of_nat (k - 1)))
      /\ (0 < base_delay ->
          forall k, (S k < length (sleeps evs))%nat ->
                    nth k (sleeps evs) 0 < nth (S k) (sleeps evs) 0)
      /\ sleeps_follow_warnings None evs)
  /\ (forall (adapter : ProviderAdapter) (provider_criteria : Criteria)
             (c b : CircuitBreaker) (start_time : Q) (remaining attempt : nat)
             (w0 : World),
         prepare_meal_type_criteria adapter criteria = Ok provider_criteria ->
         w_cb w0 = Some b ->
         finite_reset b ->
         _state (snd (CircuitBreaker._update_state (w_now w0) b)) = OPEN ->
         exists r w',
           attempts_from cfg meal_type_service (S remaining) adapter provider_name
             criteria (Some c) start_time attempt w0 = (Return (Some r), w')
           /\ status r = "error"
           /\ error r = Some (msg_protection_triggered provider_name)
           /\ circuit_breaker_state r = Some "open"
           /\ w_log w' = w_log w0 /\ w_pos w' = w_pos w0 /\ w_now w' = w_now w0).
Proof.
  intros max_retries base_delay run. split.
  - destruct (search_single_spec cfg meal_type_service self provider_name criteria w)
      as (res & w' & evs & E & Hev & Htr & Hnet & Hsl & _).
    exists evs. unfold run. rewrite E. simpl.
    pose proof (retry_trace_sleeps _ _ _ _ _ Htr) as Hsleeps.
    split; [apply Hev|].
    split; [exact Hsl|].
    split; [fold max_retries in Hsl |- *; lia|].
    split; [exact Hnet|].
    split.
    { intros k Hk. rewrite Hsleeps. rewrite nth_retry_delays by lia. reflexivity. }
    split.
    { intros Hpos k Hk. rewrite Hsleeps. rewrite !nth_retry_delays by lia.
      apply retry_delay_increasing. exact Hpos. }
    apply (retry_trace_follows _ _ _ _ _ Htr).
  - intros adapter provider_criteria c b start_time remaining attempt w0 Hprep Hcb Hfin
           Hopen.
    eapply rejection_returns_at_once; eauto.
Qed.

(** An instance of C5 with the values of [config.py]: the supplier fails
    twice and then answers; one second is slept before the first retry and
    two before the second. *)
Lemma C5_retry_policy_witness :
  let log :=
    w_log (snd (search_single config sample_service sample_provider "goglobal"
                  (mkCriteria (Some ["Banyan Tree Krabi"]) None None None None)
                  world_flaky)) in
  0 < RETRY_BASE_DELAY config
  /\ sleeps log = [1; 2]
  /\ nth 0 (sleeps log) 0 < nth 1 (sleeps log) 0.
Proof.
  intro log.
  assert (Hpos : 0 < RETRY_BASE_DELAY config) by reflexivity.
  split; [exact Hpos|]. split; [vm_compute; reflexivity|].
  destruct (proj1 (C5_retry_policy config sample_service sample_provider "goglobal"
              (mkCriteria (Some ["Banyan Tree Krabi"]) None None None None) world_flaky))
    as (evs & Hlog & _ & _ & _ & _ & Hincr & _).
  change (log = evs) in Hlog. rewrite Hlog.
  apply (Hincr Hpos 0%nat). rewrite <- Hlog. vm_compute. constructor.
Defined.

(** ** The statuses of a supplier unit *)

Lemma success_or_error_not_timeout (s : string) :
  s = "success" \/ s = "error" -> s <> "timeout".
Proof. intros [-> | ->]; discriminate. Qed.

Lemma In_combine_snd {A B} (l : list A) (l' : list B) (b : B) :
  In b (map snd (combine l l')) -> In b l'.
Proof.
  revert l'. induction l as [|a l IH]; intros [|x l'] H; simpl in *; try tauto.
  destruct H as [<-|H]; auto.
Qed.

Section UnitFacts.

Variable cfg : Config.
Variable meal_type_service : MealMappingService.
Variable self : UniversalProvider.
Hypothesis Hmax : (0 < MAX_RETRIES cfg)%nat.

(** A unit started by [search_all] has either returned a dict whose
    status is [success] or [error], or been cut off by the deadline; it
    raises only when its breaker has [-inf] for its [reset_timeout]. *)
Lemma unit_run_fate (criteria : Criteria) (start_time : Q) (worlds : nat -> World)
      (i : nat) :
  let run := unit_run cfg meal_type_service self criteria start_time worlds i in
  match unit_fate run with
  | Finished (Some r) => status r = "success" \/ status r = "error"
  | Finished None => False
  | Failed _ => unreadable (snd run)
  | InFlight => w_cancelled (snd run) = true
  end.
Proof.
  intro run. unfold run, unit_run, unit_fate.
  match goal with
  | |- context [search_single ?c ?m ?s ?p ?cr ?w] =>
      destruct (search_single_spec c m s p cr w)
        as (res & w' & evs & E & _ & _ & _ & _ & Hc & Hres)
  end.
  rewrite E. simpl.
  destruct res as [[r|]|[e|]]; auto; [lia|apply Hc].
Qed.

End UnitFacts.

(** C10.  With at least one attempt configured, and a breaker that can be
    read (its [reset_timeout] is not [-inf], as for every breaker that
    [__init__] builds): (1) a call to [search_single], whatever the
    supplier name, the criteria and the behaviour of the supplier, under a
    deadline or not, lets no exception through: it returns a dict whose
    status is [success] or [error], unless the task is cancelled at its
    deadline; (2) a call
    that runs under no deadline returns; (3) for a name with no loaded
    adapter it returns the error dict at once, whatever the breaker;
    (4) whatever the breaker, what it returns never has the status
    [timeout]; (5) in the result of [search_all], an entry with the status
    [timeout] is the entry of a tracked unit that was in flight when the
    deadline passed. *)
Theorem C10_statuses (cfg : Config) (meal_type_service : MealMappingService)
        (self : UniversalProvider) :
  (0 < MAX_RETRIES cfg)%nat ->
  (forall provider_name criteria w,
      readable w ->
      exists res w',
        search_single cfg meal_type_service self provider_name criteria w = (res, w')
        /\ match res with
           | Return (Some r) => status r = "success" \/ status r = "error"
           | Return None => False
           | Throw (Exception _) => False
           | Throw CancelledError => w_deadline w <> None /\ w_cancelled w' = true
           end)
  /\ (forall provider_name criteria w,
         readable w -> w_deadline w = None ->
         exists r w',
           search_single cfg meal_type_service self provider_name criteria w
           = (Return (Some r), w')
           /\ (status r = "success" \/ status r = "error"))
  /\ (forall provider_name criteria (w : World),
         dict_get (adapters self) provider_name = None ->
         search_single cfg meal_type_service self provider_name criteria w
         = (Return (Some (mkProviderResult "error" None
                            (Some (msg_not_available provider_name)) []
                            None None None None)), w))
  /\ (forall provider_name criteria w r w',
         search_single cfg meal_type_service self provider_name criteria w
         = (Return r, w') ->
         exists r', r = Some r' /\ status r' <> "timeout")
  /\ (forall repr_float criteria start_time worlds cancel_seen agg provider_name r,
         returned (search_all_units cfg meal_type_service repr_float self criteria
                     start_time worlds cancel_seen) = Return agg ->
         dict_get (providers agg) provider_name = Some (Some r) ->
         status r = "timeout" ->
         exists task,
           dict_get (create_tasks (providers_to_search self criteria) 0 []) provider_name
           = Some task
           /\ unit_fate (unit_run cfg meal_type_service self criteria start_time worlds task)
              = InFlight
           /\ w_cancelled
                (snd (unit_run cfg meal_type_service self criteria start_time worlds task))
              = true).
Proof.
  intro Hmax.
  assert (Hone : forall provider_name criteria w,
             readable w ->
             exists res w',
               search_single cfg meal_type_service self provider_name criteria w
               = (res, w')
               /\ match res with
                  | Return (Some r) => status r = "success" \/ status r = "error"
                  | Return None => False
                  | Throw (Exception _) => False
                  | Throw CancelledError => w_deadline w <> None /\ w_cancelled w' = true
                  end).
  { intros provider_name criteria w Hw.
    destruct (search_single_returns cfg meal_type_service self provider_name criteria w Hw)
      as (res & w' & evs & E & _ & Hc & Hres).
    exists res, w'. split; [exact E|].
    destruct res as [[r|]|[e|]]; auto; [lia|].
    destruct Hc as [Hc Hd]. auto. }
  split; [exact Hone|]. split; [|split; [|split]].
  - intros provider_name criteria w Hw Hd.
    destruct (Hone provider_name criteria w Hw) as (res & w' & E & Hres).
    destruct res as [[r|]|[e|]]; try contradiction.
    + exists r, w'. auto.
    + exfalso. destruct Hres as [Hres _]. exact (Hres Hd).
  - intros provider_name criteria w Hnone. unfold search_single. rewrite Hnone. reflexivity.
  - intros provider_name criteria w r w' E.
    destruct (search_single_spec cfg meal_type_service self provider_name criteria w)
      as (res & w1 & evs & E1 & _ & _ & _ & _ & _ & Hres).
    rewrite E in E1. injection E1 as <- <-.
    destruct r as [r|]; [|lia].
    exists r. split; [reflexivity|]. apply success_or_error_not_timeout. exact Hres.
  - intros repr_float criteria start_time worlds cancel_seen agg provider_name r
           Hret Hget Hst.
    unfold search_all_units in Hret.
    set (env := mkFanEnv start_time
                  (wait_end cfg meal_type_service self criteria start_time worlds)
                  (fun i => unit_fate (unit_run cfg meal_type_service self criteria
                                         start_time worlds i))
                  cancel_seen) in *.
    assert (Hfate : forall i,
               match fe_fate env i with
               | Finished (Some r) => status r = "success" \/ status r = "error"
               | Finished None => False
               | Failed _ => True
               | InFlight =>
                   w_cancelled (snd (unit_run cfg meal_type_service self criteria
                                       start_time worlds i)) = true
               end).
    { intro i.
      pose proof (unit_run_fate cfg meal_type_service self Hmax criteria start_time
                    worlds i) as H.
      cbv zeta in H. unfold env. cbn [fe_fate].
      destruct (unit_fate (unit_run cfg meal_type_service self criteria start_time
                             worlds i)) as [[r1|]|e|]; auto. }
    destruct (c_hotel_names criteria) as [[|h hs]|] eqn:Hh.
    1, 3: unfold search_all in Hret; rewrite Hh in Hret; simpl in Hret;
          injection Hret as <-; simpl in Hget; discriminate.
    destruct (gather (map (fe_fate env) (tracked_tasks self criteria)))
      as [completed|] eqn:Hg.
    + exfalso.
      assert (Hnone : forall i, fe_fate env i <> Finished None).
      { intros i E. specialize (Hfate i). rewrite E in Hfate. exact Hfate. }
      destruct (search_all_normal_path repr_float self env criteria h hs completed Hh Hg
                  (gathered_dicts env _ _ Hnone Hg))
        as (_ & _ & agg' & Hret' & Hprov).
      rewrite Hret in Hret'. injection Hret' as <-.
      apply dict_get_In_values in Hget. rewrite Hprov in Hget.
      assert (HP : forall r0, Some r = Some r0 -> status r0 <> "timeout").
      { revert Hget.
        apply (dict_update_all_values
                 (fun v => forall r0, v = Some r0 -> status r0 <> "timeout")).
        - intros v [].
        - intros v Hv r0 ->.
          apply In_combine_snd in Hv. apply in_map_iff in Hv.
          destruct Hv as (c & Hc & Hin).
          destruct (gather_Some_entries _ _ Hg _ Hin) as (f & Hf & Hm).
          apply in_map_iff in Hf. destruct Hf as (i & <- & _).
          specialize (Hfate i).
          destruct (fe_fate env i) as [[r1|]|e|]; try contradiction.
          * subst c. simpl in Hc. injection Hc as <-.
            apply success_or_error_not_timeout. exact Hfate.
          * subst c. simpl in Hc. injection Hc as <-. discriminate. }
      exact (HP r eq_refl Hst).
    + destruct (search_all_timeout_path repr_float self env criteria h hs Hh Hg)
        as (_ & _ & agg' & Hret' & Hprov).
      rewrite Hret in Hret'. injection Hret' as <-.
      rewrite Hprov in Hget.
      rewrite (dict_get_map (fun t => Some (timeout_entry repr_float env _ t))) in Hget.
      destruct (dict_get (create_tasks (providers_to_search self criteria) 0 [])
                  provider_name) as [task|] eqn:Etask; [|discriminate].
      simpl in Hget. injection Hget as <-.
      exists task. split; [reflexivity|].
      specialize (Hfate task). unfold timeout_entry in Hst.
      change (unit_fate (unit_run cfg meal_type_service self criteria start_time worlds task))
        with (fe_fate env task).
      destruct (fe_fate env task) as [[r1|]|e|]; try contradiction.
      * exfalso. exact (success_or_error_not_timeout _ Hfate Hst).
      * discriminate.
      * split; [reflexivity|exact Hfate].
Qed.

(** An instance of C10 with the values of [config.py]: a supplier that
    fails twice and then answers, behind a breaker of [config.py]; the
    call returns [success] at the third attempt. *)
Lemma C10_statuses_witness :
  (0 < MAX_RETRIES config)%nat
  /\ readable world_flaky
  /\ w_deadline world_flaky = None
  /\ exists r w',
       search_single config sample_service sample_provider "goglobal"
         (mkCriteria (Some ["Banyan Tree Krabi"]) None None None None) world_flaky
       = (Return (Some r), w')
       /\ status r = "success"
       /\ attempts r = Some 3%nat.
Proof.
  assert (H1 : (0 < MAX_RETRIES config)%nat) by (simpl; lia).
  assert (H2 : readable world_flaky).
  { split.
    - intros b Hb. injection Hb as <-. discriminate.
    - intros [|[|[|[|n]]]] b; reflexivity. }
  assert (H3 : w_deadline world_flaky = None) by reflexivity.
  split; [exact H1|]. split; [exact H2|]. split; [exact H3|].
  destruct (proj1 (proj2 (C10_statuses config sample_service sample_provider H1))
              "goglobal" (mkCriteria (Some ["Banyan Tree Krabi"]) None None None None)
              world_flaky H2 H3) as (r & w' & E & _).
  exists r, w'. split; [exact E|].
  assert (E' : fst (search_single config sample_service sample_provider "goglobal"
                      (mkCriteria (Some ["Banyan Tree Krabi"]) None None None None)
                      world_flaky)
               = Return (Some (mkProviderResult "success" (Some "goglobal") None
                                 [PyDict []; PyDict []] (Some 2%nat) (Some 4500%Z)
                                 (Some 3%nat) (Some "closed"))))
    by (vm_compute; reflexivity).
  rewrite E in E'. simpl in E'. injection E' as ->. split; reflexivity.
Defined.

(** ** Normalizing a supplier response *)

(** C7 at the input that breaks it.  A GoGlobal response in which a
    hotel has [null] for its offers, or in which an entry of the hotel list
    is [null]: [GoGlobalProvider.normalize] raises, where the Rate Hawk
    adapter, given a hotel with [null] rates, or a [null] rate after a
    valid one, returns the offers it has built. *)
Theorem C7_goglobal_normalize_raises (py_repr : pyval -> string)
        (parse_float : string -> option pyfloat) :
  let offer := PyDict [("HotelSearchCode", PyStr "c1"); ("TotalPrice", PyStr "120.50")] in
  let hotel offers := PyDict [("HotelCode", PyStr "226117"); ("Offers", offers)] in
  let response hotels :=
    PyDict [("status", PyStr "success");
            ("data", PyDict [("Hotels", PyList hotels);
                             ("hotel_name_to_id_map", PyDict [])])] in
  GoGlobal.normalize py_repr ALLOWED_FIELDS (response [hotel PyNone]) (PyDict [])
  = Raise (Exn TypeError "object is not iterable")
  /\ GoGlobal.normalize py_repr ALLOWED_FIELDS
       (response [hotel (PyList [offer]); PyNone]) (PyDict [])
     = Raise (Exn AttributeError "object has no attribute 'get'")
  /\ (exists o, GoGlobal.normalize py_repr ALLOWED_FIELDS
                  (response [hotel (PyList [offer])]) (PyDict []) = Ok [o])
  /\ RateHawk.normalize py_repr parse_float "rate_hawk"
       (PyDict [("data", PyDict [("hotels", PyList [PyDict [("id", PyStr "h1");
                                                            ("rates", PyNone)]])])])
       (PyDict [])
     = [].
Proof.
  cbv zeta. split; [reflexivity|]. split; [reflexivity|].
  split; [eexists; reflexivity|]. reflexivity.
Qed.

(** Absent and empty responses normalize to the empty list, for both
    adapters. *)
Lemma normalize_absent_or_empty (py_repr : pyval -> string)
      (parse_float : string -> option pyfloat) (allowed_fields : list string)
      (provider_name : string) (criteria : pyval) :
  GoGlobal.normalize py_repr allowed_fields PyNone criteria = Ok []
  /\ GoGlobal.normalize py_repr allowed_fields (PyDict []) criteria = Ok []
  /\ GoGlobal.normalize py_repr allowed_fields
       (PyDict [("status", PyStr "success"); ("data", PyDict [("Hotels", PyList [])])])
       criteria = Ok []
  /\ RateHawk.normalize py_repr parse_float provider_name PyNone criteria = []
  /\ RateHawk.normalize py_repr parse_float provider_name (PyDict []) criteria = []
  /\ RateHawk.normalize py_repr parse_float provider_name
       (PyDict [("data", PyDict [("hotels", PyList [])])]) criteria = [].
Proof. repeat split. Qed.

Lemma adds_weaken {A} (n n' : nat) (m : ST RateHawk.Locals A) :
  adds_at_most n m -> (n <= n')%nat -> adds_at_most n' m.
Proof. intros H Hle s. specialize (H s). lia. Qed.

Lemma adds_ret {A} (a : A) : adds_at_most 0 (ret a).
Proof. intro s. simpl. lia. Qed.

Lemma adds_lift {A} (r : Res A) : adds_at_most 0 (lift r).
Proof. intro s. simpl. lia. Qed.

Lemma adds_bind {A B} (n k : nat) (m : ST RateHawk.Locals A)
      (f : A -> ST RateHawk.Locals B) :
  adds_at_most n m -> (forall a, adds_at_most k (f a)) ->
  adds_at_most (n + k) (bind m f).
Proof.
  intros Hm Hf s. unfold bind. specialize (Hm s).
  destruct (m s) as [[a|b] s1]; simpl in *.
  - specialize (Hf a s1). lia.
  - lia.
Qed.

Lemma adds_lift_bind {A B} (k : nat) (r : Res A) (f : A -> ST RateHawk.Locals B) :
  (forall a, r = Ok a -> adds_at_most k (f a)) ->
  adds_at_most k (bind (lift r) f).
Proof.
  intros Hf s. unfold bind, lift. destruct r as [a|e]; simpl.
  - apply (Hf a eq_refl).
  - lia.
Qed.

Lemma chars_strings (x : string) (r : pyval) : In r (chars x) -> exists y, r = PyStr y.
Proof.
  induction x as [|c x IH]; simpl; [tauto|]. intros [<-|H]; eauto.
Qed.

Section RateHawkFacts.

Variable py_repr : pyval -> string.
Variable parse_float : string -> option pyfloat.
Variable provider_name : string.

(** Each rate adds one offer or one to the counter of skipped rates,
    until a rate that is not a dict stops the loop. *)
Lemma process_rates_count (hotel_id hotel_hid hotel_name : pyval) (rates : list pyval) :
  adds_at_most (length rates)
    (RateHawk.process_rates py_repr parse_float provider_name
       hotel_id hotel_hid hotel_name rates).
Proof.
  induction rates as [|rate rates IH]; simpl; [apply adds_ret|].
  apply adds_lift_bind. intros d _.
  apply (adds_bind 1 (length rates)); [|intros _; exact IH].
  intro s.
  destruct (RateHawk.build_offer py_repr parse_float provider_name
              hotel_id hotel_hid hotel_name d) as [[offer|]|e];
    unfold accounted; simpl; rewrite ?length_app; simpl; lia.
Qed.

(** Iterating over a string or over a dict yields strings, and the
    first of them stops the loop with nothing accounted. *)
Lemma process_rates_strings (hotel_id hotel_hid hotel_name : pyval)
      (rates : list pyval) :
  (forall r, In r rates -> exists x, r = PyStr x) ->
  adds_at_most 0
    (RateHawk.process_rates py_repr parse_float provider_name
       hotel_id hotel_hid hotel_name rates).
Proof.
  destruct rates as [|rate rates]; intro H; [apply adds_ret|].
  destruct (H rate (or_introl eq_refl)) as [x ->]. intro s. simpl. lia.
Qed.

Lemma hotel_rates_count (hotel hotel_id hotel_hid hotel_name rates : pyval)
      (rate_list : list pyval) :
  py_get hotel "rates" (PyList []) = Ok rates ->
  py_iter rates = Ok rate_list ->
  adds_at_most (length (rates_of hotel))
    (RateHawk.process_rates py_repr parse_float provider_name
       hotel_id hotel_hid hotel_name rate_list).
Proof.
  intros Erates Eiter.
  destruct hotel as [ | | | | | |hd| ]; try discriminate.
  simpl in Erates. unfold rates_of.
  destruct (dict_get hd "rates") as [v|]; injection Erates as <-.
  - destruct v; try discriminate; simpl in Eiter; injection Eiter as <-.
    + eapply adds_weaken; [apply process_rates_strings, chars_strings|lia].
    + apply process_rates_count.
    + eapply adds_weaken; [apply process_rates_strings|lia].
      intros r Hr. apply in_map_iff in Hr. destruct Hr as (k & <- & _). eauto.
  - simpl in Eiter. injection Eiter as <-. apply process_rates_count.
Qed.

(** The loop over the hotels builds or skips at most as many rates as
    the hotels have. *)
Lemma process_hotels_count (raw : pyval) (hotels : list pyval) :
  adds_at_most (list_sum (map (fun hotel => length (rates_of hotel)) hotels))
    (RateHawk.process_hotels py_repr parse_float provider_name raw hotels).
Proof.
  induction hotels as [|hotel hotels IH]; simpl; [apply adds_ret|].
  apply adds_lift_bind. intros hotel_id _.
  apply adds_lift_bind. intros hotel_hid _.
  apply adds_lift_bind. intros m _.
  apply adds_lift_bind. intros items _.
  apply adds_bind; [|intros _; exact IH].
  destruct (truthy hotel_id); simpl.
  - apply adds_lift_bind. intros rates Erates.
    apply adds_lift_bind. intros n _.
    apply adds_lift_bind. intros rate_list Eiter.
    eapply hotel_rates_count; eassumption.
  - eapply adds_weaken; [apply adds_ret|lia].
Qed.

Lemma normalize_body_count (raw : pyval) :
  adds_at_most (rate_entries raw)
    (RateHawk.normalize_body py_repr parse_float provider_name raw).
Proof.
  unfold RateHawk.normalize_body.
  destruct (truthy raw); simpl; [|eapply adds_weaken; [apply adds_ret|lia]].
  apply adds_lift_bind. intros data Edata.
  destruct (truthy data); simpl; [|eapply adds_weaken; [apply adds_ret|lia]].
  apply adds_lift_bind. intros hotels Eh.
  destruct hotels as [ | | | | |hotel_list| | ];
    try (eapply adds_weaken; [apply adds_ret|lia]).
  assert (Hentries : hotels_of raw = hotel_list).
  { destruct raw as [ | | | | | |r| ]; try discriminate. simpl in Edata.
    unfold hotels_of.
    destruct (dict_get r "data") as [v|]; injection Edata as <-; [|discriminate].
    destruct v as [ | | | | | |dd| ]; try discriminate. simpl in Eh.
    destruct (dict_get dd "hotels") as [v|]; injection Eh as ->; reflexivity. }
  unfold rate_entries. rewrite Hentries. apply process_hotels_count.
Qed.

(** X23.  The Rate Hawk adapter: [normalize] returns a list for every
    response (what its [try] block raises is caught); the offers built
    and the rates counted as skipped are together at most the rate
    entries of the response, so that one skipped rate is enough for the
    offers to be fewer than the entries. *)
Lemma rate_hawk_normalize_drops_and_counts (raw criteria : pyval) :
  (length (RateHawk.normalize py_repr parse_float provider_name raw criteria)
   + RateHawk.skipped py_repr parse_float provider_name raw
   <= rate_entries raw)%nat
  /\ ((0 < RateHawk.skipped py_repr parse_float provider_name raw)%nat ->
      (length (RateHawk.normalize py_repr parse_float provider_name raw criteria)
       < rate_entries raw)%nat).
Proof.
  assert (H : (length (RateHawk.normalize py_repr parse_float provider_name raw criteria)
               + RateHawk.skipped py_repr parse_float provider_name raw
               <= rate_entries raw)%nat).
  { pose proof (normalize_body_count raw (RateHawk.mkLocals [] 0)) as Hc.
    unfold RateHawk.normalize, RateHawk.skipped, try_except.
    unfold accounted in Hc.
    destruct (RateHawk.normalize_body py_repr parse_float provider_name raw
                (RateHawk.mkLocals [] 0)) as [[[]|b] s1]; simpl in *; lia. }
  split; [exact H|]. intro Hpos. lia.
Qed.

End RateHawkFacts.

(** A Rate Hawk response with a valid rate and a rate that has no
    [match_hash]: one offer, one rate skipped, two entries. *)
Example rate_hawk_partial_response :
  let payment := PyDict [("amount", PyStr "99.50"); ("currency_code", PyStr "EUR")] in
  let valid := PyDict [("match_hash", PyStr "m-1"); ("room_name", PyStr "Double");
                       ("payment_options", PyDict [("payment_types", PyList [payment])]);
                       ("daily_prices", PyList [PyStr "99.50"])] in
  let malformed := PyDict [("room_name", PyStr "Double");
                           ("daily_prices", PyList [PyStr "99.50"]);
                           ("meal", PyStr "nomeal")] in
  let raw := PyDict [("data", PyDict [("hotels",
                        PyList [PyDict [("id", PyStr "h1");
                                        ("rates", PyList [valid; malformed])]])])] in
  let parse_float (s : string) := if s =? "99.50" then Some (Finite (199 # 2)) else None in
  length (RateHawk.normalize (fun _ => "") parse_float "rate_hawk" raw PyNone) = 1%nat
  /\ RateHawk.skipped (fun _ => "") parse_float "rate_hawk" raw = 1%nat
  /\ rate_entries raw = 2%nat.
Proof. vm_compute. repeat split. Qed.

(* ================================================================== *)
(** * Part II, continued.  Properties of the rest of the service         *)
(* ================================================================== *)

(** ** The life of a breaker object *)

Lemma apply_ops_app (l1 l2 : list BreakerOp) (b : CircuitBreaker) :
  apply_ops (l1 ++ l2) b = apply_ops l2 (apply_ops l1 b).
Proof. unfold apply_ops. apply fold_left_app. Qed.

(** One method call keeps what the invariant says. *)
Lemma apply_op_keeps (b : CircuitBreaker) (op : BreakerOp) :
  (0 < failure_threshold b)%Z ->
  (0 <= _failure_count b)%Z ->
  (_state b = CLOSED -> (_failure_count b < failure_threshold b)%Z) ->
  (_state b <> CLOSED -> _last_failure_time b <> None) ->
  (_last_failure_time b = None -> _failure_count b = 0%Z) ->
  let b' := apply_op b op in
  (failure_threshold b' = failure_threshold b /\ timeout b' = timeout b
   /\ reset_timeout b' = reset_timeout b /\ name b' = name b)
  /\ (0 <= _failure_count b')%Z
  /\ (_state b' = CLOSED -> (_failure_count b' < failure_threshold b')%Z)
  /\ (_state b' <> CLOSED -> _last_failure_time b' <> None)
  /\ (_last_failure_time b' = None -> _failure_count b' = 0%Z).
Proof.
  intros Hth Hc Hcl Hlast Hnone.
  destruct op as [now| |now|]; cbn zeta; unfold apply_op.
  - rewrite state_snd, update_state_snd.
    destruct (_state b) eqn:Est; [intuition (try congruence; try lia)| |
                                  intuition (try congruence; try lia)].
    destruct (CircuitBreaker.window_elapsed now b); simpl;
      rewrite ?Est; intuition (try congruence; try lia).
  - unfold CircuitBreaker._on_success. simpl.
    destruct (_state b) eqn:Est; simpl; intuition (try congruence; try lia).
  - rewrite on_failure_snd. cbv zeta.
    destruct (failure_threshold b <=? _failure_count b + 1)%Z eqn:E; simpl;
      [|apply Z.leb_gt in E]; intuition (try congruence; try lia).
  - simpl. intuition (try congruence; try lia).
Qed.

(** X1.  Whatever its callers do to a breaker that was constructed --
    reads of [state] at any instants, successes and failures recorded in
    any order, manual resets -- its parameters never change, its counter is
    never negative, a closed breaker holds fewer failures than the
    threshold, a breaker that is open or half-open has the time of its last
    failure recorded, and a breaker with no last failure has counted none. *)
Theorem breaker_invariant (ft t r nm : pyval) (b : CircuitBreaker)
        (ops : list BreakerOp) :
  CircuitBreaker.__init__ ft t r nm = Ok b ->
  let b' := apply_ops ops b in
  (failure_threshold b' = failure_threshold b /\ timeout b' = timeout b
   /\ reset_timeout b' = reset_timeout b /\ name b' = name b)
  /\ (0 < failure_threshold b')%Z
  /\ (0 <= _failure_count b')%Z
  /\ (_state b' = CLOSED -> (_failure_count b' < failure_threshold b')%Z)
  /\ (_state b' <> CLOSED -> _last_failure_time b' <> None)
  /\ (_last_failure_time b' = None -> _failure_count b' = 0%Z).
Proof.
  intros Hinit. cbn zeta.
  apply init_ok_iff in Hinit.
  destruct Hinit as (_ & Hpos & _ & _ & _ & _ & s & _ & _ & Hb).
  apply Z.leb_gt in Hpos.
  assert (H0 : (0 < failure_threshold b)%Z /\ _failure_count b = 0%Z
               /\ _state b = CLOSED /\ _last_failure_time b = None)
    by (subst b; simpl; auto).
  clear Hb. destruct H0 as (Hth & Hc & Hst & Hl).
  induction ops as [|op ops IH] using rev_ind.
  - simpl. repeat split; try assumption; try lia; try congruence.
  - rewrite apply_ops_app. simpl.
    destruct IH as ((I1 & I2 & I3 & I4) & I5 & I6 & I7 & I8 & I9).
    destruct (apply_op_keeps (apply_ops ops b) op I5 I6 I7 I8 I9)
      as ((J1 & J2 & J3 & J4) & J5 & J6 & J7 & J8).
    repeat split; try assumption; try congruence.
Qed.

(** An instance of X1: a breaker of [config.py] after three failures, a
    read a minute later, a failed trial and a reset. *)
Lemma breaker_invariant_witness :
  let b := mkCircuitBreaker (IsInt 3) (Finite 30) (Finite 60) "cb_tbo" 0 None CLOSED in
  let ops := [RecordFailure 1; RecordFailure 2; RecordFailure 3; ReadState 63;
              RecordFailure 64; ManualReset; RecordSuccess] in
  CircuitBreaker.__init__ CIRCUIT_BREAKER_FAILURE_THRESHOLD CIRCUIT_BREAKER_TIMEOUT
    CIRCUIT_BREAKER_RESET_TIMEOUT (PyStr "cb_tbo") = Ok b
  /\ (0 <= _failure_count (apply_ops ops b))%Z.
Proof.
  intros b ops.
  assert (H : CircuitBreaker.__init__ CIRCUIT_BREAKER_FAILURE_THRESHOLD
                CIRCUIT_BREAKER_TIMEOUT CIRCUIT_BREAKER_RESET_TIMEOUT (PyStr "cb_tbo")
              = Ok b) by reflexivity.
  split; [exact H|].
  exact (proj1 (proj2 (proj2 (breaker_invariant _ _ _ _ b ops H)))).
Defined.

(** X2.  [reset], in whatever state the breaker is: it is closed, with a
    zero counter and no last failure, and is read as closed at any instant;
    from there it takes [failure_threshold] failures in a row to open it
    again, and the counter restarts from zero. *)
Theorem reset_starts_afresh (b : CircuitBreaker) (now : Q) (times : list Q) :
  (0 < failure_threshold b)%Z ->
  let fresh := CircuitBreaker.reset b in
  fst (CircuitBreaker.state now fresh) = Return CLOSED
  /\ snd (CircuitBreaker.state now fresh) = fresh
  /\ _failure_count fresh = 0%Z
  /\ _last_failure_time fresh = None
  /\ failure_threshold fresh = failure_threshold b
  /\ reset_timeout fresh = reset_timeout b
  /\ _failure_count (record_failures times fresh) = Z.of_nat (length times)
  /\ _state (record_failures times fresh)
     = if (Z.of_nat (length times) <? failure_threshold b)%Z then CLOSED else OPEN.
Proof.
  intros Hth fresh.
  destruct (record_failures_fresh times fresh eq_refl eq_refl) as (Hc & _ & Hs).
  repeat split; try reflexivity; try exact Hc.
  rewrite Hs. simpl.
  destruct (Z.of_nat (length times) <? failure_threshold b)%Z eqn:E; [reflexivity|].
  destruct times; [|reflexivity]. simpl in E. apply Z.ltb_ge in E. lia.
Qed.

(** An instance of X2: a breaker of [config.py] that is open, reset, and
    failed three times. *)
Lemma reset_starts_afresh_witness :
  let b := mkCircuitBreaker (IsInt 3) (Finite 30) (Finite 60) "cb_tbo" 5 (Some 1000) OPEN in
  (0 < failure_threshold b)%Z
  /\ _state (record_failures [2000; 2001; 2002] (CircuitBreaker.reset b)) = OPEN.
Proof.
  intro b.
  assert (H : (0 < failure_threshold b)%Z) by (simpl; lia).
  split; [exact H|].
  exact (proj2 (proj2 (proj2 (proj2 (proj2 (proj2 (proj2
           (reset_starts_afresh b 0 [2000; 2001; 2002] H)))))))).
Defined.

(** ** [strip] and blank strings *)

Lemma has_nonspace_rev_onto (s acc : string) :
  has_nonspace (string_rev_onto s acc) = has_nonspace s || has_nonspace acc.
Proof.
  revert acc. induction s as [|c s IH]; intro acc; simpl; [reflexivity|].
  rewrite IH. simpl. destruct (py_isspace c), (has_nonspace s), (has_nonspace acc);
    reflexivity.
Qed.

Lemma has_nonspace_lstrip (s : string) : has_nonspace (lstrip s) = has_nonspace s.
Proof.
  induction s as [|c s IH]; simpl; [reflexivity|].
  destruct (py_isspace c) eqn:E; simpl; [exact IH|]. rewrite E. reflexivity.
Qed.

Lemma lstrip_empty (s : string) : lstrip s = "" <-> has_nonspace s = false.
Proof.
  induction s as [|c s IH]; simpl; [tauto|].
  destruct (py_isspace c); simpl; [exact IH|]. split; discriminate.
Qed.

Lemma string_rev_onto_empty (s acc : string) :
  string_rev_onto s acc = "" <-> s = "" /\ acc = "".
Proof.
  revert acc. induction s as [|c s IH]; intro acc; simpl; [tauto|].
  rewrite IH. split; [intros [_ H]; discriminate | intros [H _]; discriminate].
Qed.

(** [strip] leaves the empty string exactly when every character is
    white space. *)
Lemma strip_empty (s : string) : strip s = "" <-> has_nonspace s = false.
Proof.
  unfold strip, string_rev. rewrite string_rev_onto_empty, lstrip_empty.
  rewrite has_nonspace_rev_onto, has_nonspace_lstrip. simpl.
  rewrite orb_false_r. tauto.
Qed.

(** The breaker of a supplier is always built: its name, [cb_] followed
    by the supplier's, is never blank. *)
Lemma breaker_of_built (provider_name : string) :
  CircuitBreaker.__init__ CIRCUIT_BREAKER_FAILURE_THRESHOLD CIRCUIT_BREAKER_TIMEOUT
    CIRCUIT_BREAKER_RESET_TIMEOUT (PyStr ("cb_" ++ provider_name))
  = Ok (breaker_of provider_name).
Proof.
  unfold CircuitBreaker.__init__.
  change (negb (CircuitBreaker.isinstance_int CIRCUIT_BREAKER_FAILURE_THRESHOLD)
          || (CircuitBreaker.int_of CIRCUIT_BREAKER_FAILURE_THRESHOLD <=? 0)%Z)
    with false.
  change (negb (CircuitBreaker.isinstance_int_float CIRCUIT_BREAKER_TIMEOUT)
          || float_leb (CircuitBreaker.number_of CIRCUIT_BREAKER_TIMEOUT) (Finite 0))
    with false.
  change (negb (CircuitBreaker.isinstance_int_float CIRCUIT_BREAKER_RESET_TIMEOUT)
          || float_leb (CircuitBreaker.number_of CIRCUIT_BREAKER_RESET_TIMEOUT) (Finite 0))
    with false.
  cbv iota.
  assert (H : strip ("cb_" ++ provider_name) <> "").
  { intro H. apply strip_empty in H. discriminate. }
  apply String.eqb_neq in H. simpl truthy.
  change ("cb_" ++ provider_name) with (String "c" (String "b" (String "_" provider_name)))
    in *.
  rewrite H. reflexivity.
Qed.

(** ** Loading the adapters *)

Lemma dict_mem_keys {V W} (d : pydict V) (d' : pydict W) (k : string) :
  dict_keys d = dict_keys d' -> dict_mem k d = dict_mem k d'.
Proof.
  revert d'. induction d as [|[k0 v0] d IH]; intros [|[k1 v1] d'] H;
    try discriminate; [reflexivity|].
  simpl in H. injection H as -> H. unfold dict_mem in *. simpl.
  destruct (k1 =? k); [reflexivity|]. apply IH. exact H.
Qed.

Section LoadFacts.

Variable PROVIDERS : pydict pyval.
Variable _ensure_data_directory : Res unit.
Variable import_class : pyval -> pyval -> Res (string -> Res ProviderAdapter).

Let load_one := load_provider PROVIDERS _ensure_data_directory import_class.
Let load_each := load_providers PROVIDERS _ensure_data_directory import_class.

Lemma paired_set (s : LoadState) (p : string) (a : ProviderAdapter)
      (failed : list (string * string)) (pc : option pyval) :
  paired s ->
  paired (mkLoadState (dict_set (ls_adapters s) p a)
            (dict_set (ls_circuit_breakers s) p (breaker_of p)) failed pc).
Proof.
  intros [Hk Hv]. split; simpl.
  - rewrite !dict_keys_set, (dict_mem_keys _ _ p Hk), Hk. reflexivity.
  - intros q cb. rewrite dict_get_set.
    destruct (String.eqb_spec p q) as [->|_]; [congruence|apply Hv].
Qed.

(** One turn of the loop: what it leaves depends on what the
    configuration gives for the supplier. *)
Lemma load_provider_spec (provider_name : string) (s : LoadState) :
  _ensure_data_directory = Ok tt ->
  load_one provider_name s =
  (Return tt,
   let pc := Some (match dict_get PROVIDERS provider_name with
                   | Some c => c
                   | None => PyNone
                   end) in
   match configured_adapter PROVIDERS import_class provider_name with
   | Ok None =>
       mkLoadState (ls_adapters s) (ls_circuit_breakers s) (ls_failed_providers s) pc
   | Ok (Some adapter) =>
       mkLoadState (dict_set (ls_adapters s) provider_name adapter)
         (dict_set (ls_circuit_breakers s) provider_name (breaker_of provider_name))
         (ls_failed_providers s) pc
   | Raise e =>
       mkLoadState (ls_adapters s) (ls_circuit_breakers s)
         (ls_failed_providers s ++ [(provider_name, str_of_exn e)])%list pc
   end).
Proof.
  intro Hens.
  unfold load_one, load_provider, configured_adapter,
    get_provider_config, try_except, bind, lift.
  rewrite breaker_of_built, Hens. simpl res_bind. cbv beta iota.
  set (pcv := match dict_get PROVIDERS provider_name with
              | Some c => c
              | None => PyNone
              end).
  destruct (py_get pcv "active" (PyBool true)) as [active|e]; simpl; [|reflexivity].
  destruct (truthy active); simpl; [|reflexivity].
  destruct (py_getitem pcv "module") as [module_path|e]; simpl; [|reflexivity].
  destruct (py_getitem pcv "class") as [class_name|e]; simpl; [|reflexivity].
  destruct (import_class module_path class_name) as [adapter_class|e]; simpl;
    [|reflexivity].
  destruct (adapter_class provider_name) as [adapter|e]; simpl; reflexivity.
Qed.

Lemma load_provider_paired (provider_name : string) (s : LoadState) :
  paired s -> paired (snd (load_one provider_name s)).
Proof.
  intro Hp.
  unfold load_one, load_provider, get_provider_config,
    try_except, bind, lift.
  rewrite breaker_of_built.
  destruct _ensure_data_directory as [[]|e0]; simpl.
  2: { destruct (ls_provider_config s); exact Hp. }
  set (pcv := match dict_get PROVIDERS provider_name with
              | Some c => c
              | None => PyNone
              end).
  destruct (py_get pcv "active" (PyBool true)) as [active|e]; simpl; [|exact Hp].
  destruct (truthy active); simpl; [|exact Hp].
  destruct (py_getitem pcv "module") as [module_path|e]; simpl; [|exact Hp].
  destruct (py_getitem pcv "class") as [class_name|e]; simpl; [|exact Hp].
  destruct (import_class module_path class_name) as [adapter_class|e]; simpl;
    [|exact Hp].
  destruct (adapter_class provider_name) as [adapter|e]; simpl; [|exact Hp].
  apply paired_set. exact Hp.
Qed.

Lemma load_providers_paired (names : list string) (s : LoadState) :
  paired s -> paired (snd (load_each names s)).
Proof.
  revert s. induction names as [|n names IH]; intros s Hp; [exact Hp|].
  unfold load_each. simpl. unfold bind.
  pose proof (load_provider_paired n s Hp) as H1. unfold load_one in H1.
  destruct (load_provider PROVIDERS _ensure_data_directory import_class n s)
    as [[[]|b] s1]; simpl in *; [|exact H1].
  apply IH. exact H1.
Qed.

(** With the data directory in place, the loop runs to its end: the
    adapters are those the configuration gives, in order, and a supplier
    that fails is recorded and does not stop the others. *)
Lemma load_providers_spec (names : list string) :
  _ensure_data_directory = Ok tt ->
  forall s : LoadState,
    NoDup (dict_keys (ls_adapters s) ++ names) ->
    exists s',
      load_each names s = (Return tt, s')
      /\ dict_keys (ls_adapters s')
         = (dict_keys (ls_adapters s) ++ filter (loads PROVIDERS import_class) names)%list
      /\ map fst (ls_failed_providers s')
         = (map fst (ls_failed_providers s)
            ++ filter (fails_to_load PROVIDERS import_class) names)%list
      /\ (forall p a, In p names ->
                      configured_adapter PROVIDERS import_class p = Ok (Some a) ->
                      dict_get (ls_adapters s') p = Some a)
      /\ (forall p, ~ In p names ->
                    dict_get (ls_adapters s') p = dict_get (ls_adapters s) p).
Proof.
  intro Hens. induction names as [|n names IH]; intros s Hnd.
  - exists s. simpl. rewrite !app_nil_r. repeat split; auto. intros p a [].
  - unfold load_each. simpl. unfold bind.
    pose proof (load_provider_spec n s Hens) as H1. unfold load_one in H1.
    rewrite H1. clear H1. cbv zeta.
    assert (Hn : dict_get (ls_adapters s) n = None).
    { apply dict_get_None_keys. intro Hin.
      apply NoDup_remove_2 in Hnd. apply Hnd. apply in_or_app. auto. }
    assert (Hn' : ~ In n names).
    { intro Hin. apply NoDup_remove_2 in Hnd. apply Hnd. apply in_or_app. auto. }
    unfold loads, fails_to_load at 1.
    destruct (configured_adapter PROVIDERS import_class n) as [[a|]|e] eqn:E.
    + match goal with
      | |- context [load_providers _ _ _ names ?s1] =>
          destruct (IH s1) as (s' & Hrun & Hk & Hf & Hin & Hout)
      end.
      { simpl. rewrite dict_keys_set. unfold dict_mem. rewrite Hn.
        rewrite <- app_assoc. exact Hnd. }
      exists s'. unfold load_each in Hrun. rewrite Hrun.
      simpl in Hk, Hf, Hout. rewrite dict_keys_set in Hk. unfold dict_mem in Hk.
      rewrite Hn, <- app_assoc in Hk.
      split; [reflexivity|]. split; [exact Hk|]. split; [exact Hf|]. split.
      * intros p a' [<-|Hp] Ha; [|exact (Hin p a' Hp Ha)].
        rewrite (Hout n Hn'), dict_get_set, String.eqb_refl. congruence.
      * intros p Hp. rewrite (Hout p (fun H => Hp (or_intror H))), dict_get_set.
        destruct (String.eqb_spec n p) as [->|_]; [|reflexivity].
        exfalso. apply Hp. left. reflexivity.
    + match goal with
      | |- context [load_providers _ _ _ names ?s1] =>
          destruct (IH s1) as (s' & Hrun & Hk & Hf & Hin & Hout)
      end.
      { simpl. apply NoDup_remove_1 in Hnd. exact Hnd. }
      exists s'. unfold load_each in Hrun. rewrite Hrun.
      simpl in Hk, Hf, Hout.
      split; [reflexivity|]. split; [exact Hk|]. split; [exact Hf|]. split.
      * intros p a' [<-|Hp] Ha; [congruence|exact (Hin p a' Hp Ha)].
      * intros p Hp. apply Hout. intro H. apply Hp. right. exact H.
    + match goal with
      | |- context [load_providers _ _ _ names ?s1] =>
          destruct (IH s1) as (s' & Hrun & Hk & Hf & Hin & Hout)
      end.
      { simpl. apply NoDup_remove_1 in Hnd. exact Hnd. }
      exists s'. unfold load_each in Hrun. rewrite Hrun.
      simpl in Hk, Hf, Hout. rewrite map_app in Hf. simpl in Hf.
      rewrite <- app_assoc in Hf.
      split; [reflexivity|]. split; [exact Hk|]. split; [exact Hf|]. split.
      * intros p a' [<-|Hp] Ha; [congruence|exact (Hin p a' Hp Ha)].
      * intros p Hp. apply Hout. intro H. apply Hp. right. exact H.
Qed.

End LoadFacts.

(** X3.  However the loading goes -- suppliers switched off, imports or
    constructors that fail, a data directory that cannot be created -- the
    service object is left with exactly one breaker per loaded adapter:
    [_circuit_breakers] has the keys of [adapters], in the same order, and
    the breaker of a supplier is the one built from [config.py] under the
    name [cb_<supplier>], closed, with a zero counter. *)
Theorem load_adapters_pairs_breakers (PROVIDERS : pydict pyval)
        (_ensure_data_directory : Res unit)
        (import_class : pyval -> pyval -> Res (string -> Res ProviderAdapter)) :
  let s := snd (UniversalProvider__init__ PROVIDERS _ensure_data_directory
                  import_class) in
  dict_keys (ls_circuit_breakers s) = dict_keys (ls_adapters s)
  /\ (forall p, get_circuit_breaker (ls_circuit_breakers s) p
                = if dict_mem p (ls_adapters s) then Some (breaker_of p) else None)
  /\ (forall p cb, get_circuit_breaker (ls_circuit_breakers s) p = Some cb ->
                   _state cb = CLOSED /\ _failure_count cb = 0%Z
                   /\ failure_threshold cb = IsInt 3 /\ reset_timeout cb = Finite 60).
Proof.
  cbv zeta. unfold UniversalProvider__init__, _load_adapters, bind.
  pose proof (load_providers_paired PROVIDERS _ensure_data_directory import_class
                (get_all_provider_names PROVIDERS) (mkLoadState [] [] [] None)) as Hp.
  assert (Hinit : paired (mkLoadState [] [] [] None))
    by (split; [reflexivity | intros p cb H; discriminate]).
  specialize (Hp Hinit). clear Hinit.
  destruct (load_providers PROVIDERS _ensure_data_directory import_class
              (get_all_provider_names PROVIDERS) (mkLoadState [] [] [] None))
    as [[[]|b] s1]; simpl in Hp.
  2: { simpl. destruct Hp as [Hk Hv].
       split; [exact Hk|]. split.
       - intro p. unfold get_circuit_breaker.
         rewrite <- (dict_mem_keys _ _ p Hk). unfold dict_mem.
         destruct (dict_get (ls_circuit_breakers s1) p) eqn:E; [|reflexivity].
         rewrite (Hv p _ E). reflexivity.
       - intros p cb Hget. rewrite (Hv p cb Hget). simpl. repeat split; reflexivity. }
  assert (Hs : snd (match ls_adapters s1 with
                    | [] => raise (Exn OtherException
                                     "No providers could be loaded! Check your configuration.") s1
                    | _ :: _ => (Return tt, s1)
                    end) = s1)
    by (destruct (ls_adapters s1); reflexivity).
  rewrite Hs. destruct Hp as [Hk Hv].
  split; [exact Hk|]. split.
  - intro p. unfold get_circuit_breaker.
    rewrite <- (dict_mem_keys _ _ p Hk). unfold dict_mem.
    destruct (dict_get (ls_circuit_breakers s1) p) eqn:E; [|reflexivity].
    rewrite (Hv p _ E). reflexivity.
  - intros p cb Hget. rewrite (Hv p cb Hget). simpl. repeat split; reflexivity.
Qed.

(** X4.  When the data directory is in place: the adapters loaded are
    those of the suppliers for which the configuration gives one, in the
    order of the configuration, each under its own name; a supplier that
    is switched off is skipped; a supplier whose configuration, import or
    constructor fails is recorded as failed and does not stop the others;
    and the loading raises exactly when no adapter at all is loaded. *)
Theorem load_adapters_isolates_failures (PROVIDERS : pydict pyval)
        (_ensure_data_directory : Res unit)
        (import_class : pyval -> pyval -> Res (string -> Res ProviderAdapter)) :
  _ensure_data_directory = Ok tt ->
  NoDup (dict_keys PROVIDERS) ->
  let run := UniversalProvider__init__ PROVIDERS _ensure_data_directory import_class in
  let loaded := filter (loads PROVIDERS import_class) (dict_keys PROVIDERS) in
  dict_keys (ls_adapters (snd run)) = loaded
  /\ map fst (ls_failed_providers (snd run))
     = filter (fails_to_load PROVIDERS import_class) (dict_keys PROVIDERS)
  /\ (forall p a, In p (dict_keys PROVIDERS) ->
                  configured_adapter PROVIDERS import_class p = Ok (Some a) ->
                  dict_get (ls_adapters (snd run)) p = Some a)
  /\ fst run = match loaded with
               | [] => Throw (Exception
                               (Exn OtherException
                                  "No providers could be loaded! Check your configuration."))
               | _ :: _ => Return tt
               end.
Proof.
  intros Hens Hnd. cbv zeta.
  unfold UniversalProvider__init__, _load_adapters, bind.
  destruct (load_providers_spec PROVIDERS _ensure_data_directory import_class
              (get_all_provider_names PROVIDERS) Hens (mkLoadState [] [] [] None))
    as (s' & Hrun & Hk & Hf & Hin & _); [exact Hnd|].
  rewrite Hrun. simpl in Hk, Hf. unfold get_all_provider_names in *.
  rewrite <- Hk.
  assert (Hs : snd (match ls_adapters s' with
                    | [] => raise (Exn OtherException
                                     "No providers could be loaded! Check your configuration.") s'
                    | _ :: _ => (Return tt, s')
                    end) = s')
    by (destruct (ls_adapters s'); reflexivity).
  rewrite Hs.
  split; [reflexivity|]. split; [exact Hf|]. split; [exact Hin|].
  destruct (ls_adapters s'); reflexivity.
Qed.

(** An instance of X4: of three configured suppliers, one loads, one is
    switched off and one has an incomplete entry. *)
Lemma load_adapters_isolates_failures_witness :
  let run := UniversalProvider__init__ sample_PROVIDERS (Ok tt) sample_import_class in
  Ok tt = Ok tt :> Res unit
  /\ NoDup (dict_keys sample_PROVIDERS)
  /\ dict_keys (ls_adapters (snd run)) = ["rate_hawk"]
  /\ map fst (ls_failed_providers (snd run)) = ["tbo"]
  /\ fst run = Return tt.
Proof.
  intro run.
  assert (H1 : Ok tt = Ok tt :> Res unit) by reflexivity.
  assert (H2 : NoDup (dict_keys sample_PROVIDERS)).
  { simpl. repeat constructor; simpl; intuition discriminate. }
  split; [exact H1|]. split; [exact H2|].
  destruct (load_adapters_isolates_failures sample_PROVIDERS (Ok tt)
              sample_import_class H1 H2) as (Hk & Hf & _ & Hr).
  split; [exact Hk|]. split; [exact Hf|]. exact Hr.
Defined.

(** X5.  [reset_circuit_breaker] resets the breaker of the supplier
    named and no other: that breaker is then read as closed at any
    instant, with a zero counter; the breaker of every other supplier is
    what it was; the registry keeps its keys; and a name with no breaker
    changes nothing. *)
Theorem reset_circuit_breaker_only_named (_circuit_breakers : pydict CircuitBreaker)
        (provider_name : string) :
  let after := reset_circuit_breaker _circuit_breakers provider_name in
  dict_keys after = dict_keys _circuit_breakers
  /\ (forall other, other <> provider_name ->
                    get_circuit_breaker after other
                    = get_circuit_breaker _circuit_breakers other)
  /\ (forall cb, get_circuit_breaker _circuit_breakers provider_name = Some cb ->
                 get_circuit_breaker after provider_name = Some (CircuitBreaker.reset cb)
                 /\ forall now, fst (CircuitBreaker.state now (CircuitBreaker.reset cb))
                                = Return CLOSED)
  /\ (get_circuit_breaker _circuit_breakers provider_name = None ->
      after = _circuit_breakers).
Proof.
  cbv zeta. unfold reset_circuit_breaker, get_circuit_breaker.
  destruct (dict_get _circuit_breakers provider_name) as [cb|] eqn:E.
  - split.
    { rewrite dict_keys_set. unfold dict_mem. rewrite E. reflexivity. }
    split.
    { intros other Hne. rewrite dict_get_set.
      destruct (String.eqb_spec provider_name other); [congruence|reflexivity]. }
    split; [|discriminate].
    intros cb' Hcb. injection Hcb as <-.
    rewrite dict_get_set, String.eqb_refl. split; reflexivity.
  - split; [reflexivity|]. split; [reflexivity|]. split; [discriminate|reflexivity].
Qed.

(** ** The fields of a response *)

Lemma dict_get_filter_keys {V} (keep : string -> bool) (d : pydict V) (k : string) :
  dict_get (filter (fun kv => keep (fst kv)) d) k
  = if keep k then dict_get d k else None.
Proof.
  induction d as [|[k0 v0] d IH]; simpl.
  - destruct (keep k); reflexivity.
  - destruct (keep k0) eqn:E0; simpl.
    + destruct (String.eqb_spec k0 k) as [->|_]; [rewrite E0; reflexivity|exact IH].
    + rewrite IH. destruct (String.eqb_spec k0 k) as [->|_]; [|reflexivity].
      rewrite E0. reflexivity.
Qed.

Lemma filter_idempotent {A} (f : A -> bool) (l : list A) :
  filter f (filter f l) = filter f l.
Proof.
  induction l as [|x l IH]; simpl; [reflexivity|].
  destruct (f x) eqn:E; simpl; [rewrite E, IH|]; auto.
Qed.

Lemma dict_mem_set_other {V} (d : pydict V) (k k' : string) (v : V) :
  k <> k' -> dict_mem k' (dict_set d k v) = dict_mem k' d.
Proof.
  intro H. unfold dict_mem. rewrite dict_get_set.
  destruct (String.eqb_spec k k'); [contradiction|reflexivity].
Qed.

Lemma dict_set_nonempty {V} (d : pydict V) (k : string) (v : V) : dict_set d k v <> [].
Proof. destruct d as [|[k0 v0] d]; simpl; [|destruct (k0 =? k)]; discriminate. Qed.

Section FieldFacts.

Variable env_fields : option string.

Let allowed_items := ConfigFields.allowed_items env_fields.
Let filter_offers := ConfigFields.filter_offers env_fields.
Let filter_item := ConfigFields.filter_item env_fields.
Let filter_provider_result := ConfigFields.filter_provider_result env_fields.
Let filter_response_data := ConfigFields.filter_response_data env_fields.

Lemma dict_get_allowed_items (d : pydict pyval) (k : string) :
  dict_get (allowed_items d) k
  = if ConfigFields.is_field_allowed env_fields k then dict_get d k else None.
Proof.
  exact (dict_get_filter_keys
           (fun k => str_in k (ConfigFields.get_allowed_fields env_fields)) d k).
Qed.

Lemma allowed_items_idempotent (d : pydict pyval) :
  allowed_items (allowed_items d) = allowed_items d.
Proof. apply filter_idempotent. Qed.

Lemma filter_offers_idempotent (l : list pyval) :
  filter_offers (filter_offers l) = filter_offers l.
Proof.
  induction l as [|x l IH]; [reflexivity|].
  destruct x; simpl; try exact IH.
  fold filter_offers. rewrite IH.
  change (ConfigFields.allowed_items env_fields (ConfigFields.allowed_items env_fields d))
    with (allowed_items (allowed_items d)).
  rewrite allowed_items_idempotent. reflexivity.
Qed.

Lemma filter_item_idempotent (item : pyval) :
  filter_item (filter_item item) = filter_item item.
Proof.
  destruct item; try reflexivity. simpl.
  change (ConfigFields.allowed_items env_fields (ConfigFields.allowed_items env_fields d))
    with (allowed_items (allowed_items d)).
  rewrite allowed_items_idempotent. reflexivity.
Qed.

Lemma filter_provider_result_idempotent (r : pyval) :
  filter_provider_result (filter_provider_result r) = filter_provider_result r.
Proof.
  destruct r as [ | | | | | |pr| ]; try reflexivity.
  unfold filter_provider_result, ConfigFields.filter_provider_result.
  destruct (dict_get pr "data") as [v|] eqn:E; [|rewrite E; reflexivity].
  destruct v; try (rewrite E; reflexivity).
  rewrite dict_get_set, String.eqb_refl, dict_set_twice.
  change (ConfigFields.filter_offers env_fields (ConfigFields.filter_offers env_fields l))
    with (filter_offers (filter_offers l)).
  rewrite filter_offers_idempotent. reflexivity.
Qed.

End FieldFacts.

(** X6.  Filtering a response twice is filtering it once: what
    [filter_response_data] returns is left as it is by a second pass, in
    each of its branches (a flat response with a [data] list, the legacy
    response with [results_by_provider], a single offer, a list of
    offers, anything else). *)
Theorem filter_response_data_idempotent (env_fields : option string) (data : pyval) :
  res_bind (ConfigFields.filter_response_data env_fields data)
           (ConfigFields.filter_response_data env_fields)
  = ConfigFields.filter_response_data env_fields data.
Proof.
  unfold ConfigFields.filter_response_data at 1 3.
  destruct (truthy data) eqn:Et; simpl.
  2: { unfold ConfigFields.filter_response_data. rewrite Et. reflexivity. }
  destruct data as [ | | | | |l|d| ];
    try (simpl; unfold ConfigFields.filter_response_data; rewrite Et; reflexivity).
  - (* a list of offers *)
    simpl. unfold ConfigFields.filter_response_data.
    destruct l as [|x l]; [discriminate|]. simpl.
    rewrite map_map. f_equal. f_equal. f_equal.
    + apply filter_item_idempotent.
    + apply map_ext. intro a. apply filter_item_idempotent.
  - destruct (dict_mem "data" d) eqn:Ed.
    + (* a flat response *)
      simpl. unfold ConfigFields.filter_response_data.
      unfold dict_mem in Ed.
      destruct (dict_get d "data") as [v|] eqn:Eg; [|discriminate].
      destruct v;
        try (rewrite Et; simpl; unfold dict_mem; rewrite Eg; reflexivity).
      assert (Hne : truthy (PyDict (dict_set d "data"
                                      (PyList (ConfigFields.filter_offers env_fields l))))
                    = true).
      { simpl. pose proof (dict_set_nonempty d "data"
                             (PyList (ConfigFields.filter_offers env_fields l))) as H.
        destruct (dict_set d "data" (PyList (ConfigFields.filter_offers env_fields l)));
          [contradiction|reflexivity]. }
      rewrite Hne. simpl. unfold dict_mem.
      rewrite dict_get_set, String.eqb_refl, dict_set_twice, filter_offers_idempotent.
      reflexivity.
    + destruct (dict_mem "results_by_provider" d) eqn:Er.
      * (* the legacy response *)
        destruct (py_items match dict_get d "results_by_provider" with
                           | Some v => v
                           | None => PyNone
                           end) as [items|e]; simpl; [|reflexivity].
        unfold ConfigFields.filter_response_data.
        set (items' := map (fun kv => (fst kv,
                                       ConfigFields.filter_provider_result env_fields
                                         (snd kv))) items).
        assert (Hne : truthy (PyDict (dict_set d "results_by_provider" (PyDict items')))
                      = true).
        { simpl. pose proof (dict_set_nonempty d "results_by_provider" (PyDict items')) as H.
          destruct (dict_set d "results_by_provider" (PyDict items'));
            [contradiction|reflexivity]. }
        rewrite Hne. simpl.
        rewrite dict_mem_set_other by discriminate. rewrite Ed.
        unfold dict_mem at 1. rewrite dict_get_set, String.eqb_refl. simpl.
        rewrite dict_set_twice. f_equal. f_equal. f_equal. f_equal.
        unfold items'. rewrite map_map. apply map_ext. intros [k v]. simpl.
        rewrite filter_provider_result_idempotent. reflexivity.
      * (* a single offer *)
        simpl. unfold ConfigFields.filter_response_data.
        destruct (truthy (PyDict (ConfigFields.allowed_items env_fields d))) eqn:Et';
          simpl; [|reflexivity].
        unfold dict_mem in *.
        rewrite !dict_get_allowed_items.
        destruct (dict_get d "data"); [discriminate|].
        destruct (dict_get d "results_by_provider"); [discriminate|].
        destruct (ConfigFields.is_field_allowed env_fields "data"),
                 (ConfigFields.is_field_allowed env_fields "results_by_provider");
          rewrite allowed_items_idempotent; reflexivity.
Qed.

(** X7.  The list of offers that [search_hotels] passes to
    [filter_response_data]: the list comes back with the same length, the
    offers in the same places; in each offer every allowed field keeps its
    value and no other field is left; an item that is not a dict is left
    as it is. *)
Theorem filter_response_data_offers (env_fields : option string) (l : list pyval) :
  exists out,
    ConfigFields.filter_response_data env_fields (PyList l) = Ok (PyList out)
    /\ length out = length l
    /\ forall i item,
         nth_error l i = Some item ->
         match item with
         | PyDict offer =>
             exists kept,
               nth_error out i = Some (PyDict kept)
               /\ (forall k, dict_get kept k
                             = if ConfigFields.is_field_allowed env_fields k
                               then dict_get offer k else None)
               /\ (forall k, In k (dict_keys kept) ->
                             ConfigFields.is_field_allowed env_fields k = true)
         | _ => nth_error out i = Some item
         end.
Proof.
  exists (map (ConfigFields.filter_item env_fields) l).
  split.
  { unfold ConfigFields.filter_response_data. destruct l; reflexivity. }
  split; [apply length_map|].
  intros i item Hi. rewrite nth_error_map, Hi. simpl.
  destruct item; try reflexivity.
  eexists. split; [reflexivity|]. split.
  - apply dict_get_allowed_items.
  - intros k Hk. unfold dict_keys, ConfigFields.allowed_items in Hk.
    apply in_map_iff in Hk. destruct Hk as ([k0 v0] & <- & Hin).
    apply filter_In in Hin. exact (proj2 Hin).
Qed.

(** *** The setting [ALLOWED_FIELDS] *)

Lemma split_on_nonempty (sep : ascii) (s : string) : split_on sep s <> [].
Proof.
  destruct s as [|c s]; simpl; [discriminate|].
  destruct (Ascii.eqb c sep); [discriminate|].
  destruct (split_on sep s); discriminate.
Qed.

Lemma split_on_comma_free (s : string) : comma_free s = true -> split_on "," s = [s].
Proof.
  induction s as [|c s IH]; simpl; [reflexivity|].
  destruct (Ascii.eqb c ","); simpl; [discriminate|].
  intro H. rewrite (IH H). reflexivity.
Qed.

Lemma split_on_app (x rest : string) :
  comma_free x = true ->
  split_on "," (x ++ String "," rest) = x :: split_on "," rest.
Proof.
  induction x as [|c x IH]; simpl.
  - reflexivity.
  - destruct (Ascii.eqb c ","); simpl; [discriminate|].
    intro H. rewrite (IH H). reflexivity.
Qed.

(** Splitting at the commas undoes joining with commas. *)
Lemma split_join (fields : list string) :
  fields <> [] -> forallb comma_free fields = true ->
  split_on "," (join_with "," fields) = fields.
Proof.
  induction fields as [|x fields IH]; [congruence|].
  intros _ H. simpl in H. apply andb_prop in H. destruct H as [Hx Hrest].
  destruct fields as [|y fields].
  - simpl. apply split_on_comma_free. exact Hx.
  - change (join_with "," (x :: y :: fields))
      with (x ++ String "," (join_with "," (y :: fields))).
    rewrite split_on_app by exact Hx.
    rewrite IH; [reflexivity|discriminate|exact Hrest].
Qed.

(** X8.  The allowed fields are the fields of the environment variable, a
    list separated by commas, each stripped of surrounding white space:
    reading back a list that was joined with commas gives the list,
    stripped; with the variable unset or empty they are the fourteen
    fields of [config.py]. *)
Theorem get_allowed_fields_reads_back (fields : list string) :
  fields <> [] -> fields <> [""] -> forallb comma_free fields = true ->
  ConfigFields.get_allowed_fields (Some (join_with "," fields)) = map strip fields
  /\ ConfigFields.get_allowed_fields None = ALLOWED_FIELDS
  /\ ConfigFields.get_allowed_fields (Some "") = ALLOWED_FIELDS.
Proof.
  intros Hne Hne' Hcf. split; [|split; reflexivity].
  unfold ConfigFields.get_allowed_fields.
  rewrite (split_join fields Hne Hcf).
  assert (Hs : join_with "," fields <> "").
  { destruct fields as [|x [|y fields]]; [congruence| |].
    - simpl. congruence.
    - change (join_with "," (x :: y :: fields))
        with (x ++ String "," (join_with "," (y :: fields))).
      destruct x; discriminate. }
  simpl. apply String.eqb_neq in Hs. rewrite Hs. reflexivity.
Qed.

(** An instance: three fields, written with spaces after the commas. *)
Lemma get_allowed_fields_reads_back_witness :
  let fields := ["provider"; " room_name"; " total_price "] in
  fields <> [] /\ fields <> [""] /\ forallb comma_free fields = true
  /\ ConfigFields.get_allowed_fields (Some "provider, room_name, total_price ")
     = ["provider"; "room_name"; "total_price"].
Proof.
  intro fields.
  assert (H1 : fields <> []) by discriminate.
  assert (H2 : fields <> [""]) by discriminate.
  assert (H3 : forallb comma_free fields = true) by reflexivity.
  repeat (split; [assumption|]).
  exact (proj1 (get_allowed_fields_reads_back fields H1 H2 H3)).
Defined.

(** ** The meal mapping service *)

Section MealFacts.

Variable PROVIDERS : pydict pyval.
Variable _ensure_data_directory : Res unit.
Variable _mappings : pydict (pydict string).
Variable provider_capabilities : pydict MealMapping.Capability.

Lemma first_code_found (mappings : pydict (pydict string)) (v : pyval) (p c : string) :
  MealMapping.first_code mappings v p = Some c ->
  exists mapping, In (c, mapping) mappings
                  /\ MealMapping.value_is (dict_get mapping p) v = true.
Proof.
  induction mappings as [|[code mapping] rest IH]; simpl; [discriminate|].
  destruct (MealMapping.value_is (dict_get mapping p) v) eqn:E.
  - intro H. injection H as <-. exists mapping. auto.
  - intro H. destruct (IH H) as (m & Hin & Hv). exists m. auto.
Qed.

Lemma first_code_exists (mappings : pydict (pydict string)) (v : pyval) (p c : string)
      (mapping : pydict string) :
  In (c, mapping) mappings ->
  MealMapping.value_is (dict_get mapping p) v = true ->
  exists c', MealMapping.first_code mappings v p = Some c'.
Proof.
  induction mappings as [|[code m] rest IH]; simpl; [tauto|].
  intros Hin Hv.
  destruct (MealMapping.value_is (dict_get m p) v) eqn:E; [eauto|].
  destruct Hin as [H|H]; [|exact (IH H Hv)].
  injection H as -> ->. congruence.
Qed.

Lemma dict_get_In {V} (d : pydict V) (k : string) (v : V) :
  NoDup (dict_keys d) -> In (k, v) d -> dict_get d k = Some v.
Proof.
  induction d as [|[k0 v0] d IH]; simpl; [tauto|].
  intros Hnd [H|H].
  - injection H as -> ->. rewrite String.eqb_refl. reflexivity.
  - inversion Hnd as [|? ? Hnotin Hnd']; subst.
    destruct (String.eqb_spec k0 k) as [->|_]; [|exact (IH Hnd' H)].
    exfalso. apply Hnotin. unfold dict_keys. apply in_map_iff.
    exists (k, v). auto.
Qed.

Lemma dict_get_Some_In {V} (d : pydict V) (k : string) (v : V) :
  dict_get d k = Some v -> In (k, v) d.
Proof.
  induction d as [|[k0 v0] d IH]; simpl; [discriminate|].
  destruct (String.eqb_spec k0 k) as [->|_]; [intro H; injection H as ->; auto|auto].
Qed.

(** X9.  The two directions of the mapping agree.  With each meal code
    listed once: the standard code found for a supplier's value maps back
    to that value; a value that some code maps to is found again, under a
    code that maps to it; and it is found under that very code when no
    other code of the supplier has the same value. *)
Theorem standard_code_round_trip (provider : string) :
  NoDup (dict_keys _mappings) ->
  (forall v c,
      MealMapping.get_standard_code _mappings (PyStr v) provider = Some c ->
      MealMapping.get_provider_value _mappings c provider = Some v)
  /\ (forall c v,
         MealMapping.get_provider_value _mappings c provider = Some v ->
         exists c',
           MealMapping.get_standard_code _mappings (PyStr v) provider = Some c'
           /\ MealMapping.get_provider_value _mappings c' provider = Some v)
  /\ (forall c v,
         MealMapping.get_provider_value _mappings c provider = Some v ->
         (forall c', MealMapping.get_provider_value _mappings c' provider = Some v ->
                     c' = c) ->
         MealMapping.get_standard_code _mappings (PyStr v) provider = Some c).
Proof.
  intro Hnd.
  assert (Hback : forall v c,
             MealMapping.get_standard_code _mappings (PyStr v) provider = Some c ->
             MealMapping.get_provider_value _mappings c provider = Some v).
  { intros v c H. unfold MealMapping.get_standard_code in H.
    destruct (first_code_found _ _ _ _ H) as (mapping & Hin & Hv).
    unfold MealMapping.get_provider_value. rewrite (dict_get_In _ _ _ Hnd Hin).
    unfold MealMapping.value_is in Hv.
    destruct (dict_get mapping provider) as [s|]; [|discriminate].
    apply String.eqb_eq in Hv. congruence. }
  assert (Hforth : forall c v,
             MealMapping.get_provider_value _mappings c provider = Some v ->
             exists c',
               MealMapping.get_standard_code _mappings (PyStr v) provider = Some c'
               /\ MealMapping.get_provider_value _mappings c' provider = Some v).
  { intros c v H. unfold MealMapping.get_provider_value in H.
    destruct (dict_get _mappings c) as [mapping|] eqn:E; [|discriminate].
    destruct (first_code_exists _mappings (PyStr v) provider c mapping) as [c' Hc'].
    - apply dict_get_Some_In. exact E.
    - unfold MealMapping.value_is. rewrite H. apply String.eqb_refl.
    - exists c'. split; [exact Hc'|]. apply Hback. exact Hc'. }
  split; [exact Hback|]. split; [exact Hforth|].
  intros c v H Huniq. destruct (Hforth c v H) as (c' & Hc' & Hv').
  rewrite Hc'. f_equal. apply Huniq. exact Hv'.
Qed.

(** X10.  A supplier that is not filtered at response level -- filtered at
    request level, without meal filtering, or unknown -- gets its offers
    back from [filter_offers_by_any_meal_type] as they are, whatever the
    meal types and whatever the offers are: nothing is dropped, nothing
    raises. *)
Theorem response_filter_leaves_other_suppliers (provider_name : string)
        (offers : list pyval) (meal_types : list string) :
  MealMapping.get_provider_strategy provider_capabilities provider_name
  <> MealMapping.RESPONSE_LEVEL ->
  MealMapping.filter_offers_by_any_meal_type PROVIDERS _ensure_data_directory
    provider_capabilities provider_name offers meal_types = Ok offers
  /\ forall meal_type,
       MealMapping.should_filter_at_response_level provider_capabilities
         provider_name meal_type = false.
Proof.
  intro Hs.
  assert (Hno : forall meal_type,
             MealMapping.should_filter_at_response_level provider_capabilities
               provider_name meal_type = false).
  { intro m. unfold MealMapping.should_filter_at_response_level.
    destruct (MealMapping.get_provider_strategy provider_capabilities provider_name);
      try reflexivity. congruence. }
  split; [|exact Hno].
  unfold MealMapping.filter_offers_by_any_meal_type.
  destruct meal_types as [|m ms]; [reflexivity|].
  destruct offers as [|o os]; [reflexivity|].
  cbv zeta. destruct (MealMapping.valid_meal_types (m :: ms)) as [|v vs] eqn:E;
    [reflexivity|].
  assert (Hex : existsb (MealMapping.should_filter_at_response_level
                           provider_capabilities provider_name) (v :: vs) = false).
  { generalize (v :: vs). intro l. induction l as [|x l IH]; simpl; [reflexivity|].
    rewrite Hno. exact IH. }
  rewrite Hex. reflexivity.
Qed.

End MealFacts.

Section MealFilterFacts.

Variable PROVIDERS : pydict pyval.
Variable _ensure_data_directory : Res unit.
Variable _mappings : pydict (pydict string).
Variable provider_capabilities : pydict MealMapping.Capability.

Lemma matching_is_filter (provider_name : string) (values : list string)
      (offers out : list pyval) :
  MealMapping.matching PROVIDERS _ensure_data_directory provider_name values offers
  = Ok out ->
  out = filter (offer_meal_in PROVIDERS _ensure_data_directory provider_name values)
               offers.
Proof.
  revert out. induction offers as [|o offers IH]; intros out H.
  - simpl in H. injection H as <-. reflexivity.
  - cbn [MealMapping.matching] in H. cbn [filter]. unfold offer_meal_in at 1.
    destruct (MealMapping._extract_meal_from_offer PROVIDERS _ensure_data_directory
                provider_name o) as [offer_meal|e]; cbn [res_bind] in H;
      [|discriminate].
    destruct (MealMapping.matching PROVIDERS _ensure_data_directory provider_name
                values offers) as [more|e] eqn:Em.
    2: { destruct (truthy offer_meal); [destruct offer_meal|]; discriminate. }
    specialize (IH more eq_refl). subst more.
    destruct (truthy offer_meal) eqn:Et.
    + destruct offer_meal; cbn [res_bind] in H; try discriminate.
      injection H as <-. rewrite Et. reflexivity.
    + cbn [res_bind] in H. injection H as <-.
      destruct offer_meal; try reflexivity. rewrite Et. reflexivity.
Qed.

(** The values collected for the meal types: the values that
    [reverse_mapping] lists for a meal type filtered at response level,
    each in lower case and stripped. *)
Lemma collect_filter_values_In (provider_name : string) (valid values : list string) :
  MealMapping.collect_filter_values provider_capabilities provider_name valid
  = Ok values ->
  forall x,
    In x values <->
    exists meal_type listed value,
      In meal_type valid
      /\ MealMapping.should_filter_at_response_level provider_capabilities
           provider_name meal_type = true
      /\ MealMapping.get_response_filter_values provider_capabilities
           provider_name meal_type = Ok listed
      /\ In value listed
      /\ x = MealMapping.lower_strip value.
Proof.
  revert values. induction valid as [|m valid IH]; intros values H x.
  - simpl in H. injection H as <-. split; [intros []|].
    intros (? & ? & ? & [] & _).
  - cbn [MealMapping.collect_filter_values] in H.
    destruct (MealMapping.should_filter_at_response_level provider_capabilities
                provider_name m) eqn:Es.
    + destruct (MealMapping.get_response_filter_values provider_capabilities
                  provider_name m) as [listed|e] eqn:Eg; cbn [res_bind] in H;
        [|discriminate].
      destruct (MealMapping.collect_filter_values provider_capabilities provider_name
                  valid) as [more|e]; cbn [res_bind] in H; [|discriminate].
      injection H as <-. specialize (IH more eq_refl x).
      rewrite in_app_iff, in_map_iff, IH. split.
      * intros [(value & Hx & Hin)|(mt & l & value & Hmt & Hrest)].
        -- exists m, listed, value. repeat split; auto. left. reflexivity.
        -- exists mt, l, value. split; [right; exact Hmt|exact Hrest].
      * intros (mt & l & value & [<-|Hmt] & Hs & Hl & Hin & Hx).
        -- left. exists value. split; [auto|]. congruence.
        -- right. exists mt, l, value. auto.
    + cbn [res_bind] in H.
      destruct (MealMapping.collect_filter_values provider_capabilities provider_name
                  valid) as [more|e]; cbn [res_bind] in H; [|discriminate].
      injection H as <-. specialize (IH more eq_refl x). simpl. rewrite IH. split.
      * intros (mt & l & value & Hmt & Hrest).
        exists mt, l, value. split; [right; exact Hmt|exact Hrest].
      * intros (mt & l & value & [<-|Hmt] & Hs & Hrest); [congruence|].
        exists mt, l, value. auto.
Qed.

(** X11.  What [filter_offers_by_any_meal_type] returns, when it returns.
    Without meal types, without offers, or when none of the valid meal
    types (those not blank, stripped) is filtered at response level for
    the supplier, it is the list of offers as it was.  Otherwise it is the
    sub-list of the offers whose meal (lower case, stripped) is one of the
    collected values, and the collected values are exactly the values that
    [reverse_mapping] lists for a valid meal type filtered at response
    level, in lower case and stripped.  In both cases the result has
    offers of the list only, in their order, none changed and none
    repeated. *)
Theorem filter_by_meal_selects (provider_name : string) (offers : list pyval)
        (meal_types : list string) (out : list pyval) :
  MealMapping.filter_offers_by_any_meal_type PROVIDERS _ensure_data_directory
    provider_capabilities provider_name offers meal_types = Ok out ->
  let valid := MealMapping.valid_meal_types meal_types in
  let filtered :=
    existsb (MealMapping.should_filter_at_response_level provider_capabilities
               provider_name) valid in
  (meal_types = [] \/ offers = [] \/ filtered = false -> out = offers)
  /\ (meal_types <> [] -> offers <> [] -> filtered = true ->
      exists values,
        MealMapping.collect_filter_values provider_capabilities provider_name valid
        = Ok values
        /\ out = filter (offer_meal_in PROVIDERS _ensure_data_directory provider_name
                           values) offers
        /\ forall x,
             In x values <->
             exists meal_type listed value,
               In meal_type valid
               /\ MealMapping.should_filter_at_response_level provider_capabilities
                    provider_name meal_type = true
               /\ MealMapping.get_response_filter_values provider_capabilities
                    provider_name meal_type = Ok listed
               /\ In value listed
               /\ x = MealMapping.lower_strip value)
  /\ (out = offers
      \/ exists values,
           out = filter (offer_meal_in PROVIDERS _ensure_data_directory provider_name
                           values) offers)
  /\ (length out <= length offers)%nat
  /\ (forall o, In o out -> In o offers)
  /\ MealMapping.filter_offers_by_any_meal_type PROVIDERS _ensure_data_directory
       provider_capabilities provider_name offers [] = Ok offers
  /\ MealMapping.filter_offers_by_any_meal_type PROVIDERS _ensure_data_directory
       provider_capabilities provider_name [] meal_types = Ok [].
Proof.
  intros H valid filtered.
  assert (Hnone : forall l,
             filter (offer_meal_in PROVIDERS _ensure_data_directory provider_name [])
                    l = []).
  { intro l. induction l as [|a l IHl]; simpl; [reflexivity|].
    unfold offer_meal_in at 1.
    destruct (MealMapping._extract_meal_from_offer _ _ _ a) as [[]|]; simpl;
      rewrite ?andb_false_r; exact IHl. }
  assert (Hsame : meal_types = [] \/ offers = [] \/ filtered = false -> out = offers).
  { unfold MealMapping.filter_offers_by_any_meal_type in H. fold valid in H.
    destruct meal_types as [|m ms]; [injection H as <-; auto|].
    destruct offers as [|o os]; [injection H as <-; auto|].
    intros [Hm|[Ho|Hf]]; try discriminate.
    cbv zeta in H. destruct valid as [|v vs]; [injection H as <-; auto|].
    unfold filtered in Hf. rewrite Hf in H. injection H as <-. reflexivity. }
  assert (Hsel : meal_types <> [] -> offers <> [] -> filtered = true ->
                 exists values,
                   MealMapping.collect_filter_values provider_capabilities
                     provider_name valid = Ok values
                   /\ out = filter (offer_meal_in PROVIDERS _ensure_data_directory
                                      provider_name values) offers).
  { unfold MealMapping.filter_offers_by_any_meal_type in H. fold valid in H.
    intros Hm Ho Hf.
    destruct meal_types as [|m ms]; [congruence|].
    destruct offers as [|o os]; [congruence|].
    cbv zeta in H. unfold filtered in Hf.
    destruct valid as [|v vs]; [discriminate|].
    rewrite Hf in H. cbn [negb] in H.
    destruct (MealMapping.collect_filter_values provider_capabilities provider_name
                (v :: vs)) as [values|e]; cbn [res_bind] in H; [|discriminate].
    exists values. split; [reflexivity|]. destruct values as [|x xs].
    - injection H as <-. symmetry. apply Hnone.
    - apply matching_is_filter. exact H. }
  assert (Hshape : out = offers
                   \/ exists values,
                       out = filter (offer_meal_in PROVIDERS _ensure_data_directory
                                       provider_name values) offers).
  { destruct meal_types as [|m ms]; [left; apply Hsame; auto|].
    destruct offers as [|o os]; [left; apply Hsame; auto|].
    destruct filtered eqn:Ef; [|left; apply Hsame; auto].
    destruct Hsel as (values & _ & Hout); try discriminate; [reflexivity|].
    right. exists values. exact Hout. }
  split; [exact Hsame|]. split.
  { intros Hm Ho Hf. destruct (Hsel Hm Ho Hf) as (values & Hc & Hout).
    exists values. split; [exact Hc|]. split; [exact Hout|].
    apply collect_filter_values_In. exact Hc. }
  split; [exact Hshape|]. split; [|split; [|split]].
  - destruct Hshape as [->|[values ->]]; [lia|apply filter_length_le].
  - destruct Hshape as [->|[values ->]]; [auto|].
    intros o Ho. apply filter_In in Ho. exact (proj1 Ho).
  - destruct offers; reflexivity.
  - destruct meal_types; reflexivity.
Qed.

End MealFilterFacts.

(** An instance: of three Rate Hawk offers, the one with breakfast is
    kept when [BB] is asked for; the values collected for [BB] are those
    of the table, in lower case. *)
Lemma filter_by_meal_selects_witness :
  let offer meal := PyDict [("room_name", PyStr "Double"); ("meal_plan", meal)] in
  let offers := [offer (PyStr "nomeal"); offer (PyStr " Breakfast"); offer PyNone] in
  MealMapping.filter_offers_by_any_meal_type config_PROVIDERS (Ok tt)
    sample_capabilities "rate_hawk" offers ["BB"] = Ok [offer (PyStr " Breakfast")]
  /\ exists values,
       MealMapping.collect_filter_values sample_capabilities "rate_hawk"
         (MealMapping.valid_meal_types ["BB"]) = Ok values
       /\ [offer (PyStr " Breakfast")]
          = filter (offer_meal_in config_PROVIDERS (Ok tt) "rate_hawk" values) offers.
Proof.
  intros offer offers.
  assert (H : MealMapping.filter_offers_by_any_meal_type config_PROVIDERS (Ok tt)
                sample_capabilities "rate_hawk" offers ["BB"]
              = Ok [offer (PyStr " Breakfast")]) by (vm_compute; reflexivity).
  split; [exact H|].
  destruct (proj1 (proj2 (filter_by_meal_selects config_PROVIDERS (Ok tt)
                            sample_capabilities "rate_hawk" offers ["BB"] _ H)))
    as (values & Hc & Hout & _);
    [discriminate|discriminate|vm_compute; reflexivity|].
  exists values. split; [exact Hc|exact Hout].
Defined.

Section MealPlanFacts.

Variable _mappings : pydict (pydict string).

Lemma normalize_offer_meal_plan_spec (d : pydict pyval) (provider : string) :
  exists d',
    MealMapping.normalize_offer_meal_plan _mappings (PyDict d) provider = Ok (PyDict d')
    /\ dict_keys d' = dict_keys d
    /\ (forall k, k <> "meal_plan" -> dict_get d' k = dict_get d k)
    /\ (dict_get d' "meal_plan" = dict_get d "meal_plan"
        \/ exists v code,
             dict_get d "meal_plan" = Some v
             /\ MealMapping.get_standard_code _mappings v provider = Some code
             /\ dict_get d' "meal_plan" = Some (PyStr code)).
Proof.
  unfold MealMapping.normalize_offer_meal_plan.
  destruct (dict_get d "meal_plan") as [v|] eqn:E.
  2: { exists d. simpl. rewrite E. auto. }
  destruct (truthy v) eqn:Et; [|exists d; rewrite E; auto].
  destruct (MealMapping.get_standard_code _mappings v provider) as [code|] eqn:Ec;
    [|exists d; rewrite E; auto].
  destruct (truthy (PyStr code)); [|exists d; rewrite E; auto].
  exists (dict_set d "meal_plan" (PyStr code)).
  split; [reflexivity|]. split; [|split].
  - rewrite dict_keys_set. unfold dict_mem. rewrite E. reflexivity.
  - intros k Hk. rewrite dict_get_set.
    destruct (String.eqb_spec "meal_plan" k); [congruence|reflexivity].
  - right. exists v, code. rewrite dict_get_set. auto.
Qed.

(** X12.  [normalize_offers_meal_plans] returns exactly when every offer is a
    dict, and then gives back as many offers, in the same places, each
    with the same keys in the same order and the same value under every
    key but [meal_plan]; the meal plan is what it was or the standard
    code found for it. *)
Theorem normalize_meal_plans_shape (offers : list pyval) (provider : string) :
  ((exists out, MealMapping.normalize_offers_meal_plans _mappings offers provider = Ok out)
   <-> forallb is_dict offers = true)
  /\ forall out,
       MealMapping.normalize_offers_meal_plans _mappings offers provider = Ok out ->
       length out = length offers
       /\ forall i d,
            nth_error offers i = Some (PyDict d) ->
            exists d',
              nth_error out i = Some (PyDict d')
              /\ dict_keys d' = dict_keys d
              /\ (forall k, k <> "meal_plan" -> dict_get d' k = dict_get d k)
              /\ (dict_get d' "meal_plan" = dict_get d "meal_plan"
                  \/ exists v code,
                       dict_get d "meal_plan" = Some v
                       /\ MealMapping.get_standard_code _mappings v provider = Some code
                       /\ dict_get d' "meal_plan" = Some (PyStr code)).
Proof.
  unfold MealMapping.normalize_offers_meal_plans.
  induction offers as [|o offers IH].
  - split.
    + split; [reflexivity|]. intros _. exists []. reflexivity.
    + intros out H. injection H as <-. split; [reflexivity|].
      intros [|i] d Hi; discriminate.
  - destruct IH as [IHiff IHshape]. cbn [MealMapping.normalize_each forallb].
    destruct o as [ | | | | | |d0| ];
      try (split; [split; [intros [out H]; discriminate | discriminate]
                  | intros out H; discriminate]).
    destruct (normalize_offer_meal_plan_spec d0 provider) as (d0' & E0 & Hk & Hother & Hmeal).
    rewrite E0. cbn [res_bind is_dict andb].
    destruct (MealMapping.normalize_each _mappings offers provider) as [more|e] eqn:Em.
    + cbn [res_bind]. split.
      * split; [intros _; apply IHiff; eauto | intros _; eauto].
      * intros out H. injection H as <-.
        destruct (IHshape more eq_refl) as [Hlen Hnth].
        split; [simpl; congruence|].
        intros [|i] d Hi.
        -- simpl in Hi. injection Hi as <-. exists d0'. simpl. auto.
        -- simpl in Hi. simpl. apply Hnth. exact Hi.
    + cbn [res_bind]. split.
      * split; [intros [out H]; discriminate|].
        intro Hall. apply IHiff in Hall. destruct Hall as [out H]. discriminate.
      * intros out H. discriminate.
Qed.

End MealPlanFacts.

(** ** What the initialization of the meal mapping service builds *)

Section CapabilityFacts.

Variable PROVIDERS : pydict pyval.
Variable _ensure_data_directory : Res unit.

(** The first loop gives each supplier it keeps an empty entry. *)
Lemma configured_capabilities_spec (names : list string) :
  forall caps caps0 : pydict MealMapping.Capability,
    MealMapping.configured_capabilities PROVIDERS _ensure_data_directory names caps0
    = Ok caps ->
    NoDup (dict_keys caps0) ->
    (forall p c, dict_get caps0 p = Some c ->
                 c = empty_capability (MealMapping.strategy c)) ->
    NoDup (dict_keys caps)
    /\ forall p c, dict_get caps p = Some c ->
                   c = empty_capability (MealMapping.strategy c).
Proof.
  induction names as [|n names IH]; intros caps caps0 H Hnd Hempty.
  - simpl in H. injection H as <-. auto.
  - cbn [MealMapping.configured_capabilities] in H.
    destruct (MealMapping.get_meal_filtering_config PROVIDERS _ensure_data_directory n)
      as [meal_config|e]; cbn [res_bind] in H; [|discriminate].
    destruct (negb (truthy meal_config)); [exact (IH _ _ H Hnd Hempty)|].
    destruct (py_get meal_config "strategy" (PyStr "not_supported")) as [strategy_str|e];
      cbn [res_bind] in H; [|discriminate].
    apply (IH _ _ H).
    + apply dict_keys_set_NoDup. exact Hnd.
    + intros p c. rewrite dict_get_set.
      destruct (n =? p); [|apply Hempty].
      intro Hc. injection Hc as <-. reflexivity.
Qed.

(** One row leaves the keys alone and touches, in the entry of each
    supplier, what [add_row] says. *)
Lemma add_for_providers_spec (meal_code : string) (mapping : pydict string)
      (names : list string) :
  forall caps caps' : pydict MealMapping.Capability,
    MealMapping.add_for_providers meal_code mapping names caps = Ok caps' ->
    NoDup names ->
    dict_keys caps' = dict_keys caps
    /\ forall p c, dict_get caps p = Some c ->
                   exists c', dict_get caps' p = Some c'
                              /\ (In p names -> add_row p meal_code mapping c = Ok c')
                              /\ (~ In p names -> c' = c).
Proof.
  induction names as [|n names IH]; intros caps caps' H Hnd.
  - simpl in H. injection H as <-. split; [reflexivity|].
    intros p c Hc. exists c. split; [exact Hc|]. split; [intros []|reflexivity].
  - inversion Hnd as [|? ? Hn Hnd']; subst.
    cbn [MealMapping.add_for_providers] in H.
    assert (Hskip : MealMapping.add_for_providers meal_code mapping names caps = Ok caps' ->
                    add_row n meal_code mapping = (fun c => Ok c) ->
                    dict_keys caps' = dict_keys caps
                    /\ forall p c, dict_get caps p = Some c ->
                         exists c', dict_get caps' p = Some c'
                                    /\ (In p (n :: names) ->
                                        add_row p meal_code mapping c = Ok c')
                                    /\ (~ In p (n :: names) -> c' = c)).
    { intros H' Hrow. destruct (IH _ _ H' Hnd') as [Hk Hv]. split; [exact Hk|].
      intros p c Hc. destruct (Hv p c Hc) as (c' & Hc' & Hin & Hout).
      exists c'. split; [exact Hc'|]. split.
      - intros [<-|Hp]; [|exact (Hin Hp)].
        rewrite Hrow. f_equal. symmetry. apply Hout. exact Hn.
      - intro Hp. apply Hout. intro. apply Hp. right. assumption. }
    destruct (dict_get mapping n) as [provider_value|] eqn:Ev.
    2: { apply Hskip; [exact H|]. unfold add_row. rewrite Ev. reflexivity. }
    destruct (truthy (PyStr provider_value)) eqn:Et.
    2: { apply Hskip; [exact H|]. unfold add_row. rewrite Ev, Et. reflexivity. }
    destruct (dict_get caps n) as [cn|] eqn:En; [|discriminate].
    destruct (MealMapping.add_mapping meal_code provider_value cn) as [cn'|e] eqn:Ea;
      cbn [res_bind] in H; [|discriminate].
    destruct (IH _ _ H Hnd') as [Hk Hv]. split.
    + rewrite Hk, dict_keys_set. unfold dict_mem. rewrite En. reflexivity.
    + intros p c Hc. destruct (String.eqb_spec n p) as [<-|Hne].
      * assert (Hc1 : dict_get (dict_set caps n cn') n = Some cn')
          by (rewrite dict_get_set, String.eqb_refl; reflexivity).
        destruct (Hv n cn' Hc1) as (c' & Hc' & _ & Hout).
        exists c'. split; [exact Hc'|]. split.
        -- intros _. rewrite (Hout Hn). unfold add_row. rewrite Ev, Et.
           assert (c = cn) by congruence. subst c. exact Ea.
        -- intro Hp. exfalso. apply Hp. left. reflexivity.
      * assert (Hc1 : dict_get (dict_set caps n cn') p = Some c).
        { rewrite dict_get_set. destruct (String.eqb_spec n p); [contradiction|exact Hc]. }
        destruct (Hv p c Hc1) as (c' & Hc' & Hin & Hout).
        exists c'. split; [exact Hc'|]. split.
        -- intros [->|Hp]; [contradiction|exact (Hin Hp)].
        -- intro Hp. apply Hout. intro. apply Hp. right. assumption.
Qed.

(** The second loop does to the entry of each supplier what the rows of
    the table, in order, do to it. *)
Lemma add_mappings_spec (rows : pydict (pydict string)) :
  forall caps caps' : pydict MealMapping.Capability,
    MealMapping.add_mappings rows caps = Ok caps' ->
    NoDup (dict_keys caps) ->
    dict_keys caps' = dict_keys caps
    /\ forall p c, dict_get caps p = Some c ->
                   exists c', dict_get caps' p = Some c' /\ add_rows p rows c = Ok c'.
Proof.
  induction rows as [|[meal_code mapping] rows IH]; intros caps caps' H Hnd.
  - simpl in H. injection H as <-. split; [reflexivity|]. intros p c Hc. eauto.
  - cbn [MealMapping.add_mappings] in H.
    destruct (MealMapping.add_for_providers meal_code mapping (dict_keys caps) caps)
      as [caps1|e] eqn:E1; cbn [res_bind] in H; [|discriminate].
    destruct (add_for_providers_spec _ _ _ _ _ E1 Hnd) as [Hk1 Hv1].
    destruct (IH _ _ H) as [Hk Hv]; [rewrite Hk1; exact Hnd|].
    split; [congruence|].
    intros p c Hc. destruct (Hv1 p c Hc) as (c1 & Hc1 & Hin & _).
    destruct (Hv p c1 Hc1) as (c' & Hc' & Hrows).
    exists c'. split; [exact Hc'|]. cbn [add_rows].
    rewrite Hin; [exact Hrows|].
    destruct (dict_get_None_keys caps p) as [_ Hnone].
    destruct (in_dec string_dec p (dict_keys caps)) as [Hp|Hp]; [exact Hp|].
    rewrite (Hnone Hp) in Hc. discriminate.
Qed.

End CapabilityFacts.

Lemma dict_get_app {V} (d1 d2 : pydict V) (k : string) :
  dict_get (d1 ++ d2)%list k
  = match dict_get d1 k with Some x => Some x | None => dict_get d2 k end.
Proof.
  induction d1 as [|[k0 v0] d1 IH]; simpl; [reflexivity|].
  destruct (k0 =? k); [reflexivity|exact IH].
Qed.

Lemma value_for_snoc (done : pydict (pydict string)) (p code k : string)
      (mapping : pydict string) :
  dict_get done code = None ->
  value_for (done ++ [(code, mapping)])%list p k
  = if code =? k
    then match dict_get mapping p with
         | Some v => if truthy (PyStr v) then Some v else None
         | None => None
         end
    else value_for done p k.
Proof.
  intro Hnew. unfold value_for, MealMapping.get_provider_value.
  rewrite dict_get_app. simpl.
  destruct (String.eqb_spec code k) as [->|Hne].
  - rewrite Hnew. reflexivity.
  - destruct (dict_get done k); reflexivity.
Qed.

Lemma value_for_absent (done : pydict (pydict string)) (p code : string) :
  dict_get done code = None -> value_for done p code = None.
Proof.
  intro H. unfold value_for, MealMapping.get_provider_value. rewrite H. reflexivity.
Qed.

(** One more row keeps the entry of a supplier in step with the rows. *)
Lemma add_row_built (p : string) (s : MealMapping.FilteringStrategy)
      (done : pydict (pydict string)) (code : string) (mapping : pydict string)
      (c c' : MealMapping.Capability) :
  dict_get done code = None ->
  built_from p s done c ->
  add_row p code mapping c = Ok c' ->
  built_from p s (done ++ [(code, mapping)])%list c'.
Proof.
  intros Hnew (Hs & Hsup & Hreq & Hresp & Hnot) Hrow.
  unfold add_row in Hrow.
  assert (Hskip : has_value p (code, mapping) = false -> c' = c ->
                  built_from p s (done ++ [(code, mapping)])%list c').
  { intros Hv ->. unfold built_from. rewrite filter_app. simpl. rewrite Hv, app_nil_r.
    assert (Hval : forall k, value_for (done ++ [(code, mapping)])%list p k
                             = value_for done p k).
    { intro k. rewrite value_for_snoc by exact Hnew.
      destruct (String.eqb_spec code k) as [<-|_]; [|reflexivity].
      rewrite (value_for_absent done p code Hnew).
      unfold has_value in Hv. cbn [snd] in Hv.
      destruct (dict_get mapping p); [rewrite Hv|]; reflexivity. }
    split; [exact Hs|]. split; [exact Hsup|]. split; [|split; [|exact Hnot]].
    - intro E. destruct (Hreq E) as (m & Hm & Hget). exists m. split; [exact Hm|].
      intro k. rewrite Hval. apply Hget.
    - intro E. destruct (Hresp E) as (rm & Hrm & Hrf & Hget). exists rm.
      split; [exact Hrm|]. split; [exact Hrf|]. intro k. rewrite Hval. apply Hget. }
  destruct (dict_get mapping p) as [v|] eqn:Ev.
  2: { apply Hskip; [unfold has_value; cbn [snd]; rewrite Ev; reflexivity|congruence]. }
  destruct (truthy (PyStr v)) eqn:Et.
  2: { apply Hskip; [unfold has_value; cbn [snd]; rewrite Ev; exact Et|congruence]. }
  assert (Hv : has_value p (code, mapping) = true)
    by (unfold has_value; cbn [snd]; rewrite Ev; exact Et).
  assert (Hval : forall k, value_for (done ++ [(code, mapping)])%list p k
                           = if code =? k then Some v else value_for done p k).
  { intro k. rewrite value_for_snoc by exact Hnew. rewrite Ev, Et. reflexivity. }
  unfold MealMapping.add_mapping in Hrow. rewrite Hs in Hrow.
  unfold built_from. rewrite filter_app. simpl filter. rewrite Hv.
  unfold dict_keys at 1. rewrite map_app. fold (dict_keys (filter (has_value p) done)).
  destruct s.
  - (* filtered at request level *)
    destruct (Hreq eq_refl) as (m & Hm & Hget). rewrite Hm in Hrow.
    injection Hrow as <-. simpl.
    split; [reflexivity|]. split; [rewrite Hsup; reflexivity|].
    split; [|split; discriminate].
    intros _. eexists. split; [reflexivity|].
    intro k. rewrite Hval, dict_get_set.
    destruct (code =? k); [reflexivity|apply Hget].
  - (* filtered at response level *)
    destruct (Hresp eq_refl) as (rm & Hrm & Hrf & Hget).
    destruct (MealMapping.response_field_mapping c) as [rfm|]; [|congruence].
    rewrite Hrm in Hrow.
    assert (Hfresh : dict_get rm code = None).
    { rewrite Hget, (value_for_absent done p code Hnew). reflexivity. }
    unfold dict_mem in Hrow. rewrite Hfresh in Hrow.
    rewrite dict_get_set, String.eqb_refl, dict_set_twice in Hrow.
    injection Hrow as <-. simpl.
    split; [reflexivity|]. split; [rewrite Hsup; reflexivity|].
    split; [discriminate|]. split; [|discriminate].
    intros _. eexists. split; [reflexivity|]. split; [discriminate|].
    intro k. rewrite Hval, dict_get_set.
    destruct (code =? k); [reflexivity|apply Hget].
  - (* no meal filtering: the row cannot be added *)
    destruct (Hnot eq_refl) as [Hrf _]. rewrite Hrf in Hrow. discriminate.
Qed.

Lemma add_rows_built (p : string) (s : MealMapping.FilteringStrategy)
      (rows : pydict (pydict string)) :
  forall (done : pydict (pydict string)) (c c' : MealMapping.Capability),
    NoDup (dict_keys (done ++ rows)%list) ->
    built_from p s done c ->
    add_rows p rows c = Ok c' ->
    built_from p s (done ++ rows)%list c'.
Proof.
  induction rows as [|[code mapping] rows IH]; intros done c c' Hnd Hb Hrows.
  - simpl in Hrows. injection Hrows as <-. rewrite app_nil_r. exact Hb.
  - cbn [add_rows] in Hrows.
    destruct (add_row p code mapping c) as [c1|e] eqn:E1; cbn [res_bind] in Hrows;
      [|discriminate].
    assert (Hnew : dict_get done code = None).
    { apply dict_get_None_keys. intro Hin. unfold dict_keys in Hnd.
      rewrite map_app in Hnd. simpl in Hnd. apply NoDup_remove_2 in Hnd.
      apply Hnd. apply in_or_app. left. exact Hin. }
    change ((code, mapping) :: rows) with ([(code, mapping)] ++ rows)%list in *.
    rewrite app_assoc in *.
    apply (IH _ c1 c' Hnd); [|exact Hrows].
    exact (add_row_built p s done code mapping c c1 Hnew Hb E1).
Qed.

Lemma empty_capability_built (p : string) (s : MealMapping.FilteringStrategy) :
  built_from p s [] (empty_capability s).
Proof.
  unfold built_from, empty_capability. simpl.
  split; [reflexivity|]. split; [reflexivity|]. split; [|split].
  - intros ->. exists []. auto.
  - intros ->. exists []. split; [reflexivity|]. split; [discriminate|]. auto.
  - intros ->. auto.
Qed.

Lemma str_in_In (x : string) (l : list string) : str_in x l = true <-> In x l.
Proof.
  unfold str_in. rewrite existsb_exists. split.
  - intros (y & Hy & E). apply String.eqb_eq in E. subst. exact Hy.
  - intro H. exists x. split; [exact H|apply String.eqb_refl].
Qed.

Lemma supported_iff_value (rows : pydict (pydict string)) (p m : string) :
  NoDup (dict_keys rows) ->
  str_in m (dict_keys (filter (has_value p) rows))
  = match value_for rows p m with Some _ => true | None => false end.
Proof.
  intro Hnd.
  destruct (value_for rows p m) as [v|] eqn:Ev.
  - apply str_in_In. unfold value_for, MealMapping.get_provider_value in Ev.
    destruct (dict_get rows m) as [mapping|] eqn:Em; [|discriminate].
    unfold dict_keys. apply in_map_iff. exists (m, mapping). split; [reflexivity|].
    apply filter_In. split; [apply dict_get_Some_In; exact Em|].
    unfold has_value. simpl snd.
    destruct (dict_get mapping p) as [v'|]; [|discriminate].
    destruct (truthy (PyStr v')); [reflexivity|discriminate].
  - destruct (str_in m (dict_keys (filter (has_value p) rows))) eqn:E; [|reflexivity].
    exfalso. apply str_in_In in E. unfold dict_keys in E. apply in_map_iff in E.
    destruct E as ([m' mapping] & Hm & Hin). simpl in Hm. subst m'.
    apply filter_In in Hin. destruct Hin as [Hin Hv].
    unfold value_for, MealMapping.get_provider_value in Ev.
    rewrite (dict_get_In rows m mapping Hnd Hin) in Ev.
    unfold has_value in Hv. simpl snd in Hv.
    destruct (dict_get mapping p) as [v'|]; [|discriminate].
    rewrite Hv in Ev. discriminate.
Qed.

(** X13.  When the initialization of the service succeeds, the capabilities it
    builds say what the table of mappings says (each meal code listed
    once): a supplier supports a meal type exactly when the table has a
    value for them that is not empty; its supported meal types are those
    [get_supported_meal_types] lists, in the order of the table; for a
    meal type filtered at request level the native code is the value of
    the table; for one filtered at response level the values to match are
    that single value. *)
Theorem capabilities_agree_with_table (PROVIDERS : pydict pyval)
        (_ensure_data_directory : Res unit) (_mappings : pydict (pydict string))
        (caps : pydict MealMapping.Capability) :
  MealMapping._initialize_provider_capabilities PROVIDERS _ensure_data_directory
    _mappings = Ok caps ->
  NoDup (dict_keys _mappings) ->
  forall p c,
    dict_get caps p = Some c ->
    (p <> "all" ->
     MealMapping.supported_meal_types c
     = MealMapping.get_supported_meal_types _mappings p)
    /\ forall m,
         MealMapping.is_meal_type_supported caps p m
         = match value_for _mappings p m with Some _ => true | None => false end
         /\ (MealMapping.should_filter_at_request_level caps p m = true ->
             MealMapping.get_native_meal_code caps p m = Ok (value_for _mappings p m))
         /\ (MealMapping.should_filter_at_response_level caps p m = true ->
             exists v, value_for _mappings p m = Some v
                       /\ MealMapping.get_response_filter_values caps p m = Ok [v]).
Proof.
  intros Hinit Hnd p c Hc.
  unfold MealMapping._initialize_provider_capabilities in Hinit.
  destruct (MealMapping.configured_capabilities PROVIDERS _ensure_data_directory
              (get_all_provider_names PROVIDERS) []) as [caps0|e] eqn:E0;
    cbn [res_bind] in Hinit; [|discriminate].
  destruct (configured_capabilities_spec PROVIDERS _ensure_data_directory _ _ _ E0)
    as [Hnd0 Hempty]; [constructor | intros ? ? H; discriminate |].
  destruct (add_mappings_spec _ _ _ Hinit Hnd0) as [Hk Hv].
  assert (Hin0 : exists c0, dict_get caps0 p = Some c0).
  { apply dict_get_In_keys. rewrite <- Hk.
    destruct (in_dec string_dec p (dict_keys caps)) as [H|H]; [exact H|].
    apply dict_get_None_keys in H. congruence. }
  destruct Hin0 as [c0 Hc0].
  destruct (Hv p c0 Hc0) as (c' & Hc' & Hrows).
  assert (c' = c) by congruence. subst c'.
  rewrite (Hempty p c0 Hc0) in Hrows.
  pose proof (add_rows_built p (MealMapping.strategy c0) _mappings [] _ c Hnd
                (empty_capability_built p _) Hrows) as Hb.
  simpl app in Hb. destruct Hb as (Hs & Hsup & Hreq & Hresp & _).
  split.
  { intro Hall. rewrite Hsup. unfold MealMapping.get_supported_meal_types.
    apply String.eqb_neq in Hall. rewrite Hall. reflexivity. }
  intro m.
  assert (Hsupp : MealMapping.is_meal_type_supported caps p m
                  = match value_for _mappings p m with Some _ => true | None => false end).
  { unfold MealMapping.is_meal_type_supported. rewrite Hc, Hsup.
    apply supported_iff_value. exact Hnd. }
  split; [exact Hsupp|]. split.
  - unfold MealMapping.should_filter_at_request_level, MealMapping.get_provider_strategy,
      MealMapping.get_native_meal_code.
    rewrite Hc. intro H. apply andb_prop in H. destruct H as [Hst _].
    rewrite Hs in Hst.
    destruct (MealMapping.strategy c0); try discriminate.
    destruct (Hreq eq_refl) as (mm & Hmm & Hget). rewrite Hmm, Hget. reflexivity.
  - unfold MealMapping.should_filter_at_response_level, MealMapping.get_provider_strategy,
      MealMapping.get_response_filter_values.
    rewrite Hc. intro H. apply andb_prop in H. destruct H as [Hst Hsu].
    rewrite Hs in Hst. rewrite Hsupp in Hsu.
    destruct (MealMapping.strategy c0); try discriminate.
    destruct (Hresp eq_refl) as (rm & Hrm & _ & Hget). rewrite Hrm, Hget.
    destruct (value_for _mappings p m) as [v|]; [|discriminate].
    exists v. split; reflexivity.
Qed.

(** An instance: the settings of [config.py] and two rows of the table;
    GoGlobal is filtered at request level, with the native code [BB]. *)
Lemma capabilities_agree_with_table_witness :
  MealMapping._initialize_provider_capabilities config_PROVIDERS (Ok tt) sample_mappings
  = Ok sample_capabilities
  /\ NoDup (dict_keys sample_mappings)
  /\ (exists c, dict_get sample_capabilities "goglobal" = Some c)
  /\ MealMapping.is_meal_type_supported sample_capabilities "goglobal" "BB" = true.
Proof.
  assert (H1 : MealMapping._initialize_provider_capabilities config_PROVIDERS (Ok tt)
                 sample_mappings = Ok sample_capabilities) by reflexivity.
  assert (H2 : NoDup (dict_keys sample_mappings)).
  { simpl. repeat constructor; simpl; intuition discriminate. }
  split; [exact H1|]. split; [exact H2|].
  destruct (dict_get sample_capabilities "goglobal") as [c|] eqn:E; [|discriminate].
  split; [exists c; reflexivity|].
  exact (proj1 (proj2 (capabilities_agree_with_table config_PROVIDERS (Ok tt)
                         sample_mappings sample_capabilities H1 H2 "goglobal" c E)
                 "BB")).
Defined.

(** An instance of the round trip on two rows of the table. *)
Lemma standard_code_round_trip_witness :
  NoDup (dict_keys sample_mappings)
  /\ MealMapping.get_provider_value sample_mappings "BB" "tbo" = Some "Bed_And_Breakfast".
Proof.
  assert (H : NoDup (dict_keys sample_mappings)).
  { simpl. repeat constructor; simpl; intuition discriminate. }
  split; [exact H|].
  exact (proj1 (standard_code_round_trip sample_mappings "tbo" H)
           "Bed_And_Breakfast" "BB" eq_refl).
Defined.

(** An instance: GoGlobal, filtered at request level, is left alone by
    the response filter. *)
Lemma response_filter_leaves_other_suppliers_witness :
  let offers := [PyDict [("meal_plan", PyStr "RO")]; PyNone] in
  MealMapping.get_provider_strategy sample_capabilities "goglobal"
  <> MealMapping.RESPONSE_LEVEL
  /\ MealMapping.filter_offers_by_any_meal_type config_PROVIDERS (Ok tt)
       sample_capabilities "goglobal" offers ["BB"] = Ok offers.
Proof.
  intro offers.
  assert (H : MealMapping.get_provider_strategy sample_capabilities "goglobal"
              <> MealMapping.RESPONSE_LEVEL) by (vm_compute; discriminate).
  split; [exact H|].
  exact (proj1 (response_filter_leaves_other_suppliers config_PROVIDERS (Ok tt)
                  sample_capabilities "goglobal" offers ["BB"] H)).
Defined.

(** ** A search with a room category *)

Lemma filter_room_category_raises (rc : string) (offers : list pyval) (d : pydict pyval) :
  In (PyDict d) offers -> dict_get d "room_category" = Some PyNone ->
  exists e, filter_room_category rc offers = Raise e /\ class_of e = AttributeError.
Proof.
  induction offers as [|o offers IH]; [intros []|].
  intros Hin Hd. cbn [filter_room_category].
  destruct (py_get o "room_category" (PyStr "")) as [v|e] eqn:Eg; cbn [res_bind].
  2: { exists e. split; [reflexivity|]. destruct o; simpl in Eg; try discriminate;
       injection Eg as <-; reflexivity. }
  destruct (py_strip v) as [s|e] eqn:Es; cbn [res_bind].
  2: { exists e. split; [reflexivity|]. destruct v; simpl in Es; try discriminate;
       injection Es as <-; reflexivity. }
  destruct Hin as [->|Hin].
  - simpl in Eg. rewrite Hd in Eg. injection Eg as <-. discriminate.
  - destruct (IH Hin Hd) as (e & -> & He). exists e. auto.
Qed.

Lemma update_state_closed (now : Q) (b : CircuitBreaker) :
  _state b = CLOSED -> CircuitBreaker._update_state now b = (Return tt, b).
Proof.
  intro Hst. unfold CircuitBreaker._update_state. rewrite Hst. reflexivity.
Qed.

Lemma call_succeeds (provider_name : string) (w : World) (b : CircuitBreaker) (raw : pyval) :
  w_deadline w = None -> w_cb w = Some b -> _state b = CLOSED ->
  (forall n b, st_others (w_script w n) b = b) ->
  st_result (w_script w (w_pos w)) = Ok raw ->
  CircuitBreaker.call (adapter_search provider_name) w
  = (Return raw,
     mkWorld (w_now w + 0 + st_elapsed (w_script w (w_pos w))) None (w_cancelled w)
       (Some (CircuitBreaker._on_success b)) (w_script w) (S (w_pos w))
       (w_log w ++ [NetCall provider_name])).
Proof.
  intros Hd Hcb Hst Hoth Hres.
  unfold CircuitBreaker.call, bind, on_breaker, the_breaker, try_except, adapter_search,
    bind, emit, suspend, lift. simpl.
  rewrite Hcb. simpl. unfold CircuitBreaker._update_state. rewrite Hst. simpl.
  rewrite Hst. simpl. rewrite Hd. rewrite Hres. simpl. rewrite Hoth. reflexivity.
Qed.

Section RoomCategory.

Variable cfg : Config.
Variable svc : MealMappingService.
Variable adapter : ProviderAdapter.
Variable provider_name : string.
Variable criteria : Criteria.
Variable rc : string.
Variable pc : Criteria.

Hypothesis Hrc : c_room_category criteria = Some rc.
Hypothesis Hne : rc <> "".
Hypothesis Hmeal : c_meal_types criteria = None.
Hypothesis Hprep : prepare_meal_type_criteria adapter criteria = Ok pc.

Lemma attempt_body_room_category (cbv : CircuitBreaker) (start_time : Q) (attempt : nat)
      (w : World) :
  calm adapter criteria w ->
  exists e w1,
    attempt_body svc adapter provider_name criteria (Some cbv) start_time attempt w
    = (Throw (Exception e), w1)
    /\ class_of e = AttributeError
    /\ calm adapter criteria w1
    /\ w_log w1 = (w_log w ++ [NetCall provider_name])%list
    /\ (exists b1, w_cb w1 = Some b1 /\ _failure_count b1 = 0%Z).
Proof.
  intros (Hd & (b & Hcb & Hst) & Hoth & Hbad).
  destruct (Hbad (w_pos w)) as (raw & offers & d & Hres & Hnorm & Hin & Hcat).
  destruct (filter_room_category_raises rc offers d Hin Hcat) as (e & Hf & He).
  exists e. eexists.
  unfold attempt_body, bind at 1, lift at 1. rewrite Hprep.
  unfold bind at 1. rewrite (call_succeeds provider_name w b raw Hd Hcb Hst Hoth Hres).
  unfold bind at 1, lift at 1. rewrite Hnorm.
  unfold bind at 1. rewrite Hmeal. unfold ret at 1.
  unfold bind at 1. rewrite Hrc.
  assert (Ht : truthy (PyStr rc) = true).
  { simpl. apply String.eqb_neq in Hne. rewrite Hne. reflexivity. }
  rewrite Ht. unfold lift at 1. rewrite Hf.
  split; [reflexivity|]. split; [exact He|]. split.
  - split; [reflexivity|]. split.
    + eexists. split; [reflexivity|]. rewrite on_success_state, Hst. reflexivity.
    + split; [exact Hoth|exact Hbad].
  - split; [reflexivity|]. eexists. split; [reflexivity|]. apply on_success_count.
Qed.

Lemma asyncio_sleep_calm (delay : Q) (w : World) :
  calm adapter criteria w ->
  exists w1, asyncio_sleep delay w = (Return tt, w1)
             /\ calm adapter criteria w1
             /\ w_log w1 = (w_log w ++ [Sleep delay])%list
             /\ w_cb w1 = w_cb w.
Proof.
  intros (Hd & (b & Hcb & Hst) & Hoth & Hbad).
  unfold asyncio_sleep, bind, emit, suspend, ret. simpl. rewrite Hd.
  eexists. split; [reflexivity|]. simpl. rewrite Hcb. simpl. rewrite Hoth.
  split; [|split; [reflexivity|]].
  - split; [reflexivity|]. split; [exists b; auto|]. split; [exact Hoth|exact Hbad].
  - reflexivity.
Qed.

Lemma error_result_calm (msg : string) (start_time : Q) (cbv : CircuitBreaker)
      (w : World) :
  calm adapter criteria w ->
  exists r,
    error_result provider_name msg start_time (Some cbv) w = (Return (Some r), w)
    /\ status r = "error" /\ error r = Some msg /\ offers r = []
    /\ circuit_breaker_state r = Some "closed".
Proof.
  intros (Hd & (b & Hcb & Hst) & Hoth & Hbad).
  unfold error_result, bind, time_time, breaker_state_value, CircuitBreaker.read_state,
    bind, on_breaker, the_breaker, ret. simpl. rewrite Hcb.
  rewrite (update_state_closed (w_now w) b Hst). cbn [w_cb].
  eexists. split.
  - f_equal. destruct w; simpl in *. subst. reflexivity.
  - simpl. rewrite Hst. auto.
Qed.

Lemma attempts_from_room_category (cbv : CircuitBreaker) (start_time : Q) :
  forall (remaining attempt : nat) (w : World),
    (remaining + attempt = MAX_RETRIES cfg)%nat ->
    (0 < remaining)%nat ->
    calm adapter criteria w ->
    exists r w' evs,
      attempts_from cfg svc remaining adapter provider_name criteria (Some cbv)
        start_time attempt w = (Return (Some r), w')
      /\ status r = "error"
      /\ error r = Some (msg_service_error provider_name (MAX_RETRIES cfg))
      /\ offers r = []
      /\ w_log w' = (w_log w ++ evs)%list
      /\ net_calls evs = remaining
      /\ length (sleeps evs) = (remaining - 1)%nat
      /\ (exists b', w_cb w' = Some b' /\ _state b' = CLOSED /\ _failure_count b' = 0%Z).
Proof.
  induction remaining as [|remaining IH]; intros attempt w Hsum Hpos Hcalm; [lia|].
  cbn [attempts_from]. unfold try_except, bind at 1.
  destruct (attempt_body_room_category cbv start_time attempt w Hcalm)
    as (e & w1 & -> & He & Hcalm1 & Hlog1 & (b1 & Hcb1 & Hcount1)).
  rewrite He.
  destruct (attempt <? MAX_RETRIES cfg - 1)%nat eqn:Elt.
  - apply Nat.ltb_lt in Elt.
    unfold bind at 1, emit at 1.
    set (w2 := mkWorld (w_now w1) (w_deadline w1) (w_cancelled w1) (w_cb w1)
                 (w_script w1) (w_pos w1)
                 (w_log w1 ++ [WarnErrorRetry provider_name e
                                 (retry_delay (RETRY_BASE_DELAY cfg) attempt)
                                 (attempt + 1) (MAX_RETRIES cfg)])).
    assert (Hcalm2 : calm adapter criteria w2) by exact Hcalm1.
    unfold bind at 1.
    destruct (asyncio_sleep_calm (retry_delay (RETRY_BASE_DELAY cfg) attempt) w2 Hcalm2)
      as (w3 & -> & Hcalm3 & Hlog3 & Hcb3).
    destruct (IH (S attempt) w3) as (r & w' & evs & -> & Hs & Herr & Hoff & Hlog & Hnet
                                     & Hsl & Hb); [lia|lia|exact Hcalm3|].
    exists r, w'. eexists. split; [reflexivity|].
    split; [exact Hs|]. split; [exact Herr|]. split; [exact Hoff|].
    split.
    { rewrite Hlog, Hlog3. unfold w2. simpl. rewrite Hlog1.
      rewrite <- !app_assoc. reflexivity. }
    simpl. rewrite Hnet. split; [reflexivity|]. split; [|exact Hb].
    rewrite Hsl. lia.
  - apply Nat.ltb_ge in Elt.
    destruct (error_result_calm (msg_service_error provider_name (MAX_RETRIES cfg))
                start_time cbv w1 Hcalm1) as (r & -> & Hs & Herr & Hoff & _).
    exists r, w1, [NetCall provider_name]. split; [reflexivity|].
    split; [exact Hs|]. split; [exact Herr|]. split; [exact Hoff|].
    split; [exact Hlog1|]. simpl.
    split; [lia|]. split; [lia|].
    destruct Hcalm1 as (_ & (b' & Hb' & Hst') & _).
    exists b'. split; [exact Hb'|]. split; [exact Hst'|]. congruence.
Qed.

End RoomCategory.

(** X14.  A search that asks for a room category fails for a supplier that
    answers with offers.  The adapters leave [None] under [room_category];
    the filter of [search_single] calls [strip] on it, and the
    [AttributeError] is taken for a failure of the supplier: the request
    is sent again, [MAX_RETRIES] times in all with the sleeps between,
    and the unit ends with the status [error] and the message of a
    service error, without offers.  The breaker has counted each answer
    as a success: it is closed, with a zero counter. *)
Theorem room_category_search_fails (cfg : Config) (svc : MealMappingService)
        (self : UniversalProvider) (provider_name : string) (criteria : Criteria)
        (adapter : ProviderAdapter) (rc : string) (pc : Criteria) (w : World) :
  dict_get (adapters self) provider_name = Some adapter ->
  c_room_category criteria = Some rc ->
  rc <> "" ->
  c_meal_types criteria = None ->
  prepare_meal_type_criteria adapter criteria = Ok pc ->
  (0 < MAX_RETRIES cfg)%nat ->
  calm adapter criteria w ->
  exists r w' evs,
    search_single cfg svc self provider_name criteria w = (Return (Some r), w')
    /\ status r = "error"
    /\ error r = Some (msg_service_error provider_name (MAX_RETRIES cfg))
    /\ offers r = []
    /\ w_log w' = (w_log w ++ evs)%list
    /\ net_calls evs = MAX_RETRIES cfg
    /\ length (sleeps evs) = (MAX_RETRIES cfg - 1)%nat
    /\ (exists b', w_cb w' = Some b' /\ _state b' = CLOSED /\ _failure_count b' = 0%Z).
Proof.
  intros Hadapter Hrc Hne Hmeal Hprep Hmax Hcalm.
  pose proof Hcalm as (Hd & (b & Hcb & Hst) & Hoth & Hbad).
  unfold search_single. rewrite Hadapter.
  unfold bind at 1. cbv beta iota. rewrite Hcb.
  unfold bind at 1, time_time at 1. cbv beta iota.
  unfold bind at 1, CircuitBreaker.read_state, bind at 1, on_breaker at 1.
  cbv beta iota. unfold bind at 1, the_breaker at 1. cbn [w_cb]. rewrite Hcb.
  cbn [option_map]. unfold ret at 1.
  rewrite (update_state_closed (w_now w) b Hst). unfold bind, ret. cbn [w_cb].
  rewrite Hst. cbn [CircuitState_eqb].
  match goal with
  | |- context [attempts_from _ _ _ _ _ _ _ _ _ ?w0] =>
      assert (Hcalm0 : calm adapter criteria w0)
        by (split; [exact Hd|]; split; [exists b; auto|]; split; assumption);
      destruct (attempts_from_room_category cfg svc adapter provider_name criteria rc pc
                  Hrc Hne Hmeal Hprep b (w_now w) (MAX_RETRIES cfg) 0%nat w0)
        as (r & w' & evs & Hrun & Hrest); [lia|exact Hmax|exact Hcalm0|]
  end.
  exists r, w', evs. split; [exact Hrun|exact Hrest].
Qed.

(** An instance: the values of [config.py], a supplier that answers each
    request after a second with an offer that has no category yet, and a
    search for the category [Standard]. *)
Lemma room_category_search_fails_witness :
  let self := mkUniversalProvider [("tbo", uncategorized_adapter)] in
  let criteria :=
    mkCriteria (Some ["Banyan Tree Krabi"]) None None None (Some "Standard") in
  dict_get (adapters self) "tbo" = Some uncategorized_adapter
  /\ c_room_category criteria = Some "Standard"
  /\ "Standard" <> ""
  /\ c_meal_types criteria = None
  /\ prepare_meal_type_criteria uncategorized_adapter criteria = Ok criteria
  /\ (0 < MAX_RETRIES config)%nat
  /\ calm uncategorized_adapter criteria world_prompt
  /\ exists r w' evs,
       search_single config sample_service self "tbo" criteria world_prompt
       = (Return (Some r), w')
       /\ status r = "error"
       /\ w_log w' = (w_log world_prompt ++ evs)%list
       /\ net_calls evs = 3%nat.
Proof.
  intros self criteria.
  assert (H1 : dict_get (adapters self) "tbo" = Some uncategorized_adapter) by reflexivity.
  assert (H2 : c_room_category criteria = Some "Standard") by reflexivity.
  assert (H3 : "Standard" <> "") by discriminate.
  assert (H4 : c_meal_types criteria = None) by reflexivity.
  assert (H5 : prepare_meal_type_criteria uncategorized_adapter criteria = Ok criteria)
    by reflexivity.
  assert (H6 : (0 < MAX_RETRIES config)%nat) by (simpl; lia).
  assert (H7 : calm uncategorized_adapter criteria world_prompt).
  { split; [reflexivity|]. split; [exists sample_breaker; split; reflexivity|].
    split; [reflexivity|]. intro n. do 3 eexists.
    split; [reflexivity|]. split; [reflexivity|]. split; [left; reflexivity|reflexivity]. }
  repeat (split; [assumption|]).
  destruct (room_category_search_fails config sample_service self "tbo" criteria
              uncategorized_adapter "Standard" criteria world_prompt
              H1 H2 H3 H4 H5 H6 H7)
    as (r & w' & evs & Hrun & Hs & _ & _ & Hlog & Hnet & _).
  exists r, w', evs. repeat split; assumption.
Defined.

(** ** The offers GoGlobal builds *)

Section GoGlobalFacts.

Variable py_repr : pyval -> string.

Lemma standardize_offer_fields (hotel_id : string) (hotel_name offer o : pyval) :
  GoGlobal.standardize_offer py_repr ALLOWED_FIELDS hotel_id hotel_name offer = Ok o ->
  exists d, o = PyDict d
            /\ dict_get d "provider" = Some (PyStr "goglobal")
            /\ dict_get d "room_category" = Some PyNone
            /\ dict_get d "room_mapping_id" = Some PyNone
            /\ dict_get d "supplier_hotel_id" = Some (PyStr hotel_id)
            /\ dict_get d "hotel_name" = Some hotel_name.
Proof.
  unfold GoGlobal.standardize_offer.
  change (str_in "room_name" ALLOWED_FIELDS) with true.
  change (str_in "room_features" ALLOWED_FIELDS) with true.
  change (str_in "supplier_room_code" ALLOWED_FIELDS) with true.
  change (str_in "meal_plan" ALLOWED_FIELDS) with true.
  change (str_in "total_price" ALLOWED_FIELDS) with true.
  change (str_in "currency" ALLOWED_FIELDS) with true.
  change (str_in "free_cancellation_until" ALLOWED_FIELDS) with true.
  cbv iota zeta.
  destruct (py_get offer "Rooms" (PyList [])) as [room_names|e]; cbn [res_bind];
    [|discriminate].
  destruct (if truthy room_names then py_index0 room_names
            else py_get offer "RoomName" (PyStr "Sztuczna nazwa pokoju")) as [room_name|e];
    cbn [res_bind]; [|discriminate].
  destruct (py_get offer "Special" (PyStr "")) as [special|e]; cbn [res_bind];
    [|discriminate].
  destruct (if truthy special then res_bind (py_strip special) (fun s => Ok [PyStr s])
            else Ok []) as [features|e]; cbn [res_bind]; [|discriminate].
  destruct (py_get offer "HotelSearchCode" PyNone) as [code|e]; cbn [res_bind];
    [|discriminate].
  destruct (py_get offer "RoomBasis" (PyStr "room_only")) as [basis|e]; cbn [res_bind];
    [|discriminate].
  destruct (py_get offer "TotalPrice" (PyStr "0")) as [price|e]; cbn [res_bind];
    [|discriminate].
  destruct (py_get offer "Currency" (PyStr "EUR")) as [currency|e]; cbn [res_bind];
    [|discriminate].
  destruct (py_get offer "CancellationDeadline" PyNone) as [deadline|e]; cbn [res_bind];
    [|discriminate].
  intro H. injection H as <-. eexists. split; [reflexivity|].
  repeat split; reflexivity.
Qed.

(** The loop over the offers of a hotel: an offer that cannot be
    standardized is dropped, the others are built. *)
Lemma standardize_offers_spec (hotel_id : string) (hotel_name : pyval)
      (hotel_offers : list pyval) :
  (length (GoGlobal.standardize_offers py_repr ALLOWED_FIELDS hotel_id hotel_name
             hotel_offers) <= length hotel_offers)%nat
  /\ forall o, In o (GoGlobal.standardize_offers py_repr ALLOWED_FIELDS hotel_id
                       hotel_name hotel_offers) ->
               built_offer "goglobal" o.
Proof.
  induction hotel_offers as [|offer rest [IHlen IHin]]; simpl.
  - split; [lia|]. intros o [].
  - destruct (GoGlobal.standardize_offer py_repr ALLOWED_FIELDS hotel_id hotel_name offer)
      as [so|e] eqn:E; simpl.
    + split; [lia|]. intros o [<-|Ho]; [|exact (IHin o Ho)].
      destruct (standardize_offer_fields _ _ _ _ E) as (d & -> & Hp & Hc & Hm & _).
      exists d. auto.
    + split; [lia|exact IHin].
Qed.

Lemma process_hotels_well_formed (hotels : list pyval) (criteria : pyval)
      (m : pydict pyval) :
  forallb offers_listed hotels = true ->
  (truthy criteria = false \/ exists c, criteria = PyDict c) ->
  exists offers,
    GoGlobal.process_hotels py_repr ALLOWED_FIELDS hotels criteria (PyDict m) = Ok offers
    /\ (length offers <= list_sum (map offer_entries hotels))%nat
    /\ forall o, In o offers -> built_offer "goglobal" o.
Proof.
  intros Hall Hcrit. induction hotels as [|hotel hotels IH].
  - exists []. simpl. split; [reflexivity|]. split; [lia|]. intros o [].
  - simpl in Hall. apply andb_prop in Hall. destruct Hall as [Hh Hrest].
    destruct (IH Hrest) as (more & Hmore & Hlen & Hin).
    cbn [GoGlobal.process_hotels].
    assert (Hcopy : exists c,
               (if truthy criteria
                then match criteria with
                     | PyDict d => Ok d
                     | _ => Raise (Exn AttributeError "object has no attribute 'copy'")
                     end
                else Ok []) = Ok c).
    { destruct Hcrit as [Hf|[c ->]].
      - rewrite Hf. exists []. reflexivity.
      - destruct c as [|kv c]; eexists; reflexivity. }
    destruct Hcopy as (c & ->). cbn [res_bind].
    destruct hotel as [ | | | | | |h| ]; try discriminate.
    unfold GoGlobal._process_hotel_offers.
    cbn [py_get res_bind].
    assert (Hmem : truthy (PyDict (dict_set c "hotel_name_to_id_map" (PyDict m)))
                   && dict_mem "hotel_name_to_id_map"
                        (dict_set c "hotel_name_to_id_map" (PyDict m)) = true).
    { unfold dict_mem. rewrite dict_get_set, String.eqb_refl.
      pose proof (dict_set_nonempty c "hotel_name_to_id_map" (PyDict m)) as Hn.
      simpl. destruct (dict_set c "hotel_name_to_id_map" (PyDict m));
        [contradiction|reflexivity]. }
    rewrite Hmem. rewrite dict_get_set, String.eqb_refl. cbn [py_items res_bind].
    match goal with
    | |- context [res_bind (if ?c then ?a else ?b) _] =>
        assert (Hname : exists v, (if c then a else b) = Ok v)
    end.
    { destruct (negb _); [|eauto].
      destruct (truthy (PyDict _)); eauto. }
    destruct Hname as (hotel_name & ->). cbn [res_bind].
    unfold offers_listed in Hh.
    change (list_sum (map offer_entries (PyDict h :: hotels)))
      with (offer_entries (PyDict h) + list_sum (map offer_entries hotels))%nat.
    unfold offer_entries at 1.
    destruct (dict_get h "Offers") as [v|] eqn:Ev.
    + destruct (py_iter v) as [entries|e] eqn:Ei; [|discriminate].
      cbn [res_bind]. rewrite Hmore. cbn [res_bind].
      match goal with
      | |- context [GoGlobal.standardize_offers ?r ?a ?i ?n entries] =>
          destruct (standardize_offers_spec i n entries) as [Hl1 Hin1]
      end.
      eexists. split; [reflexivity|]. split.
      * rewrite length_app. lia.
      * intros o Ho. apply in_app_or in Ho. destruct Ho as [Ho|Ho]; auto.
    + cbn [py_iter res_bind GoGlobal.standardize_offers]. rewrite Hmore. cbn [res_bind].
      exists more. split; [reflexivity|]. split; [simpl; lia|exact Hin].
Qed.

End GoGlobalFacts.

(** X15.  GoGlobal's [normalize] on a response whose hotels are well formed
    (each a dict whose [Offers], if any, can be iterated over; the map of
    hotel names a dict, or absent; the criteria a dict, or none): it
    returns; an offer that cannot be standardized is dropped by the
    [try] of the loop, so that there are at most as many offers as
    entries; and each offer names the supplier [goglobal] and has [None]
    for its room category and its room mapping. *)
Theorem goglobal_normalize_well_formed (py_repr : pyval -> string)
        (raw data : pydict pyval) (hotels : list pyval) (criteria : pyval) :
  dict_get raw "data" = Some (PyDict data) ->
  dict_get data "Hotels" = Some (PyList hotels) ->
  (dict_get data "hotel_name_to_id_map" = None
   \/ exists m, dict_get data "hotel_name_to_id_map" = Some (PyDict m)) ->
  forallb offers_listed hotels = true ->
  (truthy criteria = false \/ exists c, criteria = PyDict c) ->
  exists offers,
    GoGlobal.normalize py_repr ALLOWED_FIELDS (PyDict raw) criteria = Ok offers
    /\ (length offers <= list_sum (map offer_entries hotels))%nat
    /\ forall o, In o offers -> built_offer "goglobal" o.
Proof.
  intros Hdata Hhotels Hmap Hall Hcrit.
  unfold GoGlobal.normalize. rewrite Hdata.
  destruct (negb (py_eq_str _ "success")).
  { exists []. split; [reflexivity|]. split; [simpl; lia|intros o []]. }
  assert (Htd : truthy (PyDict data) = true).
  { destruct data; [discriminate|reflexivity]. }
  rewrite Htd. cbn [negb]. rewrite Hhotels.
  destruct hotels as [|hotel hotels].
  { exists []. split; [reflexivity|]. split; [simpl; lia|intros o []]. }
  cbn [truthy negb py_iter res_bind].
  destruct Hmap as [Hm|[m Hm]]; rewrite Hm;
    apply process_hotels_well_formed; assumption.
Qed.

(** An instance: one hotel with a valid offer and an entry that is not
    an offer. *)
Lemma goglobal_normalize_well_formed_witness :
  let offer := PyDict [("HotelSearchCode", PyStr "c1"); ("TotalPrice", PyStr "120.50")] in
  let hotels := [PyDict [("HotelCode", PyStr "226117");
                         ("Offers", PyList [offer; PyNone])]] in
  let data := [("Hotels", PyList hotels)] in
  let raw := [("status", PyStr "success"); ("data", PyDict data)] in
  dict_get raw "data" = Some (PyDict data)
  /\ dict_get data "Hotels" = Some (PyList hotels)
  /\ forallb offers_listed hotels = true
  /\ exists offers,
       GoGlobal.normalize (fun _ => "") ALLOWED_FIELDS (PyDict raw) PyNone = Ok offers
       /\ (length offers <= 2)%nat.
Proof.
  intros offer hotels data raw.
  assert (H1 : dict_get raw "data" = Some (PyDict data)) by reflexivity.
  assert (H2 : dict_get data "Hotels" = Some (PyList hotels)) by reflexivity.
  assert (H3 : forallb offers_listed hotels = true) by reflexivity.
  repeat (split; [assumption|]).
  destruct (goglobal_normalize_well_formed (fun _ => "") raw data hotels PyNone
              H1 H2 (or_introl eq_refl) H3 (or_introl eq_refl))
    as (offers & Hrun & Hlen & _).
  exists offers. split; [exact Hrun|exact Hlen].
Defined.

(** ** The offers Rate Hawk builds *)

Lemma keeps_ret {A} (P : pyval -> Prop) (a : A) : keeps_offers P (ret a).
Proof. intros s H. exact H. Qed.

Lemma keeps_bind {A B} (P : pyval -> Prop) (m : ST RateHawk.Locals A)
      (f : A -> ST RateHawk.Locals B) :
  keeps_offers P m -> (forall a, keeps_offers P (f a)) -> keeps_offers P (bind m f).
Proof.
  intros Hm Hf s Hs. unfold bind. specialize (Hm s Hs).
  destruct (m s) as [[a|b] s1]; simpl in *; [apply Hf; exact Hm|exact Hm].
Qed.

Lemma keeps_lift_bind {A B} (P : pyval -> Prop) (r : Res A)
      (f : A -> ST RateHawk.Locals B) :
  (forall a, r = Ok a -> keeps_offers P (f a)) -> keeps_offers P (bind (lift r) f).
Proof.
  intros Hf s Hs. unfold bind, lift. destruct r as [a|e]; simpl.
  - apply (Hf a eq_refl). exact Hs.
  - exact Hs.
Qed.

Section RateHawkOffers.

Variable py_repr : pyval -> string.
Variable parse_float : string -> option pyfloat.
Variable provider_name : string.

Lemma make_offer_fields (hotel_id hotel_hid hotel_name : pyval) (rate : pydict pyval)
      (payment_types o : pyval) :
  RateHawk.make_offer py_repr parse_float provider_name hotel_id hotel_hid hotel_name
    rate payment_types = Ok o ->
  exists d q,
    o = PyDict d
    /\ dict_get d "provider" = Some (PyStr provider_name)
    /\ dict_get d "room_category" = Some PyNone
    /\ dict_get d "room_mapping_id" = Some PyNone
    /\ dict_get d "supplier_room_code"
       = Some (RateHawk.get_or rate "match_hash" (PyStr ""))
    /\ dict_get d "room_name" = Some (RateHawk.get_or rate "room_name" (PyStr ""))
    /\ dict_get d "total_price" = Some (PyDecimal q).
Proof.
  unfold RateHawk.make_offer.
  repeat match goal with
         | |- res_bind ?r _ = Ok _ -> _ =>
             destruct r; cbn [res_bind]; [|discriminate]
         end.
  cbv zeta. unfold set_if_allowed.
  repeat match goal with
         | |- context [str_in ?k Offer_fields] =>
             change (str_in k Offer_fields) with true
         end.
  cbv iota.
  intro H. injection H as <-.
  do 2 eexists. split; [reflexivity|].
  match goal with
  | |- context [match ?l with [] => _ | _ :: _ => _ end] => destruct l
  end; repeat split; reflexivity.
Qed.

(** A rate passes the checks only with a code and a room name. *)
Lemma build_offer_priced (hotel_id hotel_hid hotel_name : pyval) (rate : pydict pyval)
      (o : pyval) :
  RateHawk.build_offer py_repr parse_float provider_name hotel_id hotel_hid hotel_name
    rate = Ok (Some o) ->
  priced_offer provider_name o.
Proof.
  unfold RateHawk.build_offer. cbv zeta.
  repeat match goal with
         | |- (if ?c then Ok None else _) = _ -> _ =>
             destruct c eqn:?; [discriminate|]
         end.
  destruct (py_get (RateHawk.get_or rate "payment_options" (PyDict [])) "payment_types"
              (PyList [])) as [payment_types|e]; cbn [res_bind]; [|discriminate].
  destruct (negb (truthy (RateHawk.get_or rate "payment_options" (PyDict []))));
    [discriminate|].
  destruct (RateHawk.missing_or_empty payment_types) as [[]|e]; cbn [res_bind];
    try discriminate.
  destruct (RateHawk.missing_or_empty (RateHawk.get_or rate "daily_prices" (PyList [])))
    as [[]|e]; cbn [res_bind]; try discriminate.
  destruct (RateHawk.make_offer py_repr parse_float provider_name hotel_id hotel_hid
              hotel_name rate payment_types) as [offer|e] eqn:Em; cbn [res_bind];
    [|discriminate].
  intro H. injection H as <-.
  destruct (make_offer_fields _ _ _ _ _ _ Em) as (d & q & -> & Hp & Hc & Hm & Hcode & Hname
                                                  & Hprice).
  assert (Hhash : truthy (RateHawk.get_or rate "match_hash" (PyStr "")) = true).
  { match goal with
    | H : negb (truthy (RateHawk.get_or rate "match_hash" PyNone)) = false |- _ =>
        apply negb_false_iff in H; revert H
    end.
    unfold RateHawk.get_or. destruct (dict_get rate "match_hash"); [auto|discriminate]. }
  assert (Hroom : truthy (RateHawk.get_or rate "room_name" (PyStr "")) = true).
  { match goal with
    | H : negb (truthy (RateHawk.get_or rate "room_name" PyNone)) = false |- _ =>
        apply negb_false_iff in H; revert H
    end.
    unfold RateHawk.get_or. destruct (dict_get rate "room_name"); [auto|discriminate]. }
  split; [exists d; auto|].
  exists d. do 3 eexists. repeat split; eassumption.
Qed.

Lemma process_rates_keeps (hotel_id hotel_hid hotel_name : pyval) (rates : list pyval) :
  keeps_offers (priced_offer provider_name)
    (RateHawk.process_rates py_repr parse_float provider_name
       hotel_id hotel_hid hotel_name rates).
Proof.
  induction rates as [|rate rates IH]; simpl; [apply keeps_ret|].
  apply keeps_lift_bind. intros d _.
  apply keeps_bind; [|intros _; exact IH].
  intros s Hs.
  destruct (RateHawk.build_offer py_repr parse_float provider_name
              hotel_id hotel_hid hotel_name d) as [[offer|]|e] eqn:E; simpl;
    try exact Hs.
  apply Forall_app. split; [exact Hs|].
  constructor; [|constructor]. exact (build_offer_priced _ _ _ _ _ E).
Qed.

Lemma process_hotels_keeps (raw : pyval) (hotels : list pyval) :
  keeps_offers (priced_offer provider_name)
    (RateHawk.process_hotels py_repr parse_float provider_name raw hotels).
Proof.
  induction hotels as [|hotel hotels IH]; simpl; [apply keeps_ret|].
  apply keeps_lift_bind. intros hotel_id _.
  apply keeps_lift_bind. intros hotel_hid _.
  apply keeps_lift_bind. intros m _.
  apply keeps_lift_bind. intros items _.
  apply keeps_bind; [|intros _; exact IH].
  destruct (truthy hotel_id); simpl; [|apply keeps_ret].
  apply keeps_lift_bind. intros rates _.
  apply keeps_lift_bind. intros n _.
  apply keeps_lift_bind. intros rate_list _.
  apply process_rates_keeps.
Qed.

End RateHawkOffers.

(** X16.  Every offer that Rate Hawk's [normalize] returns, for any response,
    is a dict that names the supplier of the adapter, has a rate code and
    a room name that are not empty, a price that is a [Decimal] (line 532
    stores [Decimal(str(total_amount))]), and [None] for its room category
    and its room mapping. *)
Theorem rate_hawk_offers_are_priced (py_repr : pyval -> string)
        (parse_float : string -> option pyfloat) (provider_name : string)
        (raw criteria o : pyval) :
  In o (RateHawk.normalize py_repr parse_float provider_name raw criteria) ->
  priced_offer provider_name o.
Proof.
  intro Hin.
  assert (H : Forall (priced_offer provider_name)
                (RateHawk.normalize py_repr parse_float provider_name raw criteria)).
  { unfold RateHawk.normalize, try_except.
    assert (Hbody : keeps_offers (priced_offer provider_name)
                      (RateHawk.normalize_body py_repr parse_float provider_name raw)).
    { unfold RateHawk.normalize_body.
      destruct (negb (truthy raw)); [apply keeps_ret|].
      apply keeps_lift_bind. intros data _.
      destruct (negb (truthy data)); [apply keeps_ret|].
      apply keeps_lift_bind. intros hotels _.
      destruct hotels; try apply keeps_ret. apply process_hotels_keeps. }
    specialize (Hbody (RateHawk.mkLocals [] 0) (Forall_nil _)).
    destruct (RateHawk.normalize_body py_repr parse_float provider_name raw
                (RateHawk.mkLocals [] 0)) as [[[]|b] s1]; exact Hbody. }
  rewrite Forall_forall in H. exact (H o Hin).
Qed.

(** An instance: the offer built from a response with a valid rate and
    a malformed one. *)
Lemma rate_hawk_offers_are_priced_witness :
  exists o,
    In o (RateHawk.normalize (fun _ => "") sample_parse_float "rate_hawk"
            sample_rate_hawk_response PyNone)
    /\ priced_offer "rate_hawk" o.
Proof.
  assert (H : exists o, RateHawk.normalize (fun _ => "") sample_parse_float "rate_hawk"
                          sample_rate_hawk_response PyNone = [o])
    by (eexists; vm_compute; reflexivity).
  destruct H as [o Ho]. exists o.
  assert (Hin : In o (RateHawk.normalize (fun _ => "") sample_parse_float "rate_hawk"
                        sample_rate_hawk_response PyNone))
    by (rewrite Ho; left; reflexivity).
  split; [exact Hin|].
  exact (rate_hawk_offers_are_priced (fun _ => "") sample_parse_float "rate_hawk"
           sample_rate_hawk_response PyNone o Hin).
Defined.

(** ** The offers TBO builds *)

Section TBOFacts.

Variable py_repr : pyval -> string.
Variable parse_float : string -> option pyfloat.
Variable get_ref_hotel_name_by_provider_id : string -> string -> Res pyval.
Variable isoformat : string -> option string.

Let room_offer :=
  TBO.room_offer parse_float ALLOWED_FIELDS isoformat.
Let room_offers :=
  TBO.room_offers parse_float ALLOWED_FIELDS isoformat.
Let hotel_offers :=
  TBO.hotel_offers py_repr parse_float ALLOWED_FIELDS get_ref_hotel_name_by_provider_id
    isoformat.

Lemma room_offer_booked (hotel_code : string) (hotel_name hotel_data room_data o : pyval) :
  room_offer hotel_code hotel_name hotel_data room_data = Ok o -> booked_offer o.
Proof.
  unfold room_offer, TBO.room_offer.
  repeat match goal with
         | |- res_bind ?r _ = Ok _ -> _ =>
             destruct r; cbn [res_bind]; [|discriminate]
         end.
  cbv zeta. unfold set_if_allowed.
  repeat match goal with
         | |- context [str_in ?k ALLOWED_FIELDS] =>
             change (str_in k ALLOWED_FIELDS) with true
         end.
  cbv iota.
  intro H. injection H as <-.
  split.
  - eexists. split; [reflexivity|]. repeat split; reflexivity.
  - do 3 eexists. split; [reflexivity|]. repeat split; reflexivity.
Qed.

Lemma room_offers_spec (hotel_code : string) (hotel_name hotel_data : pyval)
      (room_results : list pyval) :
  (length (room_offers hotel_code hotel_name hotel_data room_results)
   <= length room_results)%nat
  /\ Forall booked_offer (room_offers hotel_code hotel_name hotel_data room_results).
Proof.
  unfold room_offers.
  induction room_results as [|room_data rest [IHlen IHall]]; simpl.
  - split; [lia|constructor].
  - destruct (TBO.room_offer parse_float ALLOWED_FIELDS isoformat hotel_code hotel_name
                hotel_data room_data) as [offer|e] eqn:E; simpl.
    + split; [lia|]. constructor; [|exact IHall].
      exact (room_offer_booked _ _ _ _ _ E).
    + split; [lia|exact IHall].
Qed.

Lemma hotel_offers_spec (raw_response hotel_data : pyval) :
  (length (hotel_offers raw_response hotel_data) <= room_entries hotel_data)%nat
  /\ Forall booked_offer (hotel_offers raw_response hotel_data).
Proof.
  unfold hotel_offers, TBO.hotel_offers. cbv zeta.
  assert (Hnil : (length (@nil pyval) <= room_entries hotel_data)%nat
                 /\ Forall booked_offer []) by (split; [simpl; lia|constructor]).
  destruct (py_get hotel_data "HotelCode" (PyStr "")) as [code|e]; cbn [res_bind];
    [|exact Hnil].
  destruct (py_get hotel_data "HotelName" (PyStr "")) as [hotel_name|e]; cbn [res_bind];
    [|exact Hnil].
  destruct (negb (truthy (PyStr (py_str py_repr code)))); [exact Hnil|].
  destruct (py_get raw_response "hotel_id_to_name_map" (PyDict [])) as [m|e];
    cbn [res_bind]; [|exact Hnil].
  destruct (py_get m (py_str py_repr code) PyNone) as [original|e]; cbn [res_bind];
    [|exact Hnil].
  match goal with
  | |- context [res_bind ?r _] => destruct r as [[named|]|e]
  end; cbn [res_bind]; try exact Hnil.
  unfold room_entries.
  destruct (py_get hotel_data "Rooms" (PyList [])) as [rooms|e]; cbn [res_bind];
    [|split; [simpl; lia|constructor]].
  destruct (py_iter rooms) as [room_results|e]; cbn [res_bind];
    [|split; [simpl; lia|constructor]].
  apply room_offers_spec.
Qed.

End TBOFacts.

Lemma flat_map_bound {A B} (f : A -> list B) (size : A -> nat) (l : list A) :
  (forall a, length (f a) <= size a)%nat ->
  (length (flat_map f l) <= list_sum (map size l))%nat.
Proof.
  intro H. induction l as [|a l IH]; simpl; [lia|].
  rewrite length_app. specialize (H a). lia.
Qed.

(** X17.  TBO's [normalize], for any response: a list comes back (each of its
    three [try] blocks turns what it raises into nothing), with at most as
    many offers as the hotels list rooms; every offer names the supplier
    [tbo], has the booking code both as [offer_id] and as room code, a
    price that is a float, and [None] for its room category and its room
    mapping.  A response that does not say [success], or that is not a
    dict at all, gives no offer. *)
Theorem tbo_normalize_drops_and_builds (py_repr : pyval -> string)
        (parse_float : string -> option pyfloat)
        (get_ref_hotel_name_by_provider_id : string -> string -> Res pyval)
        (isoformat : string -> option string) (raw_response criteria : pyval) :
  let offers :=
    TBO.normalize py_repr parse_float ALLOWED_FIELDS get_ref_hotel_name_by_provider_id
      isoformat raw_response criteria in
  (length offers <= list_sum (map room_entries (tbo_hotels raw_response)))%nat
  /\ Forall booked_offer offers
  /\ match py_get raw_response "success" (PyBool false) with
     | Ok success => truthy success = true \/ offers = []
     | Raise _ => offers = []
     end.
Proof.
  cbv zeta. unfold TBO.normalize, tbo_hotels.
  destruct (py_get raw_response "success" (PyBool false)) as [success|e] eqn:Es;
    cbn [res_bind]; [|split; [simpl; lia|split; [constructor|reflexivity]]].
  assert (Hnil : forall n, (length (@nil pyval) <= n)%nat /\ Forall booked_offer []
                           /\ (truthy success = true \/ @nil pyval = []))
    by (intro n; split; [simpl; lia|split; [constructor|right; reflexivity]]).
  destruct (truthy success) eqn:Et; cbn [negb]; [|apply Hnil].
  destruct (py_get raw_response "data" (PyDict [])) as [tbo_data|e]; cbn [res_bind];
    [|apply Hnil].
  destruct (py_get tbo_data "HotelResult" (PyList [])) as [hotel_results|e];
    cbn [res_bind]; [|apply Hnil].
  destruct (negb (truthy hotel_results)); [apply Hnil|].
  destruct (py_iter hotel_results) as [hotels|e]; cbn [res_bind]; [|apply Hnil].
  split; [|split].
  - apply flat_map_bound. intro a. apply hotel_offers_spec.
  - apply Forall_flat_map. apply Forall_forall. intros a _. apply hotel_offers_spec.
  - left. reflexivity.
Qed.

Lemma free_cancellation_policy_first (policies : list pyval) (policy : pyval) :
  TBO.free_cancellation_policy policies = Ok policy ->
  truthy policy = true ->
  exists before after,
    policies = (before ++ policy :: after)%list
    /\ (forall p, In p before ->
                  exists c, py_get p "CancellationCharge" (PyFloat (Finite 100)) = Ok c
                            /\ py_eq_int c 0 = false)
    /\ (exists c, py_get policy "CancellationCharge" (PyFloat (Finite 100)) = Ok c
                  /\ py_eq_int c 0 = true).
Proof.
  induction policies as [|p policies IH]; simpl.
  - intro H. injection H as <-. discriminate.
  - destruct (py_get p "CancellationCharge" (PyFloat (Finite 100))) as [c|e] eqn:Ec;
      cbn [res_bind]; [|discriminate].
    destruct (py_eq_int c 0) eqn:E0.
    + intro H. injection H as <-. intros _.
      exists [], policies. split; [reflexivity|]. split; [intros ? []|]. eauto.
    + intros H Ht. destruct (IH H Ht) as (before & after & -> & Hb & Hp).
      exists (p :: before), after. split; [reflexivity|]. split; [|exact Hp].
      intros q [<-|Hq]; [eauto|exact (Hb q Hq)].
Qed.

Lemma free_cancellation_policy_found (before after : list pyval) (policy c : pyval) :
  (forall p, In p before ->
             exists c, py_get p "CancellationCharge" (PyFloat (Finite 100)) = Ok c
                       /\ py_eq_int c 0 = false) ->
  py_get policy "CancellationCharge" (PyFloat (Finite 100)) = Ok c ->
  py_eq_int c 0 = true ->
  TBO.free_cancellation_policy (before ++ policy :: after)%list = Ok policy.
Proof.
  intros Hb Hc H0. induction before as [|p before IH]; simpl.
  - rewrite Hc. cbn [res_bind]. rewrite H0. reflexivity.
  - destruct (Hb p (or_introl eq_refl)) as (c' & Hc' & H').
    rewrite Hc'. cbn [res_bind]. rewrite H'. apply IH.
    intros q Hq. apply Hb. right. exact Hq.
Qed.

Lemma py_iter_truthy (v x : pyval) (before after : list pyval) :
  py_iter v = Ok (before ++ x :: after)%list -> truthy v = true.
Proof.
  destruct v as [ | | | |s|l|d| ]; simpl; try discriminate; intro H; injection H as H.
  - destruct s; [destruct before; discriminate|reflexivity].
  - destruct l; [destruct before; discriminate|reflexivity].
  - destruct d; [destruct before; discriminate|reflexivity].
Qed.

Lemma free_policy_truthy (policy c : pyval) :
  py_get policy "CancellationCharge" (PyFloat (Finite 100)) = Ok c ->
  py_eq_int c 0 = true -> truthy policy = true.
Proof.
  destruct policy as [ | | | | | |d| ]; simpl; try discriminate.
  destruct d; [|reflexivity]. simpl. intro H. injection H as <-. discriminate.
Qed.

(** X18.  The free cancellation date of a TBO room is the [FromDate] of
    the first of its cancellation policies that charges nothing, put in
    ISO format with a [Z], when that date is a string of the format; in
    every other case -- no policies, none that is free, no date, a date in
    another format, data of a wrong shape -- it is [None], and nothing is
    raised. *)
Theorem free_cancellation_is_first_free_policy (isoformat : string -> option string)
        (room_data : pyval) :
  let v := TBO._extract_free_cancellation_date isoformat room_data in
  (forall policy s iso,
      first_free_policy room_data policy ->
      py_get policy "FromDate" PyNone = Ok (PyStr s) ->
      s <> "" ->
      isoformat s = Some iso ->
      v = PyStr (iso ++ "Z"))
  /\ (v = PyNone
      \/ exists policy s iso,
           first_free_policy room_data policy
           /\ py_get policy "FromDate" PyNone = Ok (PyStr s)
           /\ s <> ""
           /\ isoformat s = Some iso
           /\ v = PyStr (iso ++ "Z")).
Proof.
  cbv zeta. unfold TBO._extract_free_cancellation_date. split.
  - intros policy s iso (cp & before & after & Hcp & Hiter & Hb & c & Hc & H0)
           Hfrom Hs Hiso.
    rewrite Hcp. cbn [res_bind].
    rewrite (py_iter_truthy _ _ _ _ Hiter). cbn [negb].
    rewrite Hiter. cbn [res_bind].
    rewrite (free_cancellation_policy_found before after policy c Hb Hc H0).
    cbn [res_bind].
    rewrite (free_policy_truthy policy c Hc H0). cbn [negb].
    rewrite Hfrom. cbn [res_bind].
    replace (truthy (PyStr s)) with true.
    2: { simpl. symmetry. apply negb_true_iff, String.eqb_neq. exact Hs. }
    cbn [negb]. rewrite Hiso. reflexivity.
  - destruct (py_get room_data "CancelPolicies" (PyList [])) as [cp|e] eqn:Ecp;
      cbn [res_bind]; [|left; reflexivity].
    destruct (negb (truthy cp)); [left; reflexivity|].
    destruct (py_iter cp) as [policies|e] eqn:Eiter; cbn [res_bind]; [|left; reflexivity].
    destruct (TBO.free_cancellation_policy policies) as [policy|e] eqn:Ep; cbn [res_bind];
      [|left; reflexivity].
    destruct (truthy policy) eqn:Et; cbn [negb]; [|left; reflexivity].
    destruct (py_get policy "FromDate" PyNone) as [from_date_str|e] eqn:Ef; cbn [res_bind];
      [|left; reflexivity].
    destruct (truthy from_date_str) eqn:Ets; cbn [negb]; [|left; reflexivity].
    destruct from_date_str; try (left; reflexivity).
    destruct (isoformat s) as [iso|] eqn:Ei; [|left; reflexivity].
    right.
    destruct (free_cancellation_policy_first policies policy Ep Et)
      as (before & after & Hsplit & Hb & Hp).
    rewrite Hsplit in Eiter.
    exists policy, s, iso. split; [exists cp, before, after; auto|].
    split; [exact Ef|]. split; [|split; [exact Ei|reflexivity]].
    simpl in Ets. apply negb_true_iff, String.eqb_neq in Ets. exact Ets.
Qed.

(** ** The criteria the adapters prepare *)

(** X19.  The criteria Rate Hawk's adapter prepares are the criteria given
    with at most one more key, [rate_hawk_meal_types]: every other key
    keeps its value and its place; the key is there exactly when meal
    types are asked for, and holds them; and preparing again changes
    nothing more. *)
Theorem rate_hawk_criteria_gain_one_key (criteria : pydict pyval) :
  let prepared := RateHawkRequest.prepare_meal_type_criteria criteria in
  (forall k, k <> "rate_hawk_meal_types" -> dict_get prepared k = dict_get criteria k)
  /\ (truthy (requested_meal_types criteria) = true ->
      dict_get prepared "rate_hawk_meal_types" = Some (requested_meal_types criteria))
  /\ (truthy (requested_meal_types criteria) = false -> prepared = criteria)
  /\ RateHawkRequest.prepare_meal_type_criteria prepared = prepared.
Proof.
  cbv zeta. unfold RateHawkRequest.prepare_meal_type_criteria.
  assert (Hsame : forall v,
             requested_meal_types (dict_set criteria "rate_hawk_meal_types" v)
             = requested_meal_types criteria).
  { intro v. unfold requested_meal_types. rewrite !dict_get_set. reflexivity. }
  destruct (truthy (requested_meal_types criteria)) eqn:Et.
  - split; [|split; [|split]].
    + intros k Hk. rewrite dict_get_set.
      destruct (String.eqb_spec "rate_hawk_meal_types" k); [congruence|reflexivity].
    + intros _. rewrite dict_get_set. reflexivity.
    + discriminate.
    + rewrite Hsame, Et, dict_set_twice. reflexivity.
  - split; [reflexivity|]. split; [discriminate|]. split; [reflexivity|].
    rewrite Et. reflexivity.
Qed.

(** What GoGlobal's adapter does with the first meal type asked for. *)
Lemma goglobal_prepare_first (provider_capabilities : pydict MealMapping.Capability)
      (criteria : pydict pyval) (m : string) (others : list pyval) :
  dict_get criteria "meal_types" = Some (PyList (PyStr m :: others)) ->
  GoGlobalRequest.prepare_meal_type_criteria provider_capabilities criteria
  = if MealMapping.should_filter_at_request_level provider_capabilities "goglobal" m
    then res_bind (MealMapping.get_native_meal_code provider_capabilities "goglobal" m)
           (fun native_code =>
              match native_code with
              | Some code =>
                  if truthy (PyStr code)
                  then Ok (dict_set criteria "meal_type" (PyStr code))
                  else Ok criteria
              | None => Ok criteria
              end)
    else Ok criteria.
Proof.
  intro Hmt. unfold GoGlobalRequest.prepare_meal_type_criteria, requested_meal_types.
  rewrite Hmt. reflexivity.
Qed.

(** X20.  The criteria GoGlobal's adapter prepares differ from the criteria
    given in the key [meal_type] at most.  When meal types are asked for
    and the first is a string, only the first counts: if it is not
    filtered at request level the criteria come back as they are; if it
    is and has a native code that is not empty, [meal_type] is that code;
    the adapter raises only when the lookup of the native code does; and
    the other meal types asked for change nothing of this. *)
Theorem goglobal_criteria_use_first_meal_type
        (provider_capabilities : pydict MealMapping.Capability)
        (criteria : pydict pyval) (m : string) (others : list pyval) :
  dict_get criteria "meal_types" = Some (PyList (PyStr m :: others)) ->
  let prepare := GoGlobalRequest.prepare_meal_type_criteria provider_capabilities in
  let at_request :=
    MealMapping.should_filter_at_request_level provider_capabilities "goglobal" m in
  let native_code :=
    MealMapping.get_native_meal_code provider_capabilities "goglobal" m in
  (forall e, prepare criteria = Raise e <-> at_request = true /\ native_code = Raise e)
  /\ (forall prepared,
         prepare criteria = Ok prepared ->
         (forall k, k <> "meal_type" -> dict_get prepared k = dict_get criteria k)
         /\ (at_request = false -> prepared = criteria)
         /\ (forall code,
                at_request = true -> native_code = Ok (Some code) -> code <> "" ->
                dict_get prepared "meal_type" = Some (PyStr code)))
  /\ (forall others',
         match prepare criteria,
               prepare (dict_set criteria "meal_types" (PyList (PyStr m :: others'))) with
         | Ok a, Ok b => dict_get a "meal_type" = dict_get b "meal_type"
         | Raise e, Raise e' => e = e'
         | _, _ => False
         end).
Proof.
  intros Hmt prepare at_request native_code. subst prepare.
  assert (Hother : forall (d : pydict pyval) v k,
             k <> "meal_type" -> dict_get (dict_set d "meal_type" v) k = dict_get d k).
  { intros d v k Hk. rewrite dict_get_set.
    destruct (String.eqb_spec "meal_type" k); [congruence|reflexivity]. }
  split; [|split].
  - intro e. rewrite (goglobal_prepare_first _ _ _ _ Hmt).
    fold at_request native_code.
    destruct at_request; [|split; [discriminate|intros [H _]; discriminate]].
    destruct native_code as [[code|]|e0]; cbn [res_bind].
    + destruct (truthy (PyStr code));
        (split; [discriminate|intros [_ H]; discriminate]).
    + split; [discriminate|intros [_ H]; discriminate].
    + split; [intro H; split; [reflexivity|congruence]|intros [_ H]; congruence].
  - intros prepared. rewrite (goglobal_prepare_first _ _ _ _ Hmt).
    fold at_request native_code.
    destruct at_request.
    + destruct native_code as [[code|]|e0]; cbn [res_bind].
      * destruct (truthy (PyStr code)) eqn:Et; intro H; injection H as <-.
        -- split; [intros k Hk; apply Hother; exact Hk|].
           split; [discriminate|].
           intros code' _ H _. injection H as <-. rewrite dict_get_set. reflexivity.
        -- split; [reflexivity|]. split; [discriminate|].
           intros code' _ H Hne. injection H as <-. simpl in Et.
           apply negb_false_iff, String.eqb_eq in Et. contradiction.
      * intro H; injection H as <-. split; [reflexivity|]. split; [discriminate|].
        intros code _ H; discriminate.
      * discriminate.
    + intro H; injection H as <-. split; [reflexivity|].
      split; [reflexivity|discriminate].
  - intro others'.
    assert (Hmt' : dict_get (dict_set criteria "meal_types" (PyList (PyStr m :: others')))
                     "meal_types" = Some (PyList (PyStr m :: others'))).
    { rewrite dict_get_set. reflexivity. }
    rewrite (goglobal_prepare_first _ _ _ _ Hmt), (goglobal_prepare_first _ _ _ _ Hmt').
    fold at_request native_code.
    destruct at_request.
    + destruct native_code as [[code|]|e0]; cbn [res_bind].
      * destruct (truthy (PyStr code)).
        -- rewrite !dict_get_set. reflexivity.
        -- rewrite dict_get_set. reflexivity.
      * rewrite dict_get_set. reflexivity.
      * reflexivity.
    + rewrite dict_get_set. reflexivity.
Qed.

(** An instance: breakfast and room only asked of GoGlobal, whose native
    code for breakfast is [BB]. *)
Lemma goglobal_criteria_use_first_meal_type_witness :
  let criteria := [("hotel_names", PyList [PyStr "Banyan Tree Krabi"]);
                   ("meal_types", PyList [PyStr "BB"; PyStr "RO"])] in
  dict_get criteria "meal_types" = Some (PyList [PyStr "BB"; PyStr "RO"])
  /\ forall prepared,
       GoGlobalRequest.prepare_meal_type_criteria sample_capabilities criteria
       = Ok prepared ->
       dict_get prepared "meal_type" = Some (PyStr "BB").
Proof.
  intro criteria. split; [reflexivity|].
  intros prepared H.
  destruct (goglobal_criteria_use_first_meal_type sample_capabilities criteria
              "BB" [PyStr "RO"] eq_refl) as (_ & Hok & _).
  destruct (Hok prepared H) as (_ & _ & Hcode).
  apply Hcode; [reflexivity|reflexivity|discriminate].
Defined.

(** ** The deadline of the fan-out, an instance *)

(** Three suppliers at the deadline: the first has returned, the second
    has raised, the third is in flight and is recorded as [timeout]. *)
Lemma deadline_keeps_and_cancels_tracked_witness :
  let criteria := mkCriteria (Some ["Banyan Tree Krabi"]) None None None None in
  let done := mkProviderResult "success" (Some "rate_hawk") None [] (Some 0%nat)
                (Some 12%Z) (Some 1%nat) (Some "closed") in
  let env :=
    mkFanEnv 0 10
      (fun i => match i with
                | 0%nat => Finished (Some done)
                | 1%nat => Failed (Exn OtherException "unexpected")
                | _ => InFlight
                end)
      (fun _ => true) in
  c_hotel_names criteria = Some ["Banyan Tree Krabi"]
  /\ (exists task, In task (tracked_tasks sample_provider criteria) /\ in_flight env task)
  /\ exists agg r0 r2,
       returned (search_all sample_repr_float sample_provider criteria env) = Return agg
       /\ dict_get (providers agg) "rate_hawk" = Some (Some r0) /\ r0 = done
       /\ dict_get (providers agg) "tbo" = Some (Some r2) /\ status r2 = "timeout".
Proof.
  intros criteria done env.
  assert (H1 : c_hotel_names criteria = Some ["Banyan Tree Krabi"]) by reflexivity.
  assert (H2 : exists task, In task (tracked_tasks sample_provider criteria)
                            /\ in_flight env task).
  { exists 2%nat. split; [vm_compute; auto|reflexivity]. }
  split; [exact H1|]. split; [exact H2|].
  destruct (deadline_keeps_and_cancels_tracked sample_repr_float sample_provider criteria
              env "Banyan Tree Krabi" [] H1 H2) as (agg & Hret & Hall).
  destruct (Hall "rate_hawk" 0%nat eq_refl) as (r0 & Hr0 & Hfin & _).
  destruct (Hall "tbo" 2%nat eq_refl) as (r2 & Hr2 & _ & _ & Hfl).
  exists agg, r0, r2. split; [exact Hret|]. split; [exact Hr0|].
  split; [exact (Hfin done eq_refl)|]. split; [exact Hr2|].
  exact (proj1 (Hfl eq_refl)).
Defined.
